(** * The CORE-V debug transport stack: SimDevice, Tap, Dtm, Dmi, adapter

    A shallow embedding of the embdebug CORE-V target library
    (VSim.cpp, Tap.cpp, DtmJtag.cpp, Dmi.h/Dmi.cpp, Cv32e40.cpp) and the
    properties of it that the specification states.

    Conventions.
    - Every C++ unsigned integer is a [Z] kept in range by an explicit
      wrap ([u8], [u16], [u32], [u64]) wherever the source can overflow
      or narrows a value.
    - A member function [T C::f (args)] becomes [f args : C -> outcome (T * C)]
      when it can fail to return, and a plain function otherwise.
    - A [while] loop becomes a [Fixpoint] on a bound [fuel]; running out of
      the bound is the outcome [Spin], kept apart from a normal return.
    - [std::cout] logging is not modelled; [std::cerr] diagnostics are kept
      as a list of lines in the object that emits them. *)

From Stdlib Require Import ZArith List Bool Lia String.
From stdpp Require Import base option gmap strings pretty.
Import ListNotations.

Local Open Scope string_scope.
Local Open Scope Z_scope.

(** ** Machine integers *)

Definition u8 (z : Z) : Z := z mod 2 ^ 8.
Definition u16 (z : Z) : Z := z mod 2 ^ 16.
Definition u32 (z : Z) : Z := z mod 2 ^ 32.
Definition u64 (z : Z) : Z := z mod 2 ^ 64.

(** C++ bitwise complement of a 32-bit unsigned value. *)
Definition not32 (z : Z) : Z := u32 (Z.lnot z).

(** ** Outcomes of a call

    [Ret a]: the call returned [a].  [Exited]: the process called
    [exit (EXIT_FAILURE)].  [Undef]: the C++ has undefined behaviour on
    this path (division by zero, shift by 64 or more).  [Spin]: a loop
    was still running when the bound of the model ran out. *)

Inductive outcome (A : Type) : Type :=
| Ret (a : A)
| Exited (msg : string)
| Undef
| Spin.

Arguments Ret {A} a.
Arguments Exited {A} msg.
Arguments Undef {A}.
Arguments Spin {A}.

Definition bind {A B : Type} (m : outcome A) (f : A -> outcome B) : outcome B :=
  match m with
  | Ret a => f a
  | Exited msg => Exited msg
  | Undef => Undef
  | Spin => Spin
  end.

Notation "x <- m ;; k" := (bind m (fun x => k))
  (at level 20, m at level 99, k at level 200, only parsing).
Notation "' pat <- m ;; k" := (bind m (fun x => match x with pat => k end))
  (at level 20, pat pattern, m at level 99, k at level 200, only parsing).

Definition is_Ret {A} (o : outcome A) : bool :=
  match o with Ret _ => true | _ => false end.

(** [1ULL << n] for a shift count [n] already reduced to its C++ type:
    defined only for counts below the width. *)
Definition shl1_64 (n : Z) : outcome Z :=
  if (0 <=? n) && (n <? 64) then Ret (2 ^ n) else Undef.

(** * VSim: the clock and reset driver (VSim.h, VSim.cpp) *)

Module VSim.

(** The Verilated model [Vcore_v_mcu]: its ports, and the internal state
    of the RTL, which is opaque to this library. *)
Record Vcore_v_mcu (Core : Type) : Type := mkCpu {
  ref_clk_i : Z;
  rstn_i : Z;
  jtag_tck_i : Z;
  jtag_trst_i : Z;
  jtag_tdi_i : Z;
  jtag_tms_i : Z;
  jtag_tdo_o : Z;
  core : Core;
}.

Arguments mkCpu {Core}.
Arguments ref_clk_i {Core}.
Arguments rstn_i {Core}.
Arguments jtag_tck_i {Core}.
Arguments jtag_trst_i {Core}.
Arguments jtag_tdi_i {Core}.
Arguments jtag_tms_i {Core}.
Arguments jtag_tdo_o {Core}.
Arguments core {Core}.

(** What Verilator supplies for the RTL: [settle] is [Vcore_v_mcu::eval],
    which reads the input ports and gives the new internal state and the
    new value of the one output port used here, TDO; [gotFinish] tells
    whether the Verilog has executed [$finish].  The order of the port
    arguments of [settle] is ref_clk, rstn, tck, trst, tdi, tms. *)
Class Verilated (Core : Type) : Type := {
  settle : Core -> Z -> Z -> Z -> Z -> Z -> Z -> Core * Z;
  gotFinish : Core -> bool;
}.

Record t (Core : Type) : Type := mk {
  mCpu : Vcore_v_mcu Core;
  mContextTime : Z;          (* mContextp->time () *)
  mHaveVcd : bool;
  mTfp : list Z;             (* times of the frames dumped so far *)
  mClkHalfPeriodTicks : Z;
  mTckHalfPeriodTicks : Z;
  mResetPeriodTicks : Z;
  mSimTimeTicks : Z;
  mTickCount : Z;
  mTckPosedge : bool;
  mTckNegedge : bool;
}.

Arguments mk {Core}.
Arguments mCpu {Core}.
Arguments mContextTime {Core}.
Arguments mHaveVcd {Core}.
Arguments mTfp {Core}.
Arguments mClkHalfPeriodTicks {Core}.
Arguments mTckHalfPeriodTicks {Core}.
Arguments mResetPeriodTicks {Core}.
Arguments mSimTimeTicks {Core}.
Arguments mTickCount {Core}.
Arguments mTckPosedge {Core}.
Arguments mTckNegedge {Core}.

Section WithModel.
Context {Core : Type} {M : Verilated Core}.

(** [VSim::VSim].  [core0] is the freshly constructed Verilated model,
    whose input ports Verilator zeroes. *)
Definition new (clkPeriodNs simTimeNs : Z) (vcdFile : string) (core0 : Core)
  : t Core :=
  let mClkHalfPeriodTicks := clkPeriodNs / 2 in
  let mTckHalfPeriodTicks := u64 (mClkHalfPeriodTicks * 2) in
  let mResetPeriodTicks := u64 (mTckHalfPeriodTicks * 10) in
  let mTickCount := 0 in
  let nResetBit := if mTickCount <? mResetPeriodTicks then 0 else 1 in
  {| mCpu := {| ref_clk_i := 1; rstn_i := nResetBit;
                jtag_tck_i := 1; jtag_trst_i := nResetBit;
                jtag_tdi_i := 0; jtag_tms_i := 0; jtag_tdo_o := 0;
                core := core0 |};
     mContextTime := mTickCount;
     mHaveVcd := negb (String.length vcdFile =? 0)%nat;
     mTfp := [];
     mClkHalfPeriodTicks := mClkHalfPeriodTicks;
     mTckHalfPeriodTicks := mTckHalfPeriodTicks;
     mResetPeriodTicks := mResetPeriodTicks;
     mSimTimeTicks := simTimeNs;
     mTickCount := mTickCount;
     mTckPosedge := true;
     mTckNegedge := false |}.

(** [VSim::simTimeNs]. *)
Definition simTimeNs (v : t Core) : Z := mContextTime v.

(** [VSim::allDone]. *)
Definition allDone (v : t Core) : bool :=
  gotFinish (core (mCpu v))
  || (negb (mSimTimeTicks v =? 0) && (mSimTimeTicks v <=? mContextTime v)).

(** [VSim::advanceHalfPeriod].  The two divisions are by the half-periods
    computed in the constructor; dividing by zero is undefined. *)
Definition advanceHalfPeriod (v : t Core) : outcome (t Core) :=
  let mTickCount := u64 (mTickCount v + mClkHalfPeriodTicks v) in
  let cpu := mCpu v in
  let old_tck := jtag_tck_i cpu in
  let nResetBit := if mTickCount <? mResetPeriodTicks v then 0 else 1 in
  if (mClkHalfPeriodTicks v =? 0) || (mTckHalfPeriodTicks v =? 0) then Undef
  else
    let ref_clk := 1 - (mTickCount / mClkHalfPeriodTicks v) mod 2 in
    let tck := 1 - (mTickCount / mTckHalfPeriodTicks v) mod 2 in
    Ret {| mCpu := {| ref_clk_i := ref_clk; rstn_i := nResetBit;
                      jtag_tck_i := tck; jtag_trst_i := nResetBit;
                      jtag_tdi_i := jtag_tdi_i cpu;
                      jtag_tms_i := jtag_tms_i cpu;
                      jtag_tdo_o := jtag_tdo_o cpu;
                      core := core cpu |};
           mContextTime := mTickCount;
           mHaveVcd := mHaveVcd v;
           mTfp := mTfp v;
           mClkHalfPeriodTicks := mClkHalfPeriodTicks v;
           mTckHalfPeriodTicks := mTckHalfPeriodTicks v;
           mResetPeriodTicks := mResetPeriodTicks v;
           mSimTimeTicks := mSimTimeTicks v;
           mTickCount := mTickCount;
           mTckPosedge := (old_tck =? 0) && (tck =? 1);
           mTckNegedge := (old_tck =? 1) && (tck =? 0) |}.

(** [VSim::inReset], [VSim::tapPosedge], [VSim::tapNegedge]. *)
Definition inReset (v : t Core) : bool := mTickCount v <? mResetPeriodTicks v.
Definition tapPosedge (v : t Core) : bool := mTckPosedge v.
Definition tapNegedge (v : t Core) : bool := mTckNegedge v.

Definition with_cpu (v : t Core) (cpu : Vcore_v_mcu Core) (frames : list Z)
  : t Core :=
  {| mCpu := cpu;
     mContextTime := mContextTime v;
     mHaveVcd := mHaveVcd v;
     mTfp := frames;
     mClkHalfPeriodTicks := mClkHalfPeriodTicks v;
     mTckHalfPeriodTicks := mTckHalfPeriodTicks v;
     mResetPeriodTicks := mResetPeriodTicks v;
     mSimTimeTicks := mSimTimeTicks v;
     mTickCount := mTickCount v;
     mTckPosedge := mTckPosedge v;
     mTckNegedge := mTckNegedge v |}.

(** [VSim::eval]: evaluate the model and dump a frame when tracing. *)
Definition eval (v : t Core) : t Core :=
  let cpu := mCpu v in
  let '(c, tdo) := settle (core cpu) (ref_clk_i cpu) (rstn_i cpu)
                     (jtag_tck_i cpu) (jtag_trst_i cpu)
                     (jtag_tdi_i cpu) (jtag_tms_i cpu) in
  with_cpu v
    {| ref_clk_i := ref_clk_i cpu; rstn_i := rstn_i cpu;
       jtag_tck_i := jtag_tck_i cpu; jtag_trst_i := jtag_trst_i cpu;
       jtag_tdi_i := jtag_tdi_i cpu; jtag_tms_i := jtag_tms_i cpu;
       jtag_tdo_o := tdo; core := c |}
    (if mHaveVcd v then mTfp v ++ [mContextTime v] else mTfp v).

(** [VSim::tdi (bool)], [VSim::tdi ()], [VSim::tdo ()], [VSim::tms (bool)],
    [VSim::tms ()]. *)
Definition set_tdi (tdi_ : bool) (v : t Core) : t Core :=
  let cpu := mCpu v in
  with_cpu v
    {| ref_clk_i := ref_clk_i cpu; rstn_i := rstn_i cpu;
       jtag_tck_i := jtag_tck_i cpu; jtag_trst_i := jtag_trst_i cpu;
       jtag_tdi_i := if tdi_ then 1 else 0; jtag_tms_i := jtag_tms_i cpu;
       jtag_tdo_o := jtag_tdo_o cpu; core := core cpu |}
    (mTfp v).

Definition tdi (v : t Core) : bool := negb (jtag_tdi_i (mCpu v) =? 0).

Definition tdo (v : t Core) : bool := negb (jtag_tdo_o (mCpu v) =? 0).

Definition set_tms (tms_ : bool) (v : t Core) : t Core :=
  let cpu := mCpu v in
  with_cpu v
    {| ref_clk_i := ref_clk_i cpu; rstn_i := rstn_i cpu;
       jtag_tck_i := jtag_tck_i cpu; jtag_trst_i := jtag_trst_i cpu;
       jtag_tdi_i := jtag_tdi_i cpu; jtag_tms_i := if tms_ then 1 else 0;
       jtag_tdo_o := jtag_tdo_o cpu; core := core cpu |}
    (mTfp v).

Definition tms (v : t Core) : bool := negb (jtag_tms_i (mCpu v) =? 0).

(** The period of the JTAG clock that the object generates: TCK is
    recomputed from [mTickCount / mTckHalfPeriodTicks], so it holds each
    level for [mTckHalfPeriodTicks] ticks of 1 ns. *)
Definition tckPeriodNs (v : t Core) : Z := 2 * mTckHalfPeriodTicks v.

(** [n] calls of [advanceHalfPeriod], with the TCK level seen after each. *)
Fixpoint tckWave (n : nat) (v : t Core) : outcome (list (Z * Z)) :=
  match n with
  | O => Ret []
  | S n' =>
      v1 <- advanceHalfPeriod v ;;
      rest <- tckWave n' v1 ;;
      Ret ((mTickCount v1, jtag_tck_i (mCpu v1)) :: rest)
  end.

End WithModel.
End VSim.

(** * Tap: the IEEE 1149.1 controller (Tap.h, Tap.cpp) *)

Module Tap.

(** [Tap::State], numbered as in the source. *)
Inductive State : Type :=
| TEST_LOGIC_RESET | RUN_TEST_IDLE | SELECT_DR_SCAN | CAPTURE_DR
| SHIFT_DR | EXIT1_DR | PAUSE_DR | EXIT2_DR | UPDATE_DR
| SELECT_IR_SCAN | CAPTURE_IR | SHIFT_IR | EXIT1_IR | PAUSE_IR
| EXIT2_IR | UPDATE_IR.

#[global] Instance State_eq_dec : EqDecision State.
Proof. solve_decision. Defined.

Definition State_index (s : State) : nat :=
  match s with
  | TEST_LOGIC_RESET => 0 | RUN_TEST_IDLE => 1 | SELECT_DR_SCAN => 2
  | CAPTURE_DR => 3 | SHIFT_DR => 4 | EXIT1_DR => 5 | PAUSE_DR => 6
  | EXIT2_DR => 7 | UPDATE_DR => 8 | SELECT_IR_SCAN => 9
  | CAPTURE_IR => 10 | SHIFT_IR => 11 | EXIT1_IR => 12 | PAUSE_IR => 13
  | EXIT2_IR => 14 | UPDATE_IR => 15
  end%nat.

Definition NUM_STATES : nat := 16.
Definition IR_LEN : Z := 5.
Definition IDCODE_LEN : Z := 32.

(** The table [nextStateTab] of [Tap::gotoState]: the TMS value of the
    first step from the state of the row towards the state of the column. *)
Definition nextStateTab : list (list Z) :=
  [ [1; 0; 0; 0; 0; 0; 0; 0; 0; 0; 0; 0; 0; 0; 0; 0];  (* Test-Logic-Reset *)
    [1; 0; 1; 1; 1; 1; 1; 1; 1; 1; 1; 1; 1; 1; 1; 1];  (* Run-Test/Idle *)
    [1; 1; 1; 0; 0; 0; 0; 0; 0; 1; 1; 1; 1; 1; 1; 1];  (* Select-DR-Scan *)
    [1; 1; 1; 1; 0; 1; 1; 1; 1; 1; 1; 1; 1; 1; 1; 1];  (* Capture-DR *)
    [1; 1; 1; 1; 0; 1; 1; 1; 1; 1; 1; 1; 1; 1; 1; 1];  (* Shift-DR *)
    [1; 1; 1; 1; 1; 1; 0; 0; 1; 1; 1; 1; 1; 1; 1; 1];  (* Exit1-DR *)
    [1; 1; 1; 1; 1; 1; 0; 1; 1; 1; 1; 1; 1; 1; 1; 1];  (* Pause-DR *)
    [1; 1; 1; 1; 0; 0; 0; 0; 1; 1; 1; 1; 1; 1; 1; 1];  (* Exit2-DR *)
    [1; 0; 1; 1; 1; 1; 1; 1; 1; 1; 1; 1; 1; 1; 1; 1];  (* Update-DR *)
    [1; 1; 1; 1; 1; 1; 1; 1; 1; 1; 0; 0; 0; 0; 0; 0];  (* Select-IR-Scan *)
    [1; 1; 1; 1; 1; 1; 1; 1; 1; 1; 1; 0; 1; 1; 1; 1];  (* Capture-IR *)
    [1; 1; 1; 1; 1; 1; 1; 1; 1; 1; 1; 0; 1; 1; 1; 1];  (* Shift-IR *)
    [1; 1; 1; 1; 1; 1; 1; 1; 1; 1; 1; 1; 1; 0; 0; 1];  (* Exit1-IR *)
    [1; 1; 1; 1; 1; 1; 1; 1; 1; 1; 1; 1; 1; 0; 1; 1];  (* Pause-IR *)
    [1; 1; 1; 1; 1; 1; 1; 1; 1; 1; 1; 0; 0; 0; 0; 1];  (* Exit2-IR *)
    [1; 0; 1; 1; 1; 1; 1; 1; 1; 1; 1; 1; 1; 1; 1; 1]   (* Update-IR *)
  ].

(** The table [trans] of [Tap::nextState]: the successor for TMS low and
    for TMS high. *)
Definition trans : list (State * State) :=
  [ (RUN_TEST_IDLE, TEST_LOGIC_RESET);  (* Test-Logic-Reset *)
    (RUN_TEST_IDLE, SELECT_DR_SCAN);    (* Run-Test/Idle *)
    (CAPTURE_DR, SELECT_IR_SCAN);       (* Select-DR-Scan *)
    (SHIFT_DR, EXIT1_DR);               (* Capture-DR *)
    (SHIFT_DR, EXIT1_DR);               (* Shift-DR *)
    (PAUSE_DR, UPDATE_DR);              (* Exit1-DR *)
    (PAUSE_DR, EXIT2_DR);               (* Pause-DR *)
    (SHIFT_DR, UPDATE_DR);              (* Exit2-DR *)
    (RUN_TEST_IDLE, SELECT_DR_SCAN);    (* Update-DR *)
    (CAPTURE_IR, TEST_LOGIC_RESET);     (* Select-IR-Scan *)
    (SHIFT_IR, EXIT1_IR);               (* Capture-IR *)
    (SHIFT_IR, EXIT1_IR);               (* Shift-IR *)
    (PAUSE_IR, UPDATE_IR);              (* Exit1-IR *)
    (PAUSE_IR, EXIT2_IR);               (* Pause-IR *)
    (SHIFT_IR, UPDATE_IR);              (* Exit2-IR *)
    (RUN_TEST_IDLE, SELECT_DR_SCAN)     (* Update-IR *)
  ].

(** The successor that [Tap::nextState] stores in [mCurrState]. *)
Definition next (s : State) (tms : bool) : State :=
  let row := nth (State_index s) trans (TEST_LOGIC_RESET, TEST_LOGIC_RESET) in
  if tms then snd row else fst row.

(** The TMS value that [Tap::gotoState] drives in state [cur] on the way
    to [s]: [1U == nextStateTab[mCurrState][s]]. *)
Definition firstStep (cur s : State) : bool :=
  nth (State_index s) (nth (State_index cur) nextStateTab []) 0 =? 1.

Record t (Core : Type) : Type := mk {
  mMcu : VSim.t Core;
  mCurrState : State;
  mLastIr : Z;
  mRtiCount : Z;
}.

Arguments mk {Core}.
Arguments mMcu {Core}.
Arguments mCurrState {Core}.
Arguments mLastIr {Core}.
Arguments mRtiCount {Core}.

Section WithModel.
Context {Core : Type} {M : VSim.Verilated Core}.

Definition with_mcu (tp : t Core) (v : VSim.t Core) : t Core :=
  {| mMcu := v; mCurrState := mCurrState tp;
     mLastIr := mLastIr tp; mRtiCount := mRtiCount tp |}.

Definition with_state (tp : t Core) (s : State) : t Core :=
  {| mMcu := mMcu tp; mCurrState := s;
     mLastIr := mLastIr tp; mRtiCount := mRtiCount tp |}.

(** [Tap::Tap].  The constructor leaves [mCurrState] uninitialised; [s0]
    stands for whatever the member holds. *)
Definition new (clkPeriodNs simTimeNs : Z) (vcdFile : string) (core0 : Core)
    (s0 : State) : t Core :=
  {| mMcu := VSim.new (u64 clkPeriodNs) (u64 simTimeNs) vcdFile core0;
     mCurrState := s0; mLastIr := 0; mRtiCount := 1 |}.

(** [Tap::rtiCount]. *)
Definition rtiCount (rtiCount_ : Z) (tp : t Core) : t Core :=
  {| mMcu := mMcu tp; mCurrState := mCurrState tp;
     mLastIr := mLastIr tp; mRtiCount := u8 rtiCount_ |}.

(** [Tap::reset]: clock the model with TMS low until the reset time has
    passed. *)
Fixpoint reset_loop (fuel : nat) (tp : t Core) : outcome (bool * t Core) :=
  if VSim.inReset (mMcu tp) then
    match fuel with
    | O => Spin
    | S fuel' =>
        if VSim.allDone (mMcu tp) then Ret (false, tp)
        else
          v <- VSim.advanceHalfPeriod
                 (VSim.eval (VSim.set_tms false (mMcu tp))) ;;
          reset_loop fuel' (with_mcu tp v)
    end
  else Ret (true, with_state tp RUN_TEST_IDLE).

Definition reset (fuel : nat) (tp : t Core) : outcome (bool * t Core) :=
  reset_loop fuel tp.

(** [Tap::simTimeNs]. *)
Definition simTimeNs (tp : t Core) : Z := VSim.simTimeNs (mMcu tp).

(** [Tap::nextState]. *)
Definition nextState (tms : bool) (tp : t Core) : t Core :=
  with_state tp (next (mCurrState tp) tms).

(** The two loops of [Tap::advanceState]:
    [while (!mMcu->tapPosedge ()) { eval; advanceHalfPeriod }] and the same
    for [tapNegedge]. *)
Fixpoint toPosedge (fuel : nat) (v : VSim.t Core) : outcome (VSim.t Core) :=
  if VSim.tapPosedge v then Ret v
  else
    match fuel with
    | O => Spin
    | S fuel' =>
        v1 <- VSim.advanceHalfPeriod (VSim.eval v) ;;
        toPosedge fuel' v1
    end.

Fixpoint toNegedge (fuel : nat) (v : VSim.t Core) : outcome (VSim.t Core) :=
  if VSim.tapNegedge v then Ret v
  else
    match fuel with
    | O => Spin
    | S fuel' =>
        v1 <- VSim.advanceHalfPeriod (VSim.eval v) ;;
        toNegedge fuel' v1
    end.

(** [Tap::advanceState]. *)
Definition advanceState (fuel : nat) (tms tdi : bool) (tp : t Core)
  : outcome (bool * t Core) :=
  v1 <- toPosedge fuel (mMcu tp) ;;
  v2 <- toNegedge fuel (VSim.set_tdi tdi (VSim.set_tms tms v1)) ;;
  let tp2 := nextState (VSim.tms v2) (with_mcu tp v2) in
  Ret (VSim.tdo v2, tp2).

(** [Tap::gotoState].  The range check on [s] of the source cannot fail
    for a member of [State]. *)
Fixpoint gotoState_loop (fuel n : nat) (s : State) (tdo_reg : bool)
    (tp : t Core) : outcome (bool * t Core) :=
  if decide (mCurrState tp = s) then Ret (tdo_reg, tp)
  else
    match n with
    | O => Spin
    | S n' =>
        let tms := firstStep (mCurrState tp) s in
        '(tdo_reg1, tp1) <- advanceState fuel tms false tp ;;
        gotoState_loop fuel n' s tdo_reg1 tp1
    end.

Definition gotoState (fuel : nat) (s : State) (tp : t Core)
  : outcome (bool * t Core) :=
  gotoState_loop fuel fuel s (VSim.tdo (mMcu tp)) tp.

(** [(x & (1 << i)) != 0] for a value [x] and a bit number [i] in range. *)
Definition bit_set (x i : Z) : bool := negb (Z.land x (2 ^ i) =? 0).

(** [Tap::shiftIr].  The loop runs for [i = 0 .. IR_LEN - 2]. *)
Fixpoint shiftIr_loop (fuel : nat) (n : nat) (i : Z) (ireg : Z) (tp : t Core)
  : outcome (t Core) :=
  match n with
  | O => Ret tp
  | S n' =>
      '(_, tp1) <- advanceState fuel false (bit_set ireg i) tp ;;
      shiftIr_loop fuel n' (i + 1) ireg tp1
  end.

Definition shiftIr (fuel : nat) (ireg : Z) (tp : t Core) : outcome (t Core) :=
  '(_, tp1) <- gotoState fuel SHIFT_IR tp ;;
  tp2 <- shiftIr_loop fuel (Z.to_nat (IR_LEN - 1)) 0 ireg tp1 ;;
  '(_, tp3) <- advanceState fuel true (bit_set ireg (IR_LEN - 1)) tp2 ;;
  '(_, tp4) <- gotoState fuel UPDATE_IR tp3 ;;
  Ret tp4.

(** The middle loop of [Tap::shiftDr],
    [for (int i = 1; i < (len - 1); i++)], where [bound] is [len - 1]
    computed in [size_t].  The shift [1ULL << i] is undefined from
    [i = 64] on, so the loop makes at most 63 turns before that; [n]
    counts them down. *)
Fixpoint shiftDr_loop (fuel : nat) (n : nat) (i bound : Z) (dreg regOut : Z)
    (tp : t Core) : outcome (Z * t Core) :=
  if i <? bound then
    match n with
    | O => Undef
    | S n' =>
        m <- shl1_64 i ;;
        '(tdo, tp1) <- advanceState fuel false (negb (Z.land dreg m =? 0)) tp ;;
        let regOut1 := if tdo then Z.lor regOut (2 ^ (i - 1)) else regOut in
        shiftDr_loop fuel n' (i + 1) bound dreg regOut1 tp1
    end
  else Ret (regOut, tp).

(** [Tap::shiftDr].  [len] is a [size_t]; [len - 1] and [len - 2] wrap. *)
Definition shiftDr (fuel : nat) (dreg len : Z) (tp : t Core)
  : outcome (Z * t Core) :=
  '(_, tp1) <- gotoState fuel SHIFT_DR tp ;;
  '(_, tp2) <- advanceState fuel false (negb (Z.land dreg 1 =? 0)) tp1 ;;
  '(regOut, tp3) <- shiftDr_loop fuel 63 1 (u64 (len - 1)) dreg 0 tp2 ;;
  mlast <- shl1_64 (u64 (len - 1)) ;;
  '(tdo4, tp4) <- advanceState fuel true (negb (Z.land dreg mlast =? 0)) tp3 ;;
  regOut4 <- (if tdo4 then m <- shl1_64 (u64 (len - 2)) ;; Ret (Z.lor regOut m)
              else Ret regOut) ;;
  '(tdo5, tp5) <- advanceState fuel false (negb (Z.land dreg mlast =? 0)) tp4 ;;
  let regOut5 := if tdo5 then Z.lor regOut4 mlast else regOut4 in
  '(_, tp6) <- gotoState fuel UPDATE_DR tp5 ;;
  Ret (regOut5, tp6).

(** The loop [for (uint8_t i = 0; i < mRtiCount; i++) gotoState (RUN_TEST_IDLE)]
    of [Tap::accessReg]. *)
Fixpoint rtiDwell (fuel : nat) (n : nat) (tp : t Core) : outcome (t Core) :=
  match n with
  | O => Ret tp
  | S n' =>
      '(_, tp1) <- gotoState fuel RUN_TEST_IDLE tp ;;
      rtiDwell fuel n' tp1
  end.

(** The first half of [Tap::accessReg]: dwell or shift the IR. *)
Definition selectIr (fuel : nat) (ir : Z) (tp : t Core) : outcome (t Core) :=
  if mLastIr tp =? ir then rtiDwell fuel (Z.to_nat (mRtiCount tp)) tp
  else shiftIr fuel ir tp.

(** [Tap::accessReg]. *)
Definition accessReg (fuel : nat) (ir wdata len : Z) (tp : t Core)
  : outcome (Z * t Core) :=
  if 64 <? len then
    Exited ("ERROR: Attempt to access JTAG register of size " +:+ pretty len)
  else
    tp1 <- selectIr fuel ir tp ;;
    '(reg, tp2) <- shiftDr fuel wdata len tp1 ;;
    '(_, tp3) <- gotoState fuel UPDATE_DR tp2 ;;
    Ret (reg, tp3).

(** [Tap::writeReg] and [Tap::readReg]. *)
Definition writeReg (fuel : nat) (ir wdata len : Z) (tp : t Core)
  : outcome (t Core) :=
  '(_, tp1) <- accessReg fuel ir wdata len tp ;;
  Ret tp1.

Definition readReg (fuel : nat) (ir len : Z) (tp : t Core)
  : outcome (Z * t Core) :=
  accessReg fuel ir 0 len tp.

End WithModel.
End Tap.

(** * IDtm: the abstract Debug Transport Module (IDtm.h)

    The pure virtual interface that [Dmi] is written against.  [D] is the
    state of the object behind the interface. *)

Module IDtm.

Class IDtm (D : Type) : Type := {
  reset : D -> outcome (bool * D);
  dmiRead : Z -> D -> outcome (Z * D);
  dmiWrite : Z -> Z -> D -> outcome D;
  simTimeNs : D -> Z;
}.

End IDtm.

(** * DtmJtag: the RISC-V JTAG DTM (DtmJtag.h, DtmJtag.cpp) *)

Module DtmJtag.

(** [DtmJtag::IrReg], [DtmJtag::Op], [DtmJtag::Res]. *)
Definition BYPASS0 : Z := 0x00.
Definition IDCODE : Z := 0x01.
Definition DTMCS : Z := 0x10.
Definition DMIACCESS : Z := 0x11.
Definition BYPASS1 : Z := 0x1f.

Definition OP_NOP : Z := 0.
Definition OP_READ : Z := 1.
Definition OP_WRITE : Z := 2.
Definition OP_RESERVED : Z := 3.

Definition RES_OK : Z := 0.
Definition RES_RESERVED : Z := 1.
Definition RES_ERROR : Z := 2.
Definition RES_RETRY : Z := 3.

Record t (Core : Type) : Type := mk {
  mTap : Tap.t Core;
  mDmiWidth : Z;
  mDmiAddrMask : Z;
  cerr : list string;
}.

Arguments mk {Core}.
Arguments mTap {Core}.
Arguments mDmiWidth {Core}.
Arguments mDmiAddrMask {Core}.
Arguments cerr {Core}.

Section WithModel.
Context {Core : Type} {M : VSim.Verilated Core}.

Definition with_tap (d : t Core) (tp : Tap.t Core) : t Core :=
  {| mTap := tp; mDmiWidth := mDmiWidth d;
     mDmiAddrMask := mDmiAddrMask d; cerr := cerr d |}.

Definition warn (d : t Core) (line : string) : t Core :=
  {| mTap := mTap d; mDmiWidth := mDmiWidth d;
     mDmiAddrMask := mDmiAddrMask d; cerr := cerr d ++ [line] |}.

(** [DtmJtag::DtmJtag].  [mDmiAddrMask] is not initialised by the
    constructor; [mask0] stands for whatever it holds. *)
Definition new (clkPeriodNs simTimeNs : Z) (vcdFile : string) (core0 : Core)
    (s0 : Tap.State) (mask0 : Z) : t Core :=
  {| mTap := Tap.new clkPeriodNs simTimeNs vcdFile core0 s0;
     mDmiWidth := 42; mDmiAddrMask := mask0; cerr := [] |}.

(** [DtmJtag::readIdcode], [DtmJtag::readDtmcs], [DtmJtag::writeDtmcs]. *)
Definition readIdcode (fuel : nat) (d : t Core) : outcome (Z * t Core) :=
  '(r, tp) <- Tap.readReg fuel IDCODE 32 (mTap d) ;;
  Ret (u32 r, with_tap d tp).

Definition readDtmcs (fuel : nat) (d : t Core) : outcome (Z * t Core) :=
  '(r, tp) <- Tap.readReg fuel DTMCS 32 (mTap d) ;;
  Ret (u32 r, with_tap d tp).

Definition writeDtmcs (fuel : nat) (val : Z) (d : t Core) : outcome (t Core) :=
  tp <- Tap.writeReg fuel DTMCS val 32 (mTap d) ;;
  Ret (with_tap d tp).

(** [DtmJtag::reset]. *)
Definition reset (fuel : nat) (d : t Core) : outcome (bool * t Core) :=
  '(ok, tp) <- Tap.reset fuel (mTap d) ;;
  if negb ok then Ret (false, with_tap d tp)
  else
    '(idcode, d1) <- readIdcode fuel (with_tap d tp) ;;
    '(dtmcs, d2) <- readDtmcs fuel d1 ;;
    let tp2 := Tap.rtiCount (u8 (Z.land (Z.shiftr dtmcs 12) 0x7)) (mTap d2) in
    let addrSize := u8 (Z.land (Z.shiftr dtmcs 4) 0x3f) in
    let d3 := {| mTap := tp2;
                 mDmiWidth := u8 (34 + addrSize);
                 mDmiAddrMask :=
                   u64 (Z.lnot (u64 (Z.shiftl (2 ^ 64 - 1) addrSize)));
                 cerr := cerr d2 |} in
    d4 <- writeDtmcs fuel 0x10000 d3 ;;
    Ret (true, d4).

(** The polling loop of [DtmJtag::dmiRead]: scan [dmiaccess]; on RETRY
    warn, reset the DMI and scan again; otherwise leave the loop with the
    value scanned. *)
Fixpoint dmiRead_poll (fuel n : nat) (d : t Core) : outcome (Z * t Core) :=
  match n with
  | O => Spin
  | S n' =>
      '(reg, tp) <- Tap.readReg fuel DMIACCESS (mDmiWidth d) (mTap d) ;;
      if Z.land reg 0x3 =? RES_RETRY then
        d1 <- writeDtmcs fuel 0x10000
                (warn (with_tap d tp) "Warning dmiRead retry requested") ;;
        dmiRead_poll fuel n' d1
      else Ret (reg, with_tap d tp)
  end.

(** [DtmJtag::dmiRead].  The second loop of the source,
    [while ((reg & 0x3ULL) == RES_RETRY) ;], is entered with a value that
    is not RETRY and has no body, so it makes no turn. *)
Definition dmiRead (fuel : nat) (address : Z) (d : t Core)
  : outcome (Z * t Core) :=
  let reg := Z.lor OP_READ
               (u64 (Z.shiftl (Z.land address (mDmiAddrMask d)) 34)) in
  tp <- Tap.writeReg fuel DMIACCESS reg (mDmiWidth d) (mTap d) ;;
  '(reg1, d1) <- dmiRead_poll fuel fuel (with_tap d tp) ;;
  let d2 := if negb (Z.land reg1 0x3 =? RES_OK)
            then warn d1 ("Warning: unknown JTAG read result "
                            +:+ pretty (Z.land reg1 0x3) +:+ ": ignored")
            else d1 in
  Ret (u32 (Z.land (Z.shiftr reg1 2) 0xffffffff), d2).

(** The polling loop of [DtmJtag::dmiWrite]. *)
Fixpoint dmiWrite_poll (fuel n : nat) (d : t Core) : outcome (Z * t Core) :=
  match n with
  | O => Spin
  | S n' =>
      '(reg, tp) <- Tap.readReg fuel DMIACCESS (mDmiWidth d) (mTap d) ;;
      if Z.land reg 0x3 =? RES_RETRY then
        d1 <- writeDtmcs fuel 0x10000
                (warn (with_tap d tp) "Warning dmiWrite retry requested") ;;
        dmiWrite_poll fuel n' d1
      else Ret (reg, with_tap d tp)
  end.

(** [DtmJtag::dmiWrite]. *)
Definition dmiWrite (fuel : nat) (address wdata : Z) (d : t Core)
  : outcome (t Core) :=
  let reg := Z.lor (Z.lor OP_WRITE (u64 (Z.shiftl wdata 2)))
               (u64 (Z.shiftl (Z.land address (mDmiAddrMask d)) 34)) in
  tp <- Tap.writeReg fuel DMIACCESS reg (mDmiWidth d) (mTap d) ;;
  '(reg1, d1) <- dmiWrite_poll fuel fuel (with_tap d tp) ;;
  Ret (if negb (Z.land reg1 0x3 =? RES_OK)
       then warn d1 ("Warning: unknown JTAG write result "
                       +:+ pretty (Z.land reg1 0x3) +:+ ": ignored")
       else d1).

(** [DtmJtag::simTimeNs]. *)
Definition simTimeNs (d : t Core) : Z := Tap.simTimeNs (mTap d).

(** [DtmJtag] implements [IDtm]; the bound on its loops is fixed when the
    object is viewed through the interface. *)
Definition as_IDtm (fuel : nat) : IDtm.IDtm (t Core) :=
  {| IDtm.reset := reset fuel;
     IDtm.dmiRead := dmiRead fuel;
     IDtm.dmiWrite := dmiWrite fuel;
     IDtm.simTimeNs := simTimeNs |}.

End WithModel.
End DtmJtag.

(** * Dmi: the Debug Module Interface (Dmi.h, Dmi.cpp)

    Each register class keeps its cached 32-bit value; [read] and [write]
    go through the [IDtm] that the [Dmi] owns and the register classes
    hold by reference, so here they take and give back its state.  Of the
    register classes only those used by the operations below are
    embedded. *)

Module Dmi.

(** ** [Dmi::Data] *)
Module Data.

Definition NUM_REGS : Z := 12.
Definition DMI_ADDR : list Z :=
  [0x4; 0x5; 0x6; 0x7; 0x8; 0x9; 0xa; 0xb; 0xc; 0xd; 0xe; 0xf].
Definition RESET_VALUE : Z := 0x0.

Record t : Type := mk { mDataReg : list Z; cerr : list string }.

Definition new : t := {| mDataReg := repeat 0 12; cerr := [] |}.

Definition warn (r : t) (line : string) : t :=
  {| mDataReg := mDataReg r; cerr := cerr r ++ [line] |}.

Definition store (r : t) (n v : Z) : t :=
  {| mDataReg := <[Z.to_nat n := v]> (mDataReg r); cerr := cerr r |}.

Definition read {D} {I : IDtm.IDtm D} (n : Z) (r : t) (d : D) : outcome (t * D) :=
  if n <? NUM_REGS then
    '(v, d1) <- IDtm.dmiRead (nth (Z.to_nat n) DMI_ADDR 0) d ;;
    Ret (store r n v, d1)
  else
    Ret (warn r ("Warning: reading data[" +:+ pretty n +:+ "] invalid: ignored."),
         d).

Definition reset (n : Z) (r : t) : t :=
  if n <? NUM_REGS then store r n RESET_VALUE
  else warn r ("Warning: reseting data[" +:+ pretty n +:+ "] invalid: ignored.").

Definition write {D} {I : IDtm.IDtm D} (n : Z) (r : t) (d : D) : outcome (t * D) :=
  if n <? NUM_REGS then
    d1 <- IDtm.dmiWrite (nth (Z.to_nat n) DMI_ADDR 0)
            (nth (Z.to_nat n) (mDataReg r) 0) d ;;
    Ret (r, d1)
  else
    Ret (warn r ("Warning: writing data[" +:+ pretty n +:+ "] invalid: ignored."),
         d).

Definition data (n : Z) (r : t) : Z * t :=
  if n <? NUM_REGS then (nth (Z.to_nat n) (mDataReg r) 0, r)
  else (0, warn r ("Warning: getting data[" +:+ pretty n
                     +:+ "] invalid: zero returned.")).

Definition set_data (n dataVal : Z) (r : t) : t :=
  if n <? NUM_REGS then store r n dataVal
  else warn r ("Warning: setting data[" +:+ pretty n +:+ "] invalid: ignored.").

End Data.

(** ** [Dmi::Dmcontrol] *)
Module Dmcontrol.

Definition HALTREQ_MASK : Z := 0x80000000.
Definition RESUMEREQ_MASK : Z := 0x40000000.
Definition HARTRESET_MASK : Z := 0x20000000.
Definition ACKHAVERESET_MASK : Z := 0x10000000.
Definition HASEL_MASK : Z := 0x04000000.
Definition HARTSELLO_MASK : Z := 0x03ff0000.
Definition HARTSELHI_MASK : Z := 0x0000ffc0.
Definition SETRESETHALTREQ_MASK : Z := 0x00000008.
Definition CLRRESETHALTREQ_MASK : Z := 0x00000004.
Definition NDMRESET_MASK : Z := 0x00000002.
Definition DMACTIVE_MASK : Z := 0x00000001.

Definition HARTSELLO_OFFSET : Z := 16.
Definition HARTSELHI_OFFSET : Z := 6.
Definition HARTSELLO_SIZE : Z := 10.
Definition HARTSELHI_SIZE : Z := 10.

Definition DMI_ADDR : Z := 0x10.
Definition RESET_VALUE : Z := 0x0.

Record t : Type := mk {
  mCurrentHartsel : Z;
  mPrettyPrint : bool;
  mDmcontrolReg : Z;
  cerr : list string;
}.

Definition new : t :=
  {| mCurrentHartsel := 0; mPrettyPrint := false;
     mDmcontrolReg := RESET_VALUE; cerr := [] |}.

Definition with_reg (r : t) (v : Z) : t :=
  {| mCurrentHartsel := mCurrentHartsel r; mPrettyPrint := mPrettyPrint r;
     mDmcontrolReg := v; cerr := cerr r |}.

Definition warn (r : t) (line : string) : t :=
  {| mCurrentHartsel := mCurrentHartsel r; mPrettyPrint := mPrettyPrint r;
     mDmcontrolReg := mDmcontrolReg r; cerr := cerr r ++ [line] |}.

Definition read {D} {I : IDtm.IDtm D} (r : t) (d : D) : outcome (t * D) :=
  '(v, d1) <- IDtm.dmiRead DMI_ADDR d ;;
  Ret (with_reg r v, d1).

Definition write {D} {I : IDtm.IDtm D} (r : t) (d : D) : outcome D :=
  IDtm.dmiWrite DMI_ADDR (mDmcontrolReg r) d.

Definition prettyPrint (flag : bool) (r : t) : t :=
  {| mCurrentHartsel := mCurrentHartsel r; mPrettyPrint := flag;
     mDmcontrolReg := mDmcontrolReg r; cerr := cerr r |}.

Definition haltreq (flag : bool) (r : t) : t :=
  with_reg r (if flag then Z.lor (mDmcontrolReg r) HALTREQ_MASK
              else Z.land (mDmcontrolReg r) (not32 HALTREQ_MASK)).

Definition resumereq (r : t) : t :=
  with_reg r (Z.lor (mDmcontrolReg r) RESUMEREQ_MASK).

Definition ackhavereset (r : t) : t :=
  with_reg r (Z.lor (mDmcontrolReg r) ACKHAVERESET_MASK).

(** The fields that the debug unit does not implement: the getters
    [hartreset () const] and [hasel () const] give [false], and the
    setters [hartreset (flag)], [hasel (flag)], [setresethaltreq ()] and
    [clrresethaltreq ()] warn and leave the register alone. *)
Definition hartreset (r : t) : bool := false.

Definition set_hartreset (flag : bool) (r : t) : t :=
  warn r "Warning: Setting dmcontrol:hartreset not supported: ignored.".

Definition hasel (r : t) : bool := false.

Definition set_hasel (flag : bool) (r : t) : t :=
  warn r "Warning: Setting dmcontrol:hasel not supported: ignored.".

Definition setresethaltreq (r : t) : t :=
  warn r "Warning: Setting dmcontrol:setresethaltreq not supported: ignored.".

Definition clrresethaltreq (r : t) : t :=
  warn r "Warning: Setting dmcontrol:clrresethaltreq not supported: ignored.".

(** The getter [Dmi::Dmcontrol::hartsel () const]. *)
Definition hartsel (r : t) : Z :=
  let hartsello :=
    Z.shiftr (Z.land (mDmcontrolReg r) HARTSELLO_MASK) HARTSELLO_OFFSET in
  let hartselhi :=
    Z.shiftr (Z.land (mDmcontrolReg r) HARTSELHI_MASK) HARTSELHI_OFFSET in
  Z.lor (u32 (Z.shiftl hartselhi HARTSELLO_SIZE)) hartsello.

(** The setter [Dmi::Dmcontrol::hartsel (const uint32_t)]. *)
Definition set_hartsel (hartselVal : Z) (r : t) : t :=
  let r1 :=
    if 2 ^ (HARTSELLO_SIZE + HARTSELHI_SIZE) <=? hartselVal then
      warn r ("Warning: requested value of hartsel, " +:+ pretty hartselVal
                +:+ ", exceeds the maximum permitted value: higher bits ignored.")
    else r in
  let hartsello :=
    Z.land (u32 (Z.shiftl hartselVal HARTSELLO_OFFSET)) HARTSELLO_MASK in
  let hartselhi :=
    Z.land (u32 (Z.shiftl (Z.shiftr hartselVal HARTSELLO_SIZE) HARTSELHI_OFFSET))
           HARTSELHI_MASK in
  let reg1 :=
    Z.land (mDmcontrolReg r1) (not32 (Z.lor HARTSELLO_MASK HARTSELHI_MASK)) in
  {| mCurrentHartsel := hartselVal; mPrettyPrint := mPrettyPrint r1;
     mDmcontrolReg := Z.lor reg1 (Z.lor hartselhi hartsello);
     cerr := cerr r1 |}.

(** [Dmi::Dmcontrol::reset]: the reset value, then the most recently
    selected hart put back. *)
Definition reset (r : t) : t :=
  set_hartsel (mCurrentHartsel r) (with_reg r RESET_VALUE).

Definition hartselMax : Z :=
  Z.lor (u32 (Z.shiftl (Z.shiftr HARTSELHI_MASK HARTSELHI_OFFSET) HARTSELLO_SIZE))
        (Z.shiftr HARTSELLO_MASK HARTSELLO_OFFSET).

Definition ndmreset (r : t) : bool :=
  negb (Z.land (mDmcontrolReg r) NDMRESET_MASK =? 0).

Definition set_ndmreset (flag : bool) (r : t) : t :=
  with_reg r (if flag then Z.lor (mDmcontrolReg r) NDMRESET_MASK
              else Z.land (mDmcontrolReg r) (not32 NDMRESET_MASK)).

Definition dmactive (r : t) : bool :=
  negb (Z.land (mDmcontrolReg r) DMACTIVE_MASK =? 0).

Definition set_dmactive (flag : bool) (r : t) : t :=
  with_reg r (if flag then Z.lor (mDmcontrolReg r) DMACTIVE_MASK
              else Z.land (mDmcontrolReg r) (not32 DMACTIVE_MASK)).

End Dmcontrol.

(** ** [Dmi::Abstractcs] *)
Module Abstractcs.

Inductive CmderrVal : Type :=
| CMDERR_NONE | CMDERR_BUSY | CMDERR_UNSUPPORTED | CMDERR_EXCEPT
| CMDERR_HALT_RESUME | CMDERR_BUS | CMDERR_OTHER | CMDERR_UNKNOWN.

Definition PROGBUFSIZE_MASK : Z := 0x1f000000.
Definition BUSY_MASK : Z := 0x00001000.
Definition CMDERR_MASK : Z := 0x00000700.
Definition DATACOUNT_MASK : Z := 0x0000000f.
Definition CMDERR_OFFSET : Z := 8.

Definition DMI_ADDR : Z := 0x16.
Definition RESET_VALUE : Z := CMDERR_MASK.

Record t : Type := mk { mPrettyPrint : bool; mAbstractcsReg : Z }.

Definition new : t := {| mPrettyPrint := false; mAbstractcsReg := RESET_VALUE |}.

Definition with_reg (r : t) (v : Z) : t :=
  {| mPrettyPrint := mPrettyPrint r; mAbstractcsReg := v |}.

Definition read {D} {I : IDtm.IDtm D} (r : t) (d : D) : outcome (t * D) :=
  '(v, d1) <- IDtm.dmiRead DMI_ADDR d ;;
  Ret (with_reg r v, d1).

Definition reset (r : t) : t := with_reg r RESET_VALUE.

Definition write {D} {I : IDtm.IDtm D} (r : t) (d : D) : outcome D :=
  IDtm.dmiWrite DMI_ADDR (mAbstractcsReg r) d.

Definition busy (r : t) : bool :=
  negb (Z.land (mAbstractcsReg r) BUSY_MASK =? 0).

Definition cmderr (r : t) : CmderrVal :=
  match Z.shiftr (Z.land (mAbstractcsReg r) CMDERR_MASK) CMDERR_OFFSET with
  | 0 => CMDERR_NONE
  | 1 => CMDERR_BUSY
  | 2 => CMDERR_UNSUPPORTED
  | 3 => CMDERR_EXCEPT
  | 4 => CMDERR_HALT_RESUME
  | 5 => CMDERR_BUS
  | 7 => CMDERR_OTHER
  | _ => CMDERR_UNKNOWN
  end.

Definition cmderrClear (r : t) : t :=
  with_reg r (Z.lor (mAbstractcsReg r) CMDERR_MASK).

End Abstractcs.

(** ** [Dmi::Command] *)
Module Command.

Inductive CmdtypeEnum : Type := ACCESS_REG | QUICK_ACCESS | ACCESS_MEM.

Definition CmdtypeEnum_val (c : CmdtypeEnum) : Z :=
  match c with ACCESS_REG => 0 | QUICK_ACCESS => 1 | ACCESS_MEM => 2 end.

Inductive AasizeEnum : Type :=
| ACCESS8 | ACCESS16 | ACCESS32 | ACCESS64 | ACCESS128.

Definition AasizeEnum_val (a : AasizeEnum) : Z :=
  match a with
  | ACCESS8 => 0 | ACCESS16 => 1 | ACCESS32 => 2 | ACCESS64 => 3
  | ACCESS128 => 4
  end.

Definition CMDTYPE_MASK : Z := 0xff000000.
Definition CONTROL_MASK : Z := 0x00ffffff.
Definition AAMVIRTUAL_MASK : Z := 0x00800000.
Definition AARSIZE_MASK : Z := 0x00700000.
Definition AAMSIZE_MASK : Z := 0x00700000.
Definition AAPOSTINCREMENT_MASK : Z := 0x00080000.
Definition POSTEXEC_MASK : Z := 0x00040000.
Definition TRANSFER_MASK : Z := 0x00020000.
Definition WRITE_MASK : Z := 0x00010000.
Definition TARGET_SPECIFIC_MASK : Z := 0x0000c000.
Definition REGNO_MASK : Z := 0x0000ffff.

Definition CMDTYPE_OFFSET : Z := 24.
Definition AARSIZE_OFFSET : Z := 20.
Definition REGNO_OFFSET : Z := 0.

Definition DMI_ADDR : Z := 0x17.
Definition RESET_VALUE : Z := 0.

Record t : Type := mk {
  mPrettyPrint : bool;
  mCommandReg : Z;
  cerr : list string;
}.

Definition new : t :=
  {| mPrettyPrint := false; mCommandReg := RESET_VALUE; cerr := [] |}.

Definition with_reg (r : t) (v : Z) : t :=
  {| mPrettyPrint := mPrettyPrint r; mCommandReg := v; cerr := cerr r |}.

Definition warn (r : t) (line : string) : t :=
  {| mPrettyPrint := mPrettyPrint r; mCommandReg := mCommandReg r;
     cerr := cerr r ++ [line] |}.

Definition reset (r : t) : t := with_reg r RESET_VALUE.

Definition write {D} {I : IDtm.IDtm D} (r : t) (d : D) : outcome D :=
  IDtm.dmiWrite DMI_ADDR (mCommandReg r) d.

(** [Dmi::Command::cmdtype]: the three enumerators all take the first
    branch of the switch. *)
Definition cmdtype (cmdtypeVal : CmdtypeEnum) (r : t) : t :=
  with_reg r
    (Z.lor (Z.land (mCommandReg r) (not32 CMDTYPE_MASK))
           (Z.land (u32 (Z.shiftl (CmdtypeEnum_val cmdtypeVal) CMDTYPE_OFFSET))
                   CMDTYPE_MASK)).

(** [Dmi::Command::aarsize]: 32, 64 and 128 bits are accepted, the other
    sizes are refused with a warning. *)
Definition aarsize (aarsizeVal : AasizeEnum) (r : t) : t :=
  match aarsizeVal with
  | ACCESS32 | ACCESS64 | ACCESS128 =>
      with_reg r
        (Z.lor (Z.land (mCommandReg r) (not32 AARSIZE_MASK))
               (u32 (Z.shiftl (AasizeEnum_val aarsizeVal) AARSIZE_OFFSET)))
  | _ =>
      warn r ("Warning: " +:+ pretty (AasizeEnum_val aarsizeVal)
                +:+ " not valid for aarsize field: ignored")
  end.

Definition aatransfer (flag : bool) (r : t) : t :=
  with_reg r (if flag then Z.lor (mCommandReg r) TRANSFER_MASK
              else Z.land (mCommandReg r) (not32 TRANSFER_MASK)).

Definition aawrite (flag : bool) (r : t) : t :=
  with_reg r (if flag then Z.lor (mCommandReg r) WRITE_MASK
              else Z.land (mCommandReg r) (not32 WRITE_MASK)).

(** [Dmi::Command::aaregno]; [val] is a [uint16_t]. *)
Definition aaregno (val : Z) (r : t) : t :=
  with_reg r
    (Z.lor (Z.land (mCommandReg r) (not32 REGNO_MASK))
           (u32 (Z.shiftl val REGNO_OFFSET))).

(** The [regno] field of a command word. *)
Definition regno_of (word : Z) : Z := Z.land word REGNO_MASK.

End Command.

(** ** [Dmi::Sbaddress] *)
Module Sbaddress.

Definition NUM_REGS : Z := 4.
Definition DMI_ADDR : list Z := [0x39; 0x3a; 0x3b; 0x37].
Definition RESET_VALUE : Z := 0x0.

Record t : Type := mk { mSbaddressReg : list Z; cerr : list string }.

Definition new : t := {| mSbaddressReg := repeat 0 4; cerr := [] |}.

Definition warn (r : t) (line : string) : t :=
  {| mSbaddressReg := mSbaddressReg r; cerr := cerr r ++ [line] |}.

Definition store (r : t) (n v : Z) : t :=
  {| mSbaddressReg := <[Z.to_nat n := v]> (mSbaddressReg r); cerr := cerr r |}.

Definition reset (n : Z) (r : t) : t :=
  if n <? NUM_REGS then store r n RESET_VALUE
  else warn r ("Warning: reseting sbaddress[" +:+ pretty n
                 +:+ "] invalid: ignored.").

Definition write {D} {I : IDtm.IDtm D} (n : Z) (r : t) (d : D) : outcome (t * D) :=
  if n <? NUM_REGS then
    d1 <- IDtm.dmiWrite (nth (Z.to_nat n) DMI_ADDR 0)
            (nth (Z.to_nat n) (mSbaddressReg r) 0) d ;;
    Ret (r, d1)
  else
    Ret (warn r ("Warning: writing sbaddress[" +:+ pretty n
                   +:+ "] invalid: ignored."), d).

Definition set_sbaddress (n sbaddressVal : Z) (r : t) : t :=
  if n <? NUM_REGS then store r n sbaddressVal
  else warn r ("Warning: setting sbaddress[" +:+ pretty n
                 +:+ "] invalid: ignored.").

End Sbaddress.

(** ** [Dmi::Sbcs] *)
Module Sbcs.

Inductive SbaccessVal : Type :=
| SBACCESS_8 | SBACCESS_16 | SBACCESS_32 | SBACCESS_64 | SBACCESS_128
| SBACCESS_UNKNOWN.

Definition SbaccessVal_val (a : SbaccessVal) : Z :=
  match a with
  | SBACCESS_8 => 0 | SBACCESS_16 => 1 | SBACCESS_32 => 2
  | SBACCESS_64 => 3 | SBACCESS_128 => 4 | SBACCESS_UNKNOWN => 5
  end.

Inductive SberrorVal : Type :=
| SBERR_NONE | SBERR_TIMEOUT | SBERR_BAD_ADDR | SBERR_ALIGNMENT
| SBERR_BAD_SIZE | SBERR_OTHER | SBERR_UNKNOWN.

#[global] Instance SberrorVal_eq_dec : EqDecision SberrorVal.
Proof. solve_decision. Defined.

Definition SBVERSION_MASK : Z := 0xe0000000.
Definition SBBUSYERROR_MASK : Z := 0x00400000.
Definition SBBUSY_MASK : Z := 0x00200000.
Definition SBREADONADDR_MASK : Z := 0x00100000.
Definition SBACCESS_MASK : Z := 0x000e0000.
Definition SBAUTOINCREMENT_MASK : Z := 0x00010000.
Definition SBREADONDATA_MASK : Z := 0x00008000.
Definition SBERROR_MASK : Z := 0x00007000.
Definition SBASIZE_MASK : Z := 0x00000fe0.
Definition SBACCESS128_MASK : Z := 0x00000010.
Definition SBACCESS64_MASK : Z := 0x00000008.
Definition SBACCESS32_MASK : Z := 0x00000004.
Definition SBACCESS16_MASK : Z := 0x00000002.
Definition SBACCESS8_MASK : Z := 0x00000001.

Definition SBVERSION_OFFSET : Z := 29.
Definition SBACCESS_OFFSET : Z := 17.
Definition SBERROR_OFFSET : Z := 12.
Definition SBVERSION_SIZE : Z := 3.
Definition SBACCESS_SIZE : Z := 3.

Definition DMI_ADDR : Z := 0x38.
Definition RESET_VALUE : Z := 0x20040000.

Record t : Type := mk {
  mPrettyPrint : bool;
  mSbcsReg : Z;
  cerr : list string;
}.

Definition new : t :=
  {| mPrettyPrint := false; mSbcsReg := RESET_VALUE; cerr := [] |}.

Definition with_reg (r : t) (v : Z) : t :=
  {| mPrettyPrint := mPrettyPrint r; mSbcsReg := v; cerr := cerr r |}.

Definition warn (r : t) (line : string) : t :=
  {| mPrettyPrint := mPrettyPrint r; mSbcsReg := mSbcsReg r;
     cerr := cerr r ++ [line] |}.

Definition read {D} {I : IDtm.IDtm D} (r : t) (d : D) : outcome (t * D) :=
  '(v, d1) <- IDtm.dmiRead DMI_ADDR d ;;
  Ret (with_reg r v, d1).

Definition reset (r : t) : t := with_reg r RESET_VALUE.

Definition write {D} {I : IDtm.IDtm D} (r : t) (d : D) : outcome D :=
  IDtm.dmiWrite DMI_ADDR (mSbcsReg r) d.

Definition sbversion (r : t) : Z :=
  u8 (Z.shiftr (Z.land (mSbcsReg r) SBVERSION_MASK) SBVERSION_OFFSET).

Definition sbbusy (r : t) : bool :=
  negb (Z.land (mSbcsReg r) SBBUSY_MASK =? 0).

Definition set_sbreadonaddr (flag : bool) (r : t) : t :=
  with_reg r (if flag then Z.lor (mSbcsReg r) SBREADONADDR_MASK
              else Z.land (mSbcsReg r) (not32 SBREADONADDR_MASK)).

(** The getter [Dmi::Sbcs::sbaccess () const]. *)
Definition sbaccess (r : t) : SbaccessVal :=
  match Z.shiftr (Z.land (mSbcsReg r) SBACCESS_MASK) SBACCESS_OFFSET with
  | 0 => SBACCESS_8
  | 1 => SBACCESS_16
  | 2 => SBACCESS_32
  | 3 => SBACCESS_64
  | 4 => SBACCESS_128
  | _ => SBACCESS_UNKNOWN
  end.

(** The setter [Dmi::Sbcs::sbaccess (const uint8_t)].  The warning
    streams [val], a [uint8_t], which the stream prints as the character
    of that code. *)
Definition set_sbaccess (val : Z) (r : t) : t :=
  let r1 := if 2 ^ SBACCESS_SIZE <=? val
            then warn r ("Warning: "
                           +:+ String (Ascii.ascii_of_N (Z.to_N val)) EmptyString
                           +:+ " too large for sbaccess field of sbcs: truncated")
            else r in
  with_reg r1
    (Z.lor (Z.land (mSbcsReg r1) (not32 SBACCESS_MASK))
           (Z.land (u32 (Z.shiftl val SBACCESS_OFFSET)) SBACCESS_MASK)).

Definition set_sbautoincrement (flag : bool) (r : t) : t :=
  with_reg r (if flag then Z.lor (mSbcsReg r) SBAUTOINCREMENT_MASK
              else Z.land (mSbcsReg r) (not32 SBAUTOINCREMENT_MASK)).

Definition set_sbreadondata (flag : bool) (r : t) : t :=
  with_reg r (if flag then Z.lor (mSbcsReg r) SBREADONDATA_MASK
              else Z.land (mSbcsReg r) (not32 SBREADONDATA_MASK)).

Definition sberror (r : t) : SberrorVal :=
  match Z.shiftr (Z.land (mSbcsReg r) SBERROR_MASK) SBERROR_OFFSET with
  | 0 => SBERR_NONE
  | 1 => SBERR_TIMEOUT
  | 2 => SBERR_BAD_ADDR
  | 3 => SBERR_ALIGNMENT
  | 4 => SBERR_BAD_SIZE
  | 7 => SBERR_OTHER
  | _ => SBERR_UNKNOWN
  end.

Definition sberrorClear (r : t) : t :=
  with_reg r (Z.lor (mSbcsReg r) SBERROR_MASK).

End Sbcs.

(** ** [Dmi::Sbdata] *)
Module Sbdata.

Definition NUM_REGS : Z := 4.
Definition DMI_ADDR : list Z := [0x3c; 0x3d; 0x3e; 0x3f].
Definition RESET_VALUE : Z := 0x0.

Record t : Type := mk { mSbdataReg : list Z; cerr : list string }.

Definition new : t := {| mSbdataReg := repeat 0 4; cerr := [] |}.

Definition warn (r : t) (line : string) : t :=
  {| mSbdataReg := mSbdataReg r; cerr := cerr r ++ [line] |}.

Definition store (r : t) (n v : Z) : t :=
  {| mSbdataReg := <[Z.to_nat n := v]> (mSbdataReg r); cerr := cerr r |}.

Definition read {D} {I : IDtm.IDtm D} (n : Z) (r : t) (d : D) : outcome (t * D) :=
  if n <? NUM_REGS then
    '(v, d1) <- IDtm.dmiRead (nth (Z.to_nat n) DMI_ADDR 0) d ;;
    Ret (store r n v, d1)
  else
    Ret (warn r ("Warning: reading sbdata[" +:+ pretty n
                   +:+ "] invalid: ignored."), d).

Definition write {D} {I : IDtm.IDtm D} (n : Z) (r : t) (d : D) : outcome (t * D) :=
  if n <? NUM_REGS then
    d1 <- IDtm.dmiWrite (nth (Z.to_nat n) DMI_ADDR 0)
            (nth (Z.to_nat n) (mSbdataReg r) 0) d ;;
    Ret (r, d1)
  else
    Ret (warn r ("Warning: writing sbdata[" +:+ pretty n
                   +:+ "] invalid: ignored."), d).

Definition sbdata (n : Z) (r : t) : Z * t :=
  if n <? NUM_REGS then (nth (Z.to_nat n) (mSbdataReg r) 0, r)
  else (0, warn r ("Warning: getting sbdata[" +:+ pretty n
                     +:+ "] invalid: zero returned.")).

Definition set_sbdata (n sbdataVal : Z) (r : t) : t :=
  if n <? NUM_REGS then store r n sbdataVal
  else warn r ("Warning: setting sbdata[" +:+ pretty n
                 +:+ "] invalid: ignored.").

End Sbdata.

(** ** [Dmi::Dmstatus] *)
Module Dmstatus.

Definition IMPEBREAK_MASK : Z := 0x00400000.
Definition ALLHAVERESET_MASK : Z := 0x00080000.
Definition ANYHAVERESET_MASK : Z := 0x00040000.
Definition ALLRESUMEACK_MASK : Z := 0x00020000.
Definition ANYRESUMEACK_MASK : Z := 0x00010000.
Definition ALLNONEXISTENT_MASK : Z := 0x00008000.
Definition ANYNONEXISTENT_MASK : Z := 0x00004000.
Definition ALLUNAVAIL_MASK : Z := 0x00002000.
Definition ANYUNAVAIL_MASK : Z := 0x00001000.
Definition ALLRUNNING_MASK : Z := 0x00000800.
Definition ANYRUNNING_MASK : Z := 0x00000400.
Definition ALLHALTED_MASK : Z := 0x00000200.
Definition ANYHALTED_MASK : Z := 0x00000100.
Definition AUTHENTICATED_MASK : Z := 0x00000080.
Definition AUTHBUSY_MASK : Z := 0x00000040.
Definition HASRESETHALTREQ_MASK : Z := 0x00000020.
Definition CONFSTRPTRVALID_MASK : Z := 0x00000010.
Definition VERSION_MASK : Z := 0x0000000f.

Definition VERSION_OFFSET : Z := 0.

Definition DMI_ADDR : Z := 0x11.

Record t : Type := mk {
  mPrettyPrint : bool;
  mDmstatusReg : Z;
}.

Definition new : t := {| mPrettyPrint := false; mDmstatusReg := 0 |}.

Definition read {D} {I : IDtm.IDtm D} (r : t) (d : D) : outcome (t * D) :=
  '(v, d1) <- IDtm.dmiRead DMI_ADDR d ;;
  Ret ({| mPrettyPrint := mPrettyPrint r; mDmstatusReg := v |}, d1).

Definition prettyPrint (flag : bool) (r : t) : t :=
  {| mPrettyPrint := flag; mDmstatusReg := mDmstatusReg r |}.

Definition impebreak (r : t) : bool :=
  negb (Z.land (mDmstatusReg r) IMPEBREAK_MASK =? 0).

Definition havereset (r : t) : bool :=
  negb (Z.land (mDmstatusReg r) (Z.lor ALLHAVERESET_MASK ANYHAVERESET_MASK) =? 0).

Definition resumeack (r : t) : bool :=
  negb (Z.land (mDmstatusReg r) (Z.lor ALLRESUMEACK_MASK ANYRESUMEACK_MASK) =? 0).

Definition nonexistent (r : t) : bool :=
  negb (Z.land (mDmstatusReg r)
          (Z.lor ALLNONEXISTENT_MASK ANYNONEXISTENT_MASK) =? 0).

Definition unavail (r : t) : bool :=
  negb (Z.land (mDmstatusReg r) (Z.lor ALLUNAVAIL_MASK ANYUNAVAIL_MASK) =? 0).

Definition running (r : t) : bool :=
  negb (Z.land (mDmstatusReg r) (Z.lor ALLRUNNING_MASK ANYRUNNING_MASK) =? 0).

Definition halted (r : t) : bool :=
  negb (Z.land (mDmstatusReg r) (Z.lor ALLHALTED_MASK ANYHALTED_MASK) =? 0).

Definition authenticated (r : t) : bool :=
  negb (Z.land (mDmstatusReg r) AUTHENTICATED_MASK =? 0).

Definition authbusy (r : t) : bool :=
  negb (Z.land (mDmstatusReg r) AUTHBUSY_MASK =? 0).

Definition hasresethaltreq (r : t) : bool :=
  negb (Z.land (mDmstatusReg r) HASRESETHALTREQ_MASK =? 0).

Definition confstrptrvalid (r : t) : bool :=
  negb (Z.land (mDmstatusReg r) CONFSTRPTRVALID_MASK =? 0).

Definition version (r : t) : Z :=
  u8 (Z.shiftr (Z.land (mDmstatusReg r) VERSION_MASK) VERSION_OFFSET).

End Dmstatus.

(** ** [Dmi::Haltsum] *)
Module Haltsum.

Definition NUM_REGS : Z := 4.
Definition DMI_ADDR : list Z := [0x40; 0x13; 0x34; 0x35].

Record t : Type := mk { mHaltsumReg : list Z; cerr : list string }.

Definition new : t := {| mHaltsumReg := repeat 0 4; cerr := [] |}.

Definition warn (r : t) (line : string) : t :=
  {| mHaltsumReg := mHaltsumReg r; cerr := cerr r ++ [line] |}.

Definition read {D} {I : IDtm.IDtm D} (n : Z) (r : t) (d : D) : outcome (t * D) :=
  if n <? NUM_REGS then
    '(v, d1) <- IDtm.dmiRead (nth (Z.to_nat n) DMI_ADDR 0) d ;;
    Ret ({| mHaltsumReg := <[Z.to_nat n := v]> (mHaltsumReg r);
            cerr := cerr r |}, d1)
  else
    Ret (warn r ("Warning: reading haltsum[" +:+ pretty n
                   +:+ "] invalid: ignored."), d).

Definition haltsum (n : Z) (r : t) : Z * t :=
  if n <? NUM_REGS then (nth (Z.to_nat n) (mHaltsumReg r) 0, r)
  else (0, warn r ("Warning: getting haltsum[" +:+ pretty n
                     +:+ "] invalid: zero returned.")).

End Haltsum.

(** ** [Dmi::Abstractauto] *)
Module Abstractauto.

Definition AUTOEXECPROGBUF_MASK : Z := 0xffff0000.
Definition AUTOEXECDATA_MASK : Z := 0x00000fff.

Definition AUTOEXECPROGBUF_OFFSET : Z := 16.
Definition AUTOEXECDATA_OFFSET : Z := 0.

Definition AUTOEXECPROGBUF_SIZE : Z := 16.
Definition AUTOEXECDATA_SIZE : Z := 12.

Definition DMI_ADDR : Z := 0x18.
Definition RESET_VALUE : Z := 0.

Record t : Type := mk {
  mPrettyPrint : bool;
  mAbstractautoReg : Z;
  cerr : list string;
}.

Definition new : t :=
  {| mPrettyPrint := false; mAbstractautoReg := RESET_VALUE; cerr := [] |}.

Definition with_reg (r : t) (v : Z) : t :=
  {| mPrettyPrint := mPrettyPrint r; mAbstractautoReg := v; cerr := cerr r |}.

Definition warn (r : t) (line : string) : t :=
  {| mPrettyPrint := mPrettyPrint r; mAbstractautoReg := mAbstractautoReg r;
     cerr := cerr r ++ [line] |}.

Definition read {D} {I : IDtm.IDtm D} (r : t) (d : D) : outcome (t * D) :=
  '(v, d1) <- IDtm.dmiRead DMI_ADDR d ;;
  Ret (with_reg r v, d1).

Definition reset (r : t) : t := with_reg r RESET_VALUE.

Definition write {D} {I : IDtm.IDtm D} (r : t) (d : D) : outcome D :=
  IDtm.dmiWrite DMI_ADDR (mAbstractautoReg r) d.

(** The getter [Dmi::Abstractauto::autoexecprogbuf () const]: the masked
    register is shifted left, as a 32-bit value, and narrowed to
    [uint16_t]. *)
Definition autoexecprogbuf (r : t) : Z :=
  u16 (u32 (Z.shiftl (Z.land (mAbstractautoReg r) AUTOEXECPROGBUF_MASK)
              AUTOEXECPROGBUF_OFFSET)).

(** The setter [Dmi::Abstractauto::autoexecprogbuf (const uint16_t)]. *)
Definition set_autoexecprogbuf (autoexecprogbufVal : Z) (r : t) : t :=
  with_reg r
    (Z.lor (Z.land (mAbstractautoReg r) (not32 AUTOEXECPROGBUF_MASK))
           (Z.land (u32 (Z.shiftl autoexecprogbufVal AUTOEXECPROGBUF_OFFSET))
                   AUTOEXECPROGBUF_MASK)).

(** The getter [Dmi::Abstractauto::autoexecdata () const]. *)
Definition autoexecdata (r : t) : Z :=
  u16 (u32 (Z.shiftl (Z.land (mAbstractautoReg r) AUTOEXECDATA_MASK)
              AUTOEXECDATA_OFFSET)).

(** The setter [Dmi::Abstractauto::autoexecdata (const uint16_t)]. *)
Definition set_autoexecdata (autoexecdataVal : Z) (r : t) : t :=
  let r1 :=
    if 2 ^ AUTOEXECDATA_SIZE <=? autoexecdataVal then
      warn r ("Warning: requested value of autoexecdata, "
                +:+ pretty autoexecdataVal
                +:+ ", exceeds the maximum permitted value: higher bits ignored.")
    else r in
  with_reg r1
    (Z.lor (Z.land (mAbstractautoReg r1) (not32 AUTOEXECDATA_MASK))
           (Z.land (u32 (Z.shiftl autoexecdataVal AUTOEXECDATA_OFFSET))
                   AUTOEXECDATA_MASK)).

End Abstractauto.

(** ** [Dmi::Csr]: the CSR addresses *)
Module Csr.
Definition FFLAGS : Z := 0x1.
Definition FRM : Z := 0x2.
Definition FCSR : Z := 0x3.
Definition CYCLE : Z := 0xc00.
Definition INSTRET : Z := 0xc02.
Definition HPMCOUNTER3 : Z := 0xc03.
Definition HPMCOUNTER4 : Z := 0xc04.
Definition HPMCOUNTER5 : Z := 0xc05.
Definition HPMCOUNTER6 : Z := 0xc06.
Definition HPMCOUNTER7 : Z := 0xc07.
Definition HPMCOUNTER8 : Z := 0xc08.
Definition HPMCOUNTER9 : Z := 0xc09.
Definition HPMCOUNTER10 : Z := 0xc0a.
Definition HPMCOUNTER11 : Z := 0xc0b.
Definition HPMCOUNTER12 : Z := 0xc0c.
Definition HPMCOUNTER13 : Z := 0xc0d.
Definition HPMCOUNTER14 : Z := 0xc0e.
Definition HPMCOUNTER15 : Z := 0xc0f.
Definition HPMCOUNTER16 : Z := 0xc10.
Definition HPMCOUNTER17 : Z := 0xc11.
Definition HPMCOUNTER18 : Z := 0xc12.
Definition HPMCOUNTER19 : Z := 0xc13.
Definition HPMCOUNTER20 : Z := 0xc14.
Definition HPMCOUNTER21 : Z := 0xc15.
Definition HPMCOUNTER22 : Z := 0xc16.
Definition HPMCOUNTER23 : Z := 0xc17.
Definition HPMCOUNTER24 : Z := 0xc18.
Definition HPMCOUNTER25 : Z := 0xc19.
Definition HPMCOUNTER26 : Z := 0xc1a.
Definition HPMCOUNTER27 : Z := 0xc1b.
Definition HPMCOUNTER28 : Z := 0xc1c.
Definition HPMCOUNTER29 : Z := 0xc1d.
Definition HPMCOUNTER30 : Z := 0xc1e.
Definition HPMCOUNTER31 : Z := 0xc1f.
Definition CYCLEH : Z := 0xc80.
Definition INSTRETH : Z := 0xc82.
Definition HPMCOUNTERH3 : Z := 0xc83.
Definition HPMCOUNTERH4 : Z := 0xc84.
Definition HPMCOUNTERH5 : Z := 0xc85.
Definition HPMCOUNTERH6 : Z := 0xc86.
Definition HPMCOUNTERH7 : Z := 0xc87.
Definition HPMCOUNTERH8 : Z := 0xc88.
Definition HPMCOUNTERH9 : Z := 0xc89.
Definition HPMCOUNTERH10 : Z := 0xc8a.
Definition HPMCOUNTERH11 : Z := 0xc8b.
Definition HPMCOUNTERH12 : Z := 0xc8c.
Definition HPMCOUNTERH13 : Z := 0xc8d.
Definition HPMCOUNTERH14 : Z := 0xc8e.
Definition HPMCOUNTERH15 : Z := 0xc8f.
Definition HPMCOUNTERH16 : Z := 0xc90.
Definition HPMCOUNTERH17 : Z := 0xc91.
Definition HPMCOUNTERH18 : Z := 0xc92.
Definition HPMCOUNTERH19 : Z := 0xc93.
Definition HPMCOUNTERH20 : Z := 0xc94.
Definition HPMCOUNTERH21 : Z := 0xc95.
Definition HPMCOUNTERH22 : Z := 0xc96.
Definition HPMCOUNTERH23 : Z := 0xc97.
Definition HPMCOUNTERH24 : Z := 0xc98.
Definition HPMCOUNTERH25 : Z := 0xc99.
Definition HPMCOUNTERH26 : Z := 0xc9a.
Definition HPMCOUNTERH27 : Z := 0xc9b.
Definition HPMCOUNTERH28 : Z := 0xc9c.
Definition HPMCOUNTERH29 : Z := 0xc9d.
Definition HPMCOUNTERH30 : Z := 0xc9e.
Definition HPMCOUNTERH31 : Z := 0xc9f.
Definition LPSTART0 : Z := 0x800.
Definition LPEND0 : Z := 0x801.
Definition LPCOUNT0 : Z := 0x802.
Definition LPSTART1 : Z := 0x804.
Definition LPEND1 : Z := 0x805.
Definition LPCOUNT1 : Z := 0x806.
Definition UHARTID : Z := 0xcc0.
Definition PRIVLV : Z := 0xcc1.
Definition MSTATUS : Z := 0x300.
Definition MISA : Z := 0x301.
Definition MIE : Z := 0x304.
Definition MTVEC : Z := 0x305.
Definition MCOUNTINHIBIT : Z := 0x320.
Definition MHPMEVENT3 : Z := 0x323.
Definition MHPMEVENT4 : Z := 0x324.
Definition MHPMEVENT5 : Z := 0x325.
Definition MHPMEVENT6 : Z := 0x326.
Definition MHPMEVENT7 : Z := 0x327.
Definition MHPMEVENT8 : Z := 0x328.
Definition MHPMEVENT9 : Z := 0x329.
Definition MHPMEVENT10 : Z := 0x32a.
Definition MHPMEVENT11 : Z := 0x32b.
Definition MHPMEVENT12 : Z := 0x32c.
Definition MHPMEVENT13 : Z := 0x32d.
Definition MHPMEVENT14 : Z := 0x32e.
Definition MHPMEVENT15 : Z := 0x32f.
Definition MHPMEVENT16 : Z := 0x330.
Definition MHPMEVENT17 : Z := 0x331.
Definition MHPMEVENT18 : Z := 0x332.
Definition MHPMEVENT19 : Z := 0x333.
Definition MHPMEVENT20 : Z := 0x334.
Definition MHPMEVENT21 : Z := 0x335.
Definition MHPMEVENT22 : Z := 0x336.
Definition MHPMEVENT23 : Z := 0x337.
Definition MHPMEVENT24 : Z := 0x338.
Definition MHPMEVENT25 : Z := 0x339.
Definition MHPMEVENT26 : Z := 0x33a.
Definition MHPMEVENT27 : Z := 0x33b.
Definition MHPMEVENT28 : Z := 0x33c.
Definition MHPMEVENT29 : Z := 0x33d.
Definition MHPMEVENT30 : Z := 0x33e.
Definition MHPMEVENT31 : Z := 0x33f.
Definition MSCRATCH : Z := 0x340.
Definition MEPC : Z := 0x341.
Definition MCAUSE : Z := 0x342.
Definition MTVAL : Z := 0x343.
Definition MIP : Z := 0x344.
Definition TSELECT : Z := 0x7a0.
Definition TDATA1 : Z := 0x7a1.
Definition TDATA2 : Z := 0x7a2.
Definition TDATA3 : Z := 0x7a3.
Definition TINFO : Z := 0x7a4.
Definition MCONTEXT : Z := 0x7a8.
Definition SCONTEXT : Z := 0x7aa.
Definition DCSR : Z := 0x7b0.
Definition DPC : Z := 0x7b1.
Definition DSCRATCH0 : Z := 0x7b2.
Definition DSCRATCH1 : Z := 0x7b3.
Definition MCYCLE : Z := 0xb00.
Definition MINSTRET : Z := 0xb02.
Definition MHPMCOUNTER3 : Z := 0xb03.
Definition MHPMCOUNTER4 : Z := 0xb04.
Definition MHPMCOUNTER5 : Z := 0xb05.
Definition MHPMCOUNTER6 : Z := 0xb06.
Definition MHPMCOUNTER7 : Z := 0xb07.
Definition MHPMCOUNTER8 : Z := 0xb08.
Definition MHPMCOUNTER9 : Z := 0xb09.
Definition MHPMCOUNTER10 : Z := 0xb0a.
Definition MHPMCOUNTER11 : Z := 0xb0b.
Definition MHPMCOUNTER12 : Z := 0xb0c.
Definition MHPMCOUNTER13 : Z := 0xb0d.
Definition MHPMCOUNTER14 : Z := 0xb0e.
Definition MHPMCOUNTER15 : Z := 0xb0f.
Definition MHPMCOUNTER16 : Z := 0xb10.
Definition MHPMCOUNTER17 : Z := 0xb11.
Definition MHPMCOUNTER18 : Z := 0xb12.
Definition MHPMCOUNTER19 : Z := 0xb13.
Definition MHPMCOUNTER20 : Z := 0xb14.
Definition MHPMCOUNTER21 : Z := 0xb15.
Definition MHPMCOUNTER22 : Z := 0xb16.
Definition MHPMCOUNTER23 : Z := 0xb17.
Definition MHPMCOUNTER24 : Z := 0xb18.
Definition MHPMCOUNTER25 : Z := 0xb19.
Definition MHPMCOUNTER26 : Z := 0xb1a.
Definition MHPMCOUNTER27 : Z := 0xb1b.
Definition MHPMCOUNTER28 : Z := 0xb1c.
Definition MHPMCOUNTER29 : Z := 0xb1d.
Definition MHPMCOUNTER30 : Z := 0xb1e.
Definition MHPMCOUNTER31 : Z := 0xb1f.
Definition MCYCLEH : Z := 0xb80.
Definition MINSTRETH : Z := 0xb82.
Definition MHPMCOUNTERH3 : Z := 0xb83.
Definition MHPMCOUNTERH4 : Z := 0xb84.
Definition MHPMCOUNTERH5 : Z := 0xb85.
Definition MHPMCOUNTERH6 : Z := 0xb86.
Definition MHPMCOUNTERH7 : Z := 0xb87.
Definition MHPMCOUNTERH8 : Z := 0xb88.
Definition MHPMCOUNTERH9 : Z := 0xb89.
Definition MHPMCOUNTERH10 : Z := 0xb8a.
Definition MHPMCOUNTERH11 : Z := 0xb8b.
Definition MHPMCOUNTERH12 : Z := 0xb8c.
Definition MHPMCOUNTERH13 : Z := 0xb8d.
Definition MHPMCOUNTERH14 : Z := 0xb8e.
Definition MHPMCOUNTERH15 : Z := 0xb8f.
Definition MHPMCOUNTERH16 : Z := 0xb90.
Definition MHPMCOUNTERH17 : Z := 0xb91.
Definition MHPMCOUNTERH18 : Z := 0xb92.
Definition MHPMCOUNTERH19 : Z := 0xb93.
Definition MHPMCOUNTERH20 : Z := 0xb94.
Definition MHPMCOUNTERH21 : Z := 0xb95.
Definition MHPMCOUNTERH22 : Z := 0xb96.
Definition MHPMCOUNTERH23 : Z := 0xb97.
Definition MHPMCOUNTERH24 : Z := 0xb98.
Definition MHPMCOUNTERH25 : Z := 0xb99.
Definition MHPMCOUNTERH26 : Z := 0xb9a.
Definition MHPMCOUNTERH27 : Z := 0xb9b.
Definition MHPMCOUNTERH28 : Z := 0xb9c.
Definition MHPMCOUNTERH29 : Z := 0xb9d.
Definition MHPMCOUNTERH30 : Z := 0xb9e.
Definition MHPMCOUNTERH31 : Z := 0xb9f.
Definition MVENDORID : Z := 0xf11.
Definition MARCHID : Z := 0xf12.
Definition MIMPID : Z := 0xf13.
Definition MHARTID : Z := 0xf14.

End Csr.

(** ** The CSR catalogue *)

(** [Dmi::CsrType]. *)
Inductive CsrType : Type := NONE | ANY | FP | HWLP.

#[global] Instance CsrType_eq_dec : EqDecision CsrType.
Proof. solve_decision. Defined.

(** [Dmi::CsrInfo]. *)
Record CsrInfo : Type := mkCsrInfo {
  name : string;
  readOnly : bool;
  type : CsrType;
}.

#[global] Instance CsrInfo_eq_dec : EqDecision CsrInfo.
Proof. solve_decision. Defined.

Definition GPR_BASE : Z := 0x1000.
Definition FPR_BASE : Z := 0x1020.

(** The initialiser list of [Dmi::mCsrMap], in the order of the source. *)
Definition mCsrMap_init : list (Z * CsrInfo) :=
  [
    (Csr.FFLAGS, mkCsrInfo "fflags" false FP);
    (Csr.FRM, mkCsrInfo "frm" false FP);
    (Csr.FCSR, mkCsrInfo "fcsr" false FP);
    (Csr.CYCLE, mkCsrInfo "cycle" true ANY);
    (Csr.INSTRET, mkCsrInfo "instret" true ANY);
    (Csr.HPMCOUNTER3, mkCsrInfo "hpmcounter3" true ANY);
    (Csr.HPMCOUNTER4, mkCsrInfo "hpmcounter4" true ANY);
    (Csr.HPMCOUNTER5, mkCsrInfo "hpmcounter5" true ANY);
    (Csr.HPMCOUNTER6, mkCsrInfo "hpmcounter6" true ANY);
    (Csr.HPMCOUNTER7, mkCsrInfo "hpmcounter7" true ANY);
    (Csr.HPMCOUNTER8, mkCsrInfo "hpmcounter8" true ANY);
    (Csr.HPMCOUNTER9, mkCsrInfo "hpmcounter9" true ANY);
    (Csr.HPMCOUNTER10, mkCsrInfo "hpmcounter10" true ANY);
    (Csr.HPMCOUNTER11, mkCsrInfo "hpmcounter11" true ANY);
    (Csr.HPMCOUNTER12, mkCsrInfo "hpmcounter12" true ANY);
    (Csr.HPMCOUNTER13, mkCsrInfo "hpmcounter13" true ANY);
    (Csr.HPMCOUNTER14, mkCsrInfo "hpmcounter14" true ANY);
    (Csr.HPMCOUNTER15, mkCsrInfo "hpmcounter15" true ANY);
    (Csr.HPMCOUNTER16, mkCsrInfo "hpmcounter16" true ANY);
    (Csr.HPMCOUNTER17, mkCsrInfo "hpmcounter17" true ANY);
    (Csr.HPMCOUNTER18, mkCsrInfo "hpmcounter18" true ANY);
    (Csr.HPMCOUNTER19, mkCsrInfo "hpmcounter19" true ANY);
    (Csr.HPMCOUNTER20, mkCsrInfo "hpmcounter20" true ANY);
    (Csr.HPMCOUNTER21, mkCsrInfo "hpmcounter21" true ANY);
    (Csr.HPMCOUNTER22, mkCsrInfo "hpmcounter22" true ANY);
    (Csr.HPMCOUNTER23, mkCsrInfo "hpmcounter23" true ANY);
    (Csr.HPMCOUNTER24, mkCsrInfo "hpmcounter24" true ANY);
    (Csr.HPMCOUNTER25, mkCsrInfo "hpmcounter25" true ANY);
    (Csr.HPMCOUNTER26, mkCsrInfo "hpmcounter26" true ANY);
    (Csr.HPMCOUNTER27, mkCsrInfo "hpmcounter27" true ANY);
    (Csr.HPMCOUNTER28, mkCsrInfo "hpmcounter28" true ANY);
    (Csr.HPMCOUNTER29, mkCsrInfo "hpmcounter29" true ANY);
    (Csr.HPMCOUNTER30, mkCsrInfo "hpmcounter30" true ANY);
    (Csr.HPMCOUNTER31, mkCsrInfo "hpmcounter31" true ANY);
    (Csr.CYCLEH, mkCsrInfo "cycleh" true ANY);
    (Csr.INSTRETH, mkCsrInfo "instreth" true ANY);
    (Csr.HPMCOUNTERH3, mkCsrInfo "hpmcounterh3" true ANY);
    (Csr.HPMCOUNTERH4, mkCsrInfo "hpmcounterh4" true ANY);
    (Csr.HPMCOUNTERH5, mkCsrInfo "hpmcounterh5" true ANY);
    (Csr.HPMCOUNTERH6, mkCsrInfo "hpmcounterh6" true ANY);
    (Csr.HPMCOUNTERH7, mkCsrInfo "hpmcounterh7" true ANY);
    (Csr.HPMCOUNTERH8, mkCsrInfo "hpmcounterh8" true ANY);
    (Csr.HPMCOUNTERH9, mkCsrInfo "hpmcounterh9" true ANY);
    (Csr.HPMCOUNTERH10, mkCsrInfo "hpmcounterh10" true ANY);
    (Csr.HPMCOUNTERH11, mkCsrInfo "hpmcounterh11" true ANY);
    (Csr.HPMCOUNTERH12, mkCsrInfo "hpmcounterh12" true ANY);
    (Csr.HPMCOUNTERH13, mkCsrInfo "hpmcounterh13" true ANY);
    (Csr.HPMCOUNTERH14, mkCsrInfo "hpmcounterh14" true ANY);
    (Csr.HPMCOUNTERH15, mkCsrInfo "hpmcounterh15" true ANY);
    (Csr.HPMCOUNTERH16, mkCsrInfo "hpmcounterh16" true ANY);
    (Csr.HPMCOUNTERH17, mkCsrInfo "hpmcounterh17" true ANY);
    (Csr.HPMCOUNTERH18, mkCsrInfo "hpmcounterh18" true ANY);
    (Csr.HPMCOUNTERH19, mkCsrInfo "hpmcounterh19" true ANY);
    (Csr.HPMCOUNTERH20, mkCsrInfo "hpmcounterh20" true ANY);
    (Csr.HPMCOUNTERH21, mkCsrInfo "hpmcounterh21" true ANY);
    (Csr.HPMCOUNTERH22, mkCsrInfo "hpmcounterh22" true ANY);
    (Csr.HPMCOUNTERH23, mkCsrInfo "hpmcounterh23" true ANY);
    (Csr.HPMCOUNTERH24, mkCsrInfo "hpmcounterh24" true ANY);
    (Csr.HPMCOUNTERH25, mkCsrInfo "hpmcounterh25" true ANY);
    (Csr.HPMCOUNTERH26, mkCsrInfo "hpmcounterh26" true ANY);
    (Csr.HPMCOUNTERH27, mkCsrInfo "hpmcounterh27" true ANY);
    (Csr.HPMCOUNTERH28, mkCsrInfo "hpmcounterh28" true ANY);
    (Csr.HPMCOUNTERH29, mkCsrInfo "hpmcounterh29" true ANY);
    (Csr.HPMCOUNTERH30, mkCsrInfo "hpmcounterh30" true ANY);
    (Csr.HPMCOUNTERH31, mkCsrInfo "hpmcounterh31" true ANY);
    (Csr.LPSTART0, mkCsrInfo "lpstart0" false HWLP);
    (Csr.LPEND0, mkCsrInfo "lpend0" false HWLP);
    (Csr.LPCOUNT0, mkCsrInfo "lpcount0" false HWLP);
    (Csr.LPSTART1, mkCsrInfo "lpstart1" false HWLP);
    (Csr.LPEND1, mkCsrInfo "lpend1" false HWLP);
    (Csr.LPCOUNT1, mkCsrInfo "lpcount1" false HWLP);
    (Csr.UHARTID, mkCsrInfo "uhartid" true ANY);
    (Csr.PRIVLV, mkCsrInfo "privlv" true ANY);
    (Csr.MSTATUS, mkCsrInfo "mstatus" false ANY);
    (Csr.MISA, mkCsrInfo "misa" false ANY);
    (Csr.MIE, mkCsrInfo "mie" false ANY);
    (Csr.MTVEC, mkCsrInfo "mtvec" false ANY);
    (Csr.MCOUNTINHIBIT, mkCsrInfo "mcountinhibit" false ANY);
    (Csr.MHPMEVENT3, mkCsrInfo "mhpmevent3" false ANY);
    (Csr.MHPMEVENT4, mkCsrInfo "mhpmevent4" false ANY);
    (Csr.MHPMEVENT5, mkCsrInfo "mhpmevent5" false ANY);
    (Csr.MHPMEVENT6, mkCsrInfo "mhpmevent6" false ANY);
    (Csr.MHPMEVENT7, mkCsrInfo "mhpmevent7" false ANY);
    (Csr.MHPMEVENT8, mkCsrInfo "mhpmevent8" false ANY);
    (Csr.MHPMEVENT9, mkCsrInfo "mhpmevent9" false ANY);
    (Csr.MHPMEVENT10, mkCsrInfo "mhpmevent10" false ANY);
    (Csr.MHPMEVENT11, mkCsrInfo "mhpmevent11" false ANY);
    (Csr.MHPMEVENT12, mkCsrInfo "mhpmevent12" false ANY);
    (Csr.MHPMEVENT13, mkCsrInfo "mhpmevent13" false ANY);
    (Csr.MHPMEVENT14, mkCsrInfo "mhpmevent14" false ANY);
    (Csr.MHPMEVENT15, mkCsrInfo "mhpmevent15" false ANY);
    (Csr.MHPMEVENT16, mkCsrInfo "mhpmevent16" false ANY);
    (Csr.MHPMEVENT17, mkCsrInfo "mhpmevent17" false ANY);
    (Csr.MHPMEVENT18, mkCsrInfo "mhpmevent18" false ANY);
    (Csr.MHPMEVENT19, mkCsrInfo "mhpmevent19" false ANY);
    (Csr.MHPMEVENT20, mkCsrInfo "mhpmevent20" false ANY);
    (Csr.MHPMEVENT21, mkCsrInfo "mhpmevent21" false ANY);
    (Csr.MHPMEVENT22, mkCsrInfo "mhpmevent22" false ANY);
    (Csr.MHPMEVENT23, mkCsrInfo "mhpmevent23" false ANY);
    (Csr.MHPMEVENT24, mkCsrInfo "mhpmevent24" false ANY);
    (Csr.MHPMEVENT25, mkCsrInfo "mhpmevent25" false ANY);
    (Csr.MHPMEVENT26, mkCsrInfo "mhpmevent26" false ANY);
    (Csr.MHPMEVENT27, mkCsrInfo "mhpmevent27" false ANY);
    (Csr.MHPMEVENT28, mkCsrInfo "mhpmevent28" false ANY);
    (Csr.MHPMEVENT29, mkCsrInfo "mhpmevent29" false ANY);
    (Csr.MHPMEVENT30, mkCsrInfo "mhpmevent30" false ANY);
    (Csr.MHPMEVENT31, mkCsrInfo "mhpmevent31" false ANY);
    (Csr.MSCRATCH, mkCsrInfo "mscratch" false ANY);
    (Csr.MEPC, mkCsrInfo "mepc" false ANY);
    (Csr.MCAUSE, mkCsrInfo "mcause" false ANY);
    (Csr.MTVAL, mkCsrInfo "mtval" false ANY);
    (Csr.MIP, mkCsrInfo "mip" false ANY);
    (Csr.TSELECT, mkCsrInfo "tselect" false ANY);
    (Csr.TDATA1, mkCsrInfo "tdata1" false ANY);
    (Csr.TDATA2, mkCsrInfo "tdata2" false ANY);
    (Csr.TDATA3, mkCsrInfo "tdata3" false ANY);
    (Csr.TINFO, mkCsrInfo "tinfo" true ANY);
    (Csr.MCONTEXT, mkCsrInfo "mcontext" false ANY);
    (Csr.SCONTEXT, mkCsrInfo "scontext" false ANY);
    (Csr.DCSR, mkCsrInfo "dcsr" false ANY);
    (Csr.DPC, mkCsrInfo "dpc" false ANY);
    (Csr.DSCRATCH0, mkCsrInfo "dscratch0" false ANY);
    (Csr.DSCRATCH1, mkCsrInfo "dscratch1" false ANY);
    (Csr.MCYCLE, mkCsrInfo "mcycle" false ANY);
    (Csr.MINSTRET, mkCsrInfo "minstret" false ANY);
    (Csr.MHPMCOUNTER3, mkCsrInfo "mhpmcounter3" false ANY);
    (Csr.MHPMCOUNTER4, mkCsrInfo "mhpmcounter4" false ANY);
    (Csr.MHPMCOUNTER5, mkCsrInfo "mhpmcounter5" false ANY);
    (Csr.MHPMCOUNTER6, mkCsrInfo "mhpmcounter6" false ANY);
    (Csr.MHPMCOUNTER7, mkCsrInfo "mhpmcounter7" false ANY);
    (Csr.MHPMCOUNTER8, mkCsrInfo "mhpmcounter8" false ANY);
    (Csr.MHPMCOUNTER9, mkCsrInfo "mhpmcounter9" false ANY);
    (Csr.MHPMCOUNTER10, mkCsrInfo "mhpmcounter10" false ANY);
    (Csr.MHPMCOUNTER11, mkCsrInfo "mhpmcounter11" false ANY);
    (Csr.MHPMCOUNTER12, mkCsrInfo "mhpmcounter12" false ANY);
    (Csr.MHPMCOUNTER13, mkCsrInfo "mhpmcounter13" false ANY);
    (Csr.MHPMCOUNTER14, mkCsrInfo "mhpmcounter14" false ANY);
    (Csr.MHPMCOUNTER15, mkCsrInfo "mhpmcounter15" false ANY);
    (Csr.MHPMCOUNTER16, mkCsrInfo "mhpmcounter16" false ANY);
    (Csr.MHPMCOUNTER17, mkCsrInfo "mhpmcounter17" false ANY);
    (Csr.MHPMCOUNTER18, mkCsrInfo "mhpmcounter18" false ANY);
    (Csr.MHPMCOUNTER19, mkCsrInfo "mhpmcounter19" false ANY);
    (Csr.MHPMCOUNTER20, mkCsrInfo "mhpmcounter20" false ANY);
    (Csr.MHPMCOUNTER21, mkCsrInfo "mhpmcounter21" false ANY);
    (Csr.MHPMCOUNTER22, mkCsrInfo "mhpmcounter22" false ANY);
    (Csr.MHPMCOUNTER23, mkCsrInfo "mhpmcounter23" false ANY);
    (Csr.MHPMCOUNTER24, mkCsrInfo "mhpmcounter24" false ANY);
    (Csr.MHPMCOUNTER25, mkCsrInfo "mhpmcounter25" false ANY);
    (Csr.MHPMCOUNTER26, mkCsrInfo "mhpmcounter26" false ANY);
    (Csr.MHPMCOUNTER27, mkCsrInfo "mhpmcounter27" false ANY);
    (Csr.MHPMCOUNTER28, mkCsrInfo "mhpmcounter28" false ANY);
    (Csr.MHPMCOUNTER29, mkCsrInfo "mhpmcounter29" false ANY);
    (Csr.MHPMCOUNTER30, mkCsrInfo "mhpmcounter30" false ANY);
    (Csr.MHPMCOUNTER31, mkCsrInfo "mhpmcounter31" false ANY);
    (Csr.MCYCLEH, mkCsrInfo "mcycleh" false ANY);
    (Csr.MINSTRETH, mkCsrInfo "minstreth" false ANY);
    (Csr.MHPMCOUNTERH3, mkCsrInfo "mhpmcounterh3" false ANY);
    (Csr.MHPMCOUNTERH4, mkCsrInfo "mhpmcounterh4" false ANY);
    (Csr.MHPMCOUNTERH5, mkCsrInfo "mhpmcounterh5" false ANY);
    (Csr.MHPMCOUNTERH6, mkCsrInfo "mhpmcounterh6" false ANY);
    (Csr.MHPMCOUNTERH7, mkCsrInfo "mhpmcounterh7" false ANY);
    (Csr.MHPMCOUNTERH8, mkCsrInfo "mhpmcounterh8" false ANY);
    (Csr.MHPMCOUNTERH9, mkCsrInfo "mhpmcounterh9" false ANY);
    (Csr.MHPMCOUNTERH10, mkCsrInfo "mhpmcounterh10" false ANY);
    (Csr.MHPMCOUNTERH11, mkCsrInfo "mhpmcounterh11" false ANY);
    (Csr.MHPMCOUNTERH12, mkCsrInfo "mhpmcounterh12" false ANY);
    (Csr.MHPMCOUNTERH13, mkCsrInfo "mhpmcounterh13" false ANY);
    (Csr.MHPMCOUNTERH14, mkCsrInfo "mhpmcounterh14" false ANY);
    (Csr.MHPMCOUNTERH15, mkCsrInfo "mhpmcounterh15" false ANY);
    (Csr.MHPMCOUNTERH16, mkCsrInfo "mhpmcounterh16" false ANY);
    (Csr.MHPMCOUNTERH17, mkCsrInfo "mhpmcounterh17" false ANY);
    (Csr.MHPMCOUNTERH18, mkCsrInfo "mhpmcounterh18" false ANY);
    (Csr.MHPMCOUNTERH19, mkCsrInfo "mhpmcounterh19" false ANY);
    (Csr.MHPMCOUNTERH20, mkCsrInfo "mhpmcounterh20" false ANY);
    (Csr.MHPMCOUNTERH21, mkCsrInfo "mhpmcounterh21" false ANY);
    (Csr.MHPMCOUNTERH22, mkCsrInfo "mhpmcounterh22" false ANY);
    (Csr.MHPMCOUNTERH23, mkCsrInfo "mhpmcounterh23" false ANY);
    (Csr.MHPMCOUNTERH24, mkCsrInfo "mhpmcounterh24" false ANY);
    (Csr.MHPMCOUNTERH25, mkCsrInfo "mhpmcounterh25" false ANY);
    (Csr.MHPMCOUNTERH26, mkCsrInfo "mhpmcounterh26" false ANY);
    (Csr.MHPMCOUNTERH27, mkCsrInfo "mhpmcounterh27" false ANY);
    (Csr.MHPMCOUNTERH28, mkCsrInfo "mhpmcounterh28" false ANY);
    (Csr.MHPMCOUNTERH29, mkCsrInfo "mhpmcounterh29" false ANY);
    (Csr.MHPMCOUNTERH30, mkCsrInfo "mhpmcounterh30" false ANY);
    (Csr.MHPMCOUNTERH31, mkCsrInfo "mhpmcounterh31" false ANY);
    (Csr.MVENDORID, mkCsrInfo "mvendorid" true ANY);
    (Csr.MARCHID, mkCsrInfo "marchid" true ANY);
    (Csr.MIMPID, mkCsrInfo "mimpid" true ANY);
    (Csr.MHARTID, mkCsrInfo "mhartid" true ANY)
  ].

(** [Dmi::mCsrMap]: a [std::map] built from the initialiser list; were a
    key repeated, the first entry of the list would be the one kept, as
    with [list_to_map]. *)
Definition mCsrMap : gmap Z CsrInfo := list_to_map mCsrMap_init.

(** ** The [Dmi] object *)

Record t (D : Type) : Type := mk {
  mDtm : D;
  mData : Data.t;
  mDmcontrol : Dmcontrol.t;
  mAbstractcs : Abstractcs.t;
  mCommand : Command.t;
  mSbaddress : Sbaddress.t;
  mSbcs : Sbcs.t;
  mSbdata : Sbdata.t;
}.

Arguments mk {D}.
Arguments mDtm {D}.
Arguments mData {D}.
Arguments mDmcontrol {D}.
Arguments mAbstractcs {D}.
Arguments mCommand {D}.
Arguments mSbaddress {D}.
Arguments mSbcs {D}.
Arguments mSbdata {D}.

Section WithDtm.
Context {D : Type} {I : IDtm.IDtm D}.

(** [Dmi::Dmi]. *)
Definition new (dtm_ : D) : t D :=
  {| mDtm := dtm_; mData := Data.new; mDmcontrol := Dmcontrol.new;
     mAbstractcs := Abstractcs.new; mCommand := Command.new;
     mSbaddress := Sbaddress.new; mSbcs := Sbcs.new; mSbdata := Sbdata.new |}.

Definition with_dtm (s : t D) (d : D) : t D :=
  {| mDtm := d; mData := mData s; mDmcontrol := mDmcontrol s;
     mAbstractcs := mAbstractcs s; mCommand := mCommand s;
     mSbaddress := mSbaddress s; mSbcs := mSbcs s; mSbdata := mSbdata s |}.

Definition with_data (s : t D) (r : Data.t) : t D :=
  {| mDtm := mDtm s; mData := r; mDmcontrol := mDmcontrol s;
     mAbstractcs := mAbstractcs s; mCommand := mCommand s;
     mSbaddress := mSbaddress s; mSbcs := mSbcs s; mSbdata := mSbdata s |}.

Definition with_dmcontrol (s : t D) (r : Dmcontrol.t) : t D :=
  {| mDtm := mDtm s; mData := mData s; mDmcontrol := r;
     mAbstractcs := mAbstractcs s; mCommand := mCommand s;
     mSbaddress := mSbaddress s; mSbcs := mSbcs s; mSbdata := mSbdata s |}.

Definition with_abstractcs (s : t D) (r : Abstractcs.t) : t D :=
  {| mDtm := mDtm s; mData := mData s; mDmcontrol := mDmcontrol s;
     mAbstractcs := r; mCommand := mCommand s;
     mSbaddress := mSbaddress s; mSbcs := mSbcs s; mSbdata := mSbdata s |}.

Definition with_command (s : t D) (r : Command.t) : t D :=
  {| mDtm := mDtm s; mData := mData s; mDmcontrol := mDmcontrol s;
     mAbstractcs := mAbstractcs s; mCommand := r;
     mSbaddress := mSbaddress s; mSbcs := mSbcs s; mSbdata := mSbdata s |}.

Definition with_sbaddress (s : t D) (r : Sbaddress.t) : t D :=
  {| mDtm := mDtm s; mData := mData s; mDmcontrol := mDmcontrol s;
     mAbstractcs := mAbstractcs s; mCommand := mCommand s;
     mSbaddress := r; mSbcs := mSbcs s; mSbdata := mSbdata s |}.

Definition with_sbcs (s : t D) (r : Sbcs.t) : t D :=
  {| mDtm := mDtm s; mData := mData s; mDmcontrol := mDmcontrol s;
     mAbstractcs := mAbstractcs s; mCommand := mCommand s;
     mSbaddress := mSbaddress s; mSbcs := r; mSbdata := mSbdata s |}.

Definition with_sbdata (s : t D) (r : Sbdata.t) : t D :=
  {| mDtm := mDtm s; mData := mData s; mDmcontrol := mDmcontrol s;
     mAbstractcs := mAbstractcs s; mCommand := mCommand s;
     mSbaddress := mSbaddress s; mSbcs := mSbcs s; mSbdata := r |}.

(** [mDmcontrol->write ()] seen from the [Dmi]. *)
Definition dmcontrol_write (s : t D) : outcome (t D) :=
  d <- Dmcontrol.write (mDmcontrol s) (mDtm s) ;;
  Ret (with_dtm s d).

(** [Dmi::selectHart]. *)
Definition selectHart (h : Z) (s : t D) : outcome (t D) :=
  let r := Dmcontrol.set_dmactive true
             (Dmcontrol.set_hartsel h (Dmcontrol.reset (mDmcontrol s))) in
  dmcontrol_write (with_dmcontrol s r).

(** [Dmi::hartsellen]. *)
Definition hartsellen (s : t D) : outcome (Z * t D) :=
  s1 <- selectHart Dmcontrol.hartselMax s ;;
  let r := Dmcontrol.reset (mDmcontrol s1) in
  Ret (Dmcontrol.hartsel r, with_dmcontrol s1 r).

(** [Dmi::haltHart]. *)
Definition haltHart (h : Z) (s : t D) : outcome (t D) :=
  let r := Dmcontrol.set_dmactive true
             (Dmcontrol.set_hartsel h
                (Dmcontrol.haltreq true (Dmcontrol.reset (mDmcontrol s)))) in
  dmcontrol_write (with_dmcontrol s r).

(** [Dmi::csrName], [Dmi::csrReadOnly], [Dmi::csrType]: [std::map::at]
    throws [std::out_of_range] for a key that is absent, and the handler
    gives the default. *)
Definition csrName (csrAddr : Z) : string :=
  match mCsrMap !! csrAddr with
  | Some info => name info
  | None => "UNKNOWN"
  end.

Definition csrReadOnly (csrAddr : Z) : bool :=
  match mCsrMap !! csrAddr with
  | Some info => readOnly info
  | None => true
  end.

Definition csrType (csrAddr : Z) : CsrType :=
  match mCsrMap !! csrAddr with
  | Some info => type info
  | None => NONE
  end.

(** The recovery of [Dmi::readCsr] and [Dmi::writeCsr] from a busy debug
    unit: toggle [ndmreset], then [dmactive]. *)
Fixpoint toggle (set : bool -> Dmcontrol.t -> Dmcontrol.t) (flags : list bool)
    (s : t D) : outcome (t D) :=
  match flags with
  | [] => Ret s
  | flag :: rest =>
      s1 <- dmcontrol_write
              (with_dmcontrol s (set flag (Dmcontrol.reset (mDmcontrol s)))) ;;
      toggle set rest s1
  end.

(** The tail shared by [Dmi::readCsr] and [Dmi::writeCsr] for an error
    other than BUSY: clear [cmderr] and write [abstractcs]. *)
Definition clearCmderr (s : t D) : outcome (t D) :=
  let r := Abstractcs.cmderrClear (mAbstractcs s) in
  d <- Abstractcs.write r (mDtm s) ;;
  Ret (with_dtm (with_abstractcs s r) d).

(** [Dmi::readCsr].  [res] is the out-parameter: it is assigned on
    success only, so the value it held comes in as an argument. *)
Definition readCsr (addr : Z) (res : Z) (s : t D)
  : outcome (Abstractcs.CmderrVal * Z * t D) :=
  let c := Command.aaregno addr
             (Command.aawrite false
                (Command.aatransfer true
                   (Command.aarsize Command.ACCESS32
                      (Command.cmdtype Command.ACCESS_REG
                         (Command.reset (mCommand s)))))) in
  d1 <- Command.write c (mDtm s) ;;
  '(a, d2) <- Abstractcs.read (mAbstractcs s) d1 ;;
  let s2 := with_dtm (with_abstractcs (with_command s c) a) d2 in
  let err := Abstractcs.cmderr a in
  match err with
  | Abstractcs.CMDERR_NONE =>
      '(dr, d3) <- Data.read 0 (mData s2) (mDtm s2) ;;
      let '(v, dr1) := Data.data 0 dr in
      Ret (err, v, with_dtm (with_data s2 dr1) d3)
  | Abstractcs.CMDERR_BUSY =>
      s3 <- toggle Dmcontrol.set_ndmreset [true; false] s2 ;;
      s4 <- toggle Dmcontrol.set_dmactive [false; true] s3 ;;
      Ret (err, res, s4)
  | _ =>
      s3 <- clearCmderr s2 ;;
      Ret (err, res, s3)
  end.

(** [Dmi::writeCsr]. *)
Definition writeCsr (addr : Z) (val : Z) (s : t D)
  : outcome (Abstractcs.CmderrVal * t D) :=
  let dr := Data.set_data 0 val (Data.reset 0 (mData s)) in
  '(dr1, d0) <- Data.write 0 dr (mDtm s) ;;
  let c := Command.aaregno addr
             (Command.aawrite true
                (Command.aatransfer true
                   (Command.aarsize Command.ACCESS32
                      (Command.cmdtype Command.ACCESS_REG
                         (Command.reset (mCommand s)))))) in
  d1 <- Command.write c d0 ;;
  '(a, d2) <- Abstractcs.read (mAbstractcs s) d1 ;;
  let s2 := with_dtm (with_abstractcs (with_command (with_data s dr1) c) a) d2 in
  let err := Abstractcs.cmderr a in
  match err with
  | Abstractcs.CMDERR_NONE => Ret (err, s2)
  | Abstractcs.CMDERR_BUSY =>
      s3 <- toggle Dmcontrol.set_ndmreset [true; false] s2 ;;
      s4 <- toggle Dmcontrol.set_dmactive [false; true] s3 ;;
      Ret (err, s4)
  | _ =>
      s3 <- clearCmderr s2 ;;
      Ret (err, s3)
  end.

(** [Dmi::readGpr], [Dmi::writeGpr], [Dmi::readFpr], [Dmi::writeFpr];
    [regNum] is a [size_t], narrowed to [uint16_t] before the base is
    added, and the sum is narrowed again to the [uint16_t] address. *)
Definition readGpr (regNum : Z) (res : Z) (s : t D)
  : outcome (Abstractcs.CmderrVal * Z * t D) :=
  readCsr (u16 (GPR_BASE + u16 regNum)) res s.

Definition writeGpr (regNum : Z) (val : Z) (s : t D)
  : outcome (Abstractcs.CmderrVal * t D) :=
  writeCsr (u16 (GPR_BASE + u16 regNum)) val s.

Definition readFpr (regNum : Z) (res : Z) (s : t D)
  : outcome (Abstractcs.CmderrVal * Z * t D) :=
  let csrNum := u16 (FPR_BASE + u16 regNum) in
  readCsr csrNum res s.

Definition writeFpr (regNum : Z) (val : Z) (s : t D)
  : outcome (Abstractcs.CmderrVal * t D) :=
  let csrNum := u16 (FPR_BASE + u16 regNum) in
  writeCsr csrNum val s.

End WithDtm.

Section Memory.
Context {D : Type} {I : IDtm.IDtm D}.

(** [do mSbcs->read (); while (mSbcs->sbbusy ());] *)
Fixpoint sbcs_wait (fuel : nat) (s : t D) : outcome (t D) :=
  match fuel with
  | O => Spin
  | S fuel' =>
      '(r, d) <- Sbcs.read (mSbcs s) (mDtm s) ;;
      let s1 := with_dtm (with_sbcs s r) d in
      if Sbcs.sbbusy r then sbcs_wait fuel' s1 else Ret s1
  end.

(** The sequence that [Dmi::writeMem] repeats to program [sbcs]:
    reset, [sbreadonaddr], [sbaccess (SBACCESS_32)], [sbautoincrement],
    [sbreadondata (false)], [sberrorClear], write. *)
Definition sbcs_setup (readonaddr autoincrement : bool) (s : t D)
  : outcome (t D) :=
  let r := Sbcs.sberrorClear
             (Sbcs.set_sbreadondata false
                (Sbcs.set_sbautoincrement autoincrement
                   (Sbcs.set_sbaccess (Sbcs.SbaccessVal_val Sbcs.SBACCESS_32)
                      (Sbcs.set_sbreadonaddr readonaddr
                         (Sbcs.reset (mSbcs s)))))) in
  d <- Sbcs.write r (mDtm s) ;;
  Ret (with_dtm (with_sbcs s r) d).

(** [mSbaddress->reset (0); mSbaddress->sbaddress (0, a); mSbaddress->write (0);] *)
Definition sbaddress_put (a : Z) (s : t D) : outcome (t D) :=
  let r := Sbaddress.set_sbaddress 0 a (Sbaddress.reset 0 (mSbaddress s)) in
  '(r1, d) <- Sbaddress.write 0 r (mDtm s) ;;
  Ret (with_dtm (with_sbaddress s r1) d).

(** [mSbdata->read (0); w = mSbdata->sbdata (0);] *)
Definition sbdata_get (s : t D) : outcome (Z * t D) :=
  '(r, d) <- Sbdata.read 0 (mSbdata s) (mDtm s) ;;
  let '(w, r1) := Sbdata.sbdata 0 r in
  Ret (w, with_dtm (with_sbdata s r1) d).

(** [mSbdata->sbdata (0, w); mSbdata->write (0);] followed by the wait
    for the bus. *)
Definition sbdata_put (fuel : nat) (w : Z) (s : t D) : outcome (t D) :=
  '(r, d) <- Sbdata.write 0 (Sbdata.set_sbdata 0 w (mSbdata s)) (mDtm s) ;;
  sbcs_wait fuel (with_dtm (with_sbdata s r) d).

(** One turn of the loops that overlay bytes of the buffer on a word:
    [w &= ~(0xff << (8 * i)); w |= buf[bufIndex++] << (8 * i);] *)
Definition overlay (w i byte : Z) : Z :=
  Z.lor (Z.land w (not32 (u32 (Z.shiftl 0xff (8 * i)))))
        (u32 (Z.shiftl byte (8 * i))).

(** The loop [for (size_t i = ..; i < lim; i++)] over the bytes of one
    word.  The shift count [8 * i] is in range for [i < 4] only, and [n]
    counts the four turns that are defined. *)
Fixpoint overlay_loop (n : nat) (i lim : Z) (w : Z) (buf : list Z)
    (bufIndex : Z) : outcome (Z * Z) :=
  if i <? lim then
    match n with
    | O => Undef
    | S n' =>
        if 4 <=? i then Undef
        else overlay_loop n' (i + 1) lim
               (overlay w i (nth (Z.to_nat bufIndex) buf 0)) buf (bufIndex + 1)
    end
  else Ret (w, bufIndex).

(** The word built by the loop
    [w = 0; for (i = 0; i < 4; i++) w |= buf[bufIndex++] << (i * 8);] *)
Definition pack4 (buf : list Z) (bufIndex : Z) : Z :=
  fold_left
    (fun w i => Z.lor w (u32 (Z.shiftl (nth (Z.to_nat (bufIndex + i)) buf 0)
                                       (i * 8))))
    [0; 1; 2; 3] 0.

(** The loop of [Dmi::writeMem] over the whole words,
    [for (; startAddr < (endAddr - 4); startAddr += 4)].  It gives the
    error that ended it, if any, with the address and buffer index
    reached. *)
Fixpoint writeMem_bulk (fuel n : nat) (startAddr endAddr bufIndex w : Z)
    (buf : list Z) (s : t D)
  : outcome (option Sbcs.SberrorVal * Z * Z * Z * t D) :=
  if startAddr <? u32 (endAddr - 4) then
    match n with
    | O => Spin
    | S n' =>
        let w1 := pack4 buf bufIndex in
        s1 <- sbdata_put fuel w1 s ;;
        let err := Sbcs.sberror (mSbcs s1) in
        if decide (err = Sbcs.SBERR_NONE) then
          writeMem_bulk fuel n' (u32 (startAddr + 4)) endAddr (bufIndex + 4)
            w1 buf s1
        else Ret (Some err, startAddr, bufIndex + 4, w1, s1)
    end
  else Ret (None, startAddr, bufIndex, w, s).

(** [Dmi::writeMem].  [w0] stands for the uninitialised content of the
    local [w], which the source reads when the start is aligned. *)
Definition writeMem (fuel : nat) (addr nBytes : Z) (buf : list Z) (w0 : Z)
    (s : t D) : outcome (Sbcs.SberrorVal * t D) :=
  let startAddr := Z.land addr 0xfffffffc in
  let endAddr := Z.land (u64 (addr + nBytes + 3)) 0xfffffffc in
  let startAligned := startAddr =? addr in
  let endAligned := endAddr =? u64 (addr + nBytes) in
  let nWords := u32 (endAddr - startAddr) / 4 in
  s1 <- sbcs_setup (negb startAligned) (1 <? nWords) s ;;
  s2 <- sbaddress_put startAddr s1 ;;
  (* the initial word, read first when the start is misaligned *)
  first <-
    (if negb startAligned then
       s3 <- sbcs_wait fuel s2 ;;
       let err := Sbcs.sberror (mSbcs s3) in
       if decide (err = Sbcs.SBERR_NONE) then
         '(w, s4) <- sbdata_get s3 ;;
         s5 <- sbcs_setup false (1 <? nWords) s4 ;;
         s6 <- sbaddress_put startAddr s5 ;;
         Ret (inr (w, s6))
       else Ret (inl (err, s3))
     else Ret (inr (w0, s2))) ;;
  match first with
  | inl res => Ret res
  | inr (w, s6) =>
      let offset := u64 (addr - startAddr) in
      '(w1, bufIndex1) <-
        overlay_loop 4 offset (Z.min (u64 (offset + nBytes)) 4) w buf 0 ;;
      s7 <- sbdata_put fuel w1 s6 ;;
      let err := Sbcs.sberror (mSbcs s7) in
      if decide (err = Sbcs.SBERR_NONE) then
        let startAddr1 := u32 (startAddr + 4) in
        if startAddr1 =? endAddr then Ret (Sbcs.SBERR_NONE, s7)
        else
          '(stop, startAddr2, bufIndex2, w2, s8) <-
            writeMem_bulk fuel fuel startAddr1 endAddr bufIndex1 w1 buf s7 ;;
          match stop with
          | Some err' => Ret (err', s8)
          | None =>
              (* the final word, read first when the end is misaligned *)
              last <-
                (if negb endAligned then
                   s9 <- sbcs_setup true false s8 ;;
                   s10 <- sbaddress_put startAddr2 s9 ;;
                   s11 <- sbcs_wait fuel s10 ;;
                   let err' := Sbcs.sberror (mSbcs s11) in
                   if decide (err' = Sbcs.SBERR_NONE) then
                     '(w, s12) <- sbdata_get s11 ;;
                     s13 <- sbcs_setup false (1 <? nWords) s12 ;;
                     Ret (inr (w, s13))
                   else Ret (inl (err', s11))
                 else Ret (inr (w2, s8))) ;;
              match last with
              | inl res => Ret res
              | inr (w3, s13) =>
                  let offset' := u64 (endAddr - u64 (addr + nBytes)) in
                  '(w4, _) <-
                    overlay_loop 4 0 (u64 (4 - offset')) w3 buf bufIndex2 ;;
                  s14 <- sbdata_put fuel w4 s13 ;;
                  Ret (Sbcs.sberror (mSbcs s14), s14)
              end
          end
      else Ret (err, s7)
  end.

(** *** [Dmi::readMem] *)

(** [buf[bufIndex++] = ch] on a buffer of [length buf] bytes; a store
    past its end is undefined. *)
Definition buf_put (buf : list Z) (bufIndex ch : Z) : outcome (list Z) :=
  if bufIndex <? Z.of_nat (length buf)
  then Ret (<[Z.to_nat bufIndex := ch]> buf)
  else Undef.

(** The sequence with which [Dmi::readMem] programs [sbcs]: reset,
    [sbreadonaddr (true)], [sbaccess (SBACCESS_32)], [sbautoincrement],
    [sbreadondata (true)], [sberrorClear], write. *)
Definition sbcs_setup_read (autoincrement : bool) (s : t D) : outcome (t D) :=
  let r := Sbcs.sberrorClear
             (Sbcs.set_sbreadondata true
                (Sbcs.set_sbautoincrement autoincrement
                   (Sbcs.set_sbaccess (Sbcs.SbaccessVal_val Sbcs.SBACCESS_32)
                      (Sbcs.set_sbreadonaddr true
                         (Sbcs.reset (mSbcs s)))))) in
  d <- Sbcs.write r (mDtm s) ;;
  Ret (with_dtm (with_sbcs s r) d).

(** The loop over the bytes of the first word,
    [for (i = offset; i < lim; i++) buf[bufIndex++] = (w >> (8 * i)) & 0xff].
    The shift count [8 * i] is in range for [i < 4] only; [lim] is at
    most 4 and [n] counts the four turns. *)
Fixpoint first_bytes (n : nat) (i lim w : Z) (buf : list Z) (bufIndex : Z)
  : outcome (list Z * Z) :=
  if i <? lim then
    match n with
    | O => Undef
    | S n' =>
        if 4 <=? i then Undef
        else
          buf1 <- buf_put buf bufIndex (u8 (Z.land (Z.shiftr w (8 * i)) 0xff)) ;;
          first_bytes n' (i + 1) lim w buf1 (bufIndex + 1)
    end
  else Ret (buf, bufIndex).

(** The loop over the bytes of a later word,
    [for (i = 0; i < cnt; i++) { buf[bufIndex++] = w & 0xff; w = w >> 8; }].
    Every turn stores a byte, so within [length buf + 1] turns the loop
    has ended or has run off the buffer; [n] counts them. *)
Fixpoint low_bytes (n : nat) (i cnt w : Z) (buf : list Z) (bufIndex : Z)
  : outcome (list Z * Z) :=
  if i <? cnt then
    match n with
    | O => Undef
    | S n' =>
        buf1 <- buf_put buf bufIndex (u8 (Z.land w 0xff)) ;;
        low_bytes n' (i + 1) cnt (Z.shiftr w 8) buf1 (bufIndex + 1)
    end
  else Ret (buf, bufIndex).

(** The loop of [Dmi::readMem] over the whole words,
    [for (; startAddr < (endAddr - 4); startAddr += 4)].  It gives the
    error that ended it, if any, with the address, the buffer index and
    the buffer reached. *)
Fixpoint readMem_bulk (fuel n : nat) (startAddr endAddr bufIndex : Z)
    (buf : list Z) (s : t D)
  : outcome (option Sbcs.SberrorVal * Z * Z * list Z * t D) :=
  if startAddr <? u32 (endAddr - 4) then
    match n with
    | O => Spin
    | S n' =>
        s1 <- sbcs_wait fuel s ;;
        let err := Sbcs.sberror (mSbcs s1) in
        if decide (err = Sbcs.SBERR_NONE) then
          '(w, s2) <- sbdata_get s1 ;;
          '(buf1, bufIndex1) <-
            low_bytes (S (length buf)) 0 4 w buf bufIndex ;;
          readMem_bulk fuel n' (u32 (startAddr + 4)) endAddr bufIndex1 buf1 s2
        else Ret (Some err, startAddr, bufIndex, buf, s1)
    end
  else Ret (None, startAddr, bufIndex, buf, s).

(** [Dmi::readMem].  [buf] is the caller's array; the result holds it as
    the call leaves it, also when the call ends with an error. *)
Definition readMem (fuel : nat) (addr nBytes : Z) (buf : list Z) (s : t D)
  : outcome (Sbcs.SberrorVal * list Z * t D) :=
  let startAddr := Z.land addr 0xfffffffc in
  let endAddr := Z.land (u64 (addr + nBytes + 3)) 0xfffffffc in
  let nWords := u32 (endAddr - startAddr) / 4 in
  s1 <- sbcs_setup_read (1 <? nWords) s ;;
  s2 <- sbaddress_put startAddr s1 ;;
  s3 <- sbcs_wait fuel s2 ;;
  let err := Sbcs.sberror (mSbcs s3) in
  if decide (err = Sbcs.SBERR_NONE) then
    '(w, s4) <- sbdata_get s3 ;;
    let offset := u64 (addr - startAddr) in
    '(buf1, bufIndex1) <-
      first_bytes 4 offset (Z.min (u64 (offset + nBytes)) 4) w buf 0 ;;
    let startAddr1 := u32 (startAddr + 4) in
    if startAddr1 =? endAddr then Ret (Sbcs.SBERR_NONE, buf1, s4)
    else
      '(stop, startAddr2, bufIndex2, buf2, s5) <-
        readMem_bulk fuel fuel startAddr1 endAddr bufIndex1 buf1 s4 ;;
      match stop with
      | Some err' => Ret (err', buf2, s5)
      | None =>
          s6 <- sbcs_wait fuel s5 ;;
          let err' := Sbcs.sberror (mSbcs s6) in
          if decide (err' = Sbcs.SBERR_NONE) then
            '(w', s7) <- sbdata_get s6 ;;
            let offset' := u64 (endAddr - u64 (addr + nBytes)) in
            '(buf3, _) <-
              low_bytes (S (length buf2)) 0 (u64 (4 - offset')) w' buf2
                bufIndex2 ;;
            Ret (Sbcs.SBERR_NONE, buf3, s7)
          else Ret (err', buf2, s6)
      end
  else Ret (err, buf, s3).

End Memory.
End Dmi.

(** * Cv32e40: the target adapter (Cv32e40.h, Cv32e40.cpp) *)

Module Cv32e40.

Definition REG_ZERO_GDBNUM : Z := 0x0.
Definition REG_PC_GDBNUM : Z := 0x20.
Definition REG_FT0_GDBNUM : Z := 0x21.
Definition REG_CSR0_GDBNUM : Z := 0x41.
Definition REG_CSR_LAST_GDBNUM : Z := REG_CSR0_GDBNUM + 0xfff.

(** Of the members of the adapter only [mDmi] is used by the operations
    embedded here. *)
Record t (D : Type) : Type := mk { mDmi : Dmi.t D }.

Arguments mk {D}.
Arguments mDmi {D}.

Section WithDtm.
Context {D : Type} {I : IDtm.IDtm D}.

Definition getRegisterCount : Z := REG_CSR0_GDBNUM.
Definition getRegisterSize : Z := 4.

(** [Cv32e40::readRegister].  It gives the number of bytes read and the
    value stored through the reference [value]; [readvalue] stands for
    the uninitialised content of the local of that name, which survives
    when the register transfer fails. *)
Definition readRegister (reg : Z) (readvalue : Z) (a : t D)
  : outcome (Z * Z * t D) :=
  let retval := getRegisterSize in
  if (REG_ZERO_GDBNUM <=? reg) && (reg <? REG_PC_GDBNUM) then
    '(_, v, s) <- Dmi.readGpr reg readvalue (mDmi a) ;;
    Ret (retval, v, {| mDmi := s |})
  else if reg =? REG_PC_GDBNUM then
    '(_, v, s) <- Dmi.readCsr Dmi.Csr.DPC readvalue (mDmi a) ;;
    Ret (retval, v, {| mDmi := s |})
  else if (REG_FT0_GDBNUM <=? reg) && (reg <? REG_CSR0_GDBNUM) then
    '(_, v, s) <- Dmi.readFpr reg readvalue (mDmi a) ;;
    Ret (retval, v, {| mDmi := s |})
  else if (REG_CSR0_GDBNUM <=? reg) && (reg <=? REG_CSR_LAST_GDBNUM) then
    '(_, v, s) <- Dmi.readCsr (u16 (reg - REG_CSR0_GDBNUM)) readvalue (mDmi a) ;;
    Ret (retval, v, {| mDmi := s |})
  else Ret (0, 0, a).

(** [Cv32e40::writeRegister]. *)
Definition writeRegister (reg : Z) (value : Z) (a : t D) : outcome (Z * t D) :=
  let retval := getRegisterSize in
  if (REG_ZERO_GDBNUM <=? reg) && (reg <? REG_PC_GDBNUM) then
    '(_, s) <- Dmi.writeGpr reg (u32 value) (mDmi a) ;;
    Ret (retval, {| mDmi := s |})
  else if reg =? REG_PC_GDBNUM then
    '(_, s) <- Dmi.writeCsr Dmi.Csr.DPC (u32 value) (mDmi a) ;;
    Ret (retval, {| mDmi := s |})
  else if (REG_FT0_GDBNUM <=? reg) && (reg <? REG_CSR0_GDBNUM) then
    '(_, s) <- Dmi.writeFpr reg (u32 value) (mDmi a) ;;
    Ret (retval, {| mDmi := s |})
  else if (REG_CSR0_GDBNUM <=? reg) && (reg <=? REG_CSR_LAST_GDBNUM) then
    '(_, s) <- Dmi.writeCsr (u16 (reg - REG_CSR0_GDBNUM)) (u32 value) (mDmi a) ;;
    Ret (retval, {| mDmi := s |})
  else Ret (0, a).

(** [Cv32e40::write].  [w0] is passed on to [Dmi::writeMem].  The copy of
    [buffer] into the intermediary [buf] keeps its first [size] bytes. *)
Definition write (fuel : nat) (addr : Z) (buffer : list Z) (size : Z) (w0 : Z)
    (a : t D) : outcome (Z * t D) :=
  if size =? 0 then Ret (size, a)
  else
    let retval := size in
    let buf := firstn (Z.to_nat size) buffer in
    '(_, s) <- Dmi.writeMem fuel addr size buf w0 (mDmi a) ;;
    Ret (retval, {| mDmi := s |}).

(** [Cv32e40::read].  [buf0] stands for the content of the intermediary
    array [new unsigned char[size]] as allocated, [size] bytes that are
    not initialised; [buffer] is the caller's array, and a store past its
    end is undefined.  The error code of [Dmi::readMem] is not looked
    at. *)
Definition read (fuel : nat) (addr : Z) (buffer : list Z) (size : Z)
    (buf0 : list Z) (a : t D) : outcome (Z * list Z * t D) :=
  let retval := size in
  '(_, buf, s) <- Dmi.readMem fuel addr size buf0 (mDmi a) ;;
  if size <=? Z.of_nat (length buffer) then
    Ret (retval,
         (firstn (Z.to_nat size) buf ++ skipn (Z.to_nat size) buffer)%list,
         {| mDmi := s |})
  else Undef.

End WithDtm.
End Cv32e40.

(** * The adapter as a whole: run control, reset and halt (Cv32e40.cpp)

    [Cv32e40.t] holds what the register and memory transfers use.  Run
    control also needs the members [mDmstatus] and [mHaltsum] of the
    [Dmi], and the adapter's own [mRunAction] and [mDmstatus]; the two
    [std::unique_ptr] members of the adapter are options here, [None]
    for a null pointer. *)
Module Target.

(** The enumerators of [ITarget::ResumeType], [ITarget::ResumeRes] and
    [ITarget::WaitRes] that Cv32e40.cpp names; [RESUME_OTHER] stands for
    any other [ResumeType]. *)
Inductive ResumeType : Type :=
| RESUME_NONE | RESUME_STEP | RESUME_CONTINUE | RESUME_OTHER.

Inductive ResumeRes : Type :=
| RES_NONE | RES_SUCCESS | RES_FAILURE | RES_INTERRUPTED.

Inductive WaitRes : Type := WAIT_ERROR | WAIT_EVENT_OCCURRED.

#[global] Instance ResumeType_eq_dec : EqDecision ResumeType.
Proof. solve_decision. Defined.

#[global] Instance CmderrVal_eq_dec : EqDecision Dmi.Abstractcs.CmderrVal.
Proof. solve_decision. Defined.

Definition DCSR_STEP : Z := 0x00000004.
Definition DCSR_EBREAKS : Z := 0x0000b000.
Definition DCSR_CAUSE : Z := 0x000001C0.
Definition DCSR_CAUSE_EBREAK_EXECUTED : Z := 0x00000040.
Definition HALTSUM_FIRST_HART : Z := 0x00000001.

(** The [Dmi] with the two members that [Dmi.t] leaves out. *)
Record dmi (D : Type) : Type := mkDmi {
  core : Dmi.t D;
  dmstatus : Dmi.Dmstatus.t;
  haltsum : Dmi.Haltsum.t;
}.

Arguments mkDmi {D}.
Arguments core {D}.
Arguments dmstatus {D}.
Arguments haltsum {D}.

Record t (D : Type) : Type := mk {
  mDmi : option (dmi D);
  mRunAction : ResumeType;
  mDmstatus : option Dmi.Dmstatus.t;
  cerr : list string;
}.

Arguments mk {D}.
Arguments mDmi {D}.
Arguments mRunAction {D}.
Arguments mDmstatus {D}.
Arguments cerr {D}.

Section WithDtm.
Context {D : Type} {I : IDtm.IDtm D}.

Definition with_core (m : dmi D) (s : Dmi.t D) : dmi D :=
  {| core := s; dmstatus := dmstatus m; haltsum := haltsum m |}.

Definition with_dmi (a : t D) (m : dmi D) : t D :=
  {| mDmi := Some m; mRunAction := mRunAction a; mDmstatus := mDmstatus a;
     cerr := cerr a |}.

(** [Cv32e40::Cv32e40].  [dtm] is the DTM, which the source creates as
    [DtmJtag (20, 1000000000, "")].  The initialiser list names no
    member but [mXmlTdesc]: [mDmstatus] starts as the null pointer, and
    [mRunAction] with the indeterminate value [runAction0]. *)
Definition new (dtm : D) (runAction0 : ResumeType) : outcome (t D) :=
  let s0 := Dmi.new dtm in
  '(_, d1) <- IDtm.reset (Dmi.mDtm s0) ;;
  s1 <- Dmi.selectHart 0 (Dmi.with_dtm s0 d1) ;;
  s2 <- Dmi.haltHart 0 s1 ;;
  '(r, d3) <- Dmi.Dmcontrol.read (Dmi.mDmcontrol s2) (Dmi.mDtm s2) ;;
  let s3 := Dmi.with_dtm
              (Dmi.with_dmcontrol s2 (Dmi.Dmcontrol.prettyPrint true r)) d3 in
  '(st, d4) <- Dmi.Dmstatus.read
                 (Dmi.Dmstatus.prettyPrint true Dmi.Dmstatus.new)
                 (Dmi.mDtm s3) ;;
  Ret {| mDmi := Some {| core := Dmi.with_dtm s3 d4; dmstatus := st;
                         haltsum := Dmi.Haltsum.new |};
         mRunAction := runAction0; mDmstatus := None; cerr := [] |}.

(** [Cv32e40::terminate]. *)
Definition terminate (a : t D) : ResumeRes := RES_NONE.

(** [Cv32e40::reset]: [mDmi.reset ()] is the [reset] of the
    [std::unique_ptr], which destroys the [Dmi] and leaves the pointer
    null. *)
Definition reset (a : t D) : ResumeRes * t D :=
  (RES_SUCCESS,
   {| mDmi := None; mRunAction := mRunAction a; mDmstatus := mDmstatus a;
      cerr := cerr a |}).

(** A call [mDmi->f (...)] of a member function [f] of [Dmi]: the
    call itself goes through the pointer, so it is undefined when the
    pointer is null, whatever [f] does. *)
Definition on_dmi {A : Type}
    (f : Dmi.t D -> outcome (A * Dmi.t D)) (a : t D)
  : outcome (A * t D) :=
  match mDmi a with
  | None => Undef
  | Some m =>
      '(x, s) <- f (core m) ;;
      Ret (x, with_dmi a (with_core m s))
  end.

(** [Cv32e40::readRegister] on the adapter as a whole: [Cv32e40.readRegister]
    with the pointer [mDmi] kept.  The last arm does not use [mDmi]. *)
Definition readRegister (reg : Z) (readvalue : Z) (a : t D)
  : outcome (Z * Z * t D) :=
  let retval := Cv32e40.getRegisterSize in
  if (Cv32e40.REG_ZERO_GDBNUM <=? reg) && (reg <? Cv32e40.REG_PC_GDBNUM) then
    '(_, v, a1) <- on_dmi (Dmi.readGpr reg readvalue) a ;;
    Ret (retval, v, a1)
  else if reg =? Cv32e40.REG_PC_GDBNUM then
    '(_, v, a1) <- on_dmi (Dmi.readCsr Dmi.Csr.DPC readvalue) a ;;
    Ret (retval, v, a1)
  else if (Cv32e40.REG_FT0_GDBNUM <=? reg) && (reg <? Cv32e40.REG_CSR0_GDBNUM)
  then
    '(_, v, a1) <- on_dmi (Dmi.readFpr reg readvalue) a ;;
    Ret (retval, v, a1)
  else if (Cv32e40.REG_CSR0_GDBNUM <=? reg)
          && (reg <=? Cv32e40.REG_CSR_LAST_GDBNUM) then
    '(_, v, a1) <-
      on_dmi (Dmi.readCsr (u16 (reg - Cv32e40.REG_CSR0_GDBNUM)) readvalue) a ;;
    Ret (retval, v, a1)
  else Ret (0, 0, a).

(** [Cv32e40::writeRegister] on the adapter as a whole. *)
Definition writeRegister (reg : Z) (value : Z) (a : t D) : outcome (Z * t D) :=
  let retval := Cv32e40.getRegisterSize in
  if (Cv32e40.REG_ZERO_GDBNUM <=? reg) && (reg <? Cv32e40.REG_PC_GDBNUM) then
    '(_, a1) <- on_dmi (Dmi.writeGpr reg (u32 value)) a ;;
    Ret (retval, a1)
  else if reg =? Cv32e40.REG_PC_GDBNUM then
    '(_, a1) <- on_dmi (Dmi.writeCsr Dmi.Csr.DPC (u32 value)) a ;;
    Ret (retval, a1)
  else if (Cv32e40.REG_FT0_GDBNUM <=? reg) && (reg <? Cv32e40.REG_CSR0_GDBNUM)
  then
    '(_, a1) <- on_dmi (Dmi.writeFpr reg (u32 value)) a ;;
    Ret (retval, a1)
  else if (Cv32e40.REG_CSR0_GDBNUM <=? reg)
          && (reg <=? Cv32e40.REG_CSR_LAST_GDBNUM) then
    '(_, a1) <-
      on_dmi (Dmi.writeCsr (u16 (reg - Cv32e40.REG_CSR0_GDBNUM)) (u32 value))
        a ;;
    Ret (retval, a1)
  else Ret (0, a).

(** [Cv32e40::write] on the adapter as a whole: the test of [size]
    comes before any use of [mDmi]. *)
Definition write (fuel : nat) (addr : Z) (buffer : list Z) (size : Z) (w0 : Z)
    (a : t D) : outcome (Z * t D) :=
  if size =? 0 then Ret (size, a)
  else
    let retval := size in
    let buf := firstn (Z.to_nat size) buffer in
    '(_, a1) <- on_dmi (Dmi.writeMem fuel addr size buf w0) a ;;
    Ret (retval, a1).

(** [Cv32e40::read] on the adapter as a whole: it calls
    [mDmi->readMem] whatever [size] is. *)
Definition read (fuel : nat) (addr : Z) (buffer : list Z) (size : Z)
    (buf0 : list Z) (a : t D) : outcome (Z * list Z * t D) :=
  let retval := size in
  '(_, buf, a1) <- on_dmi (Dmi.readMem fuel addr size buf0) a ;;
  if size <=? Z.of_nat (length buffer) then
    Ret (retval,
         (firstn (Z.to_nat size) buf ++ skipn (Z.to_nat size) buffer)%list,
         a1)
  else Undef.

(** [Cv32e40::prepare]. *)
Definition prepare (actions : list ResumeType) (a : t D) : bool * t D :=
  match actions with
  | [action] =>
      (match action with
       | RESUME_STEP => true
       | RESUME_CONTINUE => true
       | _ => false
       end,
       {| mDmi := mDmi a; mRunAction := action; mDmstatus := mDmstatus a;
          cerr := cerr a |})
  | _ => (false, a)
  end.

(** The two arms of [Cv32e40::resume] that set bits of [dcsr];
    [dbg_ctrl_val] is the uninitialised local, which the read leaves
    alone when it fails. *)
Definition dcsr_set (bits dbg_ctrl_val : Z) (s : Dmi.t D)
  : outcome (bool * Dmi.t D) :=
  '(e1, v, s1) <- Dmi.readCsr Dmi.Csr.DCSR dbg_ctrl_val s ;;
  let retval := bool_decide (e1 = Dmi.Abstractcs.CMDERR_NONE) in
  '(e2, s2) <- Dmi.writeCsr Dmi.Csr.DCSR (Z.lor v bits) s1 ;;
  Ret (retval && bool_decide (e2 = Dmi.Abstractcs.CMDERR_NONE), s2).

(** [Cv32e40::resume].  The [assert] is taken as compiled in: when it
    fails the process ends. *)
Definition resume (dbg_ctrl_val : Z) (a : t D) : outcome (bool * t D) :=
  if decide (mRunAction a = RESUME_NONE) then
    Exited "Assertion failed: mRunAction != ITarget::ResumeType::NONE"
  else
    match mDmi a with
    | None => Undef
    | Some m =>
        let s1 := Dmi.with_dmcontrol (core m)
                    (Dmi.Dmcontrol.haltreq false (Dmi.mDmcontrol (core m))) in
        '(retval, s2) <-
          (if decide (mRunAction a = RESUME_STEP) then
             dcsr_set DCSR_STEP dbg_ctrl_val s1
           else if decide (mRunAction a = RESUME_CONTINUE) then
             dcsr_set DCSR_EBREAKS dbg_ctrl_val s1
           else Ret (true, s1)) ;;
        let s3 := Dmi.with_dmcontrol s2
                    (Dmi.Dmcontrol.resumereq (Dmi.mDmcontrol s2)) in
        s4 <- Dmi.dmcontrol_write s3 ;;
        Ret (retval, with_dmi a (with_core m s4))
    end.

(** The loop of [stepInstr] and [stoppedAtEbreak],
    [while (1) { read haltsum0; if (haltsum_val & HALTSUM_FIRST_HART) break; }]. *)
Fixpoint halt_poll (fuel : nat) (m : dmi D) : outcome (dmi D) :=
  match fuel with
  | O => Spin
  | S fuel' =>
      '(h, d) <- Dmi.Haltsum.read 0 (haltsum m) (Dmi.mDtm (core m)) ;;
      let '(haltsum_val, h1) := Dmi.Haltsum.haltsum 0 h in
      let m1 := {| core := Dmi.with_dtm (core m) d; dmstatus := dmstatus m;
                   haltsum := h1 |} in
      if negb (Z.land haltsum_val HALTSUM_FIRST_HART =? 0) then Ret m1
      else halt_poll fuel' m1
  end.

(** The tail of [stepInstr] and [runToBreak] that clears bits of [dcsr];
    the results of the two transfers are not looked at. *)
Definition dcsr_clear (bits dcsr_val : Z) (s : Dmi.t D) : outcome (Dmi.t D) :=
  '(_, v, s1) <- Dmi.readCsr Dmi.Csr.DCSR dcsr_val s ;;
  '(_, s2) <- Dmi.writeCsr Dmi.Csr.DCSR (Z.land v (not32 bits)) s1 ;;
  Ret s2.

(** [Cv32e40::stepInstr]. *)
Definition stepInstr (fuel : nat) (dcsr_val : Z) (m : dmi D)
  : outcome (WaitRes * ResumeRes * dmi D) :=
  m1 <- halt_poll fuel m ;;
  s <- dcsr_clear DCSR_STEP dcsr_val (core m1) ;;
  Ret (WAIT_EVENT_OCCURRED, RES_INTERRUPTED, with_core m1 s).

(** [Cv32e40::stoppedAtEbreak]. *)
Definition stoppedAtEbreak (fuel : nat) (dcsr_val : Z) (m : dmi D)
  : outcome (bool * dmi D) :=
  m1 <- halt_poll fuel m ;;
  '(_, v, s) <- Dmi.readCsr Dmi.Csr.DCSR dcsr_val (core m1) ;;
  Ret (Z.land v DCSR_CAUSE =? DCSR_CAUSE_EBREAK_EXECUTED, with_core m1 s).

(** [Cv32e40::runToBreak]; [dcsr_val0] and [dcsr_val1] are the
    uninitialised locals of [stoppedAtEbreak] and of [runToBreak]. *)
Definition runToBreak (fuel : nat) (dcsr_val0 dcsr_val1 : Z) (m : dmi D)
  : outcome (WaitRes * ResumeRes * dmi D) :=
  '(stopped, m1) <- stoppedAtEbreak fuel dcsr_val0 m ;;
  let resumeRes := if stopped then RES_INTERRUPTED else RES_FAILURE in
  s <- dcsr_clear DCSR_EBREAKS dcsr_val1 (core m1) ;;
  Ret (WAIT_EVENT_OCCURRED, resumeRes, with_core m1 s).

(** [Cv32e40::wait].  It gives the result and the vector [results], of
    one element; [res0] is the value-initialised [ResumeRes] that
    [results.resize] puts there.  [show] is the text that the
    [operator<<] of the embdebug library prints for a [ResumeType]. *)
Definition wait (show : ResumeType -> string) (fuel : nat)
    (dcsr_val0 dcsr_val1 : Z) (res0 : ResumeRes)
    (a : t D) : outcome (WaitRes * list ResumeRes * t D) :=
  if decide (mRunAction a = RESUME_NONE) then
    Exited "Assertion failed: mRunAction != ITarget::ResumeType::NONE"
  else
    match mRunAction a with
    | RESUME_STEP =>
        match mDmi a with
        | None => Undef
        | Some m =>
            '(retval, r, m1) <- stepInstr fuel dcsr_val0 m ;;
            Ret (retval, [r], with_dmi a m1)
        end
    | RESUME_CONTINUE =>
        match mDmi a with
        | None => Undef
        | Some m =>
            '(retval, r, m1) <- runToBreak fuel dcsr_val0 dcsr_val1 m ;;
            Ret (retval, [r], with_dmi a m1)
        end
    | _ =>
        Ret (WAIT_ERROR, [res0],
             {| mDmi := mDmi a; mRunAction := mRunAction a;
                mDmstatus := mDmstatus a;
                cerr := cerr a
                        ++ ["*** ABORT ***: Unknown step type when resuming: "
                              +:+ show (mRunAction a)] |})
    end.

(** [Cv32e40::halt].  [mDmstatus] is the member of the adapter, not the
    one of the [Dmi]; were it set, it would read through the DTM. *)
Definition halt (a : t D) : outcome (bool * t D) :=
  match mDmi a with
  | None => Undef
  | Some m =>
      s1 <- Dmi.haltHart 0 (core m) ;;
      match mDmstatus a with
      | None => Undef
      | Some st =>
          '(st1, d) <- Dmi.Dmstatus.read st (Dmi.mDtm s1) ;;
          let m1 := with_core m (Dmi.with_dtm s1 d) in
          if negb (Dmi.Dmstatus.halted st1) then
            Ret (false,
                 {| mDmi := Some m1; mRunAction := mRunAction a;
                    mDmstatus := Some (Dmi.Dmstatus.prettyPrint true st1);
                    cerr := cerr a |})
          else
            Ret (true,
                 {| mDmi := Some m1; mRunAction := mRunAction a;
                    mDmstatus := Some st1; cerr := cerr a |})
      end
  end.

End WithDtm.
End Target.

(** * The target description (Cv32e40.h, [Cv32e40::getTargetXML]) *)
Module TargetXml.















End TargetXml.

(** * Properties stated over the embedding *)

Module Props.

Section WithModel.
Context {Core : Type} {M : VSim.Verilated Core}.

(** A clock that the constructor can have set up and that has room for
    [N] more half-periods before the 64-bit tick counter wraps: the
    main half-period is positive, the TCK half-period is twice it, the
    reset lasts ten TCK half-periods, the tick count is a whole number of
    half-periods and the TCK pin is the level computed from it. *)
Definition clock_ok (N : Z) (v : VSim.t Core) : Prop :=
  let h := VSim.mClkHalfPeriodTicks v in
  0 < h /\
  VSim.mTckHalfPeriodTicks v = 2 * h /\
  VSim.mResetPeriodTicks v = 10 * VSim.mTckHalfPeriodTicks v /\
  0 <= VSim.mTickCount v /\
  VSim.mTickCount v mod h = 0 /\
  VSim.jtag_tck_i (VSim.mCpu v) = 1 - (VSim.mTickCount v / h / 2) mod 2 /\
  VSim.mTickCount v + N * h < 2 ^ 64.

(** The number of main half-periods elapsed. *)
Definition halves (v : VSim.t Core) : Z :=
  VSim.mTickCount v / VSim.mClkHalfPeriodTicks v.


(** The TCK cycles of a list of pin levels: one call of
    [Tap::advanceState] for each pair (TMS, TDI), in order.  It gives the
    TDO bits sampled and the Tap after the last cycle. *)
Fixpoint cycles (fuel : nat) (pins : list (bool * bool)) (tp : Tap.t Core)
  : outcome (list bool * Tap.t Core) :=
  match pins with
  | [] => Ret ([], tp)
  | (tms, tdi) :: rest =>
      '(tdo, tp1) <- Tap.advanceState fuel tms tdi tp ;;
      '(tdos, tp2) <- cycles fuel rest tp1 ;;
      Ret (tdo :: tdos, tp2)
  end.

(** The polls of [DtmJtag::dmiRead] seen as a chain: [polls fuel k d reg d']
    holds when, from [d], [k] scans of [dmiaccess] in a row gave RETRY,
    each followed by the warning and by the DMI reset, the scan of the 32
    bits [0x10000] (bit 16, [dmireset], alone) into the register that
    the IR [0x10] selects, [dtmcs]; and the next scan gave [reg], whose
    result field is not RETRY, leaving the object as [d']. *)
Inductive polls (fuel : nat)
  : nat -> DtmJtag.t Core -> Z -> DtmJtag.t Core -> Prop :=
| polls_last d reg tp :
    Tap.readReg fuel DtmJtag.DMIACCESS (DtmJtag.mDmiWidth d) (DtmJtag.mTap d)
      = Ret (reg, tp) ->
    Z.land reg 0x3 <> DtmJtag.RES_RETRY ->
    polls fuel 0 d reg (DtmJtag.with_tap d tp)
| polls_retry k d reg0 tp r tp1 reg d' :
    Tap.readReg fuel DtmJtag.DMIACCESS (DtmJtag.mDmiWidth d) (DtmJtag.mTap d)
      = Ret (reg0, tp) ->
    Z.land reg0 0x3 = DtmJtag.RES_RETRY ->
    Tap.accessReg fuel 0x10 0x10000 32 tp = Ret (r, tp1) ->
    polls fuel k
      (DtmJtag.with_tap
         (DtmJtag.warn (DtmJtag.with_tap d tp) "Warning dmiRead retry requested")
         tp1) reg d' ->
    polls fuel (S k) d reg d'.

(** What [DtmJtag::dmiRead] does after its polls: the diagnostic for a
    result that is not OK, and the data field, bits 33:2 of the scan. *)
Definition dmiRead_epilogue (reg : Z) (d : DtmJtag.t Core)
  : Z * DtmJtag.t Core :=
  (Z.land (Z.shiftr reg 2) 0xffffffff,
   if Z.land reg 0x3 =? DtmJtag.RES_OK then d
   else DtmJtag.warn d ("Warning: unknown JTAG read result "
                          +:+ pretty (Z.land reg 0x3) +:+ ": ignored")).

End WithModel.

(** TCK cycles that only move the controller: TMS as listed, TDI low,
    as [Tap::gotoState] drives them. *)
Definition moves (tms : list bool) : list (bool * bool) :=
  map (fun t => (t, false)) tms.

(** The TCK cycles that shift the [n] low bits of [w] through the
    register selected, least significant bit first: TDI is the bit, and
    TMS is low but with the last bit, which leaves the shift state. *)
Definition scan (w : Z) (n : nat) : list (bool * bool) :=
  map (fun i => (bool_decide (S i = n), Z.testbit w (Z.of_nat i))) (seq 0 n).

(** The DMI reset on the pins, from Update-DR: the IR is loaded with
    [0x10], which selects [dtmcs], and the 32 bits [0x10000], bit 16
    ([dmireset]) alone, are shifted into it and latched in Update-DR.
    [Tap::shiftDr] adds one cycle after the last bit, to Pause-DR. *)
Definition dmireset_pins : list (bool * bool) :=
  (moves [true; true; false; false]   (* to Shift-IR *)
   ++ scan 0x10 5                     (* IR := dtmcs, to Exit1-IR *)
   ++ moves [true]                    (* Update-IR *)
   ++ moves [true; false; false]      (* to Shift-DR *)
   ++ scan 0x10000 32                 (* DR := dmireset, to Exit1-DR *)
   ++ moves [false]                   (* Pause-DR *)
   ++ moves [true; true])%list.       (* Exit2-DR, Update-DR *)

(** The TMS levels of [Tap::gotoState] from [cur] to [s], at most [n]. *)
Fixpoint route (n : nat) (cur s : Tap.State) : list bool :=
  if decide (cur = s) then []
  else
    match n with
    | O => []
    | S n' => Tap.firstStep cur s :: route n' (Tap.next cur (Tap.firstStep cur s)) s
    end.

(** [reaches n cur s]: driving TMS from the table of [Tap::gotoState],
    the controller gets from [cur] to [s] within [n] TCK cycles. *)
Fixpoint reaches (n : nat) (cur s : Tap.State) : bool :=
  if decide (cur = s) then true
  else
    match n with
    | O => false
    | S n' => reaches n' (Tap.next cur (Tap.firstStep cur s)) s
    end.

(** The invariant of the Tap as the specification words it: every public
    operation that returns leaves the controller in Run-Test/Idle or in
    Test-Logic-Reset. *)
Definition exits_idle_or_reset : Prop :=
  forall (Core : Type) (M : VSim.Verilated Core) (fuel : nat)
         (tp tp' : Tap.t Core),
    (forall b, Tap.reset fuel tp = Ret (b, tp') ->
       Tap.mCurrState tp' = Tap.RUN_TEST_IDLE
       \/ Tap.mCurrState tp' = Tap.TEST_LOGIC_RESET) /\
    (forall ir wdata len r,
       Tap.accessReg fuel ir wdata len tp = Ret (r, tp') ->
       Tap.mCurrState tp' = Tap.RUN_TEST_IDLE
       \/ Tap.mCurrState tp' = Tap.TEST_LOGIC_RESET) /\
    (forall ir wdata len,
       Tap.writeReg fuel ir wdata len tp = Ret tp' ->
       Tap.mCurrState tp' = Tap.RUN_TEST_IDLE
       \/ Tap.mCurrState tp' = Tap.TEST_LOGIC_RESET) /\
    (forall ir len r,
       Tap.readReg fuel ir len tp = Ret (r, tp') ->
       Tap.mCurrState tp' = Tap.RUN_TEST_IDLE
       \/ Tap.mCurrState tp' = Tap.TEST_LOGIC_RESET).

Section Timing.
Context {Core : Type} {M : VSim.Verilated Core}.

(** The clock just after a falling edge of TCK, where [Tap::advanceState]
    leaves it: the main half-period is [h], the simulation time is the
    tick count, the number of half-periods elapsed is 2 modulo 4 and the
    flag of the rising edge is down. *)
Definition at_falling_edge (h : Z) (v : VSim.t Core) : Prop :=
  VSim.mClkHalfPeriodTicks v = h
  /\ VSim.mContextTime v = VSim.mTickCount v
  /\ halves v mod 4 = 2
  /\ VSim.mTckPosedge v = false.

(** The polls of [DtmJtag::dmiWrite] seen as a chain, as [polls] is for
    [dmiRead]: [k] scans in a row gave RETRY, each followed by the
    warning of [dmiWrite] and by the DMI reset, the scan of the 32 bits
    [0x10000] into the register that the IR [0x10] selects, [dtmcs];
    and the next scan gave [reg], whose result field is not RETRY. *)
Inductive write_polls (fuel : nat)
  : nat -> DtmJtag.t Core -> Z -> DtmJtag.t Core -> Prop :=
| write_polls_last d reg tp :
    Tap.readReg fuel DtmJtag.DMIACCESS (DtmJtag.mDmiWidth d) (DtmJtag.mTap d)
      = Ret (reg, tp) ->
    Z.land reg 0x3 <> DtmJtag.RES_RETRY ->
    write_polls fuel 0 d reg (DtmJtag.with_tap d tp)
| write_polls_retry k d reg0 tp r tp1 reg d' :
    Tap.readReg fuel DtmJtag.DMIACCESS (DtmJtag.mDmiWidth d) (DtmJtag.mTap d)
      = Ret (reg0, tp) ->
    Z.land reg0 0x3 = DtmJtag.RES_RETRY ->
    Tap.accessReg fuel 0x10 0x10000 32 tp = Ret (r, tp1) ->
    write_polls fuel k
      (DtmJtag.with_tap
         (DtmJtag.warn (DtmJtag.with_tap d tp) "Warning dmiWrite retry requested")
         tp1) reg d' ->
    write_polls fuel (S k) d reg d'.

End Timing.

(** The number of TCK cycles that [Tap::gotoState] spends on the way from
    [cur] to [s], counted up to [n]. *)
(** The register arrays of [sbaddress] and [sbdata] have their four
    entries, as the constructors make them. *)
Definition regs_ok {D : Type} (s : Dmi.t D) : Prop :=
  length (Dmi.Sbaddress.mSbaddressReg (Dmi.mSbaddress s)) = 4%nat
  /\ length (Dmi.Sbdata.mSbdataReg (Dmi.mSbdata s)) = 4%nat.

(** Byte [j] of a word, the least significant being byte 0. *)
Definition word_byte (w j : Z) : Z := Z.land (Z.shiftr w (8 * j)) 0xff.

Fixpoint route_steps (n : nat) (cur s : Tap.State) : nat :=
  if decide (cur = s) then 0%nat
  else
    match n with
    | O => 0%nat
    | S n' => S (route_steps n' (Tap.next cur (Tap.firstStep cur s)) s)
    end.

End Props.

(** * Models to run the code on

    A Verilated model and a DTM are needed to evaluate the code on
    concrete inputs.  The two models of the RTL below answer on TDO only;
    the DTM records the DMI traffic and answers reads from a table. *)

Module Bench.

(** A model whose TDO repeats TDI and that never finishes. *)
#[global] Instance Loopback : VSim.Verilated unit :=
  {| VSim.settle := fun c _ _ _ _ tdi _ => (c, tdi);
     VSim.gotFinish := fun _ => false |}.

(** A model that puts a new bit on TDO at every rising edge of TCK that
    it is evaluated on: the bit for the [n]-th edge is [tdo_at n]. *)
Record Scripted : Type := mkScripted {
  edges : nat;
  last_tck : Z;
  tdo_now : Z;
}.

Definition Scripted_model (tdo_at : nat -> Z) : VSim.Verilated Scripted :=
  {| VSim.settle := fun c _ _ tck _ _ _ =>
       if (last_tck c =? 0) && (tck =? 1) then
         ({| edges := S (edges c); last_tck := tck;
             tdo_now := tdo_at (edges c) |},
          tdo_at (edges c))
       else
         ({| edges := edges c; last_tck := tck; tdo_now := tdo_now c |},
          tdo_now c);
     VSim.gotFinish := fun _ => false |}.

Definition scripted0 : Scripted :=
  {| edges := 0; last_tck := 0; tdo_now := 0 |}.

(** The traffic on the DMI. *)
Inductive Event : Type :=
| DmiReset
| DmiRead (address value : Z)
| DmiWrite (address value : Z).

(** A DTM that records every call and answers a read of [address] with
    [answer log address], where [log] is the traffic so far.  Its state
    is the traffic. *)
Definition Recorder_IDtm (answer : list Event -> Z -> Z)
  : IDtm.IDtm (list Event) :=
  {| IDtm.reset := fun log : list Event => Ret (true, (log ++ [DmiReset])%list);
     IDtm.dmiRead := fun address (log : list Event) =>
       let v := u32 (answer log address) in
       Ret (v, (log ++ [DmiRead address v])%list);
     IDtm.dmiWrite := fun address wdata (log : list Event) =>
       Ret ((log ++ [DmiWrite address wdata])%list);
     IDtm.simTimeNs := fun _ => 0 |}.

(** The value last written to [address], or [dflt]. *)
Fixpoint last_write (address dflt : Z) (l : list Event) : Z :=
  match l with
  | [] => dflt
  | DmiWrite a v :: rest =>
      last_write address (if a =? address then v else dflt) rest
  | _ :: rest => last_write address dflt rest
  end.

(** A debug module with the single hart 0: [dmcontrol] reads back what
    was written with the [hartsel] bits, which it does not implement, at
    zero; every other register reads as zero. *)
Definition one_hart (l : list Event) (address : Z) : Z :=
  if address =? Dmi.Dmcontrol.DMI_ADDR then
    Z.land (last_write address 0 l)
           (not32 (Z.lor Dmi.Dmcontrol.HARTSELLO_MASK
                         Dmi.Dmcontrol.HARTSELHI_MASK))
  else 0.

Definition one_hart_dtm : IDtm.IDtm (list Event) := Recorder_IDtm one_hart.

(** [true] when the traffic holds no read. *)
Definition no_read (l : list Event) : bool :=
  forallb (fun e => match e with DmiRead _ _ => false | _ => true end) l.

(** The bit of [word] that a scan shifts out on edge [n] when its first
    data bit comes out on edge [first] and it is [width] bits long. *)
Definition scan_bit (first width word : Z) (n : Z) : Z :=
  if (first <=? n) && (n <? first + width) && Z.testbit word (n - first)
  then 1 else 0.

(** The script of TDO bits for [DtmJtag::reset] followed by one [dmiRead],
    on the stack that the adapter builds (20 ns clock).  The reset reads
    [idcode = 0x249511c3] and [dtmcs = 0x00001071] (version 1, 7 address
    bits, one idle cycle), so [dmiaccess] is 41 bits wide.  The first poll
    of the [dmiRead] answers RETRY and the second answers ERROR with the
    data [0xdeadbeef]. *)
Definition retry_then_error (n : nat) : Z :=
  let z := Z.of_nat n in
  Z.lor (scan_bit 19 32 0x249511c3 z)
    (Z.lor (scan_bit 67 32 0x00001071 z)
       (Z.lor (scan_bit 220 41 3 z)
          (scan_bit 325 41 (Z.lor 2 (Z.shiftl 0xdeadbeef 2)) z))).

(** The Tap that the adapter builds, in front of the loopback model, and
    the same after [Tap::reset]. *)
Definition fresh_tap : Tap.t unit :=
  Tap.new 20 1000000000 "" tt Tap.TEST_LOGIC_RESET.

Definition tap_after_reset : Tap.t unit :=
  match Tap.reset 20 fresh_tap with
  | Ret (_, tp) => tp
  | _ => fresh_tap
  end.

(** The DTM that the adapter builds, in front of the scripted model, and
    the same after [DtmJtag::reset]. *)
Definition fresh_dtm : DtmJtag.t Scripted :=
  DtmJtag.new 20 1000000000 "" scripted0 Tap.TEST_LOGIC_RESET 0.

Definition dtm_after_reset : DtmJtag.t Scripted :=
  match DtmJtag.reset (M := Scripted_model retry_then_error) 20 fresh_dtm with
  | Ret (_, d) => d
  | _ => fresh_dtm
  end.

(** The Tap of that DTM after the request of a [dmiRead] of address
    [0x10] and its first poll, which answers RETRY. *)
Definition tap_polled : Tap.t Scripted :=
  let M := Scripted_model retry_then_error in
  match Tap.writeReg 20 0x11 (Z.lor 1 (Z.shiftl 0x10 34)) 41
          (DtmJtag.mTap dtm_after_reset) with
  | Ret tp =>
      match Tap.readReg 20 0x11 41 tp with
      | Ret (_, tp1) => tp1
      | _ => tp
      end
  | _ => DtmJtag.mTap dtm_after_reset
  end.

(** The same for a [dmiWrite] of [0x80000001] to address [0x10]. *)
Definition tap_write_polled : Tap.t Scripted :=
  let M := Scripted_model retry_then_error in
  match Tap.writeReg 20 0x11
          (Z.lor (Z.lor 2 (Z.shiftl 0x80000001 2)) (Z.shiftl 0x10 34)) 41
          (DtmJtag.mTap dtm_after_reset) with
  | Ret tp =>
      match Tap.readReg 20 0x11 41 tp with
      | Ret (_, tp1) => tp1
      | _ => tp
      end
  | _ => DtmJtag.mTap dtm_after_reset
  end.

(** The Tap after the reset and one 41-bit access to [dmiaccess]. *)
Definition tap_after_access : Tap.t unit :=
  match Tap.accessReg 20 0x11 0 41 tap_after_reset with
  | Ret (_, tp) => tp
  | _ => tap_after_reset
  end.

(** A debug module whose [abstractcs] reads as [cs] and whose other
    registers read as zero. *)
Definition abstractcs_reads (cs : Z) (l : list Event) (address : Z) : Z :=
  if address =? Dmi.Abstractcs.DMI_ADDR then cs else 0.

(** A system bus in front of a little-endian memory of bytes, behind the
    three registers that [Dmi::readMem] and [Dmi::writeMem] use.  It
    keeps the four configuration fields of [sbcs] (bits 20:15), is never
    busy and reports no error; every access is 32 bits wide.  A write of
    [sbaddress0] sets the address and, with [sbreadonaddr], reads the
    bus; a read of [sbdata0] gives the data and, with [sbreadondata],
    reads the bus; a write of [sbdata0] writes the bus; after every bus
    access [sbautoincrement] adds 4 to the address. *)
Record Bus : Type := mkBus {
  bus_mem : gmap Z Z;
  bus_sbcs : Z;
  bus_addr : Z;
  bus_data : Z;
}.

Definition bus_byte (m : gmap Z Z) (a : Z) : Z := default 0 (m !! a) mod 2 ^ 8.

Definition bus_load32 (m : gmap Z Z) (a : Z) : Z :=
  bus_byte m a + 2 ^ 8 * bus_byte m (a + 1) + 2 ^ 16 * bus_byte m (a + 2)
  + 2 ^ 24 * bus_byte m (a + 3).

Definition bus_store32 (m : gmap Z Z) (a w : Z) : gmap Z Z :=
  <[a + 3 := (w / 2 ^ 24) mod 2 ^ 8]>
    (<[a + 2 := (w / 2 ^ 16) mod 2 ^ 8]>
       (<[a + 1 := (w / 2 ^ 8) mod 2 ^ 8]> (<[a := w mod 2 ^ 8]> m))).

Definition bus_flag (mask : Z) (b : Bus) : bool :=
  negb (Z.land (bus_sbcs b) mask =? 0).

Definition bus_next (b : Bus) : Z :=
  if bus_flag Dmi.Sbcs.SBAUTOINCREMENT_MASK b then u32 (bus_addr b + 4)
  else bus_addr b.

Definition bus_read (b : Bus) : Bus :=
  {| bus_mem := bus_mem b; bus_sbcs := bus_sbcs b; bus_addr := bus_next b;
     bus_data := bus_load32 (bus_mem b) (bus_addr b) |}.

Definition bus_write (w : Z) (b : Bus) : Bus :=
  {| bus_mem := bus_store32 (bus_mem b) (bus_addr b) w;
     bus_sbcs := bus_sbcs b; bus_addr := bus_next b; bus_data := w |}.

Definition Bus_IDtm : IDtm.IDtm Bus :=
  {| IDtm.reset := fun b => Ret (true, b);
     IDtm.dmiRead := fun address b =>
       if address =? Dmi.Sbcs.DMI_ADDR then
         Ret (Z.lor 0x20000404 (bus_sbcs b), b)
       else if address =? 0x3c then
         Ret (bus_data b,
              if bus_flag Dmi.Sbcs.SBREADONDATA_MASK b then bus_read b else b)
       else Ret (0, b);
     IDtm.dmiWrite := fun address wdata b =>
       if address =? Dmi.Sbcs.DMI_ADDR then
         Ret {| bus_mem := bus_mem b; bus_sbcs := Z.land wdata 0x001f8000;
                bus_addr := bus_addr b; bus_data := bus_data b |}
       else if address =? 0x39 then
         let b1 := {| bus_mem := bus_mem b; bus_sbcs := bus_sbcs b;
                      bus_addr := wdata; bus_data := bus_data b |} in
         Ret (if bus_flag Dmi.Sbcs.SBREADONADDR_MASK b then bus_read b1 else b1)
       else if address =? 0x3c then Ret (bus_write wdata b)
       else Ret b;
     IDtm.simTimeNs := fun _ => 0 |}.

(** What the bus keeps of [sbcs] once it has been programmed for 32-bit
    accesses with the three flags. *)
Definition bus_cfg (readonaddr autoincrement readondata : bool) : Z :=
  (if readonaddr then 0x100000 else 0) + 0x40000
  + (if autoincrement then 0x10000 else 0)
  + (if readondata then 0x8000 else 0).

(** A DTM behind which every system-bus access fails: [sbcs] reads with
    [sberror] 2, a bad address, and never busy. *)
Definition Faulty_IDtm : IDtm.IDtm unit :=
  {| IDtm.reset := fun d => Ret (true, d);
     IDtm.dmiRead := fun address d =>
       Ret (if address =? Dmi.Sbcs.DMI_ADDR then 0x20002404 else 0, d);
     IDtm.dmiWrite := fun _ _ d => Ret d;
     IDtm.simTimeNs := fun _ => 0 |}.

(** An adapter on the DTM [dtm] as the constructor leaves its members,
    with the run action [action]. *)
Definition adapter {D : Type} (dtm : D) (action : Target.ResumeType)
  : Target.t D :=
  {| Target.mDmi := Some {| Target.core := Dmi.new dtm;
                            Target.dmstatus := Dmi.Dmstatus.new;
                            Target.haltsum := Dmi.Haltsum.new |};
     Target.mRunAction := action; Target.mDmstatus := None;
     Target.cerr := [] |}.

(** A debug module whose hart 0 has halted at an [ebreak]: [haltsum0]
    reads 1 and [data0], which holds [dcsr] after the transfer, reads
    with cause 1; every other register reads as zero. *)
Definition halted_at_ebreak (l : list Event) (address : Z) : Z :=
  if address =? 0x40 then 1
  else if address =? 0x04 then 0x40000043
  else 0.

(** A debug module all of whose registers read as zero: the system bus
    is never busy and reports no error. *)
Definition silent (l : list Event) (address : Z) : Z := 0.

(** The bus in front of the memory [m], idle. *)
Definition bus_on (m : gmap Z Z) : Bus :=
  {| bus_mem := m; bus_sbcs := 0; bus_addr := 0; bus_data := 0 |}.

(** The memory [m] is [m0] with the bytes of [buf] written from [addr]
    up to, not including, [hi]. *)
Definition mem_written (m0 : gmap Z Z) (addr : Z) (buf : list Z) (hi : Z)
    (m : gmap Z Z) : Prop :=
  forall x,
    bus_byte m x
    = if decide (addr <= x < hi) then nth (Z.to_nat (x - addr)) buf 0
      else bus_byte m0 x.

(** Eight bytes of memory from 0x1c000000 on. *)
Definition ram : gmap Z Z :=
  list_to_map
    [(0x1c000000, 0x10); (0x1c000001, 0x32); (0x1c000002, 0x54);
     (0x1c000003, 0x76); (0x1c000004, 0x98); (0x1c000005, 0xba);
     (0x1c000006, 0xdc); (0x1c000007, 0xfe)].

(** The bytes [a, a + 1, ..., a + n - 1] of a memory. *)
Definition bus_bytes (m : gmap Z Z) (a : Z) (n : nat) : list Z :=
  map (fun j => bus_byte m (a + Z.of_nat j)) (seq 0 n).

End Bench.

(** * Proofs *)

(** ** Tactics and facts shared by the proofs *)

Lemma bind_Ret {A B : Type} (m : outcome A) (f : A -> outcome B) (b : B) :
  bind m f = Ret b -> exists a, m = Ret a /\ f a = Ret b.
Proof. destruct m; simpl; intros E; try discriminate E. eauto. Qed.

Lemma u16_small (z : Z) : 0 <= z < 2 ^ 16 -> u16 z = z.
Proof. intros Hz. unfold u16. apply Z.mod_small. exact Hz. Qed.

Lemma u32_small (z : Z) : 0 <= z < 2 ^ 32 -> u32 z = z.
Proof. intros Hz. unfold u32. apply Z.mod_small. exact Hz. Qed.

Lemma u64_small (z : Z) : 0 <= z < 2 ^ 64 -> u64 z = z.
Proof. intros Hz. unfold u64. apply Z.mod_small. exact Hz. Qed.

(** ** Sbcs *)

(** C7.  After [Sbcs::reset ()] the cached [sbcs] value is [0x20040000],
    whose [sbversion] field (bits 31:29) is 1 and whose [sbaccess] field
    (bits 19:17) is 2, the 32-bit access size; the two masks are the
    3-bit fields at offsets 29 and 17. *)
Theorem Sbcs_reset_version_and_access (r : Dmi.Sbcs.t) :
  Dmi.Sbcs.mSbcsReg (Dmi.Sbcs.reset r) = 0x20040000
  /\ Dmi.Sbcs.sbversion (Dmi.Sbcs.reset r) = 1
  /\ Dmi.Sbcs.sbaccess (Dmi.Sbcs.reset r) = Dmi.Sbcs.SBACCESS_32
  /\ Dmi.Sbcs.SbaccessVal_val Dmi.Sbcs.SBACCESS_32 = 2
  /\ Dmi.Sbcs.SBVERSION_MASK = Z.shiftl (Z.ones 3) 29
  /\ Dmi.Sbcs.SBACCESS_MASK = Z.shiftl (Z.ones 3) 17.
Proof. repeat split. Qed.

(** ** The CSR catalogue *)

Lemma mCsrMap_keys_NoDup : NoDup (Dmi.mCsrMap_init.*1).
Proof. apply (bool_decide_unpack _). vm_compute. exact I. Qed.

Lemma mCsrMap_lookup_Some (addr : Z) (info : Dmi.CsrInfo) :
  (addr, info) ∈ Dmi.mCsrMap_init -> Dmi.mCsrMap !! addr = Some info.
Proof.
  intros Hin. unfold Dmi.mCsrMap.
  apply elem_of_list_to_map_1; [exact mCsrMap_keys_NoDup | exact Hin].
Qed.

Lemma mCsrMap_lookup_None (addr : Z) :
  addr ∉ Dmi.mCsrMap_init.*1 -> Dmi.mCsrMap !! addr = None.
Proof. intros Hnin. unfold Dmi.mCsrMap. apply not_elem_of_list_to_map_1, Hnin. Qed.

(** C9.  For a CSR address that is no key of the catalogue, [csrReadOnly]
    gives [true], [csrName] gives "UNKNOWN" and [csrType] gives [NONE];
    for an address that the catalogue holds, each accessor gives the
    field of the catalogued entry. *)
Theorem csr_accessors (addr : Z) :
  (addr ∉ Dmi.mCsrMap_init.*1 ->
     Dmi.csrReadOnly addr = true
     /\ Dmi.csrName addr = "UNKNOWN"
     /\ Dmi.csrType addr = Dmi.NONE)
  /\ (forall info, (addr, info) ∈ Dmi.mCsrMap_init ->
        Dmi.csrName addr = Dmi.name info
        /\ Dmi.csrReadOnly addr = Dmi.readOnly info
        /\ Dmi.csrType addr = Dmi.type info).
Proof.
  split.
  - intros Hnin. apply mCsrMap_lookup_None in Hnin.
    unfold Dmi.csrReadOnly, Dmi.csrName, Dmi.csrType. rewrite Hnin. auto.
  - intros info Hin. apply mCsrMap_lookup_Some in Hin.
    unfold Dmi.csrReadOnly, Dmi.csrName, Dmi.csrType. rewrite Hin. auto.
Qed.

(** An address outside the catalogue, [0x123], and one inside, [dpc]. *)
Lemma csr_accessors_witness :
  (Dmi.csrReadOnly 0x123 = true
   /\ Dmi.csrName 0x123 = "UNKNOWN"
   /\ Dmi.csrType 0x123 = Dmi.NONE)
  /\ (Dmi.csrName Dmi.Csr.DPC = "dpc"
      /\ Dmi.csrReadOnly Dmi.Csr.DPC = false
      /\ Dmi.csrType Dmi.Csr.DPC = Dmi.ANY).
Proof.
  split.
  - apply (proj1 (csr_accessors 0x123)).
    apply (bool_decide_unpack _). vm_compute. exact I.
  - apply (proj2 (csr_accessors Dmi.Csr.DPC)
             (Dmi.mkCsrInfo "dpc" false Dmi.ANY)).
    apply (bool_decide_unpack _). vm_compute. exact I.
Defined.

(** ** The adapter *)

(** C10.  [Cv32e40::write] with a size of zero returns zero at once and
    leaves the adapter, and with it the [Dmi] and the DTM below it, as
    they were, whatever the DTM is: [Dmi::writeMem] is not called and
    there is no traffic. *)
Theorem Cv32e40_write_zero_size
    {D : Type} {I : IDtm.IDtm D}
    (fuel : nat) (addr : Z) (buffer : list Z) (w0 : Z) (a : Cv32e40.t D) :
  Cv32e40.write fuel addr buffer 0 w0 a = Ret (0, a).
Proof. reflexivity. Qed.

(** On the recording DTM: no event is added by the probe, while a write
    of one byte does reach the system bus. *)
Lemma Cv32e40_write_zero_size_no_traffic :
  (exists a',
     Cv32e40.write (I := Bench.one_hart_dtm) 4 0x1c008000 [] 0 0
       (Cv32e40.mk (Dmi.new []))
       = Ret (0, a')
     /\ Dmi.mDtm (Cv32e40.mDmi a') = [])
  /\ (exists a',
        Cv32e40.write (I := Bench.one_hart_dtm) 4 0x1c008000 [0xaa] 1 0
          (Cv32e40.mk (Dmi.new []))
          = Ret (1, a')
        /\ Dmi.mDtm (Cv32e40.mDmi a') <> []).
Proof.
  split; eexists; (split; [vm_compute; reflexivity | ]).
  - reflexivity.
  - vm_compute. discriminate.
Qed.

(** The floating-point band of [readRegister] and [writeRegister] hands
    the debugger's register number itself to [readFpr] and [writeFpr], so
    the register transfer is the one of [readCsr] and [writeCsr] at
    [0x1020 + r]. *)
Lemma readRegister_fpr_band
    {D : Type} {I : IDtm.IDtm D} (r readvalue : Z) (a : Cv32e40.t D) :
  33 <= r <= 64 ->
  Cv32e40.readRegister r readvalue a
  = ('(_, v, s) <- Dmi.readCsr (0x1020 + r) readvalue (Cv32e40.mDmi a) ;;
     Ret (4, v, Cv32e40.mk s)).
Proof.
  intros Hr. unfold Cv32e40.readRegister.
  replace ((Cv32e40.REG_ZERO_GDBNUM <=? r) && (r <? Cv32e40.REG_PC_GDBNUM))
    with false
    by (symmetry; apply andb_false_iff; right; apply Z.ltb_ge;
        unfold Cv32e40.REG_PC_GDBNUM; lia).
  replace (r =? Cv32e40.REG_PC_GDBNUM) with false
    by (symmetry; apply Z.eqb_neq; unfold Cv32e40.REG_PC_GDBNUM; lia).
  replace ((Cv32e40.REG_FT0_GDBNUM <=? r) && (r <? Cv32e40.REG_CSR0_GDBNUM))
    with true
    by (symmetry; apply andb_true_iff; split;
        [apply Z.leb_le | apply Z.ltb_lt];
        unfold Cv32e40.REG_FT0_GDBNUM, Cv32e40.REG_CSR0_GDBNUM; lia).
  unfold Dmi.readFpr, Dmi.FPR_BASE.
  rewrite (u16_small r) by lia.
  rewrite (u16_small (0x1020 + r)) by lia.
  reflexivity.
Qed.

Lemma writeRegister_fpr_band
    {D : Type} {I : IDtm.IDtm D} (r value : Z) (a : Cv32e40.t D) :
  33 <= r <= 64 ->
  Cv32e40.writeRegister r value a
  = ('(_, s) <- Dmi.writeCsr (0x1020 + r) (u32 value) (Cv32e40.mDmi a) ;;
     Ret (4, Cv32e40.mk s)).
Proof.
  intros Hr. unfold Cv32e40.writeRegister.
  replace ((Cv32e40.REG_ZERO_GDBNUM <=? r) && (r <? Cv32e40.REG_PC_GDBNUM))
    with false
    by (symmetry; apply andb_false_iff; right; apply Z.ltb_ge;
        unfold Cv32e40.REG_PC_GDBNUM; lia).
  replace (r =? Cv32e40.REG_PC_GDBNUM) with false
    by (symmetry; apply Z.eqb_neq; unfold Cv32e40.REG_PC_GDBNUM; lia).
  replace ((Cv32e40.REG_FT0_GDBNUM <=? r) && (r <? Cv32e40.REG_CSR0_GDBNUM))
    with true
    by (symmetry; apply andb_true_iff; split;
        [apply Z.leb_le | apply Z.ltb_lt];
        unfold Cv32e40.REG_FT0_GDBNUM, Cv32e40.REG_CSR0_GDBNUM; lia).
  unfold Dmi.writeFpr, Dmi.FPR_BASE.
  rewrite (u16_small r) by lia.
  rewrite (u16_small (0x1020 + r)) by lia.
  reflexivity.
Qed.

(** C5, at register 33 (the first floating-point register, ft0).  The
    command that [readRegister (33)] writes to the [command] register
    (DMI address [0x17]) carries [regno = 0x1041], which is [0x1020 + 33]
    and not [0x1020 + (33 - 33)]; [writeRegister (33)] does the same.  The
    CSR band next to it does subtract its base: register [0x41] is
    transferred with [regno = 0]. *)
Theorem readRegister_ft0_regno :
  let a : Cv32e40.t (list Bench.Event) := Cv32e40.mk (Dmi.new []) in
  (exists v a',
     Cv32e40.readRegister (I := Bench.one_hart_dtm) 33 0 a = Ret (4, v, a')
     /\ Dmi.mDtm (Cv32e40.mDmi a')
        = [Bench.DmiWrite 0x17 0x00221041; Bench.DmiRead 0x16 0; Bench.DmiRead 0x4 0])
  /\ (exists a',
        Cv32e40.writeRegister (I := Bench.one_hart_dtm) 33 7 a = Ret (4, a')
        /\ Dmi.mDtm (Cv32e40.mDmi a')
           = [Bench.DmiWrite 0x4 7; Bench.DmiWrite 0x17 0x00231041;
              Bench.DmiRead 0x16 0])
  /\ Dmi.Command.regno_of 0x00221041 = 0x1020 + 33
  /\ Dmi.Command.regno_of 0x00221041 <> 0x1020 + (33 - 33)
  /\ (exists v a',
        Cv32e40.readRegister (I := Bench.one_hart_dtm) 0x41 0 a = Ret (4, v, a')
        /\ Dmi.mDtm (Cv32e40.mDmi a')
           = [Bench.DmiWrite 0x17 0x00220000; Bench.DmiRead 0x16 0; Bench.DmiRead 0x4 0]).
Proof.
  cbv zeta. repeat split.
  - do 2 eexists. split; [vm_compute; reflexivity | reflexivity].
  - eexists. split; [vm_compute; reflexivity | reflexivity].
  - vm_compute. discriminate.
  - do 2 eexists. split; [vm_compute; reflexivity | reflexivity].
Qed.

(** ** Hart selection *)

(** Whatever the debug module answers, [hartsellen] gives [0xfffff]: after
    the write it resets the cached [dmcontrol], which puts the hart just
    selected back, and reads the field from that cache. *)
Lemma hartsellen_constant
    {D : Type} {I : IDtm.IDtm D} (s s1 : Dmi.t D) :
  Dmi.selectHart Dmi.Dmcontrol.hartselMax s = Ret s1 ->
  exists s', Dmi.hartsellen s = Ret (0xfffff, s') /\ Dmi.mDtm s' = Dmi.mDtm s1.
Proof.
  intros Hsel. unfold Dmi.hartsellen. rewrite Hsel. simpl bind.
  exists (Dmi.with_dmcontrol s1 (Dmi.Dmcontrol.reset (Dmi.mDmcontrol s1))).
  split; [ | reflexivity].
  unfold Dmi.selectHart, Dmi.dmcontrol_write in Hsel.
  apply bind_Ret in Hsel. destruct Hsel as (d & _ & Hs1).
  injection Hs1 as <-. reflexivity.
Qed.

(** C4, on a debug module with the single hart 0.  [hartsellen] writes
    [dmcontrol] once with every [hartsel] bit set and never reads: the
    traffic is that one write.  It returns [0xfffff], while the [hartsel]
    field read back from the device after the write is 0. *)
Theorem hartsellen_one_hart_device :
  exists s',
    Dmi.hartsellen (I := Bench.one_hart_dtm) (Dmi.new []) = Ret (0xfffff, s')
    /\ Dmi.mDtm s' = [Bench.DmiWrite 0x10 0x03ffffc1]
    /\ Bench.no_read (Dmi.mDtm s') = true
    /\ exists r d,
         Dmi.Dmcontrol.read (I := Bench.one_hart_dtm)
           (Dmi.mDmcontrol s') (Dmi.mDtm s') = Ret (r, d)
         /\ Dmi.Dmcontrol.mDmcontrolReg r = 0x00000001
         /\ Dmi.Dmcontrol.hartsel r = 0.
Proof.
  eexists. split; [vm_compute; reflexivity | ].
  split; [reflexivity | ]. split; [reflexivity | ].
  do 2 eexists. split; [vm_compute; reflexivity | ].
  split; reflexivity.
Qed.

(** ** The clocks of VSim *)

(** The TCK period that the constructor sets up is four main
    half-periods, that is twice the main clock period for an even [P]. *)
Lemma VSim_new_tck_period {Core : Type} (P simTimeNs : Z) (vcdFile : string)
    (core0 : Core) :
  0 <= P < 2 ^ 64 ->
  VSim.mClkHalfPeriodTicks (VSim.new P simTimeNs vcdFile core0) = P / 2
  /\ VSim.tckPeriodNs (VSim.new P simTimeNs vcdFile core0) = 4 * (P / 2).
Proof.
  intros HP. split; [reflexivity | ].
  unfold VSim.tckPeriodNs, VSim.new; simpl.
  rewrite u64_small; [lia | ].
  assert (0 <= P / 2 < 2 ^ 63).
  { split; [apply Z.div_pos; lia | ].
    apply Z.div_lt_upper_bound; [lia | ].
    change (2 * 2 ^ 63) with (2 ^ 64). lia. }
  change (2 ^ 64) with (2 * 2 ^ 63). lia.
Qed.

(** C1, at the clock period of 20 ns that the adapter constructs the
    stack with.  The TCK half-period is 20 ns and the TCK period 40 ns,
    twice the main clock period and not ten times it: over the first
    eight half-periods of 10 ns TCK is high at 10, low at 20 and 30, high
    at 40 and 50, low at 60 and 70 and high again at 80 ns. *)
Theorem VSim_tck_period_at_20ns :
  let v := VSim.new 20 0 "" tt in
  VSim.mClkHalfPeriodTicks v = 10
  /\ VSim.mTckHalfPeriodTicks v = 20
  /\ VSim.tckPeriodNs v = 2 * 20
  /\ VSim.tckPeriodNs v <> 10 * 20
  /\ VSim.tckWave 8 v
     = Ret [(10, 1); (20, 0); (30, 0); (40, 1);
            (50, 1); (60, 0); (70, 0); (80, 1)].
Proof.
  cbv zeta. repeat split. vm_compute. discriminate.
Qed.

(** ** Bit fields *)

Lemma testbit_u32 (z i : Z) :
  0 <= i -> Z.testbit (u32 z) i = (i <? 32) && Z.testbit z i.
Proof. intros Hi. unfold u32. apply Z.testbit_mod_pow2. lia. Qed.

Lemma testbit_not32 (z i : Z) :
  0 <= i -> Z.testbit (not32 z) i = (i <? 32) && negb (Z.testbit z i).
Proof.
  intros Hi. unfold not32. rewrite testbit_u32 by lia.
  rewrite Z.lnot_spec by lia. reflexivity.
Qed.

(** The bits of the mask of a field of [size] bits at [offset]. *)
Lemma testbit_field (size offset i : Z) :
  0 <= size -> 0 <= offset -> 0 <= i ->
  Z.testbit (Z.shiftl (Z.ones size) offset) i
  = (offset <=? i) && (i <? offset + size).
Proof.
  intros Hs Ho Hi. rewrite Z.shiftl_spec by lia.
  destruct (Z.leb_spec offset i).
  - rewrite Z.testbit_ones_nonneg by lia. simpl.
    destruct (Z.ltb_spec (i - offset) size), (Z.ltb_spec i (offset + size));
      try lia; reflexivity.
  - rewrite Z.testbit_neg_r by lia. reflexivity.
Qed.

Ltac split_cmp :=
  repeat match goal with
  | |- context [?a <? ?b] => destruct (Z.ltb_spec a b)
  | |- context [?a <=? ?b] => destruct (Z.leb_spec a b)
  end.

(** Equality of two words built from masks and shifts, bit by bit. *)
Ltac bitwise :=
  let i := fresh "i" in
  let Hi := fresh "Hi" in
  apply Z.bits_inj'; intros i Hi;
  repeat first
    [ rewrite Z.lor_spec | rewrite Z.land_spec
    | rewrite testbit_field by lia
    | rewrite testbit_u32 by lia | rewrite testbit_not32 by lia
    | rewrite Z.testbit_mod_pow2 by lia
    | rewrite Z.shiftr_spec by lia | rewrite Z.shiftl_spec by lia ];
  split_cmp; simpl;
  repeat first
    [ rewrite Z.shiftr_spec by lia
    | match goal with
      | |- context [Z.testbit ?x ?e] => rewrite (Z.testbit_neg_r x e) by lia
      end ];
  simpl;
  rewrite ?andb_false_r, ?andb_true_r, ?orb_false_r, ?orb_true_r,
          ?andb_false_l, ?orb_false_l;
  try lia; try reflexivity;
  try (f_equal; lia).

Lemma hartsel_masks :
  Dmi.Dmcontrol.HARTSELLO_MASK = Z.shiftl (Z.ones 10) 16
  /\ Dmi.Dmcontrol.HARTSELHI_MASK = Z.shiftl (Z.ones 10) 6.
Proof. split; reflexivity. Qed.

(** The setter puts bits 9:0 of the hart number in [hartsello]. *)
Lemma set_hartsel_lo (h : Z) (r : Dmi.Dmcontrol.t) :
  Z.shiftr (Z.land (Dmi.Dmcontrol.mDmcontrolReg (Dmi.Dmcontrol.set_hartsel h r))
                   Dmi.Dmcontrol.HARTSELLO_MASK)
           Dmi.Dmcontrol.HARTSELLO_OFFSET
  = h mod 2 ^ 10.
Proof.
  unfold Dmi.Dmcontrol.set_hartsel. cbn [Dmi.Dmcontrol.mDmcontrolReg].
  destruct hartsel_masks as [-> ->].
  unfold Dmi.Dmcontrol.HARTSELLO_OFFSET, Dmi.Dmcontrol.HARTSELLO_SIZE,
    Dmi.Dmcontrol.HARTSELHI_OFFSET.
  set (reg := Dmi.Dmcontrol.mDmcontrolReg _).
  bitwise.
Qed.

(** The setter puts bits 19:10 of the hart number in [hartselhi]. *)
Lemma set_hartsel_hi (h : Z) (r : Dmi.Dmcontrol.t) :
  Z.shiftr (Z.land (Dmi.Dmcontrol.mDmcontrolReg (Dmi.Dmcontrol.set_hartsel h r))
                   Dmi.Dmcontrol.HARTSELHI_MASK)
           Dmi.Dmcontrol.HARTSELHI_OFFSET
  = (h / 2 ^ 10) mod 2 ^ 10.
Proof.
  unfold Dmi.Dmcontrol.set_hartsel. cbn [Dmi.Dmcontrol.mDmcontrolReg].
  destruct hartsel_masks as [-> ->].
  unfold Dmi.Dmcontrol.HARTSELLO_OFFSET, Dmi.Dmcontrol.HARTSELLO_SIZE,
    Dmi.Dmcontrol.HARTSELHI_OFFSET.
  set (reg := Dmi.Dmcontrol.mDmcontrolReg _).
  rewrite <- Z.shiftr_div_pow2 by lia.
  bitwise.
Qed.

(** The getter after the setter gives the low 20 bits. *)
Lemma hartsel_set_hartsel (h : Z) (r : Dmi.Dmcontrol.t) :
  Dmi.Dmcontrol.hartsel (Dmi.Dmcontrol.set_hartsel h r) = h mod 2 ^ 20.
Proof.
  unfold Dmi.Dmcontrol.hartsel. rewrite set_hartsel_lo, set_hartsel_hi.
  unfold Dmi.Dmcontrol.HARTSELLO_SIZE.
  rewrite <- Z.shiftr_div_pow2 by lia.
  bitwise.
Qed.

(** C8.  For a 32-bit hart number [h], [Dmcontrol::hartsel (h)] stores
    bits 9:0 of [h] in [hartsello] (register bits 25:16) and bits 19:10
    in [hartselhi] (register bits 15:6); the getter then gives the low 20
    bits of [h], which is [h] itself when [h < 2^20]. *)
Theorem Dmcontrol_hartsel_roundtrip (h : Z) (r : Dmi.Dmcontrol.t) :
  0 <= h < 2 ^ 32 ->
  let r' := Dmi.Dmcontrol.set_hartsel h r in
  Z.shiftr (Z.land (Dmi.Dmcontrol.mDmcontrolReg r') 0x03ff0000) 16
    = h mod 2 ^ 10
  /\ Z.shiftr (Z.land (Dmi.Dmcontrol.mDmcontrolReg r') 0x0000ffc0) 6
     = (h / 2 ^ 10) mod 2 ^ 10
  /\ Dmi.Dmcontrol.hartsel r' = h mod 2 ^ 20
  /\ (h < 2 ^ 20 -> Dmi.Dmcontrol.hartsel r' = h).
Proof.
  intros Hh r'. split; [apply set_hartsel_lo | ].
  split; [apply set_hartsel_hi | ].
  split; [apply hartsel_set_hartsel | ].
  intros Hlt. unfold r'. rewrite hartsel_set_hartsel.
  apply Z.mod_small. lia.
Qed.

(** Hart [0x12345] on a fresh [dmcontrol]. *)
Lemma Dmcontrol_hartsel_roundtrip_witness :
  0 <= 0x12345 < 2 ^ 32
  /\ 0x12345 < 2 ^ 20
  /\ Dmi.Dmcontrol.hartsel
       (Dmi.Dmcontrol.set_hartsel 0x12345 Dmi.Dmcontrol.new) = 0x12345.
Proof.
  split; [lia | ]. split; [lia | ].
  destruct (Dmcontrol_hartsel_roundtrip 0x12345 Dmi.Dmcontrol.new)
    as (_ & _ & _ & Hget); [lia | ].
  apply Hget. lia.
Defined.

(** ** The Tap: what the operations leave in the object *)

(** One step through a sequence of calls that returned. *)
Ltac bind_step E H :=
  apply bind_Ret in E;
  let x := fresh "x" in
  destruct E as (x & H & E);
  try (destruct x as [? ?]);
  cbn beta iota in E.


Section TapFacts.
Context {Core : Type} {M : VSim.Verilated Core}.

(** Fields that the clocking loops leave alone. *)
Lemma advanceHalfPeriod_pins (v v' : VSim.t Core) :
  VSim.advanceHalfPeriod v = Ret v' ->
  VSim.jtag_tms_i (VSim.mCpu v') = VSim.jtag_tms_i (VSim.mCpu v)
  /\ VSim.jtag_tdi_i (VSim.mCpu v') = VSim.jtag_tdi_i (VSim.mCpu v).
Proof.
  unfold VSim.advanceHalfPeriod.
  destruct (_ || _); [discriminate | ].
  intros E. injection E as <-. split; reflexivity.
Qed.

Lemma eval_pins (v : VSim.t Core) :
  VSim.jtag_tms_i (VSim.mCpu (VSim.eval v)) = VSim.jtag_tms_i (VSim.mCpu v)
  /\ VSim.jtag_tdi_i (VSim.mCpu (VSim.eval v)) = VSim.jtag_tdi_i (VSim.mCpu v).
Proof.
  unfold VSim.eval. destruct (VSim.settle _ _ _ _ _ _ _). split; reflexivity.
Qed.

Lemma toNegedge_tms (fuel : nat) (v v' : VSim.t Core) :
  Tap.toNegedge fuel v = Ret v' ->
  VSim.jtag_tms_i (VSim.mCpu v') = VSim.jtag_tms_i (VSim.mCpu v).
Proof.
  revert v. induction fuel as [ | fuel IH]; intros v; simpl.
  - destruct (VSim.tapNegedge v); [ | discriminate].
    intros E. injection E as <-. reflexivity.
  - destruct (VSim.tapNegedge v).
    + intros E. injection E as <-. reflexivity.
    + intros E. apply bind_Ret in E. destruct E as (v1 & E1 & E2).
      apply IH in E2. rewrite E2.
      apply advanceHalfPeriod_pins in E1. destruct E1 as [-> _].
      apply eval_pins.
Qed.

Lemma advanceState_fields (fuel : nat) (tms tdi b : bool)
    (tp tp' : Tap.t Core) :
  Tap.advanceState fuel tms tdi tp = Ret (b, tp') ->
  Tap.mCurrState tp' = Tap.next (Tap.mCurrState tp) tms
  /\ Tap.mLastIr tp' = Tap.mLastIr tp
  /\ Tap.mRtiCount tp' = Tap.mRtiCount tp.
Proof.
  unfold Tap.advanceState. intros E.
  apply bind_Ret in E. destruct E as (v1 & _ & E).
  apply bind_Ret in E. destruct E as (v2 & E2 & E).
  injection E as _ <-.
  apply toNegedge_tms in E2.
  unfold Tap.nextState, Tap.with_state, Tap.with_mcu, VSim.tms; simpl.
  rewrite E2. simpl. destruct tms; auto.
Qed.

Lemma gotoState_loop_fields (fuel n : nat) (s : Tap.State) (b0 b : bool)
    (tp tp' : Tap.t Core) :
  Tap.gotoState_loop fuel n s b0 tp = Ret (b, tp') ->
  Tap.mCurrState tp' = s
  /\ Tap.mLastIr tp' = Tap.mLastIr tp
  /\ Tap.mRtiCount tp' = Tap.mRtiCount tp.
Proof.
  revert b0 tp. induction n as [ | n IH]; intros b0 tp; simpl.
  - destruct (decide _) as [Heq | ]; [ | discriminate].
    intros E. injection E as _ <-. auto.
  - destruct (decide _) as [Heq | ].
    + intros E. injection E as _ <-. auto.
    + intros E. apply bind_Ret in E. destruct E as ([b1 tp1] & E1 & E2).
      apply IH in E2. apply advanceState_fields in E1.
      destruct E1 as (_ & H1 & H2). rewrite <- H1, <- H2. exact E2.
Qed.

Lemma gotoState_fields (fuel : nat) (s : Tap.State) (b : bool)
    (tp tp' : Tap.t Core) :
  Tap.gotoState fuel s tp = Ret (b, tp') ->
  Tap.mCurrState tp' = s
  /\ Tap.mLastIr tp' = Tap.mLastIr tp
  /\ Tap.mRtiCount tp' = Tap.mRtiCount tp.
Proof. apply gotoState_loop_fields. Qed.

Lemma gotoState_there (fuel : nat) (s : Tap.State) (tp : Tap.t Core) :
  Tap.mCurrState tp = s ->
  Tap.gotoState fuel s tp = Ret (VSim.tdo (Tap.mMcu tp), tp).
Proof.
  intros Hs. unfold Tap.gotoState. destruct fuel; simpl;
    destruct (decide _); try reflexivity; contradiction.
Qed.

Lemma rtiDwell_idle (fuel n : nat) (tp : Tap.t Core) :
  Tap.mCurrState tp = Tap.RUN_TEST_IDLE -> Tap.rtiDwell fuel n tp = Ret tp.
Proof.
  intros Hs. induction n as [ | n IH]; simpl; [reflexivity | ].
  rewrite gotoState_there by exact Hs. simpl. exact IH.
Qed.

Lemma rtiDwell_once (fuel n : nat) (tp : Tap.t Core) :
  Tap.rtiDwell fuel (S n) tp = Tap.rtiDwell fuel 1 tp.
Proof.
  simpl. destruct (Tap.gotoState fuel Tap.RUN_TEST_IDLE tp) as [[b tp1] | | | ] eqn:E;
    simpl; try reflexivity.
  apply rtiDwell_idle. apply gotoState_fields in E. tauto.
Qed.

Lemma shiftDr_fields (fuel : nat) (dreg len r : Z) (tp tp' : Tap.t Core) :
  Tap.shiftDr fuel dreg len tp = Ret (r, tp') ->
  Tap.mCurrState tp' = Tap.UPDATE_DR.
Proof.
  unfold Tap.shiftDr. intros E.
  bind_step E E1. bind_step E E2. bind_step E E3. bind_step E E4.
  bind_step E E5. bind_step E E6. bind_step E E7. bind_step E E8.
  injection E as _ <-.
  apply gotoState_fields in E8. tauto.
Qed.

Lemma accessReg_state (fuel : nat) (ir wdata len r : Z)
    (tp tp' : Tap.t Core) :
  Tap.accessReg fuel ir wdata len tp = Ret (r, tp') ->
  Tap.mCurrState tp' = Tap.UPDATE_DR.
Proof.
  unfold Tap.accessReg. destruct (64 <? len); [discriminate | ].
  intros E. bind_step E E1. bind_step E E2. bind_step E E3.
  injection E as _ <-.
  apply gotoState_fields in E3. tauto.
Qed.

Lemma reset_loop_state (fuel : nat) (b : bool) (tp tp' : Tap.t Core) :
  Tap.reset_loop fuel tp = Ret (b, tp') ->
  Tap.mCurrState tp' = (if b then Tap.RUN_TEST_IDLE else Tap.mCurrState tp).
Proof.
  revert tp. induction fuel as [ | fuel IH]; intros tp; simpl.
  - destruct (VSim.inReset _); [discriminate | ].
    intros E. injection E as <- <-. reflexivity.
  - destruct (VSim.inReset _).
    + destruct (VSim.allDone _).
      * intros E. injection E as <- <-. reflexivity.
      * intros E. bind_step E E1. apply IH in E. exact E.
    + intros E. injection E as <- <-. reflexivity.
Qed.
End TapFacts.

(** ** The Tap: the last IR and the dwell *)

Section Kept.
Context {Core : Type} {M : VSim.Verilated Core}.

(** No operation of the Tap but the constructor and [rtiCount] assigns
    [mLastIr] or [mRtiCount]. *)
Lemma shiftIr_loop_kept (fuel n : nat) :
  forall (i ireg : Z) (tp tp' : Tap.t Core),
    Tap.shiftIr_loop fuel n i ireg tp = Ret tp' ->
    Tap.mLastIr tp' = Tap.mLastIr tp /\ Tap.mRtiCount tp' = Tap.mRtiCount tp.
Proof.
  induction n as [ | n IH]; intros i ireg tp tp' E; simpl in E.
  - injection E as <-. auto.
  - apply bind_Ret in E. destruct E as ([b tp1] & E1 & E). cbn beta iota in E.
    apply IH in E. apply advanceState_fields in E1.
    destruct E as [-> ->]. tauto.
Qed.

Lemma shiftIr_kept (fuel : nat) (ireg : Z) (tp tp' : Tap.t Core) :
  Tap.shiftIr fuel ireg tp = Ret tp' ->
  Tap.mLastIr tp' = Tap.mLastIr tp /\ Tap.mRtiCount tp' = Tap.mRtiCount tp.
Proof.
  unfold Tap.shiftIr. intros E.
  apply bind_Ret in E. destruct E as ([b1 tp1] & E1 & E). cbn beta iota in E.
  apply bind_Ret in E. destruct E as (tp2 & E2 & E).
  apply bind_Ret in E. destruct E as ([b3 tp3] & E3 & E). cbn beta iota in E.
  apply bind_Ret in E. destruct E as ([b4 tp4] & E4 & E). cbn beta iota in E.
  injection E as <-.
  apply gotoState_fields in E1, E4. apply shiftIr_loop_kept in E2.
  apply advanceState_fields in E3.
  destruct E1 as (_ & <- & <-), E2 as (<- & <-), E3 as (_ & <- & <-).
  tauto.
Qed.

Lemma shiftDr_loop_kept (fuel n : nat) :
  forall (i bound dreg regOut r : Z) (tp tp' : Tap.t Core),
    Tap.shiftDr_loop fuel n i bound dreg regOut tp = Ret (r, tp') ->
    Tap.mLastIr tp' = Tap.mLastIr tp /\ Tap.mRtiCount tp' = Tap.mRtiCount tp.
Proof.
  induction n as [ | n IH]; intros i bound dreg regOut r tp tp' E; simpl in E.
  - destruct (i <? bound); [discriminate | ]. injection E as _ <-. auto.
  - destruct (i <? bound); [ | injection E as _ <-; auto].
    apply bind_Ret in E. destruct E as (m & _ & E).
    apply bind_Ret in E. destruct E as ([b tp1] & E1 & E). cbn beta iota in E.
    apply IH in E. apply advanceState_fields in E1.
    destruct E as [-> ->]. tauto.
Qed.

Lemma shiftDr_kept (fuel : nat) (dreg len r : Z) (tp tp' : Tap.t Core) :
  Tap.shiftDr fuel dreg len tp = Ret (r, tp') ->
  Tap.mLastIr tp' = Tap.mLastIr tp /\ Tap.mRtiCount tp' = Tap.mRtiCount tp.
Proof.
  unfold Tap.shiftDr. intros E.
  apply bind_Ret in E. destruct E as ([b1 tp1] & E1 & E). cbn beta iota in E.
  apply bind_Ret in E. destruct E as ([b2 tp2] & E2 & E). cbn beta iota in E.
  apply bind_Ret in E. destruct E as ([r3 tp3] & E3 & E). cbn beta iota in E.
  apply bind_Ret in E. destruct E as (mlast & _ & E).
  apply bind_Ret in E. destruct E as ([b4 tp4] & E4 & E). cbn beta iota in E.
  apply bind_Ret in E. destruct E as (r5 & _ & E).
  apply bind_Ret in E. destruct E as ([b6 tp6] & E6 & E). cbn beta iota in E.
  apply bind_Ret in E. destruct E as ([b7 tp7] & E7 & E). cbn beta iota in E.
  injection E as _ <-.
  apply gotoState_fields in E1, E7. apply shiftDr_loop_kept in E3.
  apply advanceState_fields in E2, E4, E6.
  destruct E1 as (_ & <- & <-), E2 as (_ & <- & <-), E3 as (<- & <-),
    E4 as (_ & <- & <-), E6 as (_ & <- & <-).
  tauto.
Qed.

Lemma rtiDwell_kept (fuel n : nat) :
  forall (tp tp' : Tap.t Core),
    Tap.rtiDwell fuel n tp = Ret tp' ->
    Tap.mLastIr tp' = Tap.mLastIr tp /\ Tap.mRtiCount tp' = Tap.mRtiCount tp.
Proof.
  induction n as [ | n IH]; intros tp tp' E; simpl in E.
  - injection E as <-. auto.
  - apply bind_Ret in E. destruct E as ([b tp1] & E1 & E). cbn beta iota in E.
    apply IH in E. apply gotoState_fields in E1.
    destruct E as [-> ->]. tauto.
Qed.

Lemma accessReg_kept (fuel : nat) (ir wdata len r : Z)
    (tp tp' : Tap.t Core) :
  Tap.accessReg fuel ir wdata len tp = Ret (r, tp') ->
  Tap.mLastIr tp' = Tap.mLastIr tp /\ Tap.mRtiCount tp' = Tap.mRtiCount tp.
Proof.
  unfold Tap.accessReg, Tap.selectIr. destruct (64 <? len); [discriminate | ].
  intros E.
  apply bind_Ret in E. destruct E as (tp1 & E1 & E).
  apply bind_Ret in E. destruct E as ([r2 tp2] & E2 & E). cbn beta iota in E.
  apply bind_Ret in E. destruct E as ([b3 tp3] & E3 & E). cbn beta iota in E.
  injection E as _ <-.
  apply shiftDr_kept in E2. apply gotoState_fields in E3.
  destruct E3 as (_ & -> & ->), E2 as (-> & ->).
  destruct (Tap.mLastIr tp =? ir);
    [apply rtiDwell_kept in E1 | apply shiftIr_kept in E1]; exact E1.
Qed.

(** So an access with an IR other than 0 shifts the IR again, also when
    it is the IR that the access before it loaded. *)
Lemma accessReg_twice_shifts_ir_twice
    (fuel : nat) (ir wdata len r : Z) (tp tp' : Tap.t Core) :
  Tap.mLastIr tp = 0 -> ir <> 0 ->
  Tap.accessReg fuel ir wdata len tp = Ret (r, tp') ->
  Tap.selectIr fuel ir tp = Tap.shiftIr fuel ir tp
  /\ Tap.selectIr fuel ir tp' = Tap.shiftIr fuel ir tp'.
Proof.
  intros H0 Hir E. apply accessReg_kept in E. destruct E as [E _].
  unfold Tap.selectIr. rewrite E, H0.
  destruct (Z.eqb_spec 0 ir); [congruence | ]. auto.
Qed.

(** From Update-DR, where a register access leaves the controller, the
    dwell for any count above zero is one TCK cycle with TMS low. *)
Lemma rtiDwell_from_update_dr (fuel n : nat) (tp : Tap.t Core) :
  Tap.mCurrState tp = Tap.UPDATE_DR -> (1 <= fuel)%nat ->
  Tap.rtiDwell fuel (S n) tp
  = ('(_, tp1) <- Tap.advanceState fuel false false tp ;; Ret tp1).
Proof.
  intros Hs Hfuel. rewrite rtiDwell_once. simpl. unfold Tap.gotoState.
  destruct fuel as [ | f]; [lia | ]. simpl Tap.gotoState_loop.
  rewrite Hs. destruct (decide _) as [ | _]; [discriminate | ].
  change (Tap.firstStep Tap.UPDATE_DR Tap.RUN_TEST_IDLE) with false.
  destruct (Tap.advanceState (S f) false false tp) as [[b tp1] | | | ] eqn:E;
    cbn [bind]; try reflexivity.
  apply advanceState_fields in E. destruct E as (Hs1 & _).
  rewrite Hs in Hs1. change (Tap.next Tap.UPDATE_DR false)
    with Tap.RUN_TEST_IDLE in Hs1.
  destruct f; simpl; rewrite Hs1;
    (destruct (decide _) as [_ | ]; [reflexivity | contradiction]).
Qed.
End Kept.

(** ** The Tap: every operation returns

    On a clock that has room, the waits for the TCK edges end, and with
    them every loop of the Tap. *)

Section Clock.
Context {Core : Type} {M : VSim.Verilated Core}.

Lemma clock_ok_weaken (N N' : Z) (v : VSim.t Core) :
  Props.clock_ok N v -> N' <= N -> Props.clock_ok N' v.
Proof.
  unfold Props.clock_ok. intros (Hh & Hth & Hr & Ht & Hm & Hk & Hroom) Hle.
  repeat split; try assumption. nia.
Qed.

Lemma clock_ok_halves (N : Z) (v : VSim.t Core) :
  Props.clock_ok N v ->
  0 <= Props.halves v
  /\ VSim.mTickCount v = Props.halves v * VSim.mClkHalfPeriodTicks v.
Proof.
  unfold Props.clock_ok, Props.halves.
  intros (Hh & Hth & Hr & Ht & Hm & Hk & Hroom).
  split.
  - apply Z.div_pos; lia.
  - rewrite Z.mul_comm. apply Z.div_exact; lia.
Qed.

Lemma edge_flags (k : Z) :
  0 <= k ->
  ((1 - (k / 2) mod 2 =? 0) && (1 - ((k + 1) / 2) mod 2 =? 1)) = (k mod 4 =? 3)
  /\ ((1 - (k / 2) mod 2 =? 1) && (1 - ((k + 1) / 2) mod 2 =? 0)) = (k mod 4 =? 1).
Proof.
  intros Hk.
  split;
    repeat match goal with
    | |- context [?a =? ?b] => destruct (Z.eqb_spec a b)
    end; simpl; try reflexivity; exfalso;
    Z.div_mod_to_equations; lia.
Qed.

Lemma advanceHalfPeriod_ok (N : Z) (v : VSim.t Core) :
  Props.clock_ok N v -> 1 <= N ->
  exists v',
    VSim.advanceHalfPeriod v = Ret v'
    /\ Props.clock_ok (N - 1) v'
    /\ Props.halves v' = Props.halves v + 1
    /\ VSim.mTckPosedge v' = (Props.halves v mod 4 =? 3)
    /\ VSim.mTckNegedge v' = (Props.halves v mod 4 =? 1)
    /\ VSim.mSimTimeTicks v' = VSim.mSimTimeTicks v.
Proof.
  intros Hok HN.
  destruct (clock_ok_halves N v Hok) as [Hk0 Htick].
  unfold Props.halves in *.
  destruct Hok as (Hh & Hth & Hr & Ht & Hm & Hk & Hroom).
  set (h := VSim.mClkHalfPeriodTicks v) in *.
  set (k := VSim.mTickCount v / h) in *.
  assert (Hu : u64 (VSim.mTickCount v + h) = (k + 1) * h).
  { rewrite u64_small by nia. lia. }
  assert (Hdiv : (k + 1) * h / h = k + 1) by (apply Z.div_mul; lia).
  assert (Hdiv2 : (k + 1) * h / (2 * h) = (k + 1) / 2).
  { apply Z.div_mul_cancel_r; lia. }
  unfold VSim.advanceHalfPeriod. fold h.
  replace (h =? 0) with false by (symmetry; apply Z.eqb_neq; lia).
  replace (VSim.mTckHalfPeriodTicks v =? 0) with false
    by (symmetry; apply Z.eqb_neq; lia).
  simpl orb. cbv iota. rewrite Hu, Hth, Hdiv2.
  eexists. split; [reflexivity | ].
  unfold Props.clock_ok; simpl. fold h. rewrite Hdiv.
  destruct (edge_flags k Hk0) as [Hpos Hneg].
  rewrite Hk. fold k. rewrite Hpos, Hneg.
  repeat split; try assumption; try lia; try nia.
  - apply Z.mod_mul. lia.
Qed.

(** [eval] and the pin setters leave the clock alone. *)
Lemma eval_clock (N : Z) (v : VSim.t Core) :
  (Props.clock_ok N v -> Props.clock_ok N (VSim.eval v))
  /\ Props.halves (VSim.eval v) = Props.halves v
  /\ VSim.mTckPosedge (VSim.eval v) = VSim.mTckPosedge v
  /\ VSim.mTckNegedge (VSim.eval v) = VSim.mTckNegedge v.
Proof.
  unfold VSim.eval, Props.clock_ok, Props.halves.
  destruct (VSim.settle _ _ _ _ _ _ _). simpl. tauto.
Qed.

Lemma set_tms_clock (N : Z) (b : bool) (v : VSim.t Core) :
  (Props.clock_ok N v -> Props.clock_ok N (VSim.set_tms b v))
  /\ Props.halves (VSim.set_tms b v) = Props.halves v
  /\ VSim.mTckPosedge (VSim.set_tms b v) = VSim.mTckPosedge v
  /\ VSim.mTckNegedge (VSim.set_tms b v) = VSim.mTckNegedge v.
Proof. unfold VSim.set_tms, Props.clock_ok, Props.halves. simpl. tauto. Qed.

Lemma set_tdi_clock (N : Z) (b : bool) (v : VSim.t Core) :
  (Props.clock_ok N v -> Props.clock_ok N (VSim.set_tdi b v))
  /\ Props.halves (VSim.set_tdi b v) = Props.halves v
  /\ VSim.mTckPosedge (VSim.set_tdi b v) = VSim.mTckPosedge v
  /\ VSim.mTckNegedge (VSim.set_tdi b v) = VSim.mTckNegedge v.
Proof. unfold VSim.set_tdi, Props.clock_ok, Props.halves. simpl. tauto. Qed.

(** One turn of a clocking loop: evaluate, then advance. *)
Lemma tick_ok (N : Z) (v : VSim.t Core) :
  Props.clock_ok N v -> 1 <= N ->
  exists v',
    VSim.advanceHalfPeriod (VSim.eval v) = Ret v'
    /\ Props.clock_ok (N - 1) v'
    /\ Props.halves v' = Props.halves v + 1
    /\ VSim.mTckPosedge v' = (Props.halves v mod 4 =? 3)
    /\ VSim.mTckNegedge v' = (Props.halves v mod 4 =? 1).
Proof.
  intros Hok HN.
  destruct (eval_clock N v) as (He & Hh & _).
  destruct (advanceHalfPeriod_ok N (VSim.eval v) (He Hok) HN)
    as (v' & E & Hok' & Hh' & Hp & Hn & _).
  exists v'. rewrite Hh in *. auto.
Qed.

(** The wait for an edge ends within [d] half-periods when the edge is
    [d] half-periods away. *)
Lemma toPosedge_within (d : nat) :
  forall (fuel : nat) (N : Z) (v : VSim.t Core),
    Props.clock_ok N v ->
    (Props.halves v + Z.of_nat d) mod 4 = 0 -> (1 <= d)%nat ->
    (d <= fuel)%nat -> Z.of_nat d <= N ->
    exists v',
      Tap.toPosedge fuel v = Ret v'
      /\ Props.clock_ok (N - Z.of_nat d) v'
      /\ VSim.tapPosedge v' = true.
Proof.
  induction d as [ | d IH]; intros fuel N v Hok Hmod Hd Hfuel HN; [lia | ].
  destruct fuel as [ | fuel]; [lia | ].
  simpl Tap.toPosedge.
  destruct (VSim.tapPosedge v) eqn:Hp.
  - exists v. split; [reflexivity | ].
    split; [eapply clock_ok_weaken; [exact Hok | lia] | exact Hp].
  - destruct (tick_ok N v Hok ltac:(lia)) as (v1 & E & Hok1 & Hh1 & Hp1 & _).
    rewrite E. cbn [bind].
    destruct d as [ | d'].
    + assert (Hk : Props.halves v mod 4 = 3).
      { destruct (clock_ok_halves N v Hok) as [Hk0 _].
        revert Hmod. generalize (Props.halves v) Hk0. intros k Hk0' Hmod.
        Z.div_mod_to_equations. lia. }
      exists v1. destruct fuel; simpl;
        unfold VSim.tapPosedge; rewrite Hp1, Hk; simpl;
        (split; [reflexivity | ]);
        (split; [eapply clock_ok_weaken; [exact Hok1 | lia] | reflexivity]).
    + destruct (IH fuel (N - 1) v1 Hok1) as (v' & E' & Hok' & Hp'); try lia.
      { rewrite Hh1. rewrite <- Hmod. f_equal. lia. }
      exists v'. split; [exact E' | ].
      split; [eapply clock_ok_weaken; [exact Hok' | lia] | exact Hp'].
Qed.

Lemma toNegedge_within (d : nat) :
  forall (fuel : nat) (N : Z) (v : VSim.t Core),
    Props.clock_ok N v ->
    (Props.halves v + Z.of_nat d) mod 4 = 2 -> (1 <= d)%nat ->
    (d <= fuel)%nat -> Z.of_nat d <= N ->
    exists v',
      Tap.toNegedge fuel v = Ret v'
      /\ Props.clock_ok (N - Z.of_nat d) v'
      /\ VSim.tapNegedge v' = true.
Proof.
  induction d as [ | d IH]; intros fuel N v Hok Hmod Hd Hfuel HN; [lia | ].
  destruct fuel as [ | fuel]; [lia | ].
  simpl Tap.toNegedge.
  destruct (VSim.tapNegedge v) eqn:Hp.
  - exists v. split; [reflexivity | ].
    split; [eapply clock_ok_weaken; [exact Hok | lia] | exact Hp].
  - destruct (tick_ok N v Hok ltac:(lia)) as (v1 & E & Hok1 & Hh1 & _ & Hp1).
    rewrite E. cbn [bind].
    destruct d as [ | d'].
    + assert (Hk : Props.halves v mod 4 = 1).
      { destruct (clock_ok_halves N v Hok) as [Hk0 _].
        revert Hmod. generalize (Props.halves v) Hk0. intros k Hk0' Hmod.
        Z.div_mod_to_equations. lia. }
      exists v1. destruct fuel; simpl;
        unfold VSim.tapNegedge; rewrite Hp1, Hk; simpl;
        (split; [reflexivity | ]);
        (split; [eapply clock_ok_weaken; [exact Hok1 | lia] | reflexivity]).
    + destruct (IH fuel (N - 1) v1 Hok1) as (v' & E' & Hok' & Hp'); try lia.
      { rewrite Hh1. rewrite <- Hmod. f_equal. lia. }
      exists v'. split; [exact E' | ].
      split; [eapply clock_ok_weaken; [exact Hok' | lia] | exact Hp'].
Qed.

(** Either wait ends within four half-periods. *)
Lemma toPosedge_total (fuel : nat) (N : Z) (v : VSim.t Core) :
  Props.clock_ok N v -> (4 <= fuel)%nat -> 4 <= N ->
  exists v',
    Tap.toPosedge fuel v = Ret v'
    /\ Props.clock_ok (N - 4) v'.
Proof.
  intros Hok Hfuel HN.
  destruct (clock_ok_halves N v Hok) as [Hk0 _].
  set (d := Z.to_nat (4 - Props.halves v mod 4)).
  assert (Hd : 1 <= Z.of_nat d <= 4).
  { unfold d. rewrite Z2Nat.id; Z.div_mod_to_equations; lia. }
  destruct (toPosedge_within d fuel N v Hok) as (v' & E & Hok' & _); try lia.
  { unfold d. rewrite Z2Nat.id by (Z.div_mod_to_equations; lia).
    Z.div_mod_to_equations. lia. }
  exists v'. split; [exact E | eapply clock_ok_weaken; [exact Hok' | lia]].
Qed.

Lemma toNegedge_total (fuel : nat) (N : Z) (v : VSim.t Core) :
  Props.clock_ok N v -> (4 <= fuel)%nat -> 4 <= N ->
  exists v',
    Tap.toNegedge fuel v = Ret v'
    /\ Props.clock_ok (N - 4) v'.
Proof.
  intros Hok Hfuel HN.
  destruct (clock_ok_halves N v Hok) as [Hk0 _].
  set (d := Z.to_nat (if Props.halves v mod 4 <? 2 then 2 - Props.halves v mod 4
                      else 6 - Props.halves v mod 4)).
  assert (Hd : 1 <= Z.of_nat d <= 4
               /\ (Props.halves v + Z.of_nat d) mod 4 = 2).
  { unfold d. destruct (Z.ltb_spec (Props.halves v mod 4) 2);
      rewrite Z2Nat.id; Z.div_mod_to_equations; lia. }
  destruct (toNegedge_within d fuel N v Hok) as (v' & E & Hok' & _); try lia.
  exists v'. split; [exact E | eapply clock_ok_weaken; [exact Hok' | lia]].
Qed.

(** [advanceState] returns, within eight half-periods. *)
Lemma advanceState_total (fuel : nat) (N : Z) (tms tdi : bool)
    (tp : Tap.t Core) :
  Props.clock_ok N (Tap.mMcu tp) -> (4 <= fuel)%nat -> 8 <= N ->
  exists b tp',
    Tap.advanceState fuel tms tdi tp = Ret (b, tp')
    /\ Props.clock_ok (N - 8) (Tap.mMcu tp').
Proof.
  intros Hok Hfuel HN. unfold Tap.advanceState.
  destruct (toPosedge_total fuel N (Tap.mMcu tp) Hok Hfuel ltac:(lia))
    as (v1 & E1 & Hok1).
  rewrite E1. cbn [bind].
  assert (Hok1' : Props.clock_ok (N - 4)
                    (VSim.set_tdi tdi (VSim.set_tms tms v1))).
  { apply set_tdi_clock, set_tms_clock, Hok1. }
  destruct (toNegedge_total fuel (N - 4) _ Hok1' Hfuel ltac:(lia))
    as (v2 & E2 & Hok2).
  rewrite E2. cbn [bind].
  do 2 eexists. split; [reflexivity | ].
  simpl. eapply clock_ok_weaken; [exact Hok2 | lia].
Qed.

Lemma reaches_any (cur s : Tap.State) : Props.reaches 8 cur s = true.
Proof. destruct cur, s; reflexivity. Qed.

(** [gotoState] returns once the table leads to the target. *)
Lemma gotoState_loop_total (m : nat) :
  forall (fuel n : nat) (N : Z) (s : Tap.State) (b0 : bool) (tp : Tap.t Core),
    Props.reaches m (Tap.mCurrState tp) s = true ->
    (m <= n)%nat ->
    Props.clock_ok N (Tap.mMcu tp) -> (4 <= fuel)%nat ->
    8 * Z.of_nat m <= N ->
    exists b tp',
      Tap.gotoState_loop fuel n s b0 tp = Ret (b, tp')
      /\ Props.clock_ok (N - 8 * Z.of_nat m) (Tap.mMcu tp').
Proof.
  induction m as [ | m IH]; intros fuel n N s b0 tp Hr Hmn Hok Hfuel HN.
  - simpl in Hr. destruct (decide (Tap.mCurrState tp = s)) as [Heq | ];
      [ | discriminate].
    exists b0, tp. split.
    + destruct n; simpl; destruct (decide _); try reflexivity; contradiction.
    + eapply clock_ok_weaken; [exact Hok | lia].
  - simpl in Hr. destruct (decide (Tap.mCurrState tp = s)) as [Heq | Hne].
    + exists b0, tp. split.
      * destruct n; simpl; destruct (decide _); try reflexivity; contradiction.
      * eapply clock_ok_weaken; [exact Hok | lia].
    + destruct n as [ | n]; [lia | ]. simpl.
      destruct (decide _) as [ | _]; [contradiction | ].
      destruct (advanceState_total fuel N
                  (Tap.firstStep (Tap.mCurrState tp) s) false tp Hok Hfuel
                  ltac:(lia))
        as (b1 & tp1 & E1 & Hok1).
      rewrite E1. cbn [bind].
      apply advanceState_fields in E1. destruct E1 as (Hs1 & _).
      destruct (IH fuel n (N - 8) s b1 tp1) as (b & tp' & E & Hok');
        try lia; try assumption.
      { rewrite Hs1. exact Hr. }
      exists b, tp'. split; [exact E | ].
      eapply clock_ok_weaken; [exact Hok' | lia].
Qed.

Lemma gotoState_total (fuel : nat) (N : Z) (s : Tap.State)
    (tp : Tap.t Core) :
  Props.clock_ok N (Tap.mMcu tp) -> (8 <= fuel)%nat -> 64 <= N ->
  exists b tp',
    Tap.gotoState fuel s tp = Ret (b, tp')
    /\ Props.clock_ok (N - 64) (Tap.mMcu tp')
    /\ Tap.mCurrState tp' = s.
Proof.
  intros Hok Hfuel HN. unfold Tap.gotoState.
  destruct (gotoState_loop_total 8 fuel fuel N s (VSim.tdo (Tap.mMcu tp)) tp)
    as (b & tp' & E & Hok'); try lia; try assumption.
  { apply reaches_any. }
  exists b, tp'. split; [exact E | ]. split; [exact Hok' | ].
  apply gotoState_loop_fields in E. tauto.
Qed.

(** The loops over the bits. *)
Lemma shiftIr_loop_total (n : nat) :
  forall (fuel : nat) (N i ireg : Z) (tp : Tap.t Core),
    Props.clock_ok N (Tap.mMcu tp) -> (4 <= fuel)%nat ->
    8 * Z.of_nat n <= N ->
    exists tp',
      Tap.shiftIr_loop fuel n i ireg tp = Ret tp'
      /\ Props.clock_ok (N - 8 * Z.of_nat n) (Tap.mMcu tp').
Proof.
  induction n as [ | n IH]; intros fuel N i ireg tp Hok Hfuel HN; simpl.
  - exists tp. split; [reflexivity | ].
    eapply clock_ok_weaken; [exact Hok | lia].
  - destruct (advanceState_total fuel N false (Tap.bit_set ireg i) tp Hok Hfuel
                ltac:(lia)) as (b1 & tp1 & E1 & Hok1).
    rewrite E1. cbn [bind].
    destruct (IH fuel (N - 8) (i + 1) ireg tp1 Hok1 Hfuel ltac:(lia))
      as (tp' & E & Hok').
    exists tp'. split; [exact E | ].
    eapply clock_ok_weaken; [exact Hok' | lia].
Qed.

Lemma shiftIr_total (fuel : nat) (N ireg : Z) (tp : Tap.t Core) :
  Props.clock_ok N (Tap.mMcu tp) -> (8 <= fuel)%nat -> 168 <= N ->
  exists tp',
    Tap.shiftIr fuel ireg tp = Ret tp'
    /\ Props.clock_ok (N - 168) (Tap.mMcu tp').
Proof.
  intros Hok Hfuel HN. unfold Tap.shiftIr.
  destruct (gotoState_total fuel N Tap.SHIFT_IR tp Hok Hfuel ltac:(lia))
    as (b1 & tp1 & E1 & Hok1 & _).
  rewrite E1. cbn [bind].
  destruct (shiftIr_loop_total (Z.to_nat (Tap.IR_LEN - 1)) fuel (N - 64) 0 ireg
              tp1 Hok1 ltac:(lia) ltac:(unfold Tap.IR_LEN; simpl; lia))
    as (tp2 & E2 & Hok2).
  rewrite E2. cbn [bind].
  destruct (advanceState_total fuel _ true
              (Tap.bit_set ireg (Tap.IR_LEN - 1)) tp2 Hok2 ltac:(lia)
              ltac:(unfold Tap.IR_LEN; simpl; lia))
    as (b3 & tp3 & E3 & Hok3).
  rewrite E3. cbn [bind].
  destruct (gotoState_total fuel _ Tap.UPDATE_IR tp3 Hok3 Hfuel
              ltac:(unfold Tap.IR_LEN; simpl; lia))
    as (b4 & tp4 & E4 & Hok4 & _).
  rewrite E4. cbn [bind].
  exists tp4. split; [reflexivity | ].
  eapply clock_ok_weaken; [exact Hok4 | unfold Tap.IR_LEN; simpl; lia].
Qed.

Lemma shiftDr_loop_total (cnt : nat) :
  forall (fuel n : nat) (N i bound dreg regOut : Z) (tp : Tap.t Core),
    Props.clock_ok N (Tap.mMcu tp) -> (4 <= fuel)%nat ->
    0 <= i -> bound <= 63 -> bound - i <= Z.of_nat cnt ->
    (cnt <= n)%nat -> 8 * Z.of_nat cnt <= N ->
    exists r tp',
      Tap.shiftDr_loop fuel n i bound dreg regOut tp = Ret (r, tp')
      /\ Props.clock_ok (N - 8 * Z.of_nat cnt) (Tap.mMcu tp').
Proof.
  induction cnt as [ | cnt IH];
    intros fuel n N i bound dreg regOut tp Hok Hfuel Hi Hb Hc Hn HN.
  - exists regOut, tp. split.
    + destruct n; simpl;
        (replace (i <? bound) with false by (symmetry; apply Z.ltb_ge; lia));
        reflexivity.
    + eapply clock_ok_weaken; [exact Hok | lia].
  - destruct (Z.ltb_spec i bound) as [Hlt | Hge].
    + destruct n as [ | n]; [lia | ]. simpl.
      replace (i <? bound) with true by (symmetry; apply Z.ltb_lt; lia).
      unfold shl1_64.
      replace ((0 <=? i) && (i <? 64)) with true
        by (symmetry; apply andb_true_iff; split;
            [apply Z.leb_le | apply Z.ltb_lt]; lia).
      cbn [bind].
      destruct (advanceState_total fuel N false
                  (negb (Z.land dreg (2 ^ i) =? 0)) tp Hok Hfuel ltac:(lia))
        as (b1 & tp1 & E1 & Hok1).
      rewrite E1. cbn [bind].
      destruct (IH fuel n (N - 8) (i + 1) bound dreg
                  (if b1 then Z.lor regOut (2 ^ (i - 1)) else regOut) tp1
                  Hok1 Hfuel ltac:(lia) Hb ltac:(lia) ltac:(lia) ltac:(lia))
        as (r & tp' & E & Hok').
      exists r, tp'. split; [exact E | ].
      eapply clock_ok_weaken; [exact Hok' | lia].
    + exists regOut, tp. split.
      * destruct n; simpl;
          (replace (i <? bound) with false by (symmetry; apply Z.ltb_ge; lia));
          reflexivity.
      * eapply clock_ok_weaken; [exact Hok | lia].
Qed.

Lemma shl1_64_in_range (n : Z) : 0 <= n < 64 -> shl1_64 n = Ret (2 ^ n).
Proof.
  intros Hn. unfold shl1_64.
  replace ((0 <=? n) && (n <? 64)) with true; [reflexivity | ].
  symmetry. apply andb_true_iff. split; [apply Z.leb_le | apply Z.ltb_lt]; lia.
Qed.

Lemma shiftDr_total (fuel : nat) (N dreg len : Z) (tp : Tap.t Core) :
  Props.clock_ok N (Tap.mMcu tp) -> (8 <= fuel)%nat -> 648 <= N ->
  2 <= len <= 64 ->
  exists r tp',
    Tap.shiftDr fuel dreg len tp = Ret (r, tp')
    /\ Props.clock_ok (N - 648) (Tap.mMcu tp').
Proof.
  intros Hok Hfuel HN Hlen. unfold Tap.shiftDr.
  destruct (gotoState_total fuel N Tap.SHIFT_DR tp Hok Hfuel ltac:(lia))
    as (b1 & tp1 & E1 & Hok1 & _).
  rewrite E1. cbn [bind].
  destruct (advanceState_total fuel _ false (negb (Z.land dreg 1 =? 0)) tp1
              Hok1 ltac:(lia) ltac:(lia)) as (b2 & tp2 & E2 & Hok2).
  rewrite E2. cbn [bind].
  rewrite (u64_small (len - 1)) by lia.
  rewrite (u64_small (len - 2)) by lia.
  destruct (shiftDr_loop_total 62 fuel 63 _ 1 (len - 1) dreg 0 tp2 Hok2)
    as (r3 & tp3 & E3 & Hok3); try lia.
  rewrite E3. cbn [bind].
  rewrite (shl1_64_in_range (len - 1)) by lia. cbn [bind].
  destruct (advanceState_total fuel _ true
              (negb (Z.land dreg (2 ^ (len - 1)) =? 0)) tp3
              Hok3 ltac:(lia) ltac:(lia)) as (b4 & tp4 & E4 & Hok4).
  rewrite E4. cbn [bind].
  assert (E5 : exists r5,
             (if b4 then m <- shl1_64 (len - 2) ;; Ret (Z.lor r3 m)
              else Ret r3) = Ret r5).
  { destruct b4; [ | eauto].
    rewrite (shl1_64_in_range (len - 2)) by lia. cbn [bind]. eauto. }
  destruct E5 as (r5 & E5). rewrite E5. cbn [bind].
  destruct (advanceState_total fuel _ false
              (negb (Z.land dreg (2 ^ (len - 1)) =? 0)) tp4
              Hok4 ltac:(lia) ltac:(lia)) as (b6 & tp6 & E6 & Hok6).
  rewrite E6. cbn [bind].
  destruct (gotoState_total fuel _ Tap.UPDATE_DR tp6 Hok6 Hfuel ltac:(lia))
    as (b7 & tp7 & E7 & Hok7 & _).
  rewrite E7. cbn [bind].
  do 2 eexists. split; [reflexivity | ].
  eapply clock_ok_weaken; [exact Hok7 | lia].
Qed.

Lemma rtiDwell_total (fuel n : nat) (N : Z) (tp : Tap.t Core) :
  Props.clock_ok N (Tap.mMcu tp) -> (8 <= fuel)%nat -> 64 <= N ->
  exists tp',
    Tap.rtiDwell fuel n tp = Ret tp'
    /\ Props.clock_ok (N - 64) (Tap.mMcu tp').
Proof.
  intros Hok Hfuel HN. destruct n as [ | n].
  - exists tp. split; [reflexivity | ].
    eapply clock_ok_weaken; [exact Hok | lia].
  - rewrite rtiDwell_once. simpl.
    destruct (gotoState_total fuel N Tap.RUN_TEST_IDLE tp Hok Hfuel HN)
      as (b1 & tp1 & E1 & Hok1 & _).
    rewrite E1. cbn [bind]. eauto.
Qed.

Lemma selectIr_total (fuel : nat) (N ir : Z) (tp : Tap.t Core) :
  Props.clock_ok N (Tap.mMcu tp) -> (8 <= fuel)%nat -> 168 <= N ->
  exists tp',
    Tap.selectIr fuel ir tp = Ret tp'
    /\ Props.clock_ok (N - 168) (Tap.mMcu tp').
Proof.
  intros Hok Hfuel HN. unfold Tap.selectIr.
  destruct (Tap.mLastIr tp =? ir).
  - destruct (rtiDwell_total fuel (Z.to_nat (Tap.mRtiCount tp)) N tp Hok Hfuel
                ltac:(lia)) as (tp' & E & Hok').
    exists tp'. split; [exact E | ].
    eapply clock_ok_weaken; [exact Hok' | lia].
  - apply shiftIr_total; assumption.
Qed.

Lemma accessReg_total (fuel : nat) (N ir wdata len : Z)
    (tp : Tap.t Core) :
  Props.clock_ok N (Tap.mMcu tp) -> (8 <= fuel)%nat -> 816 <= N ->
  2 <= len <= 64 ->
  exists r tp',
    Tap.accessReg fuel ir wdata len tp = Ret (r, tp')
    /\ Props.clock_ok (N - 816) (Tap.mMcu tp')
    /\ Tap.mCurrState tp' = Tap.UPDATE_DR.
Proof.
  intros Hok Hfuel HN Hlen. unfold Tap.accessReg.
  replace (64 <? len) with false by (symmetry; apply Z.ltb_ge; lia).
  destruct (selectIr_total fuel N ir tp Hok Hfuel ltac:(lia))
    as (tp1 & E1 & Hok1).
  rewrite E1. cbn [bind].
  destruct (shiftDr_total fuel _ wdata len tp1 Hok1 Hfuel ltac:(lia) Hlen)
    as (r & tp2 & E2 & Hok2).
  rewrite E2. cbn [bind].
  apply shiftDr_fields in E2.
  rewrite (gotoState_there fuel Tap.UPDATE_DR tp2 E2). cbn [bind].
  exists r, tp2. split; [reflexivity | ].
  split; [ | exact E2].
  eapply clock_ok_weaken; [exact Hok2 | lia].
Qed.

(** [Tap::reset] returns within twenty half-periods. *)
Lemma reset_loop_within (d : nat) :
  forall (fuel : nat) (N : Z) (tp : Tap.t Core),
    Props.clock_ok N (Tap.mMcu tp) ->
    20 <= Props.halves (Tap.mMcu tp) + Z.of_nat d ->
    (d <= fuel)%nat -> Z.of_nat d <= N ->
    exists b tp',
      Tap.reset_loop fuel tp = Ret (b, tp')
      /\ Props.clock_ok (N - Z.of_nat d) (Tap.mMcu tp').
Proof.
  induction d as [ | d IH]; intros fuel N tp Hok Hk Hfuel HN.
  - assert (Hin : VSim.inReset (Tap.mMcu tp) = false).
    { unfold VSim.inReset. apply Z.ltb_ge.
      destruct (clock_ok_halves N _ Hok) as [Hk0 Ht].
      destruct Hok as (Hh & Hth & Hr & _).
      rewrite Hr, Hth, Ht. nia. }
    exists true, (Tap.with_state tp Tap.RUN_TEST_IDLE). split.
    + destruct fuel; simpl; rewrite Hin; reflexivity.
    + simpl. eapply clock_ok_weaken; [exact Hok | lia].
  - destruct (VSim.inReset (Tap.mMcu tp)) eqn:Hin.
    + destruct fuel as [ | fuel]; [lia | ]. simpl. rewrite Hin.
      destruct (VSim.allDone (Tap.mMcu tp)).
      * exists false, tp. split; [reflexivity | ].
        eapply clock_ok_weaken; [exact Hok | lia].
      * assert (Hok0 : Props.clock_ok N (VSim.set_tms false (Tap.mMcu tp))).
        { apply set_tms_clock, Hok. }
        destruct (tick_ok N _ Hok0 ltac:(lia)) as (v1 & E1 & Hok1 & Hh1 & _).
        rewrite E1. cbn [bind].
        destruct (IH fuel (N - 1) (Tap.with_mcu tp v1)) as (b & tp' & E & Hok');
          try lia; try assumption.
        { simpl. rewrite Hh1.
          destruct (set_tms_clock N false (Tap.mMcu tp)) as (_ & -> & _). lia. }
        exists b, tp'. split; [exact E | ].
        eapply clock_ok_weaken; [exact Hok' | lia].
    + exists true, (Tap.with_state tp Tap.RUN_TEST_IDLE). split.
      * destruct fuel; simpl; rewrite Hin; reflexivity.
      * simpl. eapply clock_ok_weaken; [exact Hok | lia].
Qed.

Lemma reset_total (fuel : nat) (N : Z) (tp : Tap.t Core) :
  Props.clock_ok N (Tap.mMcu tp) -> (20 <= fuel)%nat -> 20 <= N ->
  exists b tp',
    Tap.reset fuel tp = Ret (b, tp')
    /\ Props.clock_ok (N - 20) (Tap.mMcu tp').
Proof.
  intros Hok Hfuel HN. unfold Tap.reset.
  destruct (clock_ok_halves N _ Hok) as [Hk0 _].
  destruct (reset_loop_within 20 fuel N tp Hok) as (b & tp' & E & Hok');
    try lia.
  exists b, tp'. split; [exact E | exact Hok'].
Qed.
End Clock.

(** The constructor sets up such a clock, for a period of at least 2 ns
    that leaves room below [2^64]. *)
Lemma VSim_new_clock_ok {Core : Type} (N P simTimeNs : Z) (vcdFile : string)
    (core0 : Core) :
  2 <= P -> 20 <= N -> N * (P / 2) < 2 ^ 64 ->
  Props.clock_ok N (VSim.new P simTimeNs vcdFile core0).
Proof.
  intros HP HN Hroom.
  assert (Hh : 0 < P / 2) by (apply Z.div_str_pos; lia).
  assert (H2 : u64 (P / 2 * 2) = 2 * (P / 2)) by (rewrite u64_small; nia).
  unfold Props.clock_ok, VSim.new; simpl.
  rewrite H2. rewrite u64_small by nia.
  repeat split; try lia.
Qed.

(** ** The exit state of the public operations of the Tap *)

(** C2, in the form that holds of the code.  [Tap::reset] that completes
    leaves the controller in Run-Test/Idle; [accessReg], [writeReg] and [readReg], whenever they
    return, leave it in Update-DR.  And they do return: on a clock with
    room for 1024 half-periods and with a bound of 20 on every loop,
    [reset] returns, and the three register accesses return for every
    length from 2 to 64 bits. *)
Theorem Tap_public_ops_exit_state
    {Core : Type} {M : VSim.Verilated Core} (fuel : nat) (tp : Tap.t Core) :
  (forall tp', Tap.reset fuel tp = Ret (true, tp') ->
     Tap.mCurrState tp' = Tap.RUN_TEST_IDLE)
  /\ (forall ir wdata len r tp',
        Tap.accessReg fuel ir wdata len tp = Ret (r, tp') ->
        Tap.mCurrState tp' = Tap.UPDATE_DR)
  /\ (forall ir wdata len tp',
        Tap.writeReg fuel ir wdata len tp = Ret tp' ->
        Tap.mCurrState tp' = Tap.UPDATE_DR)
  /\ (forall ir len r tp',
        Tap.readReg fuel ir len tp = Ret (r, tp') ->
        Tap.mCurrState tp' = Tap.UPDATE_DR)
  /\ (Props.clock_ok 1024 (Tap.mMcu tp) -> (20 <= fuel)%nat ->
      (exists b tp', Tap.reset fuel tp = Ret (b, tp'))
      /\ forall ir wdata len, 2 <= len <= 64 ->
           (exists r tp', Tap.accessReg fuel ir wdata len tp = Ret (r, tp'))
           /\ (exists tp', Tap.writeReg fuel ir wdata len tp = Ret tp')
           /\ (exists r tp', Tap.readReg fuel ir len tp = Ret (r, tp'))).
Proof.
  split; [ | split; [ | split; [ | split]]].
  - intros tp' E. apply reset_loop_state in E. exact E.
  - intros ir wdata len r tp' E. eapply accessReg_state, E.
  - intros ir wdata len tp' E. unfold Tap.writeReg in E.
    bind_step E E1. injection E as <-. eapply accessReg_state, E1.
  - intros ir len r tp' E. eapply accessReg_state, E.
  - intros Hok Hfuel. split.
    + destruct (reset_total fuel 1024 tp Hok Hfuel ltac:(lia))
        as (b & tp' & E & _).
      eauto.
    + intros ir wdata len Hlen.
      destruct (accessReg_total fuel 1024 ir wdata len tp Hok ltac:(lia)
                  ltac:(lia) Hlen) as (r & tp' & E & _).
      destruct (accessReg_total fuel 1024 ir 0 len tp Hok ltac:(lia)
                  ltac:(lia) Hlen) as (r0 & tp0 & E0 & _).
      split; [eauto | ]. split; [ | unfold Tap.readReg; eauto].
      unfold Tap.writeReg. rewrite E. cbn [bind]. eauto.
Qed.

(** The Tap that the adapter builds, once reset. *)
Lemma tap_after_reset_ready :
  Tap.reset 20 Bench.fresh_tap = Ret (true, Bench.tap_after_reset)
  /\ Tap.mCurrState Bench.tap_after_reset = Tap.RUN_TEST_IDLE
  /\ Props.clock_ok 1024 (Tap.mMcu Bench.tap_after_reset).
Proof.
  split; [vm_compute; reflexivity | ]. split; [reflexivity | ].
  repeat split; vm_compute; congruence.
Qed.

(** A 41-bit access to [dmiaccess] on that Tap, in front of a model whose
    TDO repeats TDI. *)
Lemma Tap_public_ops_exit_state_witness :
  Props.clock_ok 1024 (Tap.mMcu Bench.tap_after_reset)
  /\ (20 <= 20)%nat
  /\ 2 <= 41 <= 64
  /\ exists r tp',
       Tap.accessReg 20 0x11 0 41 Bench.tap_after_reset = Ret (r, tp')
       /\ Tap.mCurrState tp' = Tap.UPDATE_DR.
Proof.
  assert (Hok : Props.clock_ok 1024 (Tap.mMcu Bench.tap_after_reset))
    by apply tap_after_reset_ready.
  split; [exact Hok | ]. split; [lia | ]. split; [lia | ].
  destruct (Tap_public_ops_exit_state 20 Bench.tap_after_reset)
    as (_ & Hstate & _ & _ & Hret).
  destruct (Hret Hok ltac:(lia)) as (_ & Hacc).
  destruct (Hacc 0x11 0 41 ltac:(lia)) as ((r & tp' & E) & _).
  exists r, tp'. split; [exact E | ]. exact (Hstate _ _ _ _ _ E).
Defined.

(** C2, as the specification words it, does not hold: a register access
    on the Tap just reset returns and leaves the controller in Update-DR,
    which is neither Run-Test/Idle nor Test-Logic-Reset. *)
Lemma Tap_accessReg_exits_in_update_dr : ~ Props.exits_idle_or_reset.
Proof.
  intros Hclaim.
  destruct tap_after_reset_ready as (_ & _ & Hok).
  destruct (accessReg_total 20 1024 0x11 0 41 Bench.tap_after_reset Hok
              ltac:(lia) ltac:(lia) ltac:(lia)) as (r & tp' & E & _ & Hs).
  destruct (Hclaim unit Bench.Loopback 20%nat Bench.tap_after_reset tp')
    as (_ & Hacc & _).
  destruct (Hacc _ _ _ _ E) as [Hs' | Hs']; rewrite Hs in Hs'; discriminate.
Qed.

(** ** The dwell in Run-Test/Idle *)

(** C3, with an idle-cycle count of 3 on the Tap that the adapter builds
    (clock 20 ns, TCK period 40 ns).  After the reset and a first access
    with IR 0, the last IR, the controller is in Update-DR.  The dwell of
    the next access with the same IR takes it to Run-Test/Idle in 40 ns,
    one TCK cycle, not three; and straight after the reset, where the
    controller is in Run-Test/Idle already, the dwell does nothing at
    all. *)
Theorem rtiDwell_with_count_3 :
  let t1 := Tap.rtiCount 3 Bench.tap_after_reset in
  exists r t2 t3,
    Tap.reset 20 Bench.fresh_tap = Ret (true, Bench.tap_after_reset)
    /\ Tap.accessReg 20 0 0 32 t1 = Ret (r, t2)
    /\ Tap.mLastIr t2 = 0
    /\ Tap.mRtiCount t2 = 3
    /\ Tap.mCurrState t2 = Tap.UPDATE_DR
    /\ Tap.selectIr 20 0 t2 = Ret t3
    /\ Tap.mCurrState t3 = Tap.RUN_TEST_IDLE
    /\ VSim.tckPeriodNs (Tap.mMcu t2) = 40
    /\ Tap.simTimeNs t3 - Tap.simTimeNs t2 = 1 * 40
    /\ Tap.simTimeNs t3 - Tap.simTimeNs t2 <> 3 * 40
    /\ Tap.selectIr 20 0 t1 = Ret t1.
Proof.
  cbv zeta. do 3 eexists.
  split; [vm_compute; reflexivity | ].
  split; [vm_compute; reflexivity | ].
  split; [reflexivity | ]. split; [reflexivity | ]. split; [reflexivity | ].
  split; [vm_compute; reflexivity | ].
  split; [reflexivity | ]. split; [reflexivity | ]. split; [reflexivity | ].
  split; [vm_compute; discriminate | ].
  vm_compute. reflexivity.
Qed.

(** ** The DTM: the DMI reset on the pins *)

Ltac ret1 E H x :=
  apply bind_Ret in E; destruct E as (x & H & E); cbn beta iota in E.
Ltac ret2 E H x y :=
  apply bind_Ret in E; destruct E as ([x y] & H & E); cbn beta iota in E.

Section Wire.
Context {Core : Type} {M : VSim.Verilated Core}.

Lemma cycles_app (fuel : nat) (l1 l2 : list (bool * bool)) :
  forall tp : Tap.t Core,
    Props.cycles fuel (l1 ++ l2) tp
    = ('(t1, tp1) <- Props.cycles fuel l1 tp ;;
       '(t2, tp2) <- Props.cycles fuel l2 tp1 ;;
       Ret ((t1 ++ t2)%list, tp2)).
Proof.
  induction l1 as [ | [tms tdi] l1 IH]; intros tp.
  - cbn [app Props.cycles bind].
    destruct (Props.cycles fuel l2 tp) as [[t2 tp2] | | | ]; reflexivity.
  - cbn [app Props.cycles].
    destruct (Tap.advanceState fuel tms tdi tp) as [[b tp1] | | | ];
      cbn [bind]; try reflexivity.
    rewrite IH.
    destruct (Props.cycles fuel l1 tp1) as [[t1 tp2] | | | ];
      cbn [bind]; try reflexivity.
    destruct (Props.cycles fuel l2 tp2) as [[t2 tp3] | | | ]; reflexivity.
Qed.

Lemma cycles_state (fuel : nat) (pins : list (bool * bool)) :
  forall (tp tp' : Tap.t Core) (tdos : list bool),
    Props.cycles fuel pins tp = Ret (tdos, tp') ->
    Tap.mCurrState tp'
    = fold_left (fun s p => Tap.next s (fst p)) pins (Tap.mCurrState tp).
Proof.
  induction pins as [ | [tms tdi] pins IH]; intros tp tp' tdos E;
    cbn [Props.cycles] in E.
  - injection E as _ <-. reflexivity.
  - apply bind_Ret in E. destruct E as ([b tp1] & E1 & E). cbn beta iota in E.
    apply bind_Ret in E. destruct E as ([t tp2] & E2 & E). cbn beta iota in E.
    injection E as _ <-. apply IH in E2. rewrite E2.
    apply advanceState_fields in E1 as (-> & _). reflexivity.
Qed.

(** [Tap::gotoState] is the cycles of its route. *)
Lemma gotoState_loop_cycles (fuel n : nat) (s : Tap.State) :
  forall (b0 b : bool) (tp tp' : Tap.t Core),
    Tap.gotoState_loop fuel n s b0 tp = Ret (b, tp') ->
    Props.reaches n (Tap.mCurrState tp) s = true
    /\ exists tdos,
         Props.cycles fuel (Props.moves (Props.route n (Tap.mCurrState tp) s)) tp
         = Ret (tdos, tp').
Proof.
  induction n as [ | n IH]; intros b0 b tp tp' E; simpl in E |- *.
  - destruct (decide _) as [Heq | ]; [ | discriminate].
    injection E as _ <-. split; [reflexivity | ]. exists []. reflexivity.
  - destruct (decide _) as [Heq | Hne].
    + injection E as _ <-. split; [reflexivity | ]. exists []. reflexivity.
    + bind_step E E1.
      pose proof (advanceState_fields _ _ _ _ _ _ E1) as (Hs & _).
      apply IH in E. rewrite Hs in E. destruct E as (Hr & tdos & Hc).
      split; [exact Hr | ].
      exists (b1 :: tdos). cbn [Props.moves map Props.cycles].
      rewrite E1. cbn [bind]. unfold Props.moves in Hc. rewrite Hc. reflexivity.
Qed.

Lemma route_stable (k : nat) :
  forall (n : nat) (cur s : Tap.State),
    Props.reaches k cur s = true -> (k <= n)%nat ->
    Props.route n cur s = Props.route k cur s.
Proof.
  induction k as [ | k IH]; intros n cur s Hr Hle; simpl in Hr.
  - destruct (decide (cur = s)) as [Heq | ]; [ | discriminate].
    destruct n; simpl; destruct (decide _); try reflexivity; contradiction.
  - destruct n as [ | n]; [lia | ]. simpl.
    destruct (decide (cur = s)); [reflexivity | ].
    f_equal. apply IH; [exact Hr | lia].
Qed.

Lemma gotoState_cycles (fuel : nat) (s : Tap.State) (b : bool)
    (tp tp' : Tap.t Core) :
  Tap.gotoState fuel s tp = Ret (b, tp') ->
  exists tdos,
    Props.cycles fuel (Props.moves (Props.route 8 (Tap.mCurrState tp) s)) tp
    = Ret (tdos, tp').
Proof.
  intros E. apply gotoState_loop_cycles in E. destruct E as (Hr & tdos & Hc).
  exists tdos. rewrite <- Hc. f_equal. f_equal.
  destruct (le_lt_dec fuel 8) as [Hle | Hlt].
  - apply route_stable; assumption.
  - symmetry. apply route_stable; [apply reaches_any | lia].
Qed.

Lemma land_pow2_testbit (x i : Z) :
  0 <= i -> negb (Z.land x (2 ^ i) =? 0) = Z.testbit x i.
Proof.
  intros Hi.
  assert (H : Z.land x (2 ^ i) = if Z.testbit x i then 2 ^ i else 0).
  { apply Z.bits_inj'. intros j Hj. rewrite Z.land_spec, Z.pow2_bits_eqb by lia.
    destruct (Z.eqb_spec i j) as [-> | Hne].
    - destruct (Z.testbit x j) eqn:Hx; rewrite ?Z.pow2_bits_true, ?Z.bits_0 by lia;
        reflexivity.
    - rewrite andb_false_r.
      destruct (Z.testbit x i); rewrite ?Z.pow2_bits_false, ?Z.bits_0 by lia;
        reflexivity. }
  rewrite H. destruct (Z.testbit x i); [ | reflexivity].
  destruct (Z.eqb_spec (2 ^ i) 0) as [H0 | ]; [ | reflexivity].
  pose proof (Z.pow_pos_nonneg 2 i ltac:(lia) Hi). lia.
Qed.

(** The loops that shift the bits. *)
Lemma shiftIr_loop_cycles (fuel n : nat) :
  forall (i ireg : Z) (tp tp' : Tap.t Core),
    0 <= i ->
    Tap.shiftIr_loop fuel n i ireg tp = Ret tp' ->
    exists tdos,
      Props.cycles fuel
        (map (fun j => (false, Z.testbit ireg j)) (seqZ i (Z.of_nat n))) tp
      = Ret (tdos, tp').
Proof.
  induction n as [ | n IH]; intros i ireg tp tp' Hi E; simpl in E.
  - injection E as <-. exists []. reflexivity.
  - bind_step E E1. apply IH in E; [ | lia]. destruct E as (tdos & Hc).
    exists (b :: tdos).
    rewrite seqZ_cons by lia. cbn [map Props.cycles].
    unfold Tap.bit_set in E1. rewrite land_pow2_testbit in E1 by lia.
    rewrite E1. cbn [bind].
    replace (Z.succ i) with (i + 1) by lia.
    replace (Z.pred (Z.of_nat (S n))) with (Z.of_nat n) by lia.
    rewrite Hc. reflexivity.
Qed.

Lemma shiftDr_loop_cycles (fuel n : nat) :
  forall (i bound dreg regOut r : Z) (tp tp' : Tap.t Core),
    0 <= i ->
    Tap.shiftDr_loop fuel n i bound dreg regOut tp = Ret (r, tp') ->
    exists tdos,
      Props.cycles fuel
        (map (fun j => (false, Z.testbit dreg j)) (seqZ i (bound - i))) tp
      = Ret (tdos, tp').
Proof.
  induction n as [ | n IH]; intros i bound dreg regOut r tp tp' Hi E;
    simpl in E.
  - destruct (Z.ltb_spec i bound); [discriminate | ].
    injection E as _ <-. exists []. rewrite seqZ_nil by lia. reflexivity.
  - destruct (Z.ltb_spec i bound) as [Hlt | Hge].
    + bind_step E Em. bind_step E E1.
      apply IH in E; [ | lia]. destruct E as (tdos & Hc).
      unfold shl1_64 in Em. destruct (_ && _); [ | discriminate].
      injection Em as <-.
      rewrite land_pow2_testbit in E1 by lia.
      exists (b :: tdos).
      rewrite seqZ_cons by lia. cbn [map Props.cycles].
      rewrite E1. cbn [bind].
      replace (Z.succ i) with (i + 1) by lia.
      replace (Z.pred (bound - i)) with (bound - (i + 1)) by lia.
      rewrite Hc. reflexivity.
    + injection E as _ <-. exists []. rewrite seqZ_nil by lia. reflexivity.
Qed.

(** The DMI reset, a scan of [0x10000] into [dtmcs], on the pins.  It
    starts in Update-DR, where every scan leaves the controller, and the
    IR is shifted since [mLastIr], which no scan updates, is not that of
    [dtmcs]. *)
Lemma dmireset_on_the_pins (fuel : nat) (r : Z) (tp tp' : Tap.t Core) :
  Tap.accessReg fuel 0x10 0x10000 32 tp = Ret (r, tp') ->
  Tap.mCurrState tp = Tap.UPDATE_DR ->
  Tap.mLastIr tp <> 0x10 ->
  exists tdos, Props.cycles fuel Props.dmireset_pins tp = Ret (tdos, tp').
Proof.
  intros E Hs Hir. unfold Tap.accessReg, Tap.selectIr in E.
  change (64 <? 32) with false in E. cbv iota in E.
  destruct (Z.eqb_spec (Tap.mLastIr tp) 16) as [ | _]; [contradiction | ].
  ret1 E EI tpi. ret2 E ED rd tpd. ret2 E EU bu tpu. injection E as _ <-.
  (* the IR *)
  unfold Tap.shiftIr in EI.
  ret2 EI G1 b1 tp1. ret1 EI L1 tp2. ret2 EI A1 b3 tp3. ret2 EI G2 b4 tp4.
  injection EI as <-.
  pose proof (gotoState_fields _ _ _ _ _ G1) as (S1 & _).
  pose proof (gotoState_fields _ _ _ _ _ G2) as (S4 & _).
  apply gotoState_cycles in G1. rewrite Hs in G1. destruct G1 as (t1 & C1).
  change (Props.route 8 Tap.UPDATE_DR Tap.SHIFT_IR)
    with [true; true; false; false] in C1.
  apply shiftIr_loop_cycles in L1; [ | lia]. destruct L1 as (t2 & C2).
  pose proof (cycles_state _ _ _ _ _ C2) as S2. rewrite S1 in S2.
  change (fold_left _ _ Tap.SHIFT_IR) with Tap.SHIFT_IR in S2.
  pose proof (advanceState_fields _ _ _ _ _ _ A1) as (S3 & _).
  rewrite S2 in S3. change (Tap.next Tap.SHIFT_IR true) with Tap.EXIT1_IR in S3.
  apply gotoState_cycles in G2. rewrite S3 in G2. destruct G2 as (t4 & C4).
  change (Props.route 8 Tap.EXIT1_IR Tap.UPDATE_IR) with [true] in C4.
  (* the DR *)
  unfold Tap.shiftDr in ED.
  ret2 ED G3 b5 tp5. ret2 ED A2 b6 tp6. ret2 ED L2 r7 tp7. ret1 ED Em mlast.
  ret2 ED A3 b8 tp8. ret1 ED Er regOut4. ret2 ED A4 b9 tp9.
  ret2 ED G4 b10 tp10. injection ED as _ <-.
  pose proof (gotoState_fields _ _ _ _ _ G3) as (S5 & _).
  apply gotoState_cycles in G3. rewrite S4 in G3. destruct G3 as (t5 & C5).
  change (Props.route 8 Tap.UPDATE_IR Tap.SHIFT_DR)
    with [true; false; false] in C5.
  pose proof (advanceState_fields _ _ _ _ _ _ A2) as (S6 & _).
  rewrite S5 in S6. change (Tap.next Tap.SHIFT_DR false) with Tap.SHIFT_DR in S6.
  apply shiftDr_loop_cycles in L2; [ | lia]. destruct L2 as (t7 & C7).
  pose proof (cycles_state _ _ _ _ _ C7) as S7. rewrite S6 in S7.
  change (fold_left _ _ Tap.SHIFT_DR) with Tap.SHIFT_DR in S7.
  injection Em as <-.
  pose proof (advanceState_fields _ _ _ _ _ _ A3) as (S8 & _).
  rewrite S7 in S8. change (Tap.next Tap.SHIFT_DR true) with Tap.EXIT1_DR in S8.
  pose proof (advanceState_fields _ _ _ _ _ _ A4) as (S9 & _).
  rewrite S8 in S9. change (Tap.next Tap.EXIT1_DR false) with Tap.PAUSE_DR in S9.
  pose proof (gotoState_fields _ _ _ _ _ G4) as (S10 & _).
  apply gotoState_cycles in G4. rewrite S9 in G4. destruct G4 as (t10 & C10).
  change (Props.route 8 Tap.PAUSE_DR Tap.UPDATE_DR) with [true; true] in C10.
  rewrite (gotoState_there _ _ _ S10) in EU. injection EU as _ <-.
  clear Er.
  set (ir_low := map (fun j => (false, Z.testbit 16 j))
                   (seqZ 0 (Z.of_nat (Z.to_nat (Tap.IR_LEN - 1))))) in C2.
  set (ir_last := Tap.bit_set 16 (Tap.IR_LEN - 1)) in A1.
  set (dr_first := negb (Z.land 65536 1 =? 0)) in A2.
  set (dr_mid := map (fun j => (false, Z.testbit 65536 j))
                   (seqZ 1 (u64 (32 - 1) - 1))) in C7.
  set (dr_last := negb (Z.land 65536 (2 ^ u64 (32 - 1)) =? 0)) in A3, A4.
  assert (Hpins :
            Props.dmireset_pins
            = (Props.moves [true; true; false; false]
               ++ ir_low ++ [(true, ir_last)]
               ++ Props.moves [true]
               ++ Props.moves [true; false; false]
               ++ [(false, dr_first)] ++ dr_mid ++ [(true, dr_last)]
               ++ [(false, dr_last)]
               ++ Props.moves [true; true])%list)
    by (vm_compute; reflexivity).
  rewrite Hpins. clearbody ir_low ir_last dr_first dr_mid dr_last.
  assert (Hone : forall tms tdi b (x y : Tap.t Core),
             Tap.advanceState fuel tms tdi x = Ret (b, y) ->
             Props.cycles fuel [(tms, tdi)] x = Ret ([b], y)).
  { intros tms tdi b x y H. cbn [Props.cycles]. rewrite H. reflexivity. }
  apply Hone in A1, A2, A3, A4.
  eexists.
  rewrite cycles_app, C1; cbn [bind].
  rewrite cycles_app, C2; cbn [bind].
  rewrite cycles_app, A1; cbn [bind].
  rewrite cycles_app, C4; cbn [bind].
  rewrite cycles_app, C5; cbn [bind].
  rewrite cycles_app, A2; cbn [bind].
  rewrite cycles_app, C7; cbn [bind].
  rewrite cycles_app, A3; cbn [bind].
  rewrite cycles_app, A4; cbn [bind].
  rewrite C10. reflexivity.
Qed.

(** The three register accesses of the DTM as scans of the Tap:
    [idcode] is the 32 bits behind IR [0x01], [dtmcs] those behind IR
    [0x10], and a scan that reads shifts zeros in. *)
Lemma DtmJtag_register_scans (fuel : nat) (d : DtmJtag.t Core) :
  DtmJtag.readIdcode fuel d
  = ('(r, tp) <- Tap.accessReg fuel 0x01 0 32 (DtmJtag.mTap d) ;;
     Ret (r mod 2 ^ 32, DtmJtag.with_tap d tp))
  /\ DtmJtag.readDtmcs fuel d
     = ('(r, tp) <- Tap.accessReg fuel 0x10 0 32 (DtmJtag.mTap d) ;;
        Ret (r mod 2 ^ 32, DtmJtag.with_tap d tp))
  /\ forall val,
       DtmJtag.writeDtmcs fuel val d
       = ('(_, tp) <- Tap.accessReg fuel 0x10 val 32 (DtmJtag.mTap d) ;;
          Ret (DtmJtag.with_tap d tp)).
Proof.
  unfold DtmJtag.readIdcode, DtmJtag.readDtmcs, DtmJtag.writeDtmcs,
    Tap.readReg, Tap.writeReg.
  change DtmJtag.IDCODE with 1. change DtmJtag.DTMCS with 16.
  split; [reflexivity | ]. split; [reflexivity | ].
  intros val.
  destruct (Tap.accessReg fuel 16 val 32 (DtmJtag.mTap d)) as [[r tp] | | | ];
    reflexivity.
Qed.

Lemma writeDtmcs_scan (fuel : nat) (val : Z) (d d1 : DtmJtag.t Core) :
  DtmJtag.writeDtmcs fuel val d = Ret d1
  <-> exists r tp1,
        Tap.accessReg fuel 0x10 val 32 (DtmJtag.mTap d) = Ret (r, tp1)
        /\ d1 = DtmJtag.with_tap d tp1.
Proof.
  unfold DtmJtag.writeDtmcs, Tap.writeReg.
  change DtmJtag.DTMCS with 16. split.
  - intros E. ret1 E E1 tp1. ret2 E1 E2 r tp2. injection E1 as <-.
    injection E as <-. exists r, tp2. split; [exact E2 | reflexivity].
  - intros (r & tp1 & E & ->). rewrite E. reflexivity.
Qed.

End Wire.

(** ** The retry policy of the DTM *)

Section Dtm.
Context {Core : Type} {M : VSim.Verilated Core}.

Lemma dmiRead_poll_polls (fuel n : nat) :
  forall (d d' : DtmJtag.t Core) (reg : Z),
    DtmJtag.dmiRead_poll fuel n d = Ret (reg, d') ->
    exists k, (k < n)%nat /\ Props.polls fuel k d reg d'.
Proof.
  induction n as [ | n IH]; intros d d' reg E; simpl in E; [discriminate | ].
  apply bind_Ret in E. destruct E as ([reg0 tp] & E1 & E). cbn beta iota in E.
  destruct (Z.eqb_spec (Z.land reg0 3) DtmJtag.RES_RETRY) as [Hretry | Hother].
  - apply bind_Ret in E. destruct E as (d1 & E2 & E).
    apply writeDtmcs_scan in E2. destruct E2 as (r & tp1 & E2 & ->).
    apply IH in E. destruct E as (k & Hk & Hp).
    exists (S k). split; [lia | ].
    eapply Props.polls_retry; eauto.
  - injection E as <- <-. exists 0%nat. split; [lia | ].
    apply Props.polls_last; assumption.
Qed.

Lemma polls_dmiRead_poll (fuel k : nat) (d d' : DtmJtag.t Core)
    (reg : Z) :
  Props.polls fuel k d reg d' ->
  forall n, (k < n)%nat -> DtmJtag.dmiRead_poll fuel n d = Ret (reg, d').
Proof.
  induction 1 as [d reg tp E Hne | k d reg0 tp r tp1 reg d' E Hretry Ew Hp IH];
    intros n Hn; (destruct n as [ | n]; [lia | ]); simpl; rewrite E; cbn [bind].
  - destruct (Z.eqb_spec (Z.land reg 3) DtmJtag.RES_RETRY); [contradiction | ].
    reflexivity.
  - destruct (Z.eqb_spec (Z.land reg0 3) DtmJtag.RES_RETRY); [ | contradiction].
    unfold DtmJtag.writeDtmcs, Tap.writeReg.
    change DtmJtag.DTMCS with 16. cbn [DtmJtag.mTap DtmJtag.warn DtmJtag.with_tap].
    rewrite Ew. cbn [bind]. apply IH. lia.
Qed.

Lemma polls_last_not_retry (fuel k : nat) (d d' : DtmJtag.t Core)
    (reg : Z) :
  Props.polls fuel k d reg d' -> Z.land reg 0x3 <> DtmJtag.RES_RETRY.
Proof. induction 1; assumption. Qed.

Lemma u32_data_field (reg : Z) :
  u32 (Z.land (Z.shiftr reg 2) 0xffffffff) = Z.land (Z.shiftr reg 2) 0xffffffff.
Proof.
  change 0xffffffff with (Z.ones 32). rewrite Z.land_ones by lia.
  unfold u32. apply Z.mod_mod. lia.
Qed.

(** C6.  [dmiRead] returns exactly when its first scan returns and the
    polls that follow form a chain of fewer RETRY answers than the bound
    of the loop, each followed by a warning and by a DMI reset, the scan
    of [0x10000] (bit 16 alone) into [dtmcs], the register of IR [0x10],
    and ended by a scan whose result field is not RETRY.  What it
    returns is then the data field of that last scan, bits 33:2,
    whatever the result code; a code other than OK adds a diagnostic and
    changes nothing else.  On the pins the DMI reset is the TCK cycles
    [Props.dmireset_pins]: from Update-DR, where the poll before it
    leaves the controller, and with an [mLastIr] that is not [0x10], as
    the constructor sets it, the five bits [0x10] are shifted into the IR
    and the 32 bits [0x10000] into the register it selects. *)
Theorem dmiRead_retry_policy (fuel : nat) (address : Z) (d : DtmJtag.t Core)
    (v : Z) (d' : DtmJtag.t Core) :
  (DtmJtag.dmiRead fuel address d = Ret (v, d')
   <-> exists tp k reg d1,
         Tap.writeReg fuel DtmJtag.DMIACCESS
           (Z.lor DtmJtag.OP_READ
              (u64 (Z.shiftl (Z.land address (DtmJtag.mDmiAddrMask d)) 34)))
           (DtmJtag.mDmiWidth d) (DtmJtag.mTap d) = Ret tp
         /\ (k < fuel)%nat
         /\ Props.polls fuel k (DtmJtag.with_tap d tp) reg d1
         /\ (v, d') = Props.dmiRead_epilogue reg d1
         /\ Z.land reg 0x3 <> DtmJtag.RES_RETRY
         /\ v = Z.land (Z.shiftr reg 2) (Z.ones 32))
  /\ (forall (tp tp1 : Tap.t Core) (r : Z),
        Tap.accessReg fuel 0x10 0x10000 32 tp = Ret (r, tp1) ->
        Tap.mCurrState tp = Tap.UPDATE_DR ->
        Tap.mLastIr tp <> 0x10 ->
        exists tdos,
          Props.cycles fuel Props.dmireset_pins tp = Ret (tdos, tp1)).
Proof.
  split; [ | intros tp tp1 r E Hs Hir; eapply dmireset_on_the_pins; eauto].
  unfold DtmJtag.dmiRead, Props.dmiRead_epilogue. split.
  - intros E. apply bind_Ret in E. destruct E as (tp & E1 & E).
    apply bind_Ret in E. destruct E as ([reg d1] & E2 & E).
    cbn beta iota in E.
    apply dmiRead_poll_polls in E2. destruct E2 as (k & Hk & Hp).
    exists tp, k, reg, d1. split; [exact E1 | ]. split; [exact Hk | ].
    split; [exact Hp | ].
    rewrite u32_data_field in E. injection E as <- <-.
    split; [destruct (Z.land reg 3 =? DtmJtag.RES_OK); reflexivity | ].
    split; [eapply polls_last_not_retry, Hp | reflexivity].
  - intros (tp & k & reg & d1 & E1 & Hk & Hp & Hv & _).
    rewrite E1. cbn [bind].
    rewrite (polls_dmiRead_poll fuel k _ _ _ Hp fuel Hk). cbn [bind].
    rewrite u32_data_field. injection Hv as -> ->.
    destruct (Z.land reg 3 =? DtmJtag.RES_OK); reflexivity.
Qed.
End Dtm.


(** The stack that the adapter builds, after [DtmJtag::reset]: a first
    poll that answers RETRY and a second that answers ERROR with the data
    [0xdeadbeef]; and the DMI reset between them, on the pins. *)
Lemma dmiRead_retry_policy_witness :
  (exists d',
     DtmJtag.dmiRead (M := Bench.Scripted_model Bench.retry_then_error)
       20 0x10 Bench.dtm_after_reset = Ret (0xdeadbeef, d')
     /\ DtmJtag.cerr d'
        = ["Warning dmiRead retry requested";
           "Warning: unknown JTAG read result 2: ignored"]%string)
  /\ (exists tdos tp1,
        Props.cycles (M := Bench.Scripted_model Bench.retry_then_error)
          20 Props.dmireset_pins Bench.tap_polled = Ret (tdos, tp1)).
Proof.
  split.
  - eexists. split.
    + apply (proj2 (proj1 (dmiRead_retry_policy
                      (M := Bench.Scripted_model Bench.retry_then_error)
                      20 0x10 Bench.dtm_after_reset _ _))).
      do 4 eexists. split; [vm_compute; reflexivity | ].
      split; [ | split; [ | split; [ | split]]].
      2: { eapply Props.polls_retry.
           - vm_compute; reflexivity.
           - reflexivity.
           - vm_compute; reflexivity.
           - eapply Props.polls_last;
               [vm_compute; reflexivity | vm_compute; discriminate]. }
      * lia.
      * vm_compute. reflexivity.
      * vm_compute. discriminate.
      * vm_compute. reflexivity.
    + vm_compute. reflexivity.
  - assert (E : exists r tp1,
               Tap.accessReg (M := Bench.Scripted_model Bench.retry_then_error)
                 20 0x10 0x10000 32 Bench.tap_polled = Ret (r, tp1))
      by (do 2 eexists; vm_compute; reflexivity).
    destruct E as (r & tp1 & E).
    destruct (proj2 (dmiRead_retry_policy
                       (M := Bench.Scripted_model Bench.retry_then_error)
                       20 0x10 Bench.dtm_after_reset 0 Bench.dtm_after_reset)
                Bench.tap_polled tp1 r E)
      as (tdos & Hc).
    + reflexivity.
    + vm_compute. discriminate.
    + exists tdos, tp1. exact Hc.
Defined.

(** * Further properties of the code *)

(** ** The Tap: its tables, and the time an access takes *)

(** X1.  The two tables of the Tap.  From every state the route that
    [nextStateTab] gives [Tap::gotoState] reaches every target within 8
    TCK cycles, and 8 are needed from Shift-DR to Exit2-IR; and in the
    transition table of [Tap::nextState] five cycles with TMS high lead
    to Test-Logic-Reset from every state. *)
Theorem Tap_tables_route_and_reset :
  (forall cur s, Props.reaches 8 cur s = true)
  /\ Props.reaches 7 Tap.SHIFT_DR Tap.EXIT2_IR = false
  /\ (forall s,
        Tap.next (Tap.next (Tap.next (Tap.next (Tap.next s true) true) true)
                    true) true
        = Tap.TEST_LOGIC_RESET).
Proof.
  split; [intros cur s; destruct cur, s; reflexivity | ].
  split; [reflexivity | ].
  intros s; destruct s; reflexivity.
Qed.

Section EdgeToEdge.
Context {Core : Type} {M : VSim.Verilated Core}.


Lemma tick_kept (v v' : VSim.t Core) :
  VSim.advanceHalfPeriod (VSim.eval v) = Ret v' ->
  VSim.mClkHalfPeriodTicks v' = VSim.mClkHalfPeriodTicks v
  /\ VSim.mContextTime v' = VSim.mTickCount v'.
Proof.
  unfold VSim.advanceHalfPeriod, VSim.eval.
  destruct (VSim.settle _ _ _ _ _ _ _). simpl.
  destruct (_ || _); [discriminate | ].
  intros E. injection E as <-. split; reflexivity.
Qed.

Lemma toPosedge_exact (fuel : nat) (N h : Z) (v : VSim.t Core) :
  Props.clock_ok N v -> Props.at_falling_edge h v -> (2 <= fuel)%nat -> 2 <= N ->
  exists v',
    Tap.toPosedge fuel v = Ret v'
    /\ Props.clock_ok (N - 2) v'
    /\ Props.halves v' = Props.halves v + 2
    /\ VSim.mTckNegedge v' = false
    /\ VSim.mClkHalfPeriodTicks v' = h
    /\ VSim.mContextTime v' = VSim.mTickCount v'.
Proof.
  intros Hok (Hh & _ & Hmod & Hpos) Hfuel HN.
  destruct fuel as [ | [ | fuel]]; try lia.
  destruct (tick_ok N v Hok ltac:(lia)) as (v1 & E1 & Hok1 & Hh1 & Hp1 & Hn1).
  destruct (tick_ok (N - 1) v1 Hok1 ltac:(lia)) as (v2 & E2 & Hok2 & Hh2 & Hp2 & Hn2).
  destruct (tick_kept _ _ E1) as [K1 _]. destruct (tick_kept _ _ E2) as [K2 C2].
  exists v2. simpl. unfold VSim.tapPosedge. rewrite Hpos, E1. cbn [bind].
  rewrite Hp1, Hmod. simpl. rewrite E2. cbn [bind].
  assert (Hm1 : Props.halves v1 mod 4 = 3).
  { rewrite Hh1. Z.div_mod_to_equations; lia. }
  rewrite Hm1 in Hp2, Hn2. simpl in Hp2, Hn2.
  destruct fuel; simpl; unfold VSim.tapPosedge; rewrite Hp2;
    (split; [reflexivity | ]);
    (split; [replace (N - 2) with (N - 1 - 1) by lia; exact Hok2 | ]);
    (split; [lia | ]); (split; [exact Hn2 | ]);
    (split; [congruence | exact C2]).
Qed.

Lemma toNegedge_exact (fuel : nat) (N h : Z) (v : VSim.t Core) :
  Props.clock_ok N v -> Props.halves v mod 4 = 0 -> VSim.mTckNegedge v = false ->
  VSim.mClkHalfPeriodTicks v = h ->
  (2 <= fuel)%nat -> 2 <= N ->
  exists v',
    Tap.toNegedge fuel v = Ret v'
    /\ Props.clock_ok (N - 2) v'
    /\ Props.halves v' = Props.halves v + 2
    /\ Props.at_falling_edge h v'.
Proof.
  intros Hok Hmod Hneg Hh Hfuel HN.
  destruct fuel as [ | [ | fuel]]; try lia.
  destruct (tick_ok N v Hok ltac:(lia)) as (v1 & E1 & Hok1 & Hh1 & Hp1 & Hn1).
  destruct (tick_ok (N - 1) v1 Hok1 ltac:(lia)) as (v2 & E2 & Hok2 & Hh2 & Hp2 & Hn2).
  destruct (tick_kept _ _ E1) as [K1 _]. destruct (tick_kept _ _ E2) as [K2 C2].
  exists v2. simpl. unfold VSim.tapNegedge. rewrite Hneg, E1. cbn [bind].
  rewrite Hn1, Hmod. simpl. rewrite E2. cbn [bind].
  assert (Hm1 : Props.halves v1 mod 4 = 1).
  { rewrite Hh1. Z.div_mod_to_equations; lia. }
  rewrite Hm1 in Hp2, Hn2. simpl in Hp2, Hn2.
  destruct fuel; simpl; unfold VSim.tapNegedge; rewrite Hn2;
    (split; [reflexivity | ]);
    (split; [replace (N - 2) with (N - 1 - 1) by lia; exact Hok2 | ]);
    (split; [lia | ]);
    (split; [congruence | ]); (split; [exact C2 | ]);
    (split; [rewrite Hh2, Hh1; Z.div_mod_to_equations; lia | exact Hp2]).
Qed.

Lemma advanceState_exact (fuel : nat) (N h : Z) (tms tdi : bool) (tp : Tap.t Core) :
  Props.clock_ok N (Tap.mMcu tp) -> Props.at_falling_edge h (Tap.mMcu tp) ->
  (2 <= fuel)%nat -> 4 <= N ->
  exists b tp',
    Tap.advanceState fuel tms tdi tp = Ret (b, tp')
    /\ Props.clock_ok (N - 4) (Tap.mMcu tp')
    /\ Props.halves (Tap.mMcu tp') = Props.halves (Tap.mMcu tp) + 4
    /\ Props.at_falling_edge h (Tap.mMcu tp')
    /\ Tap.mCurrState tp' = Tap.next (Tap.mCurrState tp) tms.
Proof.
  intros Hok Hal Hfuel HN. unfold Tap.advanceState.
  destruct (toPosedge_exact fuel N h _ Hok Hal Hfuel ltac:(lia))
    as (v1 & E1 & Hok1 & Hh1 & Hn1 & Hk1 & _).
  rewrite E1. cbn [bind].
  set (v1' := VSim.set_tdi tdi (VSim.set_tms tms v1)).
  assert (Hok1' : Props.clock_ok (N - 2) v1').
  { apply set_tdi_clock, set_tms_clock, Hok1. }
  assert (Hh1' : Props.halves v1' = Props.halves v1).
  { unfold v1'. destruct (set_tdi_clock 0 tdi (VSim.set_tms tms v1)) as (_ & -> & _).
    apply set_tms_clock. exact 0. }
  assert (Hn1' : VSim.mTckNegedge v1' = false) by exact Hn1.
  assert (Hk1' : VSim.mClkHalfPeriodTicks v1' = h) by exact Hk1.
  destruct Hal as (_ & _ & Hmod & _).
  destruct (toNegedge_exact fuel (N - 2) h v1' Hok1'
              ltac:(rewrite Hh1', Hh1; Z.div_mod_to_equations; lia)
              Hn1' Hk1' Hfuel ltac:(lia))
    as (v2 & E2 & Hok2 & Hh2 & Hal2).
  rewrite E2. cbn [bind]. do 2 eexists. split; [reflexivity | ].
  cbn [Tap.mMcu Tap.nextState Tap.with_state Tap.with_mcu Tap.mCurrState].
  split; [replace (N - 4) with (N - 2 - 2) by lia; exact Hok2 | ].
  split; [lia | ]. split; [exact Hal2 | ].
  apply toNegedge_tms in E2. unfold VSim.tms. rewrite E2.
  unfold v1'; simpl. destruct tms; reflexivity.
Qed.
End EdgeToEdge.

Lemma testbit_above (a k : Z) : 0 <= a < 2 ^ k -> 0 <= k -> Z.testbit a k = false.
Proof.
  intros Ha Hk. destruct (Z.eq_dec a 0) as [-> | Hne]; [apply Z.bits_0 | ].
  apply Z.bits_above_log2; [lia | ]. apply Z.log2_lt_pow2; lia.
Qed.

Lemma lor_pow2_lt (a k : Z) :
  0 <= k -> 0 <= a < 2 ^ k -> 0 <= Z.lor a (2 ^ k) < 2 ^ (k + 1).
Proof.
  intros Hk Ha.
  assert (Hland : Z.land a (2 ^ k) = 0).
  { apply Z.bits_inj'. intros i Hi. rewrite Z.land_spec, Z.bits_0, Z.pow2_bits_eqb by lia.
    destruct (Z.eqb_spec k i) as [<- | ]; [ | apply andb_false_r].
    rewrite testbit_above by lia. reflexivity. }
  rewrite <- Z.lxor_lor, <- Z.add_nocarry_lxor by exact Hland.
  rewrite Z.pow_add_r by lia. lia.
Qed.

Section Range.
Context {Core : Type} {M : VSim.Verilated Core}.

Lemma shiftDr_loop_range (fuel n : nat) :
  forall (i bound dreg regOut r : Z) (tp tp' : Tap.t Core),
    Tap.shiftDr_loop fuel n i bound dreg regOut tp = Ret (r, tp') ->
    1 <= i -> 0 <= regOut < 2 ^ (i - 1) ->
    0 <= r < 2 ^ (Z.max i bound - 1).
Proof.
  induction n as [ | n IH]; intros i bound dreg regOut r tp tp' E Hi Hr; simpl in E.
  - destruct (Z.ltb_spec i bound); [discriminate | ]. injection E as <- _.
    rewrite Z.max_l by lia. exact Hr.
  - destruct (Z.ltb_spec i bound).
    + apply bind_Ret in E. destruct E as (m & _ & E).
      apply bind_Ret in E. destruct E as ([tdo tp1] & _ & E). cbn beta iota in E.
      apply IH in E; [ | lia | ].
      * rewrite Z.max_r in E by lia. rewrite Z.max_r by lia. exact E.
      * replace (i + 1 - 1) with (i - 1 + 1) by lia. destruct tdo.
        -- apply lor_pow2_lt; lia.
        -- rewrite Z.pow_add_r by lia. lia.
    + injection E as <- _. rewrite Z.max_l by lia. exact Hr.
Qed.

Lemma shiftDr_range (fuel : nat) (dreg len r : Z) (tp tp' : Tap.t Core) :
  2 <= len <= 64 ->
  Tap.shiftDr fuel dreg len tp = Ret (r, tp') -> 0 <= r < 2 ^ len.
Proof.
  intros Hlen E. unfold Tap.shiftDr in E.
  rewrite !(u64_small (len - 1)) in E by lia.
  rewrite (u64_small (len - 2)) in E by lia.
  rewrite !shl1_64_in_range in E by lia. cbn [bind] in E.
  apply bind_Ret in E. destruct E as ([b1 tp1] & _ & E). cbn beta iota in E.
  apply bind_Ret in E. destruct E as ([b2 tp2] & _ & E). cbn beta iota in E.
  apply bind_Ret in E. destruct E as ([r3 tp3] & E3 & E). cbn beta iota in E.
  apply shiftDr_loop_range in E3; [ | lia | simpl; lia].
  rewrite Z.max_r in E3 by lia.
  apply bind_Ret in E. destruct E as ([b4 tp4] & _ & E). cbn beta iota in E.
  apply bind_Ret in E. destruct E as (r4 & E4 & E).
  apply bind_Ret in E. destruct E as ([b5 tp5] & _ & E). cbn beta iota in E.
  apply bind_Ret in E. destruct E as ([b6 tp6] & _ & E). cbn beta iota in E.
  injection E as <- _.
  assert (H4 : 0 <= r4 < 2 ^ (len - 1)).
  { destruct b4.
    - cbn [bind] in E4. injection E4 as <-.
      replace (len - 1) with (len - 2 + 1) by lia.
      apply lor_pow2_lt; [lia | ]. replace (len - 2) with (len - 1 - 1) by lia. exact E3.
    - injection E4 as <-.
      replace (len - 1) with (len - 1 - 1 + 1) by lia.
      rewrite Z.pow_add_r by lia. lia. }
  destruct b5.
  - replace len with (len - 1 + 1) at 3 by lia. apply lor_pow2_lt; lia.
  - replace len with (len - 1 + 1) by lia. rewrite Z.pow_add_r by lia. lia.
Qed.
End Range.


Section LoopTimes.
Context {Core : Type} {M : VSim.Verilated Core}.

Lemma gotoState_loop_exact (m : nat) :
  forall (fuel n : nat) (N h : Z) (s : Tap.State) (b0 : bool) (tp : Tap.t Core),
    Props.reaches m (Tap.mCurrState tp) s = true ->
    (m <= n)%nat ->
    Props.clock_ok N (Tap.mMcu tp) -> Props.at_falling_edge h (Tap.mMcu tp) ->
    (2 <= fuel)%nat ->
    4 * Z.of_nat (Props.route_steps m (Tap.mCurrState tp) s) <= N ->
    exists b tp',
      Tap.gotoState_loop fuel n s b0 tp = Ret (b, tp')
      /\ Props.clock_ok (N - 4 * Z.of_nat (Props.route_steps m (Tap.mCurrState tp) s))
           (Tap.mMcu tp')
      /\ Props.halves (Tap.mMcu tp')
         = Props.halves (Tap.mMcu tp)
           + 4 * Z.of_nat (Props.route_steps m (Tap.mCurrState tp) s)
      /\ Props.at_falling_edge h (Tap.mMcu tp')
      /\ Tap.mCurrState tp' = s.
Proof.
  induction m as [ | m IH]; intros fuel n N h s b0 tp Hr Hmn Hok Hal Hfuel HN.
  - simpl in Hr. simpl Props.route_steps in *.
    destruct (decide (Tap.mCurrState tp = s)) as [Heq | ]; [ | discriminate].
    exists b0, tp. destruct n; simpl; destruct (decide _); try contradiction;
      (split; [reflexivity | ]); rewrite Z.sub_0_r, Z.add_0_r; auto.
  - simpl in Hr. simpl Props.route_steps in *.
    destruct (decide (Tap.mCurrState tp = s)) as [Heq | Hne].
    + exists b0, tp. destruct n; simpl; destruct (decide _); try contradiction;
        (split; [reflexivity | ]); rewrite Z.sub_0_r, Z.add_0_r; auto.
    + destruct n as [ | n]; [lia | ]. simpl.
      destruct (decide _); [contradiction | ].
      destruct (advanceState_exact fuel N h
                  (Tap.firstStep (Tap.mCurrState tp) s) false tp Hok Hal Hfuel
                  ltac:(lia))
        as (b1 & tp1 & E1 & Hok1 & Hh1 & Hal1 & Hs1).
      rewrite E1. cbn [bind].
      rewrite <- Hs1 in Hr, HN |- *.
      destruct (IH fuel n (N - 4) h s b1 tp1 Hr ltac:(lia) Hok1 Hal1 Hfuel ltac:(lia))
        as (b & tp' & E & Hok' & Hh' & Hal' & Hs').
      exists b, tp'. split; [exact E | ].
      split; [ | split; [ | auto]].
      * replace (N - 4 * Z.of_nat (S (Props.route_steps m (Tap.mCurrState tp1) s)))
          with (N - 4 - 4 * Z.of_nat (Props.route_steps m (Tap.mCurrState tp1) s)) by lia.
        exact Hok'.
      * lia.
Qed.

Lemma gotoState_exact (fuel : nat) (N h : Z) (s : Tap.State) (tp : Tap.t Core) :
  Props.clock_ok N (Tap.mMcu tp) -> Props.at_falling_edge h (Tap.mMcu tp) ->
  (8 <= fuel)%nat ->
  4 * Z.of_nat (Props.route_steps 8 (Tap.mCurrState tp) s) <= N ->
  exists b tp',
    Tap.gotoState fuel s tp = Ret (b, tp')
    /\ Props.clock_ok (N - 4 * Z.of_nat (Props.route_steps 8 (Tap.mCurrState tp) s))
         (Tap.mMcu tp')
    /\ Props.halves (Tap.mMcu tp')
       = Props.halves (Tap.mMcu tp)
         + 4 * Z.of_nat (Props.route_steps 8 (Tap.mCurrState tp) s)
    /\ Props.at_falling_edge h (Tap.mMcu tp')
    /\ Tap.mCurrState tp' = s.
Proof.
  intros Hok Hal Hfuel HN. unfold Tap.gotoState.
  apply gotoState_loop_exact; try assumption; try lia.
  apply reaches_any.
Qed.

Lemma shiftIr_loop_exact (n : nat) :
  forall (fuel : nat) (N h i ireg : Z) (tp : Tap.t Core),
    Props.clock_ok N (Tap.mMcu tp) -> Props.at_falling_edge h (Tap.mMcu tp) ->
    (2 <= fuel)%nat -> 4 * Z.of_nat n <= N ->
    Tap.mCurrState tp = Tap.SHIFT_IR ->
    exists tp',
      Tap.shiftIr_loop fuel n i ireg tp = Ret tp'
      /\ Props.clock_ok (N - 4 * Z.of_nat n) (Tap.mMcu tp')
      /\ Props.halves (Tap.mMcu tp') = Props.halves (Tap.mMcu tp) + 4 * Z.of_nat n
      /\ Props.at_falling_edge h (Tap.mMcu tp')
      /\ Tap.mCurrState tp' = Tap.SHIFT_IR.
Proof.
  induction n as [ | n IH]; intros fuel N h i ireg tp Hok Hal Hfuel HN Hs.
  - exists tp. simpl. rewrite Z.sub_0_r, Z.add_0_r. auto.
  - simpl Tap.shiftIr_loop.
    destruct (advanceState_exact fuel N h false (Tap.bit_set ireg i) tp Hok Hal
                Hfuel ltac:(lia))
      as (b1 & tp1 & E1 & Hok1 & Hh1 & Hal1 & Hs1).
    rewrite E1. cbn [bind]. rewrite Hs in Hs1. simpl in Hs1.
    destruct (IH fuel (N - 4) h (i + 1) ireg tp1 Hok1 Hal1 Hfuel ltac:(lia) Hs1)
      as (tp' & E & Hok' & Hh' & Hal' & Hs').
    exists tp'. split; [exact E | ]. split; [ | split; [lia | auto]].
    replace (N - 4 * Z.of_nat (S n)) with (N - 4 - 4 * Z.of_nat n) by lia.
    exact Hok'.
Qed.

Lemma shiftDr_loop_exact (cnt : nat) :
  forall (fuel n : nat) (N h i bound dreg regOut : Z) (tp : Tap.t Core),
    Props.clock_ok N (Tap.mMcu tp) -> Props.at_falling_edge h (Tap.mMcu tp) ->
    (2 <= fuel)%nat ->
    0 <= i -> i <= bound -> bound <= 63 -> bound - i = Z.of_nat cnt ->
    (cnt <= n)%nat -> 4 * Z.of_nat cnt <= N ->
    Tap.mCurrState tp = Tap.SHIFT_DR ->
    exists r tp',
      Tap.shiftDr_loop fuel n i bound dreg regOut tp = Ret (r, tp')
      /\ Props.clock_ok (N - 4 * Z.of_nat cnt) (Tap.mMcu tp')
      /\ Props.halves (Tap.mMcu tp') = Props.halves (Tap.mMcu tp) + 4 * Z.of_nat cnt
      /\ Props.at_falling_edge h (Tap.mMcu tp')
      /\ Tap.mCurrState tp' = Tap.SHIFT_DR.
Proof.
  induction cnt as [ | cnt IH];
    intros fuel n N h i bound dreg regOut tp Hok Hal Hfuel Hi Hib Hb Hc Hn HN Hs.
  - exists regOut, tp.
    replace (Tap.shiftDr_loop fuel n i bound dreg regOut tp) with (Ret (regOut, tp)).
    2: { destruct n; simpl; destruct (Z.ltb_spec i bound); try lia; reflexivity. }
    rewrite Z.sub_0_r, Z.add_0_r. auto.
  - destruct n as [ | n]; [lia | ]. simpl Tap.shiftDr_loop.
    destruct (Z.ltb_spec i bound); [ | lia].
    rewrite shl1_64_in_range by lia. cbn [bind].
    destruct (advanceState_exact fuel N h false
                (negb (Z.land dreg (2 ^ i) =? 0)) tp Hok Hal Hfuel ltac:(lia))
      as (b1 & tp1 & E1 & Hok1 & Hh1 & Hal1 & Hs1).
    rewrite E1. cbn [bind]. rewrite Hs in Hs1. simpl in Hs1.
    destruct (IH fuel n (N - 4) h (i + 1) bound dreg
                (if b1 then Z.lor regOut (2 ^ (i - 1)) else regOut) tp1
                Hok1 Hal1 Hfuel ltac:(lia) ltac:(lia) Hb ltac:(lia) ltac:(lia)
                ltac:(lia) Hs1)
      as (r & tp' & E & Hok' & Hh' & Hal' & Hs').
    exists r, tp'. split; [exact E | ]. split; [ | split; [lia | auto]].
    replace (N - 4 * Z.of_nat (S cnt)) with (N - 4 - 4 * Z.of_nat cnt) by lia.
    exact Hok'.
Qed.
End LoopTimes.

Section ShiftTimes.
Context {Core : Type} {M : VSim.Verilated Core}.

Lemma shiftIr_exact (fuel : nat) (N h ireg : Z) (tp : Tap.t Core) :
  Props.clock_ok N (Tap.mMcu tp) -> Props.at_falling_edge h (Tap.mMcu tp) ->
  (8 <= fuel)%nat ->
  let k := Z.of_nat (Props.route_steps 8 (Tap.mCurrState tp) Tap.SHIFT_IR) + 6 in
  4 * k <= N ->
  exists tp',
    Tap.shiftIr fuel ireg tp = Ret tp'
    /\ Props.clock_ok (N - 4 * k) (Tap.mMcu tp')
    /\ Props.halves (Tap.mMcu tp') = Props.halves (Tap.mMcu tp) + 4 * k
    /\ Props.at_falling_edge h (Tap.mMcu tp')
    /\ Tap.mCurrState tp' = Tap.UPDATE_IR.
Proof.
  intros Hok Hal Hfuel k HN. unfold k in *. clear k. unfold Tap.shiftIr.
  destruct (gotoState_exact fuel N h Tap.SHIFT_IR tp Hok Hal Hfuel ltac:(lia))
    as (b1 & tp1 & E1 & Hok1 & Hh1 & Hal1 & Hs1).
  rewrite E1. cbn [bind].
  set (k1 := Z.of_nat (Props.route_steps 8 (Tap.mCurrState tp) Tap.SHIFT_IR)) in *.
  assert (Hfuel2 : (2 <= fuel)%nat) by lia.
  change (Z.to_nat (Tap.IR_LEN - 1)) with 4%nat.
  destruct (shiftIr_loop_exact 4 fuel (N - 4 * k1) h 0 ireg
              tp1 Hok1 Hal1 Hfuel2 ltac:(lia) Hs1)
    as (tp2 & E2 & Hok2 & Hh2 & Hal2 & Hs2).
  rewrite E2. cbn [bind]. change (Z.of_nat 4) with 4 in *.
  destruct (advanceState_exact fuel _ h true
              (Tap.bit_set ireg (Tap.IR_LEN - 1)) tp2 Hok2 Hal2 Hfuel2 ltac:(lia))
    as (b3 & tp3 & E3 & Hok3 & Hh3 & Hal3 & Hs3).
  rewrite E3. cbn [bind]. rewrite Hs2 in Hs3. simpl in Hs3.
  destruct (gotoState_exact fuel _ h Tap.UPDATE_IR tp3 Hok3 Hal3 Hfuel
              ltac:(rewrite Hs3; simpl; lia))
    as (b4 & tp4 & E4 & Hok4 & Hh4 & Hal4 & Hs4).
  rewrite E4. cbn [bind]. rewrite Hs3 in Hok4, Hh4. simpl in Hok4, Hh4.
  exists tp4. split; [reflexivity | ].
  split; [ | split; [lia | auto]].
  replace (N - 4 * (k1 + 6)) with (N - 4 * k1 - 4 * 4 - 4 - 4 * 1) by lia.
  exact Hok4.
Qed.

Lemma shiftDr_exact (fuel : nat) (N h dreg len : Z) (tp : Tap.t Core) :
  Props.clock_ok N (Tap.mMcu tp) -> Props.at_falling_edge h (Tap.mMcu tp) ->
  (8 <= fuel)%nat -> 2 <= len <= 64 ->
  let k := Z.of_nat (Props.route_steps 8 (Tap.mCurrState tp) Tap.SHIFT_DR) + len + 3 in
  4 * k <= N ->
  exists r tp',
    Tap.shiftDr fuel dreg len tp = Ret (r, tp')
    /\ Props.clock_ok (N - 4 * k) (Tap.mMcu tp')
    /\ Props.halves (Tap.mMcu tp') = Props.halves (Tap.mMcu tp) + 4 * k
    /\ Props.at_falling_edge h (Tap.mMcu tp')
    /\ Tap.mCurrState tp' = Tap.UPDATE_DR.
Proof.
  intros Hok Hal Hfuel Hlen k HN. unfold k in *. clear k. unfold Tap.shiftDr.
  rewrite !(u64_small (len - 1)) by lia. rewrite (u64_small (len - 2)) by lia.
  rewrite !shl1_64_in_range by lia. cbn [bind].
  destruct (gotoState_exact fuel N h Tap.SHIFT_DR tp Hok Hal Hfuel ltac:(lia))
    as (b1 & tp1 & E1 & Hok1 & Hh1 & Hal1 & Hs1).
  rewrite E1. cbn [bind].
  set (k1 := Z.of_nat (Props.route_steps 8 (Tap.mCurrState tp) Tap.SHIFT_DR)) in *.
  assert (Hfuel2 : (2 <= fuel)%nat) by lia.
  destruct (advanceState_exact fuel _ h false (negb (Z.land dreg 1 =? 0)) tp1
              Hok1 Hal1 Hfuel2 ltac:(lia))
    as (b2 & tp2 & E2 & Hok2 & Hh2 & Hal2 & Hs2).
  rewrite E2. cbn [bind]. rewrite Hs1 in Hs2. simpl in Hs2.
  destruct (shiftDr_loop_exact (Z.to_nat (len - 2)) fuel 63 (N - 4 * k1 - 4)
              h 1 (len - 1) dreg 0 tp2 Hok2 Hal2 Hfuel2
              ltac:(lia) ltac:(lia) ltac:(lia) ltac:(lia) ltac:(lia) ltac:(lia) Hs2)
    as (r3 & tp3 & E3 & Hok3 & Hh3 & Hal3 & Hs3).
  rewrite E3. cbn [bind]. rewrite Z2Nat.id in Hok3, Hh3 by lia.
  destruct (advanceState_exact fuel _ h true
              (negb (Z.land dreg (2 ^ (len - 1)) =? 0)) tp3 Hok3 Hal3 Hfuel2
              ltac:(lia))
    as (b4 & tp4 & E4 & Hok4 & Hh4 & Hal4 & Hs4).
  rewrite E4. cbn [bind]. rewrite Hs3 in Hs4. simpl in Hs4.
  replace (if b4 then Ret (Z.lor r3 (2 ^ (len - 2))) else Ret r3)
    with (Ret (A := Z) (if b4 then Z.lor r3 (2 ^ (len - 2)) else r3))
    by (destruct b4; reflexivity).
  cbn [bind].
  destruct (advanceState_exact fuel _ h false
              (negb (Z.land dreg (2 ^ (len - 1)) =? 0)) tp4 Hok4 Hal4 Hfuel2
              ltac:(lia))
    as (b5 & tp5 & E5 & Hok5 & Hh5 & Hal5 & Hs5).
  rewrite E5. cbn [bind]. rewrite Hs4 in Hs5. simpl in Hs5.
  destruct (gotoState_exact fuel _ h Tap.UPDATE_DR tp5 Hok5 Hal5 Hfuel
              ltac:(rewrite Hs5; simpl; lia))
    as (b6 & tp6 & E6 & Hok6 & Hh6 & Hal6 & Hs6).
  rewrite E6. cbn [bind]. rewrite Hs5 in Hok6, Hh6. simpl in Hok6, Hh6.
  do 2 eexists. split; [reflexivity | ].
  split; [ | split; [lia | auto]].
  replace (N - 4 * (k1 + len + 3))
    with (N - 4 * k1 - 4 - 4 * (len - 2) - 4 - 4 - 4 * 2) by lia.
  exact Hok6.
Qed.
End ShiftTimes.

Section Duration.
Context {Core : Type} {M : VSim.Verilated Core}.

Lemma ticks_of_halves (N N' h k : Z) (v v' : VSim.t Core) :
  Props.clock_ok N v -> Props.clock_ok N' v' ->
  Props.at_falling_edge h v -> Props.at_falling_edge h v' ->
  Props.halves v' = Props.halves v + 4 * k ->
  VSim.mTickCount v' = VSim.mTickCount v + k * VSim.tckPeriodNs v
  /\ VSim.simTimeNs v' = VSim.simTimeNs v + k * VSim.tckPeriodNs v.
Proof.
  intros Hok Hok' (Hh & Hc & _) (Hh' & Hc' & _) Hk.
  destruct (clock_ok_halves _ _ Hok) as [_ Ht].
  destruct (clock_ok_halves _ _ Hok') as [_ Ht'].
  unfold VSim.simTimeNs, VSim.tckPeriodNs. rewrite Hc, Hc', Ht, Ht', Hk, Hh, Hh'.
  destruct Hok as (_ & -> & _). rewrite Hh. lia.
Qed.

(** X2.  The duration of a register access.  Started in Update-DR just
    after a falling edge of TCK, on a clock with room, with an idle count
    of at least 1, [Tap::accessReg] for a length of 2 to 64 bits returns
    a value below [2^len] after exactly [len + 16] TCK periods when the
    IR differs from [mLastIr] and after [len + 7] when it equals it,
    again in Update-DR and just after a falling edge. *)
Theorem accessReg_duration
    (fuel : nat) (N h ir wdata len : Z) (tp : Tap.t Core) :
  Props.clock_ok N (Tap.mMcu tp) -> Props.at_falling_edge h (Tap.mMcu tp) ->
  (8 <= fuel)%nat -> 2 <= len <= 64 ->
  Tap.mCurrState tp = Tap.UPDATE_DR ->
  1 <= Tap.mRtiCount tp ->
  4 * (len + 16) <= N ->
  let k := if Tap.mLastIr tp =? ir then len + 7 else len + 16 in
  exists r tp',
    Tap.accessReg fuel ir wdata len tp = Ret (r, tp')
    /\ 0 <= r < 2 ^ len
    /\ Tap.simTimeNs tp' = Tap.simTimeNs tp + k * VSim.tckPeriodNs (Tap.mMcu tp)
    /\ Tap.mCurrState tp' = Tap.UPDATE_DR
    /\ Props.at_falling_edge h (Tap.mMcu tp')
    /\ Props.clock_ok (N - 4 * k) (Tap.mMcu tp').
Proof.
  intros Hok Hal Hfuel Hlen Hs Hrti HN k.
  assert (Hfuel2 : (2 <= fuel)%nat) by lia.
  assert (Hsel : exists tp1,
            Tap.selectIr fuel ir tp = Ret tp1
            /\ Props.clock_ok (N - 4 * (k - len - 6)) (Tap.mMcu tp1)
            /\ Props.halves (Tap.mMcu tp1)
               = Props.halves (Tap.mMcu tp) + 4 * (k - len - 6)
            /\ Props.at_falling_edge h (Tap.mMcu tp1)
            /\ Z.of_nat (Props.route_steps 8 (Tap.mCurrState tp1) Tap.SHIFT_DR) = 3).
  { unfold Tap.selectIr, k. destruct (Tap.mLastIr tp =? ir).
    - destruct (Z.to_nat (Tap.mRtiCount tp)) as [ | n] eqn:En; [lia | ].
      rewrite rtiDwell_from_update_dr by (try exact Hs; lia).
      destruct (advanceState_exact fuel N h false false tp Hok Hal Hfuel2 ltac:(lia))
        as (b1 & tp1 & E1 & Hok1 & Hh1 & Hal1 & Hs1).
      rewrite E1. cbn [bind]. exists tp1. split; [reflexivity | ].
      rewrite Hs in Hs1. simpl in Hs1. rewrite Hs1.
      replace (len + 7 - len - 6) with 1 by lia.
      split; [exact Hok1 | ]. split; [lia | ]. split; [exact Hal1 | reflexivity].
    - destruct (shiftIr_exact fuel N h ir tp Hok Hal Hfuel
                  ltac:(rewrite Hs; simpl; lia))
        as (tp1 & E1 & Hok1 & Hh1 & Hal1 & Hs1).
      exists tp1. split; [exact E1 | ]. rewrite Hs in Hok1, Hh1.
      simpl in Hok1, Hh1. rewrite Hs1.
      replace (len + 16 - len - 6) with 10 by lia.
      split; [exact Hok1 | ]. split; [lia | ]. split; [exact Hal1 | reflexivity]. }
  destruct Hsel as (tp1 & E1 & Hok1 & Hh1 & Hal1 & Hr1).
  assert (Hk : k = len + 7 \/ k = len + 16) by (unfold k; destruct (_ =? _); lia).
  destruct (shiftDr_exact fuel _ h wdata len tp1 Hok1 Hal1 Hfuel Hlen
              ltac:(rewrite Hr1; lia))
    as (r & tp2 & E2 & Hok2 & Hh2 & Hal2 & Hs2).
  rewrite Hr1 in Hok2, Hh2.
  unfold Tap.accessReg.
  replace (64 <? len) with false by (symmetry; apply Z.ltb_ge; lia).
  rewrite E1. cbn [bind]. rewrite E2. cbn [bind].
  rewrite gotoState_there by exact Hs2. cbn [bind].
  exists r, tp2. split; [reflexivity | ].
  split; [eapply shiftDr_range; eassumption | ].
  assert (Hok2' : Props.clock_ok (N - 4 * k) (Tap.mMcu tp2)).
  { replace (N - 4 * k) with (N - 4 * (k - len - 6) - 4 * (3 + len + 3)) by lia.
    exact Hok2. }
  split; [ | auto].
  unfold Tap.simTimeNs.
  eapply ticks_of_halves; try eassumption. lia.
Qed.
End Duration.

(** The Tap after one access is in Update-DR, just after a falling edge
    of TCK. *)
Lemma tap_after_access_ready :
  Props.clock_ok 1024 (Tap.mMcu Bench.tap_after_access)
  /\ Props.at_falling_edge 10 (Tap.mMcu Bench.tap_after_access)
  /\ Tap.mCurrState Bench.tap_after_access = Tap.UPDATE_DR
  /\ Tap.mRtiCount Bench.tap_after_access = 1
  /\ Tap.mLastIr Bench.tap_after_access = 0.
Proof.
  split; [repeat split; vm_compute; congruence | ].
  split; [repeat split; vm_compute; congruence | ].
  repeat split; vm_compute; reflexivity.
Qed.

(** A 41-bit access to [dmiaccess] on the Tap that has made one such
    access before: 57 TCK periods of 40 ns. *)
Lemma accessReg_duration_witness :
  exists r tp',
    Tap.accessReg 20 0x11 0 41 Bench.tap_after_access = Ret (r, tp')
    /\ 0 <= r < 2 ^ 41
    /\ Tap.simTimeNs tp' = Tap.simTimeNs Bench.tap_after_access + (41 + 16) * 40.
Proof.
  destruct tap_after_access_ready as (Hok & Hal & Hs & Hrti & Hir).
  destruct (accessReg_duration 20 1024 10 0x11 0 41 Bench.tap_after_access
              Hok Hal ltac:(lia) ltac:(lia) Hs ltac:(rewrite Hrti; lia) ltac:(lia))
    as (r & tp' & E & Hr & Ht & _).
  exists r, tp'. split; [exact E | ]. split; [exact Hr | ].
  rewrite Hir in Ht. exact Ht.
Defined.

(** ** The DTM: configuration at reset, and writes *)

Lemma addr_mask_ones (a : Z) :
  0 <= a < 64 ->
  u64 (Z.lnot (u64 (Z.shiftl (2 ^ 64 - 1) a))) = Z.ones a.
Proof.
  intros Ha. change (2 ^ 64 - 1) with (Z.ones 64). unfold u64.
  apply Z.bits_inj'. intros i Hi.
  rewrite Z.testbit_mod_pow2 by lia. rewrite Z.lnot_spec by lia.
  rewrite Z.testbit_mod_pow2 by lia. rewrite Z.shiftl_spec by lia.
  rewrite (Z.testbit_ones_nonneg a) by lia.
  destruct (Z.ltb_spec i 64), (Z.ltb_spec i a); simpl; try lia; try reflexivity.
  - rewrite Z.testbit_neg_r by lia. reflexivity.
  - rewrite Z.testbit_ones_nonneg by lia.
    replace (i - a <? 64) with true by (symmetry; apply Z.ltb_lt; lia). reflexivity.
Qed.

Lemma land_small (x m : Z) (k : Z) :
  0 <= k -> m = Z.ones k -> 0 <= Z.land x m < 2 ^ k.
Proof.
  intros Hk ->. rewrite Z.land_ones by lia. apply Z.mod_pos_bound. lia.
Qed.

Section DtmReset.
Context {Core : Type} {M : VSim.Verilated Core}.

Lemma writeDtmcs_kept (fuel : nat) (val : Z) (d d' : DtmJtag.t Core) :
  DtmJtag.writeDtmcs fuel val d = Ret d' ->
  DtmJtag.mDmiWidth d' = DtmJtag.mDmiWidth d
  /\ DtmJtag.mDmiAddrMask d' = DtmJtag.mDmiAddrMask d
  /\ Tap.mRtiCount (DtmJtag.mTap d') = Tap.mRtiCount (DtmJtag.mTap d).
Proof.
  unfold DtmJtag.writeDtmcs, Tap.writeReg. intros E.
  apply bind_Ret in E. destruct E as (tp & E & E'). injection E' as <-.
  apply bind_Ret in E. destruct E as ([r tp1] & E & E'). injection E' as <-.
  apply accessReg_kept in E. simpl. tauto.
Qed.

(** X4.  [DtmJtag::reset] that completes has read [idcode] and [dtmcs]
    and configured the DTM from [dtmcs]: the width of [dmiaccess] is
    [34 + abits], the address mask is [2^abits - 1] and the idle count
    of the Tap is the [idle] field, where [abits] is bits 9:4 and [idle]
    bits 14:12.  From then on [dmiRead] and [dmiWrite] use a DMI address
    modulo [2^abits]; and with [abits] above 30 the register is wider
    than 64 bits and no [dmiRead] returns. *)
Theorem DtmJtag_reset_configures (fuel : nat) (d d' : DtmJtag.t Core) :
  DtmJtag.reset fuel d = Ret (true, d') ->
  exists tp idcode d1 dtmcs d2,
    Tap.reset fuel (DtmJtag.mTap d) = Ret (true, tp)
    /\ DtmJtag.readIdcode fuel (DtmJtag.with_tap d tp) = Ret (idcode, d1)
    /\ DtmJtag.readDtmcs fuel d1 = Ret (dtmcs, d2)
    /\ let abits := Z.land (Z.shiftr dtmcs 4) 0x3f in
       DtmJtag.mDmiWidth d' = 34 + abits
       /\ DtmJtag.mDmiAddrMask d' = 2 ^ abits - 1
       /\ Tap.mRtiCount (DtmJtag.mTap d') = Z.land (Z.shiftr dtmcs 12) 0x7
       /\ (forall address,
             DtmJtag.dmiRead fuel address d'
             = DtmJtag.dmiRead fuel (address mod 2 ^ abits) d')
       /\ (forall address wdata,
             DtmJtag.dmiWrite fuel address wdata d'
             = DtmJtag.dmiWrite fuel (address mod 2 ^ abits) wdata d')
       /\ (30 < abits ->
           forall address, is_Ret (DtmJtag.dmiRead fuel address d') = false).
Proof.
  unfold DtmJtag.reset. intros E.
  apply bind_Ret in E. destruct E as ([ok tp] & E0 & E). cbn beta iota in E.
  destruct ok; simpl negb in E; cbv iota in E; [ | discriminate].
  apply bind_Ret in E. destruct E as ([idcode d1] & E1 & E). cbn beta iota in E.
  apply bind_Ret in E. destruct E as ([dtmcs d2] & E2 & E). cbn beta iota in E.
  apply bind_Ret in E. destruct E as (d4 & E4 & E). injection E as <-.
  exists tp, idcode, d1, dtmcs, d2.
  split; [exact E0 | ]. split; [exact E1 | ]. split; [exact E2 | ].
  cbv zeta. set (abits := Z.land (Z.shiftr dtmcs 4) 0x3f).
  assert (Hab : 0 <= abits < 64) by (apply (land_small _ _ 6); [lia | reflexivity]).
  assert (Hid : 0 <= Z.land (Z.shiftr dtmcs 12) 7 < 8)
    by (apply (land_small _ _ 3); [lia | reflexivity]).
  apply writeDtmcs_kept in E4. cbn [DtmJtag.mDmiWidth DtmJtag.mDmiAddrMask
    DtmJtag.mTap Tap.rtiCount Tap.mRtiCount] in E4.
  destruct E4 as (Hw & Hm & Hr). fold abits in Hw, Hm.
  assert (Hu8 : u8 abits = abits) by (apply Z.mod_small; simpl; lia).
  rewrite Hu8 in Hw, Hm.
  replace (u8 (34 + abits)) with (34 + abits) in Hw
    by (symmetry; apply Z.mod_small; simpl; lia).
  rewrite addr_mask_ones in Hm by lia.
  unfold u8 in Hr. rewrite Z.mod_mod in Hr by (simpl; lia).
  rewrite Z.mod_small in Hr by (simpl; lia).
  split; [exact Hw | ]. split; [rewrite Hm; apply Z.ones_equiv | ].
  split; [exact Hr | ].
  assert (Hland : forall address,
            Z.land (address mod 2 ^ abits) (DtmJtag.mDmiAddrMask d4)
            = Z.land address (DtmJtag.mDmiAddrMask d4)).
  { intros address. rewrite Hm. rewrite !Z.land_ones by lia.
    apply Z.mod_mod. apply Z.pow_nonzero; lia. }
  split; [ | split].
  - intros address. unfold DtmJtag.dmiRead. rewrite Hland. reflexivity.
  - intros address wdata. unfold DtmJtag.dmiWrite. rewrite Hland. reflexivity.
  - intros Hbig address. unfold DtmJtag.dmiRead, Tap.writeReg, Tap.accessReg.
    rewrite Hw. replace (64 <? 34 + abits) with true
      by (symmetry; apply Z.ltb_lt; lia).
    reflexivity.
Qed.
End DtmReset.

(** The DTM that the adapter builds in front of the scripted model,
    whose [dtmcs] reads [0x1071]: 7 address bits. *)
Lemma DtmJtag_reset_configures_witness :
  DtmJtag.reset (M := Bench.Scripted_model Bench.retry_then_error) 20
    Bench.fresh_dtm = Ret (true, Bench.dtm_after_reset)
  /\ DtmJtag.mDmiWidth Bench.dtm_after_reset = 34 + 7
  /\ DtmJtag.mDmiAddrMask Bench.dtm_after_reset = 2 ^ 7 - 1
  /\ exists tp idcode d1 dtmcs d2,
       Tap.reset (M := Bench.Scripted_model Bench.retry_then_error) 20
         (DtmJtag.mTap Bench.fresh_dtm) = Ret (true, tp)
       /\ DtmJtag.readIdcode (M := Bench.Scripted_model Bench.retry_then_error)
            20 (DtmJtag.with_tap Bench.fresh_dtm tp) = Ret (idcode, d1)
       /\ DtmJtag.readDtmcs (M := Bench.Scripted_model Bench.retry_then_error)
            20 d1 = Ret (dtmcs, d2)
       /\ DtmJtag.mDmiWidth Bench.dtm_after_reset
          = 34 + Z.land (Z.shiftr dtmcs 4) 0x3f.
Proof.
  assert (E : DtmJtag.reset (M := Bench.Scripted_model Bench.retry_then_error) 20
                Bench.fresh_dtm = Ret (true, Bench.dtm_after_reset))
    by (vm_compute; reflexivity).
  split; [exact E | ]. split; [vm_compute; reflexivity | ].
  split; [vm_compute; reflexivity | ].
  destruct (DtmJtag_reset_configures 20 Bench.fresh_dtm Bench.dtm_after_reset E)
    as (tp & idcode & d1 & dtmcs & d2 & E0 & E1 & E2 & Hw & _).
  exists tp, idcode, d1, dtmcs, d2. auto.
Defined.

Section DmiWrite.
Context {Core : Type} {M : VSim.Verilated Core}.


Lemma dmiWrite_poll_polls (fuel n : nat) :
  forall (d d' : DtmJtag.t Core) (reg : Z),
    DtmJtag.dmiWrite_poll fuel n d = Ret (reg, d') ->
    exists k, (k < n)%nat /\ Props.write_polls fuel k d reg d'.
Proof.
  induction n as [ | n IH]; intros d d' reg E; simpl in E; [discriminate | ].
  apply bind_Ret in E. destruct E as ([reg0 tp] & E1 & E). cbn beta iota in E.
  destruct (Z.eqb_spec (Z.land reg0 3) DtmJtag.RES_RETRY) as [Hretry | Hother].
  - apply bind_Ret in E. destruct E as (d1 & E2 & E).
    apply writeDtmcs_scan in E2. destruct E2 as (r & tp1 & E2 & ->).
    apply IH in E. destruct E as (k & Hk & Hp).
    exists (S k). split; [lia | ].
    eapply Props.write_polls_retry; eauto.
  - injection E as <- <-. exists 0%nat. split; [lia | ].
    apply Props.write_polls_last; assumption.
Qed.

Lemma polls_dmiWrite_poll (fuel k : nat) (d d' : DtmJtag.t Core) (reg : Z) :
  Props.write_polls fuel k d reg d' ->
  forall n, (k < n)%nat -> DtmJtag.dmiWrite_poll fuel n d = Ret (reg, d').
Proof.
  induction 1 as [d reg tp E Hne | k d reg0 tp r tp1 reg d' E Hretry Ew Hp IH];
    intros n Hn; (destruct n as [ | n]; [lia | ]); simpl; rewrite E; cbn [bind].
  - destruct (Z.eqb_spec (Z.land reg 3) DtmJtag.RES_RETRY); [contradiction | ].
    reflexivity.
  - destruct (Z.eqb_spec (Z.land reg0 3) DtmJtag.RES_RETRY); [ | contradiction].
    unfold DtmJtag.writeDtmcs, Tap.writeReg.
    change DtmJtag.DTMCS with 16.
    cbn [DtmJtag.mTap DtmJtag.warn DtmJtag.with_tap].
    rewrite Ew. cbn [bind]. apply IH. lia.
Qed.

Lemma write_polls_last_not_retry (fuel k : nat) (d d' : DtmJtag.t Core) (reg : Z) :
  Props.write_polls fuel k d reg d' -> Z.land reg 0x3 <> DtmJtag.RES_RETRY.
Proof. induction 1; assumption. Qed.

Lemma write_polls_kept (fuel k : nat) (d d' : DtmJtag.t Core) (reg : Z) :
  Props.write_polls fuel k d reg d' ->
  DtmJtag.mDmiWidth d' = DtmJtag.mDmiWidth d
  /\ DtmJtag.mDmiAddrMask d' = DtmJtag.mDmiAddrMask d
  /\ length (DtmJtag.cerr d') = (length (DtmJtag.cerr d) + k)%nat.
Proof.
  induction 1 as [d reg tp E Hne | k d reg0 tp r tp1 reg d' E Hretry Ew Hp IH].
  - simpl. split; [reflexivity | ]. split; [reflexivity | lia].
  - destruct IH as (-> & -> & ->).
    simpl. split; [reflexivity | ]. split; [reflexivity | ].
    rewrite length_app. simpl. lia.
Qed.

(** X3.  [DtmJtag::dmiWrite] shifts its request (operation 2, the data
    at bit 2, the masked address at bit 34) once.  It returns exactly
    when that scan returns and the polls that follow form a chain of
    fewer RETRY answers than the bound of the loop, each followed by a
    warning and by the scan of [0x10000] (bit 16, [dmireset]) into
    [dtmcs], the register of IR [0x10], ended by a scan whose result is
    not RETRY; a result other than OK only adds a diagnostic.  On the
    pins that scan is the TCK cycles [Props.dmireset_pins], from
    Update-DR, where the poll before it leaves the controller, and with
    an [mLastIr] that is not [0x10], as the constructor sets it. *)
Theorem dmiWrite_retry_policy (fuel : nat) (address wdata : Z)
    (d d' : DtmJtag.t Core) :
  (DtmJtag.dmiWrite fuel address wdata d = Ret d'
   <-> exists tp k reg d1,
         Tap.writeReg fuel DtmJtag.DMIACCESS
           (Z.lor (Z.lor DtmJtag.OP_WRITE (u64 (Z.shiftl wdata 2)))
              (u64 (Z.shiftl (Z.land address (DtmJtag.mDmiAddrMask d)) 34)))
           (DtmJtag.mDmiWidth d) (DtmJtag.mTap d) = Ret tp
         /\ (k < fuel)%nat
         /\ Props.write_polls fuel k (DtmJtag.with_tap d tp) reg d1
         /\ Z.land reg 0x3 <> DtmJtag.RES_RETRY
         /\ d' = (if Z.land reg 0x3 =? DtmJtag.RES_OK then d1
                  else DtmJtag.warn d1
                         ("Warning: unknown JTAG write result "
                            +:+ pretty (Z.land reg 0x3) +:+ ": ignored")))
  /\ (forall (tp tp1 : Tap.t Core) (r : Z),
        Tap.accessReg fuel 0x10 0x10000 32 tp = Ret (r, tp1) ->
        Tap.mCurrState tp = Tap.UPDATE_DR ->
        Tap.mLastIr tp <> 0x10 ->
        exists tdos,
          Props.cycles fuel Props.dmireset_pins tp = Ret (tdos, tp1)).
Proof.
  split; [ | intros tp tp1 r E Hs Hir; eapply dmireset_on_the_pins; eauto].
  unfold DtmJtag.dmiWrite. split.
  - intros E. apply bind_Ret in E. destruct E as (tp & E1 & E).
    apply bind_Ret in E. destruct E as ([reg d1] & E2 & E). cbn beta iota in E.
    apply dmiWrite_poll_polls in E2. destruct E2 as (k & Hk & Hp).
    exists tp, k, reg, d1. split; [exact E1 | ]. split; [exact Hk | ].
    split; [exact Hp | ]. split; [eapply write_polls_last_not_retry, Hp | ].
    injection E as <-. destruct (Z.land reg 3 =? DtmJtag.RES_OK); reflexivity.
  - intros (tp & k & reg & d1 & E1 & Hk & Hp & _ & ->).
    rewrite E1. cbn [bind].
    rewrite (polls_dmiWrite_poll fuel k _ _ _ Hp fuel Hk). cbn [bind].
    destruct (Z.land reg 3 =? DtmJtag.RES_OK); reflexivity.
Qed.
End DmiWrite.

(** On that DTM, a write whose first poll answers RETRY and whose second
    answers ERROR; and the DMI reset between them, on the pins. *)
Lemma dmiWrite_retry_policy_witness :
  (exists d',
     DtmJtag.dmiWrite (M := Bench.Scripted_model Bench.retry_then_error)
       20 0x10 0x80000001 Bench.dtm_after_reset = Ret d'
     /\ DtmJtag.cerr d'
        = ["Warning dmiWrite retry requested";
           "Warning: unknown JTAG write result 2: ignored"]%string)
  /\ (exists tdos tp1,
        Props.cycles (M := Bench.Scripted_model Bench.retry_then_error)
          20 Props.dmireset_pins Bench.tap_write_polled = Ret (tdos, tp1)).
Proof.
  split.
  - eexists. split.
    + apply (proj2 (proj1 (dmiWrite_retry_policy
                      (M := Bench.Scripted_model Bench.retry_then_error)
                      20 0x10 0x80000001 Bench.dtm_after_reset _))).
      do 4 eexists. split; [vm_compute; reflexivity | ].
      split; [ | split; [ | split]].
      2: { eapply Props.write_polls_retry.
           - vm_compute; reflexivity.
           - reflexivity.
           - vm_compute; reflexivity.
           - eapply Props.write_polls_last;
               [vm_compute; reflexivity | vm_compute; discriminate]. }
      * lia.
      * vm_compute. discriminate.
      * vm_compute. reflexivity.
    + vm_compute. reflexivity.
  - assert (E : exists r tp1,
               Tap.accessReg (M := Bench.Scripted_model Bench.retry_then_error)
                 20 0x10 0x10000 32 Bench.tap_write_polled = Ret (r, tp1))
      by (do 2 eexists; vm_compute; reflexivity).
    destruct E as (r & tp1 & E).
    destruct (proj2 (dmiWrite_retry_policy
                       (M := Bench.Scripted_model Bench.retry_then_error)
                       20 0x10 0x80000001 Bench.dtm_after_reset
                       Bench.dtm_after_reset)
                Bench.tap_write_polled tp1 r E)
      as (tdos & Hc).
    + reflexivity.
    + vm_compute. discriminate.
    + exists tdos, tp1. exact Hc.
Defined.

(** ** The Dmi: [dmcontrol], hart selection and register transfers *)

Lemma Dmcontrol_reset_reg (r : Dmi.Dmcontrol.t) :
  Dmi.Dmcontrol.mDmcontrolReg (Dmi.Dmcontrol.reset r)
  = Z.lor (Z.shiftl (Dmi.Dmcontrol.mCurrentHartsel r mod 2 ^ 10) 16)
          (Z.shiftl ((Dmi.Dmcontrol.mCurrentHartsel r / 2 ^ 10) mod 2 ^ 10) 6).
Proof.
  unfold Dmi.Dmcontrol.reset, Dmi.Dmcontrol.set_hartsel.
  cbn [Dmi.Dmcontrol.mDmcontrolReg].
  destruct hartsel_masks as [-> ->].
  unfold Dmi.Dmcontrol.HARTSELLO_OFFSET, Dmi.Dmcontrol.HARTSELLO_SIZE,
    Dmi.Dmcontrol.HARTSELHI_OFFSET.
  set (h := Dmi.Dmcontrol.mCurrentHartsel r).
  set (reg := Dmi.Dmcontrol.mDmcontrolReg _).
  assert (Hreg : reg = 0) by (unfold reg; destruct (_ <=? _); reflexivity).
  rewrite Hreg. clear Hreg reg.
  rewrite <- Z.shiftr_div_pow2 by lia.
  bitwise; apply Z.bits_0.
Qed.

Lemma set_hartsel_reg (h : Z) (r : Dmi.Dmcontrol.t) :
  Dmi.Dmcontrol.mDmcontrolReg (Dmi.Dmcontrol.set_hartsel h r)
  = Z.lor (Z.land (Dmi.Dmcontrol.mDmcontrolReg r) 0xfc00003f)
      (Z.lor (Z.shiftl (h mod 2 ^ 10) 16)
             (Z.shiftl ((h / 2 ^ 10) mod 2 ^ 10) 6)).
Proof.
  unfold Dmi.Dmcontrol.set_hartsel.
  cbn [Dmi.Dmcontrol.mDmcontrolReg].
  replace (Dmi.Dmcontrol.mDmcontrolReg (if _ <=? h then _ else r))
    with (Dmi.Dmcontrol.mDmcontrolReg r) by (destruct (_ <=? _); reflexivity).
  destruct hartsel_masks as [-> ->].
  unfold Dmi.Dmcontrol.HARTSELLO_OFFSET, Dmi.Dmcontrol.HARTSELLO_SIZE,
    Dmi.Dmcontrol.HARTSELHI_OFFSET.
  set (reg := Dmi.Dmcontrol.mDmcontrolReg _).
  change 0xfc00003f with (Z.lor (Z.shiftl (Z.ones 6) 26) (Z.shiftl (Z.ones 6) 0)).
  rewrite <- Z.shiftr_div_pow2 by lia.
  bitwise.
Qed.

Lemma flag_masks :
  Dmi.Dmcontrol.HALTREQ_MASK = Z.shiftl (Z.ones 1) 31
  /\ Dmi.Dmcontrol.RESUMEREQ_MASK = Z.shiftl (Z.ones 1) 30
  /\ Dmi.Dmcontrol.NDMRESET_MASK = Z.shiftl (Z.ones 1) 1
  /\ Dmi.Dmcontrol.DMACTIVE_MASK = Z.shiftl (Z.ones 1) 0.
Proof. repeat split. Qed.

(* one bit field setter *)
Lemma set_bit_same (reg k : Z) (b : bool) :
  0 <= k < 32 ->
  Z.land (if b then Z.lor reg (Z.shiftl (Z.ones 1) k)
          else Z.land reg (not32 (Z.shiftl (Z.ones 1) k)))
         (Z.shiftl (Z.ones 1) k)
  = if b then Z.shiftl (Z.ones 1) k else 0.
Proof.
  intros Hk. destruct b.
  - bitwise.
  - bitwise; try apply Z.bits_0.
    all: rewrite Z.bits_0; try reflexivity.
Qed.

Lemma set_bit_other (reg k size off : Z) (b : bool) :
  0 <= k < 32 -> 0 <= off -> 0 <= size -> off + size <= 32 ->
  (k < off \/ off + size <= k) ->
  Z.land (if b then Z.lor reg (Z.shiftl (Z.ones 1) k)
          else Z.land reg (not32 (Z.shiftl (Z.ones 1) k)))
         (Z.shiftl (Z.ones size) off)
  = Z.land reg (Z.shiftl (Z.ones size) off).
Proof.
  intros Hk Ho Hs Hos Hd. destruct b; bitwise.
Qed.

Lemma set_hartsel_other (r : Dmi.Dmcontrol.t) (h k : Z) :
  0 <= k < 6 \/ 26 <= k < 32 ->
  Z.land (Dmi.Dmcontrol.mDmcontrolReg (Dmi.Dmcontrol.set_hartsel h r))
         (Z.shiftl (Z.ones 1) k)
  = Z.land (Dmi.Dmcontrol.mDmcontrolReg r) (Z.shiftl (Z.ones 1) k).
Proof.
  intros Hk. rewrite set_hartsel_reg.
  set (reg := Dmi.Dmcontrol.mDmcontrolReg r).
  change 0xfc00003f with (Z.lor (Z.shiftl (Z.ones 6) 26) (Z.shiftl (Z.ones 6) 0)).
  rewrite <- Z.shiftr_div_pow2 by lia.
  bitwise.
Qed.

(** X5.  Each setter of a [dmcontrol] field changes that field only.
    The getters [dmactive] and [ndmreset] give back the flag just set;
    [hartsel] is what it was after every setter but [hartsel (h)]:
    [dmactive (flag)], [ndmreset (flag)], [haltreq (flag)],
    [resumereq ()], [ackhavereset ()] and the four setters that are not
    implemented, [hartreset (flag)], [hasel (flag)], [setresethaltreq ()]
    and [clrresethaltreq ()]; and [dmactive] and [ndmreset] are what
    they were after every setter but their own, [hartsel (h)]
    included. *)
Theorem Dmcontrol_setters_keep_other_fields
    (r : Dmi.Dmcontrol.t) (b : bool) (h : Z) :
  (Dmi.Dmcontrol.dmactive (Dmi.Dmcontrol.set_dmactive b r) = b
   /\ Dmi.Dmcontrol.ndmreset (Dmi.Dmcontrol.set_ndmreset b r) = b)
  /\ (Dmi.Dmcontrol.hartsel (Dmi.Dmcontrol.set_dmactive b r)
        = Dmi.Dmcontrol.hartsel r
      /\ Dmi.Dmcontrol.hartsel (Dmi.Dmcontrol.set_ndmreset b r)
         = Dmi.Dmcontrol.hartsel r
      /\ Dmi.Dmcontrol.hartsel (Dmi.Dmcontrol.haltreq b r)
         = Dmi.Dmcontrol.hartsel r
      /\ Dmi.Dmcontrol.hartsel (Dmi.Dmcontrol.resumereq r)
         = Dmi.Dmcontrol.hartsel r
      /\ Dmi.Dmcontrol.hartsel (Dmi.Dmcontrol.ackhavereset r)
         = Dmi.Dmcontrol.hartsel r
      /\ Dmi.Dmcontrol.hartsel (Dmi.Dmcontrol.set_hartreset b r)
         = Dmi.Dmcontrol.hartsel r
      /\ Dmi.Dmcontrol.hartsel (Dmi.Dmcontrol.set_hasel b r)
         = Dmi.Dmcontrol.hartsel r
      /\ Dmi.Dmcontrol.hartsel (Dmi.Dmcontrol.setresethaltreq r)
         = Dmi.Dmcontrol.hartsel r
      /\ Dmi.Dmcontrol.hartsel (Dmi.Dmcontrol.clrresethaltreq r)
         = Dmi.Dmcontrol.hartsel r)
  /\ (Dmi.Dmcontrol.dmactive (Dmi.Dmcontrol.set_ndmreset b r)
        = Dmi.Dmcontrol.dmactive r
      /\ Dmi.Dmcontrol.dmactive (Dmi.Dmcontrol.haltreq b r)
         = Dmi.Dmcontrol.dmactive r
      /\ Dmi.Dmcontrol.dmactive (Dmi.Dmcontrol.resumereq r)
         = Dmi.Dmcontrol.dmactive r
      /\ Dmi.Dmcontrol.dmactive (Dmi.Dmcontrol.set_hartsel h r)
         = Dmi.Dmcontrol.dmactive r
      /\ Dmi.Dmcontrol.dmactive (Dmi.Dmcontrol.ackhavereset r)
         = Dmi.Dmcontrol.dmactive r
      /\ Dmi.Dmcontrol.dmactive (Dmi.Dmcontrol.set_hartreset b r)
         = Dmi.Dmcontrol.dmactive r
      /\ Dmi.Dmcontrol.dmactive (Dmi.Dmcontrol.set_hasel b r)
         = Dmi.Dmcontrol.dmactive r
      /\ Dmi.Dmcontrol.dmactive (Dmi.Dmcontrol.setresethaltreq r)
         = Dmi.Dmcontrol.dmactive r
      /\ Dmi.Dmcontrol.dmactive (Dmi.Dmcontrol.clrresethaltreq r)
         = Dmi.Dmcontrol.dmactive r)
  /\ (Dmi.Dmcontrol.ndmreset (Dmi.Dmcontrol.set_dmactive b r)
        = Dmi.Dmcontrol.ndmreset r
      /\ Dmi.Dmcontrol.ndmreset (Dmi.Dmcontrol.haltreq b r)
         = Dmi.Dmcontrol.ndmreset r
      /\ Dmi.Dmcontrol.ndmreset (Dmi.Dmcontrol.resumereq r)
         = Dmi.Dmcontrol.ndmreset r
      /\ Dmi.Dmcontrol.ndmreset (Dmi.Dmcontrol.set_hartsel h r)
         = Dmi.Dmcontrol.ndmreset r
      /\ Dmi.Dmcontrol.ndmreset (Dmi.Dmcontrol.ackhavereset r)
         = Dmi.Dmcontrol.ndmreset r
      /\ Dmi.Dmcontrol.ndmreset (Dmi.Dmcontrol.set_hartreset b r)
         = Dmi.Dmcontrol.ndmreset r
      /\ Dmi.Dmcontrol.ndmreset (Dmi.Dmcontrol.set_hasel b r)
         = Dmi.Dmcontrol.ndmreset r
      /\ Dmi.Dmcontrol.ndmreset (Dmi.Dmcontrol.setresethaltreq r)
         = Dmi.Dmcontrol.ndmreset r
      /\ Dmi.Dmcontrol.ndmreset (Dmi.Dmcontrol.clrresethaltreq r)
         = Dmi.Dmcontrol.ndmreset r).
Proof.
  destruct flag_masks as (Hh & Hr & Hn & Ha).
  pose proof (set_bit_other (Dmi.Dmcontrol.mDmcontrolReg r)) as Hother.
  pose proof (set_bit_same (Dmi.Dmcontrol.mDmcontrolReg r)) as Hsame.
  pose proof (fun k size off => Hother k size off true) as Hon.
  cbv iota in Hon.
  unfold Dmi.Dmcontrol.dmactive, Dmi.Dmcontrol.ndmreset, Dmi.Dmcontrol.hartsel,
    Dmi.Dmcontrol.set_dmactive, Dmi.Dmcontrol.set_ndmreset,
    Dmi.Dmcontrol.haltreq, Dmi.Dmcontrol.resumereq,
    Dmi.Dmcontrol.ackhavereset, Dmi.Dmcontrol.set_hartreset,
    Dmi.Dmcontrol.set_hasel, Dmi.Dmcontrol.setresethaltreq,
    Dmi.Dmcontrol.clrresethaltreq.
  cbn [Dmi.Dmcontrol.mDmcontrolReg Dmi.Dmcontrol.with_reg Dmi.Dmcontrol.warn].
  destruct hartsel_masks as [Hlo Hhi].
  unfold Dmi.Dmcontrol.ACKHAVERESET_MASK.
  change 0x10000000 with (Z.shiftl (Z.ones 1) 28).
  rewrite Hh, Hr, Hn, Ha, Hlo, Hhi.
  rewrite !Hsame by lia.
  rewrite !Hother by lia.
  rewrite !Hon by lia.
  rewrite !set_hartsel_other by lia.
  repeat split; destruct b; reflexivity.
Qed.

Lemma selectHart_reg (h : Z) (r0 : Dmi.Dmcontrol.t) :
  Dmi.Dmcontrol.mDmcontrolReg
    (Dmi.Dmcontrol.set_dmactive true
       (Dmi.Dmcontrol.set_hartsel h (Dmi.Dmcontrol.reset r0)))
  = Z.lor 0x00000001
      (Z.lor (Z.shiftl (h mod 2 ^ 10) 16)
             (Z.shiftl ((h / 2 ^ 10) mod 2 ^ 10) 6)).
Proof.
  unfold Dmi.Dmcontrol.set_dmactive.
  cbn [Dmi.Dmcontrol.mDmcontrolReg Dmi.Dmcontrol.with_reg].
  rewrite set_hartsel_reg, Dmcontrol_reset_reg.
  set (h0 := Dmi.Dmcontrol.mCurrentHartsel r0).
  destruct flag_masks as (_ & _ & _ & ->).
  change 0xfc00003f with (Z.lor (Z.shiftl (Z.ones 6) 26) (Z.shiftl (Z.ones 6) 0)).
  change 0x00000001 with (Z.shiftl (Z.ones 1) 0) at 2.
  rewrite <- !Z.shiftr_div_pow2 by lia.
  bitwise.
Qed.

Lemma haltHart_reg (h : Z) (r0 : Dmi.Dmcontrol.t) :
  Dmi.Dmcontrol.mDmcontrolReg
    (Dmi.Dmcontrol.set_dmactive true
       (Dmi.Dmcontrol.set_hartsel h
          (Dmi.Dmcontrol.haltreq true (Dmi.Dmcontrol.reset r0))))
  = Z.lor 0x80000001
      (Z.lor (Z.shiftl (h mod 2 ^ 10) 16)
             (Z.shiftl ((h / 2 ^ 10) mod 2 ^ 10) 6)).
Proof.
  unfold Dmi.Dmcontrol.set_dmactive.
  cbn [Dmi.Dmcontrol.mDmcontrolReg Dmi.Dmcontrol.with_reg].
  rewrite set_hartsel_reg. unfold Dmi.Dmcontrol.haltreq.
  cbn [Dmi.Dmcontrol.mDmcontrolReg Dmi.Dmcontrol.with_reg].
  rewrite Dmcontrol_reset_reg.
  set (h0 := Dmi.Dmcontrol.mCurrentHartsel r0).
  destruct flag_masks as (-> & _ & _ & ->).
  change 0xfc00003f with (Z.lor (Z.shiftl (Z.ones 6) 26) (Z.shiftl (Z.ones 6) 0)).
  change 0x80000001 with (Z.lor (Z.shiftl (Z.ones 1) 31) (Z.shiftl (Z.ones 1) 0)).
  rewrite <- !Z.shiftr_div_pow2 by lia.
  bitwise.
Qed.

(** X6.  [Dmi::selectHart (h)] makes one DMI write, to address [0x10], of
    the word that holds bits 9:0 of [h] at bit 16, bits 19:10 of [h] at
    bit 6 and [dmactive] (bit 0), every other bit clear, whatever the
    cached [dmcontrol] held before; [Dmi::haltHart (h)] writes the same
    word with [haltreq] (bit 31) added.  Both remember [h] as the hart
    selected. *)
Theorem selectHart_haltHart_word
    {D : Type} {I : IDtm.IDtm D} (h : Z) (s : Dmi.t D) :
  let fields := Z.lor (Z.shiftl (h mod 2 ^ 10) 16)
                      (Z.shiftl ((h / 2 ^ 10) mod 2 ^ 10) 6) in
  (exists r,
     Dmi.Dmcontrol.mDmcontrolReg r = Z.lor 0x00000001 fields
     /\ Dmi.Dmcontrol.mCurrentHartsel r = h
     /\ Dmi.selectHart h s
        = (d <- IDtm.dmiWrite 0x10 (Z.lor 0x00000001 fields) (Dmi.mDtm s) ;;
           Ret (Dmi.with_dtm (Dmi.with_dmcontrol s r) d)))
  /\ (exists r,
        Dmi.Dmcontrol.mDmcontrolReg r = Z.lor 0x80000001 fields
        /\ Dmi.Dmcontrol.mCurrentHartsel r = h
        /\ Dmi.haltHart h s
           = (d <- IDtm.dmiWrite 0x10 (Z.lor 0x80000001 fields) (Dmi.mDtm s) ;;
              Ret (Dmi.with_dtm (Dmi.with_dmcontrol s r) d))).
Proof.
  intros fields. split.
  - eexists. split; [apply selectHart_reg | ]. split; [reflexivity | ].
    unfold Dmi.selectHart, Dmi.dmcontrol_write, Dmi.Dmcontrol.write.
    cbn [Dmi.mDmcontrol Dmi.with_dmcontrol Dmi.mDtm].
    rewrite selectHart_reg. reflexivity.
  - eexists. split; [apply haltHart_reg | ]. split; [reflexivity | ].
    unfold Dmi.haltHart, Dmi.dmcontrol_write, Dmi.Dmcontrol.write.
    cbn [Dmi.mDmcontrol Dmi.with_dmcontrol Dmi.mDtm].
    rewrite haltHart_reg. reflexivity.
Qed.

Lemma command_word (addr : Z) (w : bool) (c0 : Dmi.Command.t) :
  0 <= addr < 2 ^ 16 ->
  Dmi.Command.mCommandReg
    (Dmi.Command.aaregno addr
       (Dmi.Command.aawrite w
          (Dmi.Command.aatransfer true
             (Dmi.Command.aarsize Dmi.Command.ACCESS32
                (Dmi.Command.cmdtype Dmi.Command.ACCESS_REG
                   (Dmi.Command.reset c0))))))
  = Z.lor (if w then 0x00230000 else 0x00220000) addr.
Proof.
  intros Ha. unfold Dmi.Command.aaregno.
  cbn [Dmi.Command.mCommandReg Dmi.Command.with_reg].
  unfold Dmi.Command.REGNO_OFFSET. rewrite Z.shiftl_0_r.
  rewrite (u32_small addr) by lia.
  replace (Z.land _ (not32 Dmi.Command.REGNO_MASK))
    with (if w then 0x00230000 else 0x00220000)
    by (destruct w; reflexivity).
  reflexivity.
Qed.

Lemma Data_read0 {D : Type} {I : IDtm.IDtm D} (r r' : Dmi.Data.t) (d d' : D) :
  length (Dmi.Data.mDataReg r) = 12%nat ->
  Dmi.Data.read 0 r d = Ret (r', d') ->
  exists v, IDtm.dmiRead 0x04 d = Ret (v, d')
            /\ Dmi.Data.data 0 r' = (v, r')
            /\ length (Dmi.Data.mDataReg r') = 12%nat.
Proof.
  intros Hlen E. unfold Dmi.Data.read in E. simpl in E.
  apply bind_Ret in E. destruct E as ([v d1] & E1 & E). injection E as <- <-.
  exists v. split; [exact E1 | ].
  unfold Dmi.Data.data, Dmi.Data.store. simpl.
  destruct (Dmi.Data.mDataReg r) as [ | x l]; [discriminate | ].
  simpl. split; [reflexivity | exact Hlen].
Qed.

(** X7.  [Dmi::readCsr (addr, res)] first writes the command
    [0x00220000 | addr] (access register, 32 bits, transfer, read) to DMI
    address [0x17], then reads [abstractcs] at [0x16]; the error that it
    returns is the [cmderr] field of that value.  With no error the
    result is what a read of [data0] at [0x04] then gives; with any error
    [res] is left as the caller passed it. *)
Theorem readCsr_command_and_result
    {D : Type} {I : IDtm.IDtm D} (addr res : Z) (s s' : Dmi.t D)
    (err : Dmi.Abstractcs.CmderrVal) (v : Z) :
  0 <= addr < 2 ^ 16 ->
  length (Dmi.Data.mDataReg (Dmi.mData s)) = 12%nat ->
  Dmi.readCsr addr res s = Ret (err, v, s') ->
  exists d1 a d2,
    IDtm.dmiWrite 0x17 (Z.lor 0x00220000 addr) (Dmi.mDtm s) = Ret d1
    /\ IDtm.dmiRead 0x16 d1 = Ret (a, d2)
    /\ err = Dmi.Abstractcs.cmderr
               (Dmi.Abstractcs.with_reg (Dmi.mAbstractcs s) a)
    /\ (err = Dmi.Abstractcs.CMDERR_NONE ->
        IDtm.dmiRead 0x04 d2 = Ret (v, Dmi.mDtm s'))
    /\ (err <> Dmi.Abstractcs.CMDERR_NONE -> v = res).
Proof.
  intros Ha Hlen E. unfold Dmi.readCsr in E.
  unfold Dmi.Command.write in E. rewrite (command_word addr false) in E by exact Ha.
  apply bind_Ret in E. destruct E as (d1 & E1 & E).
  unfold Dmi.Abstractcs.read in E.
  apply bind_Ret in E. destruct E as ([a0 d2] & E2 & E).
  apply bind_Ret in E2. destruct E2 as ([a d2'] & E2 & E2'). injection E2' as <- <-.
  exists d1, a, d2'. split; [exact E1 | ]. split; [exact E2 | ].
  cbn beta iota in E.
  destruct (Dmi.Abstractcs.cmderr _) eqn:Herr;
    [ | apply bind_Ret in E; destruct E as (s3 & _ & E) .. ].
  - apply bind_Ret in E. destruct E as ([dr d3] & E3 & E).
    apply Data_read0 in E3; [ | exact Hlen].
    destruct E3 as (v0 & E3 & Hv0 & _). cbn beta iota in E. rewrite Hv0 in E.
    injection E as <- <- <-. split; [reflexivity | ].
    split; [intros _; exact E3 | congruence].
  - apply bind_Ret in E. destruct E as (s4 & _ & E).
    injection E as <- <- <-. split; [reflexivity | ]. split; [discriminate | reflexivity].
  - injection E as <- <- <-. split; [reflexivity | ]. split; [discriminate | reflexivity].
  - injection E as <- <- <-. split; [reflexivity | ]. split; [discriminate | reflexivity].
  - injection E as <- <- <-. split; [reflexivity | ]. split; [discriminate | reflexivity].
  - injection E as <- <- <-. split; [reflexivity | ]. split; [discriminate | reflexivity].
  - injection E as <- <- <-. split; [reflexivity | ]. split; [discriminate | reflexivity].
  - injection E as <- <- <-. split; [reflexivity | ]. split; [discriminate | reflexivity].
Qed.

(** A read of [dpc] on a debug module that reports no error. *)
Lemma readCsr_command_and_result_witness :
  exists s',
    Dmi.readCsr (I := Bench.one_hart_dtm) 0x7b1 5 (Dmi.new [])
    = Ret (Dmi.Abstractcs.CMDERR_NONE, 0, s')
    /\ Dmi.mDtm s'
       = [Bench.DmiWrite 0x17 0x002207b1; Bench.DmiRead 0x16 0;
          Bench.DmiRead 0x04 0]
    /\ exists d1 a d2,
         IDtm.dmiWrite (IDtm := Bench.one_hart_dtm) 0x17
           (Z.lor 0x00220000 0x7b1) [] = Ret d1
         /\ IDtm.dmiRead (IDtm := Bench.one_hart_dtm) 0x16 d1 = Ret (a, d2)
         /\ IDtm.dmiRead (IDtm := Bench.one_hart_dtm) 0x04 d2 = Ret (0, Dmi.mDtm s').
Proof.
  eexists. split; [vm_compute; reflexivity | ]. split; [reflexivity | ].
  destruct (readCsr_command_and_result (I := Bench.one_hart_dtm) 0x7b1 5
              (Dmi.new []) _ Dmi.Abstractcs.CMDERR_NONE 0
              ltac:(lia) eq_refl ltac:(vm_compute; reflexivity))
    as (d1 & a & d2 & E1 & E2 & _ & Hv & _).
  exists d1, a, d2. split; [exact E1 | ]. split; [exact E2 | ].
  exact (Hv eq_refl).
Defined.

Lemma fields_clear_bit (h k : Z) :
  0 <= k < 6 ->
  Z.land (Z.lor (Z.shiftl (h mod 2 ^ 10) 16)
                (Z.shiftl ((h / 2 ^ 10) mod 2 ^ 10) 6))
         (not32 (Z.shiftl (Z.ones 1) k))
  = Z.lor (Z.shiftl (h mod 2 ^ 10) 16)
          (Z.shiftl ((h / 2 ^ 10) mod 2 ^ 10) 6).
Proof.
  intros Hk. rewrite <- !Z.shiftr_div_pow2 by lia. bitwise.
Qed.

Lemma reset_flag_reg (r : Dmi.Dmcontrol.t) :
  let fields := Dmi.Dmcontrol.mDmcontrolReg (Dmi.Dmcontrol.reset r) in
  Dmi.Dmcontrol.mDmcontrolReg
    (Dmi.Dmcontrol.set_ndmreset true (Dmi.Dmcontrol.reset r)) = Z.lor 0x00000002 fields
  /\ Dmi.Dmcontrol.mDmcontrolReg
       (Dmi.Dmcontrol.set_ndmreset false (Dmi.Dmcontrol.reset r)) = fields
  /\ Dmi.Dmcontrol.mDmcontrolReg
       (Dmi.Dmcontrol.set_dmactive false (Dmi.Dmcontrol.reset r)) = fields
  /\ Dmi.Dmcontrol.mDmcontrolReg
       (Dmi.Dmcontrol.set_dmactive true (Dmi.Dmcontrol.reset r)) = Z.lor 0x00000001 fields.
Proof.
  intros fields. unfold fields.
  unfold Dmi.Dmcontrol.set_ndmreset, Dmi.Dmcontrol.set_dmactive.
  cbn [Dmi.Dmcontrol.mDmcontrolReg Dmi.Dmcontrol.with_reg].
  rewrite Dmcontrol_reset_reg.
  split; [apply Z.lor_comm | ].
  split; [apply (fields_clear_bit _ 1); lia | ].
  split; [apply (fields_clear_bit _ 0); lia | apply Z.lor_comm].
Qed.

Lemma busy_recovery_writes {D : Type} {I : IDtm.IDtm D} (s s3 s4 : Dmi.t D) :
  Dmi.toggle Dmi.Dmcontrol.set_ndmreset [true; false] s = Ret s3 ->
  Dmi.toggle Dmi.Dmcontrol.set_dmactive [false; true] s3 = Ret s4 ->
  let h := Dmi.Dmcontrol.mCurrentHartsel (Dmi.mDmcontrol s) in
  let fields := Z.lor (Z.shiftl (h mod 2 ^ 10) 16)
                      (Z.shiftl ((h / 2 ^ 10) mod 2 ^ 10) 6) in
  exists d1 d2 d3,
    IDtm.dmiWrite 0x10 (Z.lor 0x00000002 fields) (Dmi.mDtm s) = Ret d1
    /\ IDtm.dmiWrite 0x10 fields d1 = Ret d2
    /\ IDtm.dmiWrite 0x10 fields d2 = Ret d3
    /\ IDtm.dmiWrite 0x10 (Z.lor 0x00000001 fields) d3 = Ret (Dmi.mDtm s4).
Proof.
  intros E1 E2 h fields.
  simpl in E1, E2. unfold Dmi.dmcontrol_write, Dmi.Dmcontrol.write in E1, E2.
  cbn [Dmi.mDmcontrol Dmi.with_dmcontrol Dmi.mDtm Dmi.with_dtm] in E1, E2.
  apply bind_Ret in E1. destruct E1 as (sa & E1a & E1).
  apply bind_Ret in E1a. destruct E1a as (d1 & W1 & E1a). injection E1a as <-.
  cbn [Dmi.mDmcontrol Dmi.with_dmcontrol Dmi.mDtm Dmi.with_dtm] in E1.
  apply bind_Ret in E1. destruct E1 as (sb & E1b & E1). injection E1 as <-.
  apply bind_Ret in E1b. destruct E1b as (d2 & W2 & E1b). injection E1b as <-.
  cbn [Dmi.mDmcontrol Dmi.with_dmcontrol Dmi.mDtm Dmi.with_dtm] in E2.
  apply bind_Ret in E2. destruct E2 as (sc & E2a & E2).
  apply bind_Ret in E2a. destruct E2a as (d3 & W3 & E2a). injection E2a as <-.
  cbn [Dmi.mDmcontrol Dmi.with_dmcontrol Dmi.mDtm Dmi.with_dtm] in E2.
  apply bind_Ret in E2. destruct E2 as (sd & E2b & E2). injection E2 as <-.
  apply bind_Ret in E2b. destruct E2b as (d4 & W4 & E2b). injection E2b as <-.
  cbn [Dmi.mDtm].
  destruct (reset_flag_reg (Dmi.mDmcontrol s)) as (R1 & _ & _ & _).
  destruct (reset_flag_reg (Dmi.Dmcontrol.set_ndmreset true
                              (Dmi.Dmcontrol.reset (Dmi.mDmcontrol s))))
    as (_ & R2 & _ & _).
  set (ra := Dmi.Dmcontrol.set_ndmreset false _) in *.
  destruct (reset_flag_reg ra) as (_ & _ & R3 & _).
  set (rb := Dmi.Dmcontrol.set_dmactive false _) in *.
  destruct (reset_flag_reg rb) as (_ & _ & _ & R4).
  rewrite R1 in W1. rewrite R2 in W2. rewrite R3 in W3. rewrite R4 in W4.
  rewrite !Dmcontrol_reset_reg in W1, W2, W3, W4.
  change (Dmi.Dmcontrol.mCurrentHartsel rb) with h in W4.
  change (Dmi.Dmcontrol.mCurrentHartsel ra) with h in W3.
  change (Dmi.Dmcontrol.mCurrentHartsel _) with h in W2.
  change (Dmi.Dmcontrol.mCurrentHartsel _) with h in W1.
  exists d1, d2, d3. auto.
Qed.

(** X8.  After an error [Dmi::readCsr] recovers in one of two ways.  On
    BUSY it writes [dmcontrol] four times: [ndmreset] set, then clear,
    then [dmactive] clear, then set, each time with the hart last
    selected and nothing else.  On any other error it writes back the
    [abstractcs] value just read with the three [cmderr] bits set, which
    clears the error in the debug module. *)
Theorem readCsr_error_recovery
    {D : Type} {I : IDtm.IDtm D} (addr res : Z) (s s' : Dmi.t D)
    (err : Dmi.Abstractcs.CmderrVal) (v : Z) :
  0 <= addr < 2 ^ 16 ->
  Dmi.readCsr addr res s = Ret (err, v, s') ->
  err <> Dmi.Abstractcs.CMDERR_NONE ->
  let h := Dmi.Dmcontrol.mCurrentHartsel (Dmi.mDmcontrol s) in
  let fields := Z.lor (Z.shiftl (h mod 2 ^ 10) 16)
                      (Z.shiftl ((h / 2 ^ 10) mod 2 ^ 10) 6) in
  exists d1 a d2,
    IDtm.dmiWrite 0x17 (Z.lor 0x00220000 addr) (Dmi.mDtm s) = Ret d1
    /\ IDtm.dmiRead 0x16 d1 = Ret (a, d2)
    /\ (err = Dmi.Abstractcs.CMDERR_BUSY ->
        exists d3 d4 d5,
          IDtm.dmiWrite 0x10 (Z.lor 0x00000002 fields) d2 = Ret d3
          /\ IDtm.dmiWrite 0x10 fields d3 = Ret d4
          /\ IDtm.dmiWrite 0x10 fields d4 = Ret d5
          /\ IDtm.dmiWrite 0x10 (Z.lor 0x00000001 fields) d5 = Ret (Dmi.mDtm s'))
    /\ (err <> Dmi.Abstractcs.CMDERR_BUSY ->
        IDtm.dmiWrite 0x16 (Z.lor a 0x00000700) d2 = Ret (Dmi.mDtm s')).
Proof.
  intros Ha E Herr h fields. unfold Dmi.readCsr in E.
  unfold Dmi.Command.write in E. rewrite (command_word addr false) in E by exact Ha.
  apply bind_Ret in E. destruct E as (d1 & E1 & E).
  unfold Dmi.Abstractcs.read in E.
  apply bind_Ret in E. destruct E as ([a0 d2] & E2 & E).
  apply bind_Ret in E2. destruct E2 as ([a d2'] & E2 & E2'). injection E2' as <- <-.
  exists d1, a, d2'. split; [exact E1 | ]. split; [exact E2 | ].
  cbn beta iota in E.
  assert (Hclear : forall s3 : Dmi.t D,
            Dmi.clearCmderr
              (Dmi.with_dtm
                 (Dmi.with_abstractcs (Dmi.with_command s
                    (Dmi.Command.aaregno addr
                      (Dmi.Command.aawrite false
                        (Dmi.Command.aatransfer true
                          (Dmi.Command.aarsize Dmi.Command.ACCESS32
                            (Dmi.Command.cmdtype Dmi.Command.ACCESS_REG
                              (Dmi.Command.reset (Dmi.mCommand s))))))))
                    (Dmi.Abstractcs.with_reg (Dmi.mAbstractcs s) a)) d2') = Ret s3 ->
            IDtm.dmiWrite 0x16 (Z.lor a 0x00000700) d2' = Ret (Dmi.mDtm s3)).
  { intros s3 E3. unfold Dmi.clearCmderr, Dmi.Abstractcs.write in E3.
    apply bind_Ret in E3. destruct E3 as (d3 & E3 & E3'). injection E3' as <-.
    exact E3. }
  destruct (Dmi.Abstractcs.cmderr _) eqn:Hc.
  - apply bind_Ret in E. destruct E as ([dr d3] & _ & E). cbn beta iota in E.
    destruct (Dmi.Data.data 0 dr). injection E as <- _ _. contradiction.
  - apply bind_Ret in E. destruct E as (s3 & E3 & E).
    apply bind_Ret in E. destruct E as (s4 & E4 & E). injection E as <- _ <-.
    split; [intros _ | intros Hn; contradiction].
    exact (busy_recovery_writes _ _ _ E3 E4).
  - apply bind_Ret in E. destruct E as (s3 & E3 & E). injection E as <- _ <-.
    split; [discriminate | intros _; apply Hclear, E3].
  - apply bind_Ret in E. destruct E as (s3 & E3 & E). injection E as <- _ <-.
    split; [discriminate | intros _; apply Hclear, E3].
  - apply bind_Ret in E. destruct E as (s3 & E3 & E). injection E as <- _ <-.
    split; [discriminate | intros _; apply Hclear, E3].
  - apply bind_Ret in E. destruct E as (s3 & E3 & E). injection E as <- _ <-.
    split; [discriminate | intros _; apply Hclear, E3].
  - apply bind_Ret in E. destruct E as (s3 & E3 & E). injection E as <- _ <-.
    split; [discriminate | intros _; apply Hclear, E3].
  - apply bind_Ret in E. destruct E as (s3 & E3 & E). injection E as <- _ <-.
    split; [discriminate | intros _; apply Hclear, E3].
Qed.

(** A read of [dpc] on a debug module whose [abstractcs] reads BUSY. *)
Lemma readCsr_error_recovery_witness :
  exists s',
    Dmi.readCsr (I := Bench.Recorder_IDtm (Bench.abstractcs_reads 0x100))
      0x7b1 5 (Dmi.new [])
    = Ret (Dmi.Abstractcs.CMDERR_BUSY, 5, s')
    /\ Dmi.mDtm s'
       = [Bench.DmiWrite 0x17 0x002207b1; Bench.DmiRead 0x16 0x100;
          Bench.DmiWrite 0x10 2; Bench.DmiWrite 0x10 0;
          Bench.DmiWrite 0x10 0; Bench.DmiWrite 0x10 1]
    /\ exists d1 a d2 d3 d4 d5,
         IDtm.dmiWrite (IDtm := Bench.Recorder_IDtm (Bench.abstractcs_reads 0x100))
           0x17 (Z.lor 0x00220000 0x7b1) [] = Ret d1
         /\ IDtm.dmiRead (IDtm := Bench.Recorder_IDtm (Bench.abstractcs_reads 0x100))
              0x16 d1 = Ret (a, d2)
         /\ IDtm.dmiWrite (IDtm := Bench.Recorder_IDtm (Bench.abstractcs_reads 0x100))
              0x10 2 d2 = Ret d3
         /\ IDtm.dmiWrite (IDtm := Bench.Recorder_IDtm (Bench.abstractcs_reads 0x100))
              0x10 0 d3 = Ret d4
         /\ IDtm.dmiWrite (IDtm := Bench.Recorder_IDtm (Bench.abstractcs_reads 0x100))
              0x10 0 d4 = Ret d5
         /\ IDtm.dmiWrite (IDtm := Bench.Recorder_IDtm (Bench.abstractcs_reads 0x100))
              0x10 1 d5 = Ret (Dmi.mDtm s').
Proof.
  eexists. split; [vm_compute; reflexivity | ]. split; [reflexivity | ].
  destruct (readCsr_error_recovery
              (I := Bench.Recorder_IDtm (Bench.abstractcs_reads 0x100)) 0x7b1 5
              (Dmi.new []) _ Dmi.Abstractcs.CMDERR_BUSY 5
              ltac:(lia) ltac:(vm_compute; reflexivity) ltac:(discriminate))
    as (d1 & a & d2 & E1 & E2 & Hbusy & _).
  destruct (Hbusy eq_refl) as (d3 & d4 & d5 & W1 & W2 & W3 & W4).
  exists d1, a, d2, d3, d4, d5.
  split; [exact E1 | ]. split; [exact E2 | ]. split; [exact W1 | ].
  split; [exact W2 | ]. split; [exact W3 | exact W4].
Defined.

(** X9.  [Dmi::writeCsr (addr, val)] writes [val] to [data0] (DMI address
    [0x04]) before it writes the command [0x00230000 | addr] (access
    register, 32 bits, transfer, write) to [0x17]; it then reads
    [abstractcs] and returns its [cmderr] field, and with no error that
    read is its last DMI operation. *)
Theorem writeCsr_data_then_command
    {D : Type} {I : IDtm.IDtm D} (addr val : Z) (s s' : Dmi.t D)
    (err : Dmi.Abstractcs.CmderrVal) :
  0 <= addr < 2 ^ 16 ->
  length (Dmi.Data.mDataReg (Dmi.mData s)) = 12%nat ->
  Dmi.writeCsr addr val s = Ret (err, s') ->
  exists d0 d1 a d2,
    IDtm.dmiWrite 0x04 val (Dmi.mDtm s) = Ret d0
    /\ IDtm.dmiWrite 0x17 (Z.lor 0x00230000 addr) d0 = Ret d1
    /\ IDtm.dmiRead 0x16 d1 = Ret (a, d2)
    /\ err = Dmi.Abstractcs.cmderr
               (Dmi.Abstractcs.with_reg (Dmi.mAbstractcs s) a)
    /\ (err = Dmi.Abstractcs.CMDERR_NONE -> Dmi.mDtm s' = d2).
Proof.
  intros Ha Hlen E. unfold Dmi.writeCsr in E.
  apply bind_Ret in E. destruct E as ([dr1 d0] & E0 & E). cbn beta iota in E.
  assert (Hval : nth (Z.to_nat 0)
                   (Dmi.Data.mDataReg
                      (Dmi.Data.set_data 0 val (Dmi.Data.reset 0 (Dmi.mData s)))) 0
                 = val).
  { unfold Dmi.Data.set_data, Dmi.Data.reset, Dmi.Data.store. simpl.
    destruct (Dmi.Data.mDataReg (Dmi.mData s)); [discriminate | reflexivity]. }
  unfold Dmi.Data.write in E0. rewrite Hval in E0. simpl in E0.
  apply bind_Ret in E0. destruct E0 as (d0' & E0 & E0'). injection E0' as <- <-.
  unfold Dmi.Command.write in E. rewrite (command_word addr true) in E by exact Ha.
  apply bind_Ret in E. destruct E as (d1 & E1 & E).
  unfold Dmi.Abstractcs.read in E.
  apply bind_Ret in E. destruct E as ([a0 d2] & E2 & E).
  apply bind_Ret in E2. destruct E2 as ([a d2'] & E2 & E2'). injection E2' as <- <-.
  exists d0', d1, a, d2'. split; [exact E0 | ]. split; [exact E1 | ].
  split; [exact E2 | ].
  cbn beta iota in E.
  destruct (Dmi.Abstractcs.cmderr _) eqn:Hc.
  - injection E as <- <-. split; reflexivity.
  - apply bind_Ret in E. destruct E as (s3 & E3 & E).
    apply bind_Ret in E. destruct E as (s4 & E4 & E). injection E as <- <-.
    split; [reflexivity | discriminate].
  - apply bind_Ret in E. destruct E as (s3 & E3 & E). injection E as <- <-.
    split; [reflexivity | discriminate].
  - apply bind_Ret in E. destruct E as (s3 & E3 & E). injection E as <- <-.
    split; [reflexivity | discriminate].
  - apply bind_Ret in E. destruct E as (s3 & E3 & E). injection E as <- <-.
    split; [reflexivity | discriminate].
  - apply bind_Ret in E. destruct E as (s3 & E3 & E). injection E as <- <-.
    split; [reflexivity | discriminate].
  - apply bind_Ret in E. destruct E as (s3 & E3 & E). injection E as <- <-.
    split; [reflexivity | discriminate].
  - apply bind_Ret in E. destruct E as (s3 & E3 & E). injection E as <- <-.
    split; [reflexivity | discriminate].
Qed.

(** A write of [dpc] on a debug module that reports no error. *)
Lemma writeCsr_data_then_command_witness :
  exists s',
    Dmi.writeCsr (I := Bench.one_hart_dtm) 0x7b1 0x1c008080 (Dmi.new [])
    = Ret (Dmi.Abstractcs.CMDERR_NONE, s')
    /\ Dmi.mDtm s'
       = [Bench.DmiWrite 0x04 0x1c008080; Bench.DmiWrite 0x17 0x002307b1;
          Bench.DmiRead 0x16 0]
    /\ exists d0 d1 a,
         IDtm.dmiWrite (IDtm := Bench.one_hart_dtm) 0x04 0x1c008080 [] = Ret d0
         /\ IDtm.dmiWrite (IDtm := Bench.one_hart_dtm) 0x17
              (Z.lor 0x00230000 0x7b1) d0 = Ret d1
         /\ IDtm.dmiRead (IDtm := Bench.one_hart_dtm) 0x16 d1
            = Ret (a, Dmi.mDtm s').
Proof.
  eexists. split; [vm_compute; reflexivity | ]. split; [reflexivity | ].
  destruct (writeCsr_data_then_command (I := Bench.one_hart_dtm) 0x7b1 0x1c008080
              (Dmi.new []) _ Dmi.Abstractcs.CMDERR_NONE
              ltac:(lia) eq_refl ltac:(vm_compute; reflexivity))
    as (d0 & d1 & a & d2 & E0 & E1 & E2 & _ & Hd).
  exists d0, d1, a. split; [exact E0 | ]. split; [exact E1 | ].
  rewrite (Hd eq_refl). exact E2.
Defined.

Lemma sbcs_setup_word
    {D : Type} {I : IDtm.IDtm D} (readonaddr autoincrement : bool) (s : Dmi.t D) :
  let word := 0x20047000 + (if readonaddr then 0x00100000 else 0)
                         + (if autoincrement then 0x00010000 else 0) in
  exists r,
    Dmi.Sbcs.mSbcsReg r = word
    /\ Dmi.Sbcs.sbaccess r = Dmi.Sbcs.SBACCESS_32
    /\ Dmi.Sbcs.sbbusy r = false
    /\ Dmi.sbcs_setup readonaddr autoincrement s
       = (d <- IDtm.dmiWrite 0x38 word (Dmi.mDtm s) ;;
          Ret (Dmi.with_dtm (Dmi.with_sbcs s r) d)).
Proof.
  intros word. unfold Dmi.sbcs_setup.
  set (r := Dmi.Sbcs.sberrorClear _).
  assert (Hr : Dmi.Sbcs.mSbcsReg r = word)
    by (unfold r, word; destruct readonaddr, autoincrement; reflexivity).
  exists r. split; [exact Hr | ].
  split; [unfold Dmi.Sbcs.sbaccess; rewrite Hr; unfold word;
          destruct readonaddr, autoincrement; reflexivity | ].
  split; [unfold Dmi.Sbcs.sbbusy; rewrite Hr; unfold word;
          destruct readonaddr, autoincrement; reflexivity | ].
  unfold Dmi.Sbcs.write. rewrite Hr. reflexivity.
Qed.

(** ** The [data] registers, the register numbers and the CSR catalogue *)

(** X10.  An index of 12 or more reaches no [data] register: [read] and
    [write] make no DMI access and leave the DTM as it was, [reset] and
    the setter store nothing, the getter gives 0, and the cached
    registers are unchanged throughout; [read] and [write] log one
    warning each. *)
Theorem Data_index_out_of_range
    {D : Type} {I : IDtm.IDtm D} (n v : Z) (r : Dmi.Data.t) (d : D) :
  12 <= n ->
  (exists r', Dmi.Data.read n r d = Ret (r', d)
              /\ Dmi.Data.mDataReg r' = Dmi.Data.mDataReg r
              /\ length (Dmi.Data.cerr r') = S (length (Dmi.Data.cerr r)))
  /\ (exists r', Dmi.Data.write n r d = Ret (r', d)
                 /\ Dmi.Data.mDataReg r' = Dmi.Data.mDataReg r
                 /\ length (Dmi.Data.cerr r') = S (length (Dmi.Data.cerr r)))
  /\ Dmi.Data.mDataReg (Dmi.Data.reset n r) = Dmi.Data.mDataReg r
  /\ Dmi.Data.mDataReg (Dmi.Data.set_data n v r) = Dmi.Data.mDataReg r
  /\ fst (Dmi.Data.data n r) = 0
  /\ Dmi.Data.mDataReg (snd (Dmi.Data.data n r)) = Dmi.Data.mDataReg r.
Proof.
  intros Hn.
  assert (Hlt : (n <? Dmi.Data.NUM_REGS) = false)
    by (apply Z.ltb_ge; unfold Dmi.Data.NUM_REGS; lia).
  unfold Dmi.Data.read, Dmi.Data.write, Dmi.Data.reset, Dmi.Data.set_data,
    Dmi.Data.data.
  rewrite Hlt. unfold Dmi.Data.warn; simpl.
  repeat split; try (eexists; split; [reflexivity | ]; simpl; split;
                     [reflexivity | rewrite length_app; simpl; lia]).
Qed.

(** Index 12 on the fresh [data] registers. *)
Lemma Data_index_out_of_range_witness :
  12 <= 12
  /\ Dmi.Data.mDataReg (Dmi.Data.set_data 12 0xff Dmi.Data.new)
     = Dmi.Data.mDataReg Dmi.Data.new
  /\ fst (Dmi.Data.data 12 Dmi.Data.new) = 0.
Proof.
  split; [lia | ].
  destruct (Data_index_out_of_range (I := Bench.one_hart_dtm) 12 0xff
              Dmi.Data.new [] ltac:(lia))
    as (_ & _ & _ & Hset & Hget & _).
  split; [exact Hset | exact Hget].
Defined.

(** X11.  For indices below 12, the getter of [Dmi::Data] after the
    setter gives the value set at the same index and the old value at
    any other index; the array keeps its 12 entries, and after
    [reset (n)] register [n] reads 0. *)
Theorem Data_set_get (n m v : Z) (r : Dmi.Data.t) :
  length (Dmi.Data.mDataReg r) = 12%nat ->
  0 <= n < 12 -> 0 <= m < 12 ->
  Dmi.Data.data m (Dmi.Data.set_data n v r)
  = (if m =? n then v else fst (Dmi.Data.data m r), Dmi.Data.set_data n v r)
  /\ length (Dmi.Data.mDataReg (Dmi.Data.set_data n v r)) = 12%nat
  /\ fst (Dmi.Data.data n (Dmi.Data.reset n r)) = 0.
Proof.
  intros Hlen Hn Hm.
  assert (Hn' : (n <? Dmi.Data.NUM_REGS) = true)
    by (apply Z.ltb_lt; unfold Dmi.Data.NUM_REGS; lia).
  assert (Hm' : (m <? Dmi.Data.NUM_REGS) = true)
    by (apply Z.ltb_lt; unfold Dmi.Data.NUM_REGS; lia).
  unfold Dmi.Data.data, Dmi.Data.set_data, Dmi.Data.reset. rewrite Hn', Hm'.
  unfold Dmi.Data.store; simpl.
  split; [ | split].
  - f_equal. rewrite !nth_lookup. destruct (Z.eqb_spec m n) as [-> | Hne].
    + rewrite list_lookup_insert_eq by lia. reflexivity.
    + rewrite list_lookup_insert_ne by lia. reflexivity.
  - rewrite length_insert. exact Hlen.
  - rewrite nth_lookup, list_lookup_insert_eq by lia. reflexivity.
Qed.

(** Registers 3 and 4 after [data (3, 0xff)]. *)
Lemma Data_set_get_witness :
  length (Dmi.Data.mDataReg Dmi.Data.new) = 12%nat
  /\ fst (Dmi.Data.data 3 (Dmi.Data.set_data 3 0xff Dmi.Data.new)) = 0xff
  /\ fst (Dmi.Data.data 4 (Dmi.Data.set_data 3 0xff Dmi.Data.new)) = 0.
Proof.
  split; [reflexivity | ].
  destruct (Data_set_get 3 3 0xff Dmi.Data.new eq_refl ltac:(lia) ltac:(lia))
    as (H33 & _).
  destruct (Data_set_get 3 4 0xff Dmi.Data.new eq_refl ltac:(lia) ltac:(lia))
    as (H34 & _).
  rewrite H33, H34. split; reflexivity.
Defined.

Lemma band_tests (reg : Z) :
  ((Cv32e40.REG_ZERO_GDBNUM <=? reg) && (reg <? Cv32e40.REG_PC_GDBNUM)
   = bool_decide (0 <= reg < 32))
  /\ ((reg =? Cv32e40.REG_PC_GDBNUM) = bool_decide (reg = 32))
  /\ ((Cv32e40.REG_FT0_GDBNUM <=? reg) && (reg <? Cv32e40.REG_CSR0_GDBNUM)
      = bool_decide (33 <= reg < 65))
  /\ ((Cv32e40.REG_CSR0_GDBNUM <=? reg) && (reg <=? Cv32e40.REG_CSR_LAST_GDBNUM)
      = bool_decide (65 <= reg <= 4160)).
Proof.
  unfold Cv32e40.REG_ZERO_GDBNUM, Cv32e40.REG_PC_GDBNUM, Cv32e40.REG_FT0_GDBNUM,
    Cv32e40.REG_CSR_LAST_GDBNUM, Cv32e40.REG_CSR0_GDBNUM.
  repeat split; repeat case_bool_decide; try lia.
Qed.

(** X12.  [Cv32e40::readRegister] and [writeRegister] transfer the
    debugger's registers 0..31 as abstract registers [0x1000 + reg] (the
    GPRs), register 32 as CSR [0x7b1] ([dpc], the program counter) and
    registers 65..4160 as CSR [reg - 65]. *)
Theorem register_numbers_to_regno
    {D : Type} {I : IDtm.IDtm D} (reg readvalue value : Z) (a : Cv32e40.t D) :
  (0 <= reg < 32 ->
   Cv32e40.readRegister reg readvalue a
   = ('(_, v, s) <- Dmi.readCsr (0x1000 + reg) readvalue (Cv32e40.mDmi a) ;;
      Ret (4, v, Cv32e40.mk s))
   /\ Cv32e40.writeRegister reg value a
      = ('(_, s) <- Dmi.writeCsr (0x1000 + reg) (u32 value) (Cv32e40.mDmi a) ;;
         Ret (4, Cv32e40.mk s)))
  /\ (reg = 32 ->
      Cv32e40.readRegister reg readvalue a
      = ('(_, v, s) <- Dmi.readCsr 0x7b1 readvalue (Cv32e40.mDmi a) ;;
         Ret (4, v, Cv32e40.mk s))
      /\ Cv32e40.writeRegister reg value a
         = ('(_, s) <- Dmi.writeCsr 0x7b1 (u32 value) (Cv32e40.mDmi a) ;;
            Ret (4, Cv32e40.mk s)))
  /\ (65 <= reg <= 4160 ->
      Cv32e40.readRegister reg readvalue a
      = ('(_, v, s) <- Dmi.readCsr (reg - 65) readvalue (Cv32e40.mDmi a) ;;
         Ret (4, v, Cv32e40.mk s))
      /\ Cv32e40.writeRegister reg value a
         = ('(_, s) <- Dmi.writeCsr (reg - 65) (u32 value) (Cv32e40.mDmi a) ;;
            Ret (4, Cv32e40.mk s))).
Proof.
  destruct (band_tests reg) as (B1 & B2 & B3 & B4).
  unfold Cv32e40.readRegister, Cv32e40.writeRegister.
  rewrite B1, B2, B3, B4.
  split; [ | split]; intros Hr.
  - rewrite bool_decide_eq_true_2 by lia.
    unfold Dmi.readGpr, Dmi.writeGpr, Dmi.GPR_BASE.
    rewrite (u16_small reg) by lia. rewrite (u16_small (0x1000 + reg)) by lia.
    split; reflexivity.
  - rewrite bool_decide_eq_false_2 by lia. rewrite bool_decide_eq_true_2 by lia.
    split; reflexivity.
  - rewrite !bool_decide_eq_false_2 by lia. rewrite bool_decide_eq_true_2 by lia.
    unfold Cv32e40.REG_CSR0_GDBNUM. rewrite (u16_small (reg - 65)) by lia.
    split; reflexivity.
Qed.

(** X13.  For a register number below 0 or above 4160 [readRegister]
    reports 0 bytes and the value 0, [writeRegister] reports 0 bytes, and
    neither touches the [Dmi].  For every number from 0 to 4160 a call
    that returns reports 4 bytes, whatever error code the transfer gave:
    the error is dropped. *)
Theorem register_number_out_of_range
    {D : Type} {I : IDtm.IDtm D} (reg readvalue value : Z) (a : Cv32e40.t D) :
  (reg < 0 \/ 4160 < reg ->
   Cv32e40.readRegister reg readvalue a = Ret (0, 0, a)
   /\ Cv32e40.writeRegister reg value a = Ret (0, a))
  /\ (0 <= reg <= 4160 ->
      (forall n v a', Cv32e40.readRegister reg readvalue a = Ret (n, v, a') -> n = 4)
      /\ (forall n a', Cv32e40.writeRegister reg value a = Ret (n, a') -> n = 4)).
Proof.
  destruct (band_tests reg) as (B1 & B2 & B3 & B4).
  unfold Cv32e40.readRegister, Cv32e40.writeRegister.
  rewrite B1, B2, B3, B4. split; intros Hr.
  - rewrite !bool_decide_eq_false_2 by lia. split; reflexivity.
  - split; intros; repeat case_bool_decide; try lia;
      match goal with
      | E : bind _ _ = Ret _ |- _ =>
          apply bind_Ret in E; destruct E as (x & _ & E);
          repeat (destruct x as [x ?]); cbn beta iota in E;
          injection E as <-; reflexivity
      end.
Qed.

Lemma mCsrMap_elem (addr : Z) (info : Dmi.CsrInfo) :
  Dmi.mCsrMap !! addr = Some info -> (addr, info) ∈ Dmi.mCsrMap_init.
Proof. unfold Dmi.mCsrMap. apply elem_of_list_to_map_2. Qed.

Lemma mCsrMap_entries (P : Z -> Dmi.CsrInfo -> Prop)
    `{!forall a i, Decision (P a i)} :
  bool_decide (Forall (fun p => P p.1 p.2) Dmi.mCsrMap_init) = true ->
  forall addr info, Dmi.mCsrMap !! addr = Some info -> P addr info.
Proof.
  intros Hall addr info Hin. apply bool_decide_eq_true_1 in Hall.
  apply mCsrMap_elem in Hin.
  rewrite Forall_forall in Hall. exact (Hall _ Hin).
Qed.

(** X14.  The CSR catalogue.  [csrName] gives "UNKNOWN" for the
    addresses outside the catalogue and for no other; two addresses with
    the same known name are equal; every catalogued address is below
    4096; every address in the read-only range [0xc00..0xfff] is
    reported read-only, and an address reported read-only is outside the
    catalogue, in that range, or [0x7a4] ([tinfo]). *)
Theorem csr_catalogue_facts :
  (forall addr, Dmi.csrName addr = "UNKNOWN" <-> Dmi.mCsrMap !! addr = None)
  /\ (forall a b, Dmi.csrName a = Dmi.csrName b ->
        Dmi.csrName a <> "UNKNOWN" -> a = b)
  /\ (forall addr, Dmi.mCsrMap !! addr <> None -> 0 <= addr < 4096)
  /\ (forall addr, 0xc00 <= addr <= 0xfff -> Dmi.csrReadOnly addr = true)
  /\ (forall addr, Dmi.csrReadOnly addr = true ->
        Dmi.mCsrMap !! addr = None \/ 0xc00 <= addr <= 0xfff \/ addr = 0x7a4).
Proof.
  assert (Hname : forall addr info, Dmi.mCsrMap !! addr = Some info ->
            Dmi.name info <> "UNKNOWN").
  { apply (mCsrMap_entries (fun _ i => Dmi.name i <> "UNKNOWN")).
    vm_compute. reflexivity. }
  assert (Hinj : forall addr info, Dmi.mCsrMap !! addr = Some info ->
            Forall (fun q => Dmi.name info = Dmi.name q.2 -> addr = q.1)
              Dmi.mCsrMap_init).
  { apply (mCsrMap_entries
             (fun a i => Forall (fun q => Dmi.name i = Dmi.name q.2 -> a = q.1)
                           Dmi.mCsrMap_init)).
    vm_compute. reflexivity. }
  assert (Hrange : forall addr info, Dmi.mCsrMap !! addr = Some info ->
            0 <= addr < 4096).
  { apply (mCsrMap_entries (fun a _ => 0 <= a < 4096)). vm_compute. reflexivity. }
  assert (Hro : forall addr info, Dmi.mCsrMap !! addr = Some info ->
            (0xc00 <= addr <= 0xfff -> Dmi.readOnly info = true)
            /\ (Dmi.readOnly info = true -> 0xc00 <= addr <= 0xfff \/ addr = 0x7a4)).
  { apply (mCsrMap_entries
             (fun a i => (0xc00 <= a <= 0xfff -> Dmi.readOnly i = true)
                         /\ (Dmi.readOnly i = true ->
                             0xc00 <= a <= 0xfff \/ a = 0x7a4))).
    vm_compute. reflexivity. }
  unfold Dmi.csrName, Dmi.csrReadOnly.
  split; [ | split; [ | split; [ | split]]].
  - intros addr. destruct (Dmi.mCsrMap !! addr) as [info | ] eqn:E.
    + split; [intros Hn; exfalso; exact (Hname _ _ E Hn) | discriminate].
    + split; reflexivity.
  - intros a b. destruct (Dmi.mCsrMap !! a) as [ia | ] eqn:Ea; [ | congruence].
    destruct (Dmi.mCsrMap !! b) as [ib | ] eqn:Eb.
    + intros Heq _. pose proof (Hinj _ _ Ea) as Hall.
      rewrite Forall_forall in Hall.
      exact (Hall (b, ib) (mCsrMap_elem _ _ Eb) Heq).
    + intros Heq Hn. congruence.
  - intros addr. destruct (Dmi.mCsrMap !! addr) as [info | ] eqn:E; [ | congruence].
    intros _. exact (Hrange _ _ E).
  - intros addr Ha. destruct (Dmi.mCsrMap !! addr) as [info | ] eqn:E; [ | reflexivity].
    apply (Hro _ _ E), Ha.
  - intros addr. destruct (Dmi.mCsrMap !! addr) as [info | ] eqn:E; [ | auto].
    intros Hr. right. apply (Hro _ _ E), Hr.
Qed.

(** ** Memory transfers over the system bus

    [Dmi::readMem], [Dmi::writeMem] and the two adapter functions on top
    of them, run against the bus of [Bench.Bus_IDtm]. *)


Lemma bus_byte_range (m : gmap Z Z) (a : Z) : 0 <= Bench.bus_byte m a < 2 ^ 8.
Proof. unfold Bench.bus_byte. apply Z.mod_pos_bound. lia. Qed.

(** The bytes of a loaded word are the bytes of the memory. *)
Lemma load32_byte (m : gmap Z Z) (x j : Z) :
  0 <= j < 4 ->
  u8 (Z.land (Z.shiftr (Bench.bus_load32 m x) (8 * j)) 0xff)
  = Bench.bus_byte m (x + j).
Proof.
  intros Hj. unfold Bench.bus_load32, u8.
  pose proof (bus_byte_range m x) as H0.
  pose proof (bus_byte_range m (x + 1)) as H1.
  pose proof (bus_byte_range m (x + 2)) as H2.
  pose proof (bus_byte_range m (x + 3)) as H3.
  change 0xff with (Z.ones 8). rewrite Z.land_ones by lia.
  rewrite Z.shiftr_div_pow2 by lia. rewrite Z.mod_mod by lia.
  assert (j = 0 \/ j = 1 \/ j = 2 \/ j = 3) as [-> | [-> | [-> | ->]]] by lia;
    [replace (x + 0) with x by lia | | | ];
    simpl (2 ^ _) in *; Z.div_mod_to_equations; lia.
Qed.

Lemma load32_range (m : gmap Z Z) (x : Z) : 0 <= Bench.bus_load32 m x < 2 ^ 32.
Proof.
  unfold Bench.bus_load32.
  pose proof (bus_byte_range m x) as H0.
  pose proof (bus_byte_range m (x + 1)) as H1.
  pose proof (bus_byte_range m (x + 2)) as H2.
  pose proof (bus_byte_range m (x + 3)) as H3.
  simpl (2 ^ _) in *. lia.
Qed.

Section BusOps.

Lemma bus_setup_read (ai : bool) (s : Dmi.t Bench.Bus) :
  exists s',
    Dmi.sbcs_setup_read (I := Bench.Bus_IDtm) ai s = Ret s'
    /\ Dmi.mDtm s'
       = Bench.mkBus (Bench.bus_mem (Dmi.mDtm s)) (Bench.bus_cfg true ai true)
           (Bench.bus_addr (Dmi.mDtm s)) (Bench.bus_data (Dmi.mDtm s))
    /\ Dmi.mSbaddress s' = Dmi.mSbaddress s
    /\ Dmi.mSbdata s' = Dmi.mSbdata s.
Proof.
  eexists. split; [reflexivity | ]. split; [ | split; reflexivity].
  simpl. destruct ai; reflexivity.
Qed.

Lemma bus_setup (ra ai : bool) (s : Dmi.t Bench.Bus) :
  exists s',
    Dmi.sbcs_setup (I := Bench.Bus_IDtm) ra ai s = Ret s'
    /\ Dmi.mDtm s'
       = Bench.mkBus (Bench.bus_mem (Dmi.mDtm s)) (Bench.bus_cfg ra ai false)
           (Bench.bus_addr (Dmi.mDtm s)) (Bench.bus_data (Dmi.mDtm s))
    /\ Dmi.mSbaddress s' = Dmi.mSbaddress s
    /\ Dmi.mSbdata s' = Dmi.mSbdata s.
Proof.
  eexists. split; [reflexivity | ]. split; [ | split; reflexivity].
  simpl. destruct ra, ai; reflexivity.
Qed.

Lemma bus_sbaddress_put (x : Z) (s : Dmi.t Bench.Bus) (m : gmap Z Z)
    (ra ai rd : bool) (a d : Z) :
  Props.regs_ok s ->
  Dmi.mDtm s = Bench.mkBus m (Bench.bus_cfg ra ai rd) a d ->
  exists s',
    Dmi.sbaddress_put (I := Bench.Bus_IDtm) x s = Ret s'
    /\ Dmi.mDtm s'
       = (if ra
          then Bench.mkBus m (Bench.bus_cfg ra ai rd)
                 (if ai then u32 (x + 4) else x) (Bench.bus_load32 m x)
          else Bench.mkBus m (Bench.bus_cfg ra ai rd) x d)
    /\ Props.regs_ok s'.
Proof.
  intros [Ha Hd] Hb. unfold Dmi.sbaddress_put.
  destruct (Dmi.Sbaddress.mSbaddressReg (Dmi.mSbaddress s)) as [|v0 l] eqn:El;
    [discriminate | ].
  unfold Dmi.Sbaddress.write, Dmi.Sbaddress.set_sbaddress,
    Dmi.Sbaddress.reset, Dmi.Sbaddress.store.
  simpl. rewrite El, Hb. simpl.
  eexists. split; [reflexivity | ]. split.
  - simpl. destruct ra, ai, rd; reflexivity.
  - split; simpl; [ | exact Hd]. simpl in Ha. exact Ha.
Qed.


Lemma bus_sbcs_wait (fuel : nat) (s : Dmi.t Bench.Bus) (m : gmap Z Z)
    (ra ai rd : bool) (a d : Z) :
  (1 <= fuel)%nat ->
  Props.regs_ok s ->
  Dmi.mDtm s = Bench.mkBus m (Bench.bus_cfg ra ai rd) a d ->
  exists s',
    Dmi.sbcs_wait (I := Bench.Bus_IDtm) fuel s = Ret s'
    /\ Dmi.Sbcs.sberror (Dmi.mSbcs s') = Dmi.Sbcs.SBERR_NONE
    /\ Dmi.mDtm s' = Dmi.mDtm s
    /\ Props.regs_ok s'.
Proof.
  intros Hf Hr Hb. destruct fuel as [|fuel]; [lia | ].
  simpl. unfold Dmi.Sbcs.read. rewrite Hb. simpl.
  assert (Hbusy : Dmi.Sbcs.sbbusy
            (Dmi.Sbcs.with_reg (Dmi.mSbcs s)
               (Z.lor 0x20000404 (Bench.bus_cfg ra ai rd))) = false)
    by (destruct ra, ai, rd; reflexivity).
  rewrite Hbusy. eexists. split; [reflexivity | ].
  split; [destruct ra, ai, rd; reflexivity | ].
  split; [reflexivity | exact Hr].
Qed.

Lemma bus_sbdata_get (s : Dmi.t Bench.Bus) (m : gmap Z Z)
    (ra ai rd : bool) (a d : Z) :
  Props.regs_ok s ->
  Dmi.mDtm s = Bench.mkBus m (Bench.bus_cfg ra ai rd) a d ->
  exists s',
    Dmi.sbdata_get (I := Bench.Bus_IDtm) s = Ret (d, s')
    /\ Dmi.mDtm s'
       = (if rd
          then Bench.mkBus m (Bench.bus_cfg ra ai rd)
                 (if ai then u32 (a + 4) else a) (Bench.bus_load32 m a)
          else Bench.mkBus m (Bench.bus_cfg ra ai rd) a d)
    /\ Props.regs_ok s'.
Proof.
  intros [Ha Hd] Hb. unfold Dmi.sbdata_get, Dmi.Sbdata.read.
  destruct (Dmi.Sbdata.mSbdataReg (Dmi.mSbdata s)) as [|v0 l] eqn:El;
    [discriminate | ].
  simpl. rewrite Hb. simpl. unfold Dmi.Sbdata.store. rewrite El. simpl.
  eexists. split; [reflexivity | ]. split.
  - simpl. destruct ra, ai, rd; reflexivity.
  - split; simpl; [exact Ha | ]. simpl in Hd. exact Hd.
Qed.

Lemma bus_sbdata_put (fuel : nat) (w : Z) (s : Dmi.t Bench.Bus) (m : gmap Z Z)
    (ra ai rd : bool) (a d : Z) :
  (1 <= fuel)%nat ->
  Props.regs_ok s ->
  Dmi.mDtm s = Bench.mkBus m (Bench.bus_cfg ra ai rd) a d ->
  exists s',
    Dmi.sbdata_put (I := Bench.Bus_IDtm) fuel w s = Ret s'
    /\ Dmi.Sbcs.sberror (Dmi.mSbcs s') = Dmi.Sbcs.SBERR_NONE
    /\ Dmi.mDtm s'
       = Bench.mkBus (Bench.bus_store32 m a w) (Bench.bus_cfg ra ai rd)
           (if ai then u32 (a + 4) else a) w
    /\ Props.regs_ok s'.
Proof.
  intros Hf [Ha Hd] Hb. unfold Dmi.sbdata_put, Dmi.Sbdata.write.
  destruct (Dmi.Sbdata.mSbdataReg (Dmi.mSbdata s)) as [|v0 l] eqn:El;
    [discriminate | ].
  unfold Dmi.Sbdata.set_sbdata, Dmi.Sbdata.store.
  simpl. rewrite El, Hb. simpl.
  match goal with
  | |- context [Dmi.sbcs_wait fuel ?s1] =>
      destruct (bus_sbcs_wait fuel s1 (Bench.bus_store32 m a w) ra ai rd
                  (if ai then u32 (a + 4) else a) w Hf)
        as (s' & E & Herr & Hm & Hok)
  end.
  - split; simpl; [exact Ha | ]. simpl in Hd. exact Hd.
  - simpl. destruct ra, ai, rd; reflexivity.
  - exists s'. split; [exact E | ]. split; [exact Herr | ].
    split; [ | exact Hok]. rewrite Hm. simpl.
    destruct ra, ai, rd; reflexivity.
Qed.

End BusOps.

Lemma bus_bytes_S (m : gmap Z Z) (a : Z) (n : nat) :
  Bench.bus_bytes m a (S n)
  = (Bench.bus_bytes m a n ++ [Bench.bus_byte m (a + Z.of_nat n)])%list.
Proof.
  unfold Bench.bus_bytes. rewrite seq_S, map_app. reflexivity.
Qed.

Lemma length_bus_bytes (m : gmap Z Z) (a : Z) (n : nat) :
  length (Bench.bus_bytes m a n) = n.
Proof. unfold Bench.bus_bytes. rewrite length_map, length_seq. reflexivity. Qed.

(** A store that extends the part of the buffer that holds the memory
    from [addr] on. *)
Lemma buf_put_next (m : gmap Z Z) (addr : Z) (buf : list Z) (k ch : Z) :
  0 <= k < Z.of_nat (length buf) ->
  take (Z.to_nat k) buf = Bench.bus_bytes m addr (Z.to_nat k) ->
  ch = Bench.bus_byte m (addr + k) ->
  exists buf',
    Dmi.buf_put buf k ch = Ret buf'
    /\ length buf' = length buf
    /\ take (Z.to_nat (k + 1)) buf' = Bench.bus_bytes m addr (Z.to_nat (k + 1)).
Proof.
  intros Hk Ht ->. unfold Dmi.buf_put.
  replace (k <? Z.of_nat (length buf)) with true by (symmetry; apply Z.ltb_lt; lia).
  eexists. split; [reflexivity | ]. split; [apply length_insert | ].
  replace (Z.to_nat (k + 1)) with (S (Z.to_nat k)) by lia.
  rewrite bus_bytes_S.
  rewrite (take_S_r _ _ (Bench.bus_byte m (addr + k))).
  - rewrite take_insert_ge by lia. rewrite Ht.
    rewrite Z2Nat.id by lia. reflexivity.
  - apply list_lookup_insert_eq. lia.
Qed.

Lemma low_bytes_next (m : gmap Z Z) (addr x : Z) :
  forall (n : nat) (i cnt : Z) (buf : list Z) (k : Z),
    0 <= i <= cnt -> cnt <= 4 ->
    (Z.to_nat (cnt - i) <= n)%nat ->
    0 <= k -> k + (cnt - i) <= Z.of_nat (length buf) ->
    take (Z.to_nat k) buf = Bench.bus_bytes m addr (Z.to_nat k) ->
    x + i = addr + k ->
    exists buf',
      Dmi.low_bytes n i cnt (Z.shiftr (Bench.bus_load32 m x) (8 * i)) buf k
      = Ret (buf', k + (cnt - i))
      /\ length buf' = length buf
      /\ take (Z.to_nat (k + (cnt - i))) buf'
         = Bench.bus_bytes m addr (Z.to_nat (k + (cnt - i))).
Proof.
  induction n as [|n IH]; intros i cnt buf k Hi Hc Hn Hk Hlen Ht Hx.
  - assert (i = cnt) as -> by lia. simpl. rewrite Z.ltb_irrefl.
    exists buf. replace (k + (cnt - cnt)) with k by lia. auto.
  - simpl. destruct (Z.ltb_spec i cnt) as [Hlt | Hge].
    + destruct (buf_put_next m addr buf k
                  (u8 (Z.land (Z.shiftr (Bench.bus_load32 m x) (8 * i)) 0xff)))
        as (buf1 & E1 & L1 & T1); [lia | exact Ht | | ].
      { rewrite load32_byte by lia. f_equal. lia. }
      rewrite E1. cbn [bind].
      rewrite Z.shiftr_shiftr by lia.
      replace (8 * i + 8) with (8 * (i + 1)) by lia.
      destruct (IH (i + 1) cnt buf1 (k + 1)) as (buf' & E & L & T);
        try lia; [exact T1 | ].
      exists buf'. replace (k + (cnt - i)) with (k + 1 + (cnt - (i + 1))) by lia.
      split; [exact E | ]. split; [congruence | exact T].
    + assert (i = cnt) as -> by lia.
      exists buf. replace (k + (cnt - cnt)) with k by lia. auto.
Qed.

Lemma first_bytes_next (m : gmap Z Z) (addr x : Z) :
  forall (n : nat) (i lim : Z) (buf : list Z) (k : Z),
    0 <= i <= lim -> lim <= 4 ->
    (Z.to_nat (lim - i) <= n)%nat ->
    0 <= k -> k + (lim - i) <= Z.of_nat (length buf) ->
    take (Z.to_nat k) buf = Bench.bus_bytes m addr (Z.to_nat k) ->
    x + i = addr + k ->
    exists buf',
      Dmi.first_bytes n i lim (Bench.bus_load32 m x) buf k
      = Ret (buf', k + (lim - i))
      /\ length buf' = length buf
      /\ take (Z.to_nat (k + (lim - i))) buf'
         = Bench.bus_bytes m addr (Z.to_nat (k + (lim - i))).
Proof.
  induction n as [|n IH]; intros i lim buf k Hi Hc Hn Hk Hlen Ht Hx.
  - assert (i = lim) as -> by lia. simpl. rewrite Z.ltb_irrefl.
    exists buf. replace (k + (lim - lim)) with k by lia. auto.
  - simpl. destruct (Z.ltb_spec i lim) as [Hlt | Hge].
    + replace (4 <=? i) with false by (symmetry; apply Z.leb_gt; lia).
      destruct (buf_put_next m addr buf k
                  (u8 (Z.land (Z.shiftr (Bench.bus_load32 m x) (8 * i)) 0xff)))
        as (buf1 & E1 & L1 & T1); [lia | exact Ht | | ].
      { rewrite load32_byte by lia. f_equal. lia. }
      rewrite E1. cbn [bind].
      destruct (IH (i + 1) lim buf1 (k + 1)) as (buf' & E & L & T);
        try lia; [exact T1 | ].
      exists buf'. replace (k + (lim - i)) with (k + 1 + (lim - (i + 1))) by lia.
      split; [exact E | ]. split; [congruence | exact T].
    + assert (i = lim) as -> by lia.
      exists buf. replace (k + (lim - lim)) with k by lia. auto.
Qed.

(** Clearing the two low bits of an address rounds it down to a word. *)
Lemma align4 (a : Z) : 0 <= a < 2 ^ 32 -> Z.land a 0xfffffffc = 4 * (a / 4).
Proof.
  intros Ha. change 4 with (2 ^ 2) at 1 2.
  rewrite <- Z.shiftr_div_pow2, Z.mul_comm, <- Z.shiftl_mul_pow2 by lia.
  apply Z.bits_inj'. intros i Hi. rewrite Z.land_spec.
  change 0xfffffffc with (Z.shiftl (Z.ones 30) 2).
  rewrite !Z.shiftl_spec by lia.
  destruct (Z.ltb_spec i 2) as [Hlt | Hge].
  - rewrite !(Z.testbit_neg_r _ (i - 2)) by lia. apply andb_false_r.
  - rewrite Z.shiftr_spec by lia. replace (i - 2 + 2) with i by lia.
    destruct (Z.ltb_spec i 32) as [Hlt | Hge'].
    + rewrite Z.testbit_ones_nonneg by lia.
      replace (i - 2 <? 30) with true by (symmetry; apply Z.ltb_lt; lia).
      apply andb_true_r.
    + rewrite (Z.bits_above_log2 a i); [reflexivity | lia | ].
      destruct (Z.eq_dec a 0) as [-> | Hne]; [simpl; lia | ].
      apply Z.log2_lt_pow2; [lia | ].
      apply Z.lt_le_trans with (2 ^ 32); [lia | ].
      apply Z.pow_le_mono_r; lia.
Qed.

Lemma readMem_bulk_next (fuel : nat) (m : gmap Z Z) (addr ea : Z) :
  (1 <= fuel)%nat -> 4 <= ea < 2 ^ 32 ->
  forall (n : nat) (sa k : Z) (buf : list Z) (s : Dmi.t Bench.Bus),
    Props.regs_ok s ->
    Dmi.mDtm s
    = Bench.mkBus m (Bench.bus_cfg true true true) (u32 (sa + 4))
        (Bench.bus_load32 m sa) ->
    0 <= sa <= ea - 4 -> (ea - 4 - sa) mod 4 = 0 ->
    (ea - 4 - sa <= 4 * Z.of_nat n) ->
    0 <= k -> sa = addr + k ->
    k + (ea - 4 - sa) <= Z.of_nat (length buf) ->
    take (Z.to_nat k) buf = Bench.bus_bytes m addr (Z.to_nat k) ->
    exists buf' s',
      Dmi.readMem_bulk (I := Bench.Bus_IDtm) fuel n sa ea k buf s
      = Ret (None, ea - 4, k + (ea - 4 - sa), buf', s')
      /\ Props.regs_ok s'
      /\ Dmi.mDtm s'
         = Bench.mkBus m (Bench.bus_cfg true true true) (u32 (ea - 4 + 4))
             (Bench.bus_load32 m (ea - 4))
      /\ length buf' = length buf
      /\ take (Z.to_nat (k + (ea - 4 - sa))) buf'
         = Bench.bus_bytes m addr (Z.to_nat (k + (ea - 4 - sa))).
Proof.
  intros Hf Hea.
  assert (Hu : u32 (ea - 4) = ea - 4) by (apply u32_small; lia).
  induction n as [|n IH]; intros sa k buf s Hok Hb Hsa Hmod Hn Hk Hx Hlen Ht.
  - assert (sa = ea - 4) as -> by lia. simpl. rewrite Hu, Z.ltb_irrefl.
    exists buf, s. replace (k + (ea - 4 - (ea - 4))) with k by lia. auto.
  - cbn [Dmi.readMem_bulk]. rewrite Hu. destruct (Z.ltb_spec sa (ea - 4)) as [Hlt | Hge].
    + assert (Hstep : sa + 4 <= ea - 4).
      { destruct (Z.le_gt_cases (sa + 4) (ea - 4)) as [H | H]; [exact H | ].
        exfalso. assert (0 < ea - 4 - sa < 4) as Hr by lia.
        rewrite Z.mod_small in Hmod by lia. lia. }
      assert (Hu4 : u32 (sa + 4) = sa + 4) by (apply u32_small; lia).
      rewrite Hu4 in Hb.
      destruct (bus_sbcs_wait fuel s m true true true (sa + 4)
                  (Bench.bus_load32 m sa) Hf Hok Hb)
        as (s1 & E1 & Herr & Hm1 & Hok1).
      rewrite E1. cbn [bind]. rewrite Herr.
      destruct (decide (Dmi.Sbcs.SBERR_NONE = Dmi.Sbcs.SBERR_NONE));
        [ | congruence].
      rewrite Hb in Hm1.
      destruct (bus_sbdata_get s1 m true true true (sa + 4)
                  (Bench.bus_load32 m sa) Hok1 Hm1)
        as (s2 & E2 & Hm2 & Hok2).
      rewrite E2. cbn [bind].
      destruct (low_bytes_next m addr sa (S (length buf)) 0 4 buf k)
        as (buf1 & E3 & L3 & T3); try lia; [exact Ht | ].
      change (8 * 0) with 0 in E3. rewrite Z.shiftr_0_r in E3.
      rewrite E3. cbn [bind]. rewrite Hu4.
      destruct (IH (sa + 4) (k + (4 - 0)) buf1 s2) as (buf' & s' & E & R);
        try lia; [exact Hok2 | exact Hm2 | | exact T3 | ].
      { replace (ea - 4 - (sa + 4)) with (ea - 4 - sa + (-1) * 4) by lia.
        rewrite Z.mod_add by lia. exact Hmod. }
      exists buf', s'.
      replace (k + (ea - 4 - sa)) with (k + (4 - 0) + (ea - 4 - (sa + 4))) by lia.
      split; [exact E | ].
      destruct R as (R1 & R2 & R3 & R4).
      split; [exact R1 | ]. split; [exact R2 | ].
      split; [rewrite R3; exact L3 | exact R4].
    + assert (sa = ea - 4) as -> by lia.
      exists buf, s. replace (k + (ea - 4 - (ea - 4))) with k by lia. auto.
Qed.

(** [Dmi::readMem] on the bus delivers the bytes of the memory, whatever
    the alignment of the two ends, and leaves the memory as it was. *)
Lemma readMem_on_bus (fuel : nat) (addr nBytes : Z) (buf : list Z)
    (s : Dmi.t Bench.Bus) :
  Props.regs_ok s ->
  0 <= addr -> 1 <= nBytes -> addr + nBytes + 3 < 2 ^ 32 ->
  Z.of_nat (length buf) = nBytes ->
  (1 <= fuel)%nat -> nBytes <= 4 * Z.of_nat fuel ->
  exists s',
    Dmi.readMem (I := Bench.Bus_IDtm) fuel addr nBytes buf s
    = Ret (Dmi.Sbcs.SBERR_NONE,
           Bench.bus_bytes (Bench.bus_mem (Dmi.mDtm s)) addr (Z.to_nat nBytes),
           s')
    /\ Bench.bus_mem (Dmi.mDtm s') = Bench.bus_mem (Dmi.mDtm s)
    /\ Props.regs_ok s'.
Proof.
  intros Hok Ha Hn Hhi Hlen Hf Hfuel.
  set (m := Bench.bus_mem (Dmi.mDtm s)).
  unfold Dmi.readMem.
  rewrite (u64_small (addr + nBytes + 3)) by lia.
  rewrite (u64_small (addr + nBytes)) by lia.
  rewrite !align4 by lia.
  set (sa := 4 * (addr / 4)). set (ea := 4 * ((addr + nBytes + 3) / 4)).
  assert (Hsa : sa <= addr < sa + 4) by (unfold sa; Z.div_mod_to_equations; lia).
  assert (Hea : addr + nBytes <= ea < addr + nBytes + 4)
    by (unfold ea; Z.div_mod_to_equations; lia).
  assert (Hsa0 : 0 <= sa) by (unfold sa; Z.div_mod_to_equations; lia).
  assert (Hmod : (ea - sa) mod 4 = 0).
  { unfold ea, sa. rewrite <- Z.mul_sub_distr_l, Z.mul_comm. apply Z.mod_mul. lia. }
  rewrite (u32_small (ea - sa)) by lia.
  rewrite (u64_small (addr - sa)) by lia.
  rewrite (u64_small (addr - sa + nBytes)) by lia.
  rewrite (u32_small (sa + 4)) by lia.
  set (ai := 1 <? (ea - sa) / 4).
  destruct (bus_setup_read ai s) as (s1 & E1 & Hm1 & Ha1 & Hd1).
  rewrite E1. cbn [bind].
  assert (Hok1 : Props.regs_ok s1) by (unfold Props.regs_ok; rewrite Ha1, Hd1; exact Hok).
  fold m in Hm1.
  destruct (bus_sbaddress_put sa s1 m true ai true _ _ Hok1 Hm1)
    as (s2 & E2 & Hm2 & Hok2).
  rewrite E2. cbn [bind].
  destruct (bus_sbcs_wait fuel s2 m true ai true _ _ Hf Hok2 Hm2)
    as (s3 & E3 & Herr3 & Hm3 & Hok3).
  rewrite E3. cbn [bind]. rewrite Herr3.
  destruct (decide (Dmi.Sbcs.SBERR_NONE = Dmi.Sbcs.SBERR_NONE)); [ | congruence].
  rewrite Hm2 in Hm3.
  destruct (bus_sbdata_get s3 m true ai true _ _ Hok3 Hm3)
    as (s4 & E4 & Hm4 & Hok4).
  rewrite E4. cbn [bind].
  assert (T0 : take (Z.to_nat 0) buf = Bench.bus_bytes m addr (Z.to_nat 0))
    by reflexivity.
  destruct (Z.eqb_spec (sa + 4) ea) as [Heq | Hne].
  - (* a single word *)
    rewrite Z.min_l by lia.
    destruct (first_bytes_next m addr sa 4 (addr - sa) (addr - sa + nBytes) buf 0)
      as (buf1 & E5 & L5 & T5); try lia; [exact T0 | ].
    rewrite E5. cbn [bind].
    exists s4. split; [ | split; [rewrite Hm4; reflexivity | exact Hok4]].
    do 3 f_equal.
    replace (0 + (addr - sa + nBytes - (addr - sa))) with nBytes in T5 by lia.
    rewrite <- T5. symmetry. apply take_ge. lia.
  - assert (Hge : sa + 8 <= ea).
    { destruct (Z.le_gt_cases (sa + 8) ea) as [H | H]; [exact H | ].
      exfalso. assert (ea - sa = 0 \/ (0 < ea - sa < 4) \/ (4 < ea - sa < 8)) as Hc by lia.
      destruct Hc as [Hc | [Hc | Hc]]; [lia | | ].
      - rewrite Z.mod_small in Hmod by lia. lia.
      - replace (ea - sa) with ((ea - sa - 4) + 1 * 4) in Hmod by lia.
        rewrite Z.mod_add in Hmod by lia.
        rewrite Z.mod_small in Hmod by lia. lia. }
    assert (Hai : ai = true).
    { unfold ai. apply Z.ltb_lt. Z.div_mod_to_equations. lia. }
    clearbody ai. subst ai.
    rewrite Z.min_r by lia.
    destruct (first_bytes_next m addr sa 4 (addr - sa) 4 buf 0)
      as (buf1 & E5 & L5 & T5); try lia; [exact T0 | ].
    rewrite E5. cbn [bind].
    rewrite (u32_small (sa + 4)) in Hm4 by lia.
    rewrite (u32_small (sa + 4 + 4)) in Hm4 by lia.
    destruct (readMem_bulk_next fuel m addr ea Hf ltac:(lia) fuel (sa + 4)
                (0 + (4 - (addr - sa))) buf1 s4)
      as (buf2 & s5 & E6 & Hok5 & Hm5 & L6 & T6); try lia.
    + exact Hok4.
    + rewrite (u32_small (sa + 4 + 4)) by lia. exact Hm4.
    + replace (ea - 4 - (sa + 4)) with (ea - sa + (-2) * 4) by lia.
      rewrite Z.mod_add by lia. exact Hmod.
    + exact T5.
    + rewrite E6. cbn [bind].
      destruct (bus_sbcs_wait fuel s5 m true true true _ _ Hf Hok5 Hm5)
        as (s6 & E7 & Herr7 & Hm7 & Hok7).
      rewrite E7. cbn [bind]. rewrite Herr7.
      destruct (decide (Dmi.Sbcs.SBERR_NONE = Dmi.Sbcs.SBERR_NONE)); [ | congruence].
      rewrite Hm5 in Hm7.
      destruct (bus_sbdata_get s6 m true true true _ _ Hok7 Hm7)
        as (s7 & E8 & Hm8 & Hok8).
      rewrite E8. cbn [bind].
      rewrite (u64_small (ea - (addr + nBytes))) by lia.
      rewrite (u64_small (4 - (ea - (addr + nBytes)))) by lia.
      destruct (low_bytes_next m addr (ea - 4) (S (length buf2)) 0
                  (4 - (ea - (addr + nBytes))) buf2
                  (0 + (4 - (addr - sa)) + (ea - 4 - (sa + 4))))
        as (buf3 & E9 & L9 & T9); try lia; [exact T6 | ].
      change (8 * 0) with 0 in E9. rewrite Z.shiftr_0_r in E9.
      rewrite E9. cbn [bind].
      exists s7. split; [ | split; [rewrite Hm8; reflexivity | exact Hok8]].
      do 3 f_equal.
      replace (0 + (4 - (addr - sa)) + (ea - 4 - (sa + 4))
               + (4 - (ea - (addr + nBytes)) - 0)) with nBytes in T9 by lia.
      rewrite <- T9. symmetry. apply take_ge. lia.
Qed.

Lemma word_byte_spec (w j : Z) :
  0 <= j -> Props.word_byte w j = (w / 2 ^ (8 * j)) mod 2 ^ 8.
Proof.
  intros Hj. unfold Props.word_byte. change 0xff with (Z.ones 8).
  rewrite Z.land_ones by lia. rewrite Z.shiftr_div_pow2 by lia. reflexivity.
Qed.

Lemma word_byte_land (a b j : Z) :
  Props.word_byte (Z.land a b) j
  = Z.land (Props.word_byte a j) (Props.word_byte b j).
Proof.
  unfold Props.word_byte. rewrite Z.shiftr_land.
  apply Z.bits_inj'. intros i Hi. rewrite !Z.land_spec.
  destruct (Z.testbit (Z.shiftr a (8 * j)) i),
    (Z.testbit (Z.shiftr b (8 * j)) i), (Z.testbit 255 i); reflexivity.
Qed.

Lemma word_byte_lor (a b j : Z) :
  Props.word_byte (Z.lor a b) j
  = Z.lor (Props.word_byte a j) (Props.word_byte b j).
Proof.
  unfold Props.word_byte. rewrite Z.shiftr_lor.
  apply Z.bits_inj'. intros i Hi. rewrite !Z.land_spec, !Z.lor_spec, !Z.land_spec.
  destruct (Z.testbit (Z.shiftr a (8 * j)) i),
    (Z.testbit (Z.shiftr b (8 * j)) i), (Z.testbit 255 i); reflexivity.
Qed.

Lemma word_byte_idem (w j : Z) :
  Z.land (Props.word_byte w j) 0xff = Props.word_byte w j.
Proof.
  unfold Props.word_byte. rewrite <- Z.land_assoc. reflexivity.
Qed.

(** A byte shifted to place [i] of a word is its byte [i], and the other
    bytes of that word are zero. *)
Lemma word_byte_place (b i j : Z) :
  0 <= b < 2 ^ 8 -> 0 <= i < 4 -> 0 <= j < 4 ->
  Props.word_byte (u32 (Z.shiftl b (8 * i))) j = if j =? i then b else 0.
Proof.
  intros Hb Hi Hj. unfold Props.word_byte. change 0xff with (Z.ones 8).
  apply Z.bits_inj'. intros t Ht.
  rewrite Z.land_spec, Z.shiftr_spec, testbit_u32 by lia.
  assert (Hhigh : forall q, 8 <= q -> Z.testbit b q = false).
  { intros q Hq. apply testbit_above; [ | lia].
    split; [lia | ]. apply Z.lt_le_trans with (2 ^ 8); [lia | ].
    apply Z.pow_le_mono_r; lia. }
  destruct (Z.ltb_spec t 8) as [Hlt | Hge].
  - rewrite Z.testbit_ones_nonneg by lia.
    replace (t <? 8) with true by (symmetry; apply Z.ltb_lt; lia).
    rewrite andb_true_r.
    replace (t + 8 * j <? 32) with true by (symmetry; apply Z.ltb_lt; lia).
    rewrite andb_true_l.
    destruct (Z.eqb_spec j i) as [-> | Hne].
    + rewrite Z.shiftl_spec by lia. f_equal. lia.
    + rewrite Z.bits_0. rewrite Z.shiftl_spec by lia.
      destruct (Z.lt_ge_cases j i).
      * apply Z.testbit_neg_r. lia.
      * apply Hhigh. lia.
  - rewrite Z.testbit_ones_nonneg by lia.
    replace (t <? 8) with false by (symmetry; apply Z.ltb_ge; lia).
    rewrite andb_false_r.
    destruct (j =? i); [apply eq_sym, Hhigh; lia | rewrite Z.bits_0; reflexivity].
Qed.

Lemma word_byte_hole (i j : Z) :
  0 <= i < 4 -> 0 <= j < 4 ->
  Props.word_byte (not32 (u32 (Z.shiftl 0xff (8 * i)))) j
  = if j =? i then 0 else 0xff.
Proof.
  intros Hi Hj.
  assert (i = 0 \/ i = 1 \/ i = 2 \/ i = 3) as [-> | [-> | [-> | ->]]] by lia;
    (assert (j = 0 \/ j = 1 \/ j = 2 \/ j = 3) as [-> | [-> | [-> | ->]]] by lia);
    reflexivity.
Qed.

(** One turn of the overlay replaces byte [i] of the word and keeps the
    other three. *)
Lemma word_byte_overlay (w i j b : Z) :
  0 <= b < 2 ^ 8 -> 0 <= i < 4 -> 0 <= j < 4 ->
  Props.word_byte (Dmi.overlay w i b) j
  = if j =? i then b else Props.word_byte w j.
Proof.
  intros Hb Hi Hj. unfold Dmi.overlay.
  rewrite word_byte_lor, word_byte_land, word_byte_hole, word_byte_place by lia.
  destruct (j =? i).
  - rewrite Z.land_0_r. reflexivity.
  - rewrite Z.lor_0_r. apply word_byte_idem.
Qed.

Lemma nth_byte (buf : list Z) (n : nat) :
  Forall (fun b => 0 <= b < 2 ^ 8) buf -> 0 <= nth n buf 0 < 2 ^ 8.
Proof.
  intros H. revert n. induction H as [|b l Hb Hl IH]; intros [|n]; simpl;
    try lia; apply IH.
Qed.

Lemma word_byte_pack4 (buf : list Z) (k j : Z) :
  Forall (fun b => 0 <= b < 2 ^ 8) buf -> 0 <= j < 4 ->
  Props.word_byte (Dmi.pack4 buf k) j = nth (Z.to_nat (k + j)) buf 0.
Proof.
  intros Hbuf Hj. unfold Dmi.pack4. simpl fold_left.
  rewrite !word_byte_lor.
  change (0 * 8) with (8 * 0). change (1 * 8) with (8 * 1).
  change (2 * 8) with (8 * 2). change (3 * 8) with (8 * 3).
  rewrite !word_byte_place by (first [apply nth_byte; exact Hbuf | lia]).
  assert (H0 : Props.word_byte 0 j = 0).
  { unfold Props.word_byte. rewrite Z.shiftr_0_l. reflexivity. }
  rewrite H0.
  assert (j = 0 \/ j = 1 \/ j = 2 \/ j = 3) as [-> | [-> | [-> | ->]]] by lia;
    simpl (_ =? _); cbv iota; rewrite ?Z.lor_0_r, ?Z.lor_0_l; reflexivity.
Qed.

Lemma word_byte_load32 (m : gmap Z Z) (x j : Z) :
  0 <= j < 4 -> Props.word_byte (Bench.bus_load32 m x) j = Bench.bus_byte m (x + j).
Proof.
  intros Hj. rewrite <- load32_byte by lia. unfold Props.word_byte, u8.
  symmetry. apply Z.mod_small. change 0xff with (Z.ones 8).
  rewrite Z.land_ones by lia. apply Z.mod_pos_bound. lia.
Qed.

(** A bus write changes the four bytes of the word addressed, and no
    other. *)
Lemma bus_byte_store32 (m : gmap Z Z) (a w x : Z) :
  Bench.bus_byte (Bench.bus_store32 m a w) x
  = if decide (a <= x < a + 4) then Props.word_byte w (x - a)
    else Bench.bus_byte m x.
Proof.
  unfold Bench.bus_byte, Bench.bus_store32.
  rewrite !lookup_insert.
  destruct (decide (a <= x < a + 4)) as [Hin | Hout].
  - rewrite word_byte_spec by lia.
    destruct (decide (a + 3 = x)) as [<- | ?].
    { simpl. replace (a + 3 - a) with 3 by lia. apply Z.mod_mod. lia. }
    destruct (decide (a + 2 = x)) as [<- | ?].
    { simpl. replace (a + 2 - a) with 2 by lia. apply Z.mod_mod. lia. }
    destruct (decide (a + 1 = x)) as [<- | ?].
    { simpl. replace (a + 1 - a) with 1 by lia. apply Z.mod_mod. lia. }
    destruct (decide (a = x)) as [<- | ?]; [ | lia].
    simpl. replace (a - a) with 0 by lia. change (2 ^ (8 * 0)) with 1.
    rewrite Z.div_1_r. apply Z.mod_mod. lia.
  - repeat (destruct (decide _) as [? | ?]; [lia | ]). reflexivity.
Qed.

(** The overlay loop replaces the bytes [i .. lim - 1] of the word by the
    next bytes of the buffer. *)
Lemma overlay_loop_bytes (buf : list Z) :
  Forall (fun b => 0 <= b < 2 ^ 8) buf ->
  forall (n : nat) (i lim w k : Z),
    0 <= i <= lim -> lim <= 4 -> (Z.to_nat (lim - i) <= n)%nat -> 0 <= k ->
    exists w',
      Dmi.overlay_loop n i lim w buf k = Ret (w', k + (lim - i))
      /\ forall j, 0 <= j < 4 ->
           Props.word_byte w' j
           = if (i <=? j) && (j <? lim)
             then nth (Z.to_nat (k + (j - i))) buf 0
             else Props.word_byte w j.
Proof.
  intros Hbuf.
  induction n as [|n IH]; intros i lim w k Hi Hlim Hn Hk.
  - assert (i = lim) as -> by lia. simpl. rewrite Z.ltb_irrefl.
    exists w. replace (k + (lim - lim)) with k by lia. split; [reflexivity | ].
    intros j Hj. destruct (Z.leb_spec lim j), (Z.ltb_spec j lim); try lia; reflexivity.
  - simpl. destruct (Z.ltb_spec i lim) as [Hlt | Hge].
    + replace (4 <=? i) with false by (symmetry; apply Z.leb_gt; lia).
      destruct (IH (i + 1) lim (Dmi.overlay w i (nth (Z.to_nat k) buf 0)) (k + 1))
        as (w' & E & Hw); try lia.
      exists w'. replace (k + (lim - i)) with (k + 1 + (lim - (i + 1))) by lia.
      split; [exact E | ]. intros j Hj. rewrite (Hw j Hj).
      rewrite word_byte_overlay by (first [apply nth_byte; exact Hbuf | lia]).
      destruct (Z.leb_spec (i + 1) j), (Z.ltb_spec j lim), (Z.leb_spec i j),
        (Z.eqb_spec j i); simpl; try lia; try reflexivity.
      * f_equal. lia.
      * subst j. f_equal. lia.
    + assert (i = lim) as -> by lia.
      exists w. replace (k + (lim - lim)) with k by lia. split; [reflexivity | ].
      intros j Hj. destruct (Z.leb_spec lim j), (Z.ltb_spec j lim); try lia; reflexivity.
Qed.

Lemma writeMem_bulk_next (fuel : nat) (m0 : gmap Z Z) (addr ea : Z)
    (buf : list Z) :
  (1 <= fuel)%nat -> 4 <= ea < 2 ^ 32 ->
  Forall (fun b => 0 <= b < 2 ^ 8) buf ->
  forall (n : nat) (sa k w d : Z) (m : gmap Z Z) (s : Dmi.t Bench.Bus),
    Props.regs_ok s ->
    Dmi.mDtm s = Bench.mkBus m (Bench.bus_cfg false true false) sa d ->
    0 <= sa <= ea - 4 -> (ea - 4 - sa) mod 4 = 0 ->
    (ea - 4 - sa <= 4 * Z.of_nat n) ->
    0 <= k -> sa = addr + k ->
    Bench.mem_written m0 addr buf sa m ->
    exists w' d' m' s',
      Dmi.writeMem_bulk (I := Bench.Bus_IDtm) fuel n sa ea k w buf s
      = Ret (None, ea - 4, k + (ea - 4 - sa), w', s')
      /\ Props.regs_ok s'
      /\ Dmi.mDtm s'
         = Bench.mkBus m' (Bench.bus_cfg false true false) (ea - 4) d'
      /\ Bench.mem_written m0 addr buf (ea - 4) m'.
Proof.
  intros Hf Hea Hbuf.
  assert (Hu : u32 (ea - 4) = ea - 4) by (apply u32_small; lia).
  induction n as [|n IH]; intros sa k w d m s Hok Hb Hsa Hmod Hn Hk Hx Hmem.
  - assert (sa = ea - 4) as -> by lia. simpl. rewrite Hu, Z.ltb_irrefl.
    exists w, d, m, s. replace (k + (ea - 4 - (ea - 4))) with k by lia. auto.
  - cbn [Dmi.writeMem_bulk]. rewrite Hu.
    destruct (Z.ltb_spec sa (ea - 4)) as [Hlt | Hge].
    + assert (Hstep : sa + 4 <= ea - 4).
      { destruct (Z.le_gt_cases (sa + 4) (ea - 4)) as [H | H]; [exact H | ].
        exfalso. assert (0 < ea - 4 - sa < 4) as Hr by lia.
        rewrite Z.mod_small in Hmod by lia. lia. }
      assert (Hu4 : u32 (sa + 4) = sa + 4) by (apply u32_small; lia).
      destruct (bus_sbdata_put fuel (Dmi.pack4 buf k) s m false true false sa d
                  Hf Hok Hb) as (s1 & E1 & Herr & Hm1 & Hok1).
      rewrite E1. cbn [bind]. rewrite Herr.
      destruct (decide (Dmi.Sbcs.SBERR_NONE = Dmi.Sbcs.SBERR_NONE));
        [ | congruence].
      rewrite Hu4 in *.
      destruct (IH (sa + 4) (k + 4) (Dmi.pack4 buf k) (Dmi.pack4 buf k)
                  (Bench.bus_store32 m sa (Dmi.pack4 buf k)) s1)
        as (w' & d' & m' & s' & E & R); try lia; [exact Hok1 | exact Hm1 | | | ].
      { replace (ea - 4 - (sa + 4)) with (ea - 4 - sa + (-1) * 4) by lia.
        rewrite Z.mod_add by lia. exact Hmod. }
      { intros x. rewrite bus_byte_store32, (Hmem x).
        destruct (decide (sa <= x < sa + 4)) as [Hin | Hout].
        - rewrite word_byte_pack4 by (first [exact Hbuf | lia]).
          destruct (decide (addr <= x < sa + 4)); [ | lia]. f_equal. lia.
        - destruct (decide (addr <= x < sa)), (decide (addr <= x < sa + 4));
            try lia; reflexivity. }
      exists w', d', m', s'.
      replace (k + (ea - 4 - sa)) with (k + 4 + (ea - 4 - (sa + 4))) by lia.
      split; [exact E | exact R].
    + assert (sa = ea - 4) as -> by lia.
      exists w, d, m, s. replace (k + (ea - 4 - (ea - 4))) with k by lia. auto.
Qed.

Ltac same_error :=
  match goal with
  | H : Dmi.Sbcs.sberror _ = Dmi.Sbcs.SBERR_NONE |- _ => rewrite H
  end;
  destruct (decide (Dmi.Sbcs.SBERR_NONE = Dmi.Sbcs.SBERR_NONE)); [ | congruence].

(** What [writeMem] leaves in the memory behind the bus: the bytes of the
    buffer in place, and, when the start is aligned and fewer than four
    bytes are written, the remaining bytes of [w0] behind them. *)
Lemma writeMem_on_bus (fuel : nat) (addr nBytes : Z) (buf : list Z) (w0 : Z)
    (s : Dmi.t Bench.Bus) :
  Props.regs_ok s ->
  0 <= addr -> 1 <= nBytes -> addr + nBytes + 3 < 2 ^ 32 ->
  Forall (fun b => 0 <= b < 2 ^ 8) buf ->
  (1 <= fuel)%nat -> nBytes <= 4 * Z.of_nat fuel ->
  exists s',
    Dmi.writeMem (I := Bench.Bus_IDtm) fuel addr nBytes buf w0 s
    = Ret (Dmi.Sbcs.SBERR_NONE, s')
    /\ Props.regs_ok s'
    /\ forall x,
         Bench.bus_byte (Bench.bus_mem (Dmi.mDtm s')) x
         = if decide (addr <= x < addr + nBytes)
           then nth (Z.to_nat (x - addr)) buf 0
           else if decide (addr mod 4 = 0 /\ nBytes < 4
                           /\ addr + nBytes <= x < addr + 4)
                then Props.word_byte w0 (x - addr)
                else Bench.bus_byte (Bench.bus_mem (Dmi.mDtm s)) x.
Proof.
  intros Hok Ha Hn Hhi Hbuf Hf Hfuel.
  unfold Dmi.writeMem.
  rewrite (u64_small (addr + nBytes + 3)) by lia.
  rewrite (u64_small (addr + nBytes)) by lia.
  rewrite !align4 by lia.
  set (sa := 4 * (addr / 4)). set (ea := 4 * ((addr + nBytes + 3) / 4)).
  assert (Hsa : sa <= addr < sa + 4) by (unfold sa; Z.div_mod_to_equations; lia).
  assert (Hea : addr + nBytes <= ea < addr + nBytes + 4)
    by (unfold ea; Z.div_mod_to_equations; lia).
  assert (Hsa0 : 0 <= sa) by (unfold sa; Z.div_mod_to_equations; lia).
  assert (Hal : sa = addr <-> addr mod 4 = 0)
    by (unfold sa; Z.div_mod_to_equations; lia).
  assert (Hmod : (ea - sa) mod 4 = 0).
  { unfold ea, sa. rewrite <- Z.mul_sub_distr_l, Z.mul_comm. apply Z.mod_mul. lia. }
  rewrite (u32_small (ea - sa)) by lia.
  rewrite (u64_small (addr - sa)) by lia.
  rewrite (u64_small (addr - sa + nBytes)) by lia.
  rewrite (u32_small (sa + 4)) by lia.
  rewrite (u64_small (ea - (addr + nBytes))) by lia.
  rewrite (u64_small (4 - (ea - (addr + nBytes)))) by lia.
  set (ai := 1 <? (ea - sa) / 4).
  set (ra := negb (sa =? addr)).
  assert (Hra : ra = false <-> sa = addr).
  { unfold ra. destruct (Z.eqb_spec sa addr); simpl; split; congruence. }
  clearbody ra sa ea.
  destruct (bus_setup ra ai s) as (s1 & E1 & Hm1 & Ha1 & Hd1).
  rewrite E1. cbn [bind].
  assert (Hok1 : Props.regs_ok s1) by (unfold Props.regs_ok; rewrite Ha1, Hd1; exact Hok).
  destruct (bus_sbaddress_put sa s1 _ ra ai false _ _ Hok1 Hm1)
    as (s2 & E2 & Hm2 & Hok2).
  rewrite E2. cbn [bind].
  match goal with
  | |- exists s', bind ?F _ = _ /\ _ =>
      assert (Hfirst : exists w d s6,
                 F = Ret (inr (w, s6))
                 /\ Props.regs_ok s6
                 /\ Dmi.mDtm s6
                    = Bench.mkBus (Bench.bus_mem (Dmi.mDtm s))
                        (Bench.bus_cfg false ai false) sa d
                 /\ forall j, 0 <= j < 4 ->
                      Props.word_byte w j
                      = if ra then Bench.bus_byte (Bench.bus_mem (Dmi.mDtm s)) (sa + j)
                        else Props.word_byte w0 j)
  end.
  { destruct ra.
    - destruct (bus_sbcs_wait fuel s2 _ true ai false _ _ Hf Hok2 Hm2)
        as (s3 & E3 & Herr3 & Hm3 & Hok3).
      rewrite E3. cbn [bind negb]. same_error.
      rewrite Hm2 in Hm3.
      destruct (bus_sbdata_get s3 _ true ai false _ _ Hok3 Hm3)
        as (s4 & E4 & Hm4 & Hok4).
      rewrite E4. cbn [bind].
      destruct (bus_setup false ai s4) as (s5 & E5 & Hm5 & Ha5 & Hd5).
      rewrite E5. cbn [bind].
      assert (Hok5 : Props.regs_ok s5)
        by (unfold Props.regs_ok; rewrite Ha5, Hd5; exact Hok4).
      rewrite Hm4 in Hm5. cbn in Hm5.
      destruct (bus_sbaddress_put sa s5 _ false ai false _ _ Hok5 Hm5)
        as (s6 & E6 & Hm6 & Hok6).
      rewrite E6. cbn [bind].
      eexists _, _, s6. split; [reflexivity | ].
      split; [exact Hok6 | ]. split; [exact Hm6 | ].
      intros j Hj. apply word_byte_load32. exact Hj.
    - cbn [negb]. eexists w0, _, s2. split; [reflexivity | ].
      split; [exact Hok2 | ]. split; [exact Hm2 | ]. reflexivity. }
  destruct Hfirst as (w & d & s6 & -> & Hok6 & Hm6 & Hw).
  cbn [bind].
  set (m0 := Bench.bus_mem (Dmi.mDtm s)) in *. clearbody m0.
  destruct (Z.eqb_spec (sa + 4) ea) as [Heq | Hne].
  - (* a single word *)
    rewrite Z.min_l by lia.
    destruct (overlay_loop_bytes buf Hbuf 4 (addr - sa) (addr - sa + nBytes) w 0)
      as (w1 & E7 & Hw1); try lia.
    rewrite E7. cbn [bind].
    destruct (bus_sbdata_put fuel w1 s6 m0 false ai false sa d Hf Hok6 Hm6)
      as (s7 & E8 & Herr8 & Hm8 & Hok8).
    rewrite E8. cbn [bind]. same_error.
    exists s7. split; [reflexivity | ]. split; [exact Hok8 | ].
    intros x. rewrite Hm8. cbn [Bench.bus_mem].
    rewrite bus_byte_store32.
    destruct (decide (sa <= x < sa + 4)) as [Hin | Hout].
    + rewrite (Hw1 (x - sa)) by lia.
      destruct (Z.leb_spec (addr - sa) (x - sa)),
        (Z.ltb_spec (x - sa) (addr - sa + nBytes)); cbn [andb].
      * destruct (decide (addr <= x < addr + nBytes)); [ | lia]. f_equal. lia.
      * destruct (decide (addr <= x < addr + nBytes)); [lia | ].
        rewrite (Hw (x - sa)) by lia.
        destruct ra.
        -- destruct (decide _) as [(Hz & _) | _]; [ | f_equal; lia].
           apply Hal in Hz. apply Hra in Hz. discriminate.
        -- assert (sa = addr) by (apply Hra; reflexivity).
           destruct (decide _) as [_ | Hno]; [f_equal; lia | ].
           exfalso. apply Hno. split; [apply Hal; assumption | lia].
      * destruct (decide (addr <= x < addr + nBytes)); [lia | ].
        rewrite (Hw (x - sa)) by lia.
        destruct ra.
        -- destruct (decide _) as [(Hz & _) | _]; [ | f_equal; lia].
           apply Hal in Hz. apply Hra in Hz. discriminate.
        -- assert (sa = addr) by (apply Hra; reflexivity). lia.
      * lia.
    + destruct (decide (addr <= x < addr + nBytes)); [lia | ].
      destruct (decide _) as [(Hz & _ & Hx) | _];
        [apply Hal in Hz; lia | reflexivity].
  - assert (Hge : sa + 8 <= ea).
    { destruct (Z.le_gt_cases (sa + 8) ea) as [H | H]; [exact H | ].
      exfalso.
      assert (ea - sa = 0 \/ (0 < ea - sa < 4) \/ (4 < ea - sa < 8)) as Hc by lia.
      destruct Hc as [Hc | [Hc | Hc]]; [lia | | ].
      - rewrite Z.mod_small in Hmod by lia. lia.
      - replace (ea - sa) with ((ea - sa - 4) + 1 * 4) in Hmod by lia.
        rewrite Z.mod_add in Hmod by lia.
        rewrite Z.mod_small in Hmod by lia. lia. }
    assert (Hai : ai = true).
    { unfold ai. apply Z.ltb_lt. Z.div_mod_to_equations. lia. }
    clearbody ai. subst ai.
    rewrite Z.min_r by lia.
    destruct (overlay_loop_bytes buf Hbuf 4 (addr - sa) 4 w 0)
      as (w1 & E7 & Hw1); try lia.
    rewrite E7. cbn [bind].
    destruct (bus_sbdata_put fuel w1 s6 m0 false true false sa d Hf Hok6 Hm6)
      as (s7 & E8 & Herr8 & Hm8 & Hok8).
    rewrite E8. cbn [bind]. same_error.
    rewrite (u32_small (sa + 4)) in Hm8 by lia.
    destruct (writeMem_bulk_next fuel m0 addr ea buf Hf ltac:(lia) Hbuf fuel
                (sa + 4) (0 + (4 - (addr - sa))) w1 w1
                (Bench.bus_store32 m0 sa w1) s7)
      as (w2 & d8 & m8 & s8 & E9 & Hok9 & Hm9 & Hmem9); try lia.
    + exact Hok8.
    + exact Hm8.
    + replace (ea - 4 - (sa + 4)) with (ea - sa + (-2) * 4) by lia.
      rewrite Z.mod_add by lia. exact Hmod.
    + intros x. rewrite bus_byte_store32.
      destruct (decide (sa <= x < sa + 4)) as [Hin | Hout].
      * rewrite (Hw1 (x - sa)) by lia.
        destruct (Z.leb_spec (addr - sa) (x - sa)), (Z.ltb_spec (x - sa) 4);
          cbn [andb]; try lia.
        -- destruct (decide (addr <= x < sa + 4)); [ | lia]. f_equal. lia.
        -- destruct (decide (addr <= x < sa + 4)); [lia | ].
           rewrite (Hw (x - sa)) by lia.
           destruct ra; [f_equal; lia | ].
           assert (sa = addr) by (apply Hra; reflexivity). lia.
      * destruct (decide (addr <= x < sa + 4)); [lia | reflexivity].
    + rewrite E9. cbn [bind].
      set (k2 := 0 + (4 - (addr - sa)) + (ea - 4 - (sa + 4))).
      match goal with
      | |- exists s', bind ?L _ = _ /\ _ =>
          assert (Hlast : exists w3 d s13,
                     L = Ret (inr (w3, s13))
                     /\ Props.regs_ok s13
                     /\ Dmi.mDtm s13
                        = Bench.mkBus m8 (Bench.bus_cfg false true false)
                            (ea - 4) d
                     /\ forall j, 0 <= j < 4 -> 4 - (ea - (addr + nBytes)) <= j ->
                          Props.word_byte w3 j = Bench.bus_byte m8 (ea - 4 + j))
      end.
      { destruct (Z.eqb_spec ea (addr + nBytes)) as [Hend | Hend]; cbn [negb].
        - eexists w2, _, s8. split; [reflexivity | ].
          split; [exact Hok9 | ]. split; [exact Hm9 | ]. intros j Hj Hj'. lia.
        - destruct (bus_setup true false s8) as (sA & EA & HmA & HaA & HdA).
          rewrite EA. cbn [bind].
          assert (HokA : Props.regs_ok sA)
            by (unfold Props.regs_ok; rewrite HaA, HdA; exact Hok9).
          rewrite Hm9 in HmA. cbn in HmA.
          destruct (bus_sbaddress_put (ea - 4) sA _ true false false _ _ HokA HmA)
            as (sB & EB & HmB & HokB).
          rewrite EB. cbn [bind].
          destruct (bus_sbcs_wait fuel sB _ true false false _ _ Hf HokB HmB)
            as (sC & EC & HerrC & HmC & HokC).
          rewrite EC. cbn [bind]. same_error.
          rewrite HmB in HmC.
          destruct (bus_sbdata_get sC _ true false false _ _ HokC HmC)
            as (sD & ED & HmD & HokD).
          rewrite ED. cbn [bind].
          destruct (bus_setup false true sD) as (sE & EE & HmE & HaE & HdE).
          rewrite EE. cbn [bind].
          assert (HokE : Props.regs_ok sE)
            by (unfold Props.regs_ok; rewrite HaE, HdE; exact HokD).
          rewrite HmD in HmE. cbn in HmE.
          eexists _, _, sE. split; [reflexivity | ].
          split; [exact HokE | ]. split; [exact HmE | ].
          intros j Hj _. apply word_byte_load32. exact Hj. }
      destruct Hlast as (w3 & d13 & s13 & -> & Hok13 & Hm13 & Hw3).
      cbn [bind].
      destruct (overlay_loop_bytes buf Hbuf 4 0 (4 - (ea - (addr + nBytes))) w3 k2)
        as (w4 & E10 & Hw4); try (unfold k2; lia).
      rewrite E10. cbn [bind].
      destruct (bus_sbdata_put fuel w4 s13 m8 false true false (ea - 4) d13
                  Hf Hok13 Hm13) as (s14 & E11 & Herr11 & Hm11 & Hok11).
      rewrite E11. cbn [bind]. rewrite Herr11.
      exists s14. split; [reflexivity | ]. split; [exact Hok11 | ].
      intros x. rewrite Hm11. cbn [Bench.bus_mem].
      rewrite bus_byte_store32.
      assert (Hno : forall P : Prop,
                 ~ (addr mod 4 = 0 /\ nBytes < 4 /\ P)).
      { intros P (Hz & Hlt & _). apply Hal in Hz. lia. }
      destruct (decide (ea - 4 <= x < ea - 4 + 4)) as [Hin | Hout].
      * rewrite (Hw4 (x - (ea - 4))) by lia.
        destruct (Z.leb_spec 0 (x - (ea - 4))),
          (Z.ltb_spec (x - (ea - 4)) (4 - (ea - (addr + nBytes))));
          cbn [andb]; try lia.
        -- destruct (decide (addr <= x < addr + nBytes)); [ | lia].
           f_equal. unfold k2. lia.
        -- destruct (decide (addr <= x < addr + nBytes)); [lia | ].
           destruct (decide _) as [Hyes | _]; [exfalso; exact (Hno _ Hyes) | ].
           rewrite (Hw3 (x - (ea - 4))) by lia.
           replace (ea - 4 + (x - (ea - 4))) with x by lia.
           rewrite (Hmem9 x).
           destruct (decide (addr <= x < ea - 4)); [lia | reflexivity].
      * rewrite (Hmem9 x).
        destruct (decide (addr <= x < ea - 4)),
          (decide (addr <= x < addr + nBytes)); try lia; try reflexivity.
        destruct (decide _) as [Hyes | _]; [exfalso; exact (Hno _ Hyes) | ].
        reflexivity.
Qed.

(** The bytes of a memory that agree with a list are that list. *)
Lemma bus_bytes_take (m : gmap Z Z) (addr : Z) (l : list Z) (n : nat) :
  (n <= length l)%nat ->
  (forall j, (j < n)%nat -> Bench.bus_byte m (addr + Z.of_nat j) = nth j l 0) ->
  Bench.bus_bytes m addr n = take n l.
Proof.
  intros Hn Hj. apply (nth_ext _ _ 0 0).
  - rewrite length_bus_bytes, length_take. lia.
  - intros j Hlt. rewrite length_bus_bytes in Hlt.
    unfold Bench.bus_bytes.
    rewrite (nth_indep _ 0 ((fun j => Bench.bus_byte m (addr + Z.of_nat j)) 0%nat))
      by (rewrite length_map, length_seq; exact Hlt).
    rewrite (map_nth (fun j => Bench.bus_byte m (addr + Z.of_nat j))).
    rewrite seq_nth by exact Hlt. simpl.
    rewrite Hj by exact Hlt.
    rewrite !nth_lookup, lookup_take_lt by exact Hlt. reflexivity.
Qed.

Lemma Forall_take_bytes (l : list Z) (n : nat) :
  Forall (fun b => 0 <= b < 2 ^ 8) l -> Forall (fun b => 0 <= b < 2 ^ 8) (take n l).
Proof. apply Forall_take. Qed.

Lemma nth_take_lt (l : list Z) (n j : nat) :
  (j < n)%nat -> nth j (take n l) 0 = nth j l 0.
Proof. intros H. rewrite !nth_lookup, lookup_take_lt by exact H. reflexivity. Qed.

(** X15.  [Cv32e40::read] of [size >= 1] bytes at any alignment, on the
    bus model: it returns [size], the first [size] bytes of the caller's
    buffer become the bytes of the memory from [addr] on, the rest of the
    buffer is kept, and the memory is left as it was. *)
Theorem Cv32e40_read_delivers_memory (fuel : nat) (addr size : Z)
    (buffer buf0 : list Z) (a : Cv32e40.t Bench.Bus) :
  Props.regs_ok (Cv32e40.mDmi a) ->
  0 <= addr -> 1 <= size -> addr + size + 3 < 2 ^ 32 ->
  Z.of_nat (length buf0) = size -> size <= Z.of_nat (length buffer) ->
  (1 <= fuel)%nat -> size <= 4 * Z.of_nat fuel ->
  exists a',
    Cv32e40.read (I := Bench.Bus_IDtm) fuel addr buffer size buf0 a
    = Ret (size,
           (Bench.bus_bytes (Bench.bus_mem (Dmi.mDtm (Cv32e40.mDmi a))) addr
              (Z.to_nat size)
            ++ drop (Z.to_nat size) buffer)%list,
           a')
    /\ Bench.bus_mem (Dmi.mDtm (Cv32e40.mDmi a'))
       = Bench.bus_mem (Dmi.mDtm (Cv32e40.mDmi a)).
Proof.
  intros Hok Ha Hn Hhi Hlen Hbuf Hf Hfuel.
  destruct (readMem_on_bus fuel addr size buf0 (Cv32e40.mDmi a)
              Hok Ha Hn Hhi Hlen Hf Hfuel) as (s' & E & Hm & _).
  unfold Cv32e40.read. rewrite E. cbn [bind].
  replace (size <=? Z.of_nat (length buffer)) with true
    by (symmetry; apply Z.leb_le; exact Hbuf).
  exists (Cv32e40.mk s'). split; [ | exact Hm].
  rewrite firstn_all2 by (rewrite length_bus_bytes; lia). reflexivity.
Qed.

Lemma Cv32e40_read_delivers_memory_witness :
  exists a',
    Cv32e40.read (I := Bench.Bus_IDtm) 2 0x1c000001 [0; 0; 0; 0; 0; 0; 0] 6
      [0xcd; 0xcd; 0xcd; 0xcd; 0xcd; 0xcd]
      (Cv32e40.mk (Dmi.new (Bench.bus_on Bench.ram)))
    = Ret (6, [0x32; 0x54; 0x76; 0x98; 0xba; 0xdc; 0], a')
    /\ Bench.bus_mem (Dmi.mDtm (Cv32e40.mDmi a')) = Bench.ram.
Proof.
  apply (Cv32e40_read_delivers_memory 2 0x1c000001 6 [0; 0; 0; 0; 0; 0; 0]
           [0xcd; 0xcd; 0xcd; 0xcd; 0xcd; 0xcd]
           (Cv32e40.mk (Dmi.new (Bench.bus_on Bench.ram))));
    first [split; reflexivity | reflexivity | lia | simpl; lia].
Defined.

(** [Cv32e40::write] on the bus: what [writeMem_on_bus] gives for the
    first [size] bytes of the caller's buffer. *)
Lemma write_on_bus (fuel : nat) (addr size : Z) (buffer : list Z) (w0 : Z)
    (a : Cv32e40.t Bench.Bus) :
  Props.regs_ok (Cv32e40.mDmi a) ->
  0 <= addr -> 1 <= size -> addr + size + 3 < 2 ^ 32 ->
  size <= Z.of_nat (length buffer) ->
  Forall (fun b => 0 <= b < 2 ^ 8) buffer ->
  (1 <= fuel)%nat -> size <= 4 * Z.of_nat fuel ->
  exists a',
    Cv32e40.write (I := Bench.Bus_IDtm) fuel addr buffer size w0 a = Ret (size, a')
    /\ Props.regs_ok (Cv32e40.mDmi a')
    /\ forall x,
         Bench.bus_byte (Bench.bus_mem (Dmi.mDtm (Cv32e40.mDmi a'))) x
         = if decide (addr <= x < addr + size)
           then nth (Z.to_nat (x - addr)) buffer 0
           else if decide (addr mod 4 = 0 /\ size < 4
                           /\ addr + size <= x < addr + 4)
                then Props.word_byte w0 (x - addr)
                else Bench.bus_byte (Bench.bus_mem (Dmi.mDtm (Cv32e40.mDmi a))) x.
Proof.
  intros Hok Ha Hn Hhi Hlen Hbytes Hf Hfuel.
  destruct (writeMem_on_bus fuel addr size (take (Z.to_nat size) buffer) w0
              (Cv32e40.mDmi a) Hok Ha Hn Hhi (Forall_take_bytes _ _ Hbytes)
              Hf Hfuel) as (s' & E & Hok' & Hmem).
  unfold Cv32e40.write.
  replace (size =? 0) with false by (symmetry; apply Z.eqb_neq; lia).
  rewrite E. cbn [bind].
  exists (Cv32e40.mk s'). split; [reflexivity | ]. split; [exact Hok' | ].
  intros x. cbn [Cv32e40.mDmi]. rewrite (Hmem x).
  destruct (decide (addr <= x < addr + size)); [ | reflexivity].
  apply nth_take_lt. lia.
Qed.

(** X16.  [Cv32e40::write] of [size >= 1] bytes, on the bus model, when
    the start is not word-aligned or at least four bytes are written: it
    returns [size], the bytes [addr .. addr + size - 1] of the memory
    become the first [size] bytes of the buffer, and every other byte of
    the memory is kept, also those that share a word with the two ends. *)
Theorem Cv32e40_write_updates_memory (fuel : nat) (addr size : Z)
    (buffer : list Z) (w0 : Z) (a : Cv32e40.t Bench.Bus) :
  Props.regs_ok (Cv32e40.mDmi a) ->
  0 <= addr -> 1 <= size -> addr + size + 3 < 2 ^ 32 ->
  size <= Z.of_nat (length buffer) ->
  Forall (fun b => 0 <= b < 2 ^ 8) buffer ->
  (1 <= fuel)%nat -> size <= 4 * Z.of_nat fuel ->
  addr mod 4 <> 0 \/ 4 <= size ->
  exists a',
    Cv32e40.write (I := Bench.Bus_IDtm) fuel addr buffer size w0 a = Ret (size, a')
    /\ forall x,
         Bench.bus_byte (Bench.bus_mem (Dmi.mDtm (Cv32e40.mDmi a'))) x
         = if decide (addr <= x < addr + size)
           then nth (Z.to_nat (x - addr)) buffer 0
           else Bench.bus_byte (Bench.bus_mem (Dmi.mDtm (Cv32e40.mDmi a))) x.
Proof.
  intros Hok Ha Hn Hhi Hlen Hbytes Hf Hfuel Hcase.
  destruct (write_on_bus fuel addr size buffer w0 a Hok Ha Hn Hhi Hlen Hbytes
              Hf Hfuel) as (a' & E & _ & Hmem).
  exists a'. split; [exact E | ].
  intros x. rewrite (Hmem x).
  destruct (decide (addr <= x < addr + size)); [reflexivity | ].
  destruct (decide _) as [(Hz & Hlt & _) | _]; [lia | reflexivity].
Qed.

Lemma Cv32e40_write_updates_memory_witness :
  exists a',
    Cv32e40.write (I := Bench.Bus_IDtm) 2 0x1c000003 [0xa1; 0xa2; 0xa3] 2 0
      (Cv32e40.mk (Dmi.new (Bench.bus_on Bench.ram))) = Ret (2, a')
    /\ forall x,
         Bench.bus_byte (Bench.bus_mem (Dmi.mDtm (Cv32e40.mDmi a'))) x
         = if decide (0x1c000003 <= x < 0x1c000003 + 2)
           then nth (Z.to_nat (x - 0x1c000003)) [0xa1; 0xa2; 0xa3] 0
           else Bench.bus_byte Bench.ram x.
Proof.
  apply (Cv32e40_write_updates_memory 2 0x1c000003 2 [0xa1; 0xa2; 0xa3] 0
           (Cv32e40.mk (Dmi.new (Bench.bus_on Bench.ram))));
    first [split; reflexivity | lia | simpl; lia
          | repeat constructor; lia | left; discriminate ].
Defined.

(** X17.  [Cv32e40::write] of fewer than four bytes at a word-aligned
    address: [Dmi::writeMem] does not read the word first, so the bytes
    of that word after the ones written are overwritten with the
    corresponding bytes of [w0], the content its local [w] had before
    any assignment. *)
Theorem Cv32e40_write_short_aligned (fuel : nat) (addr size : Z)
    (buffer : list Z) (w0 : Z) (a : Cv32e40.t Bench.Bus) :
  Props.regs_ok (Cv32e40.mDmi a) ->
  0 <= addr -> addr + 7 < 2 ^ 32 -> addr mod 4 = 0 -> 1 <= size < 4 ->
  size <= Z.of_nat (length buffer) ->
  Forall (fun b => 0 <= b < 2 ^ 8) buffer ->
  (1 <= fuel)%nat ->
  exists a',
    Cv32e40.write (I := Bench.Bus_IDtm) fuel addr buffer size w0 a = Ret (size, a')
    /\ forall j, size <= j < 4 ->
         Bench.bus_byte (Bench.bus_mem (Dmi.mDtm (Cv32e40.mDmi a'))) (addr + j)
         = Props.word_byte w0 j.
Proof.
  intros Hok Ha Hhi Hal Hn Hlen Hbytes Hf.
  destruct (write_on_bus fuel addr size buffer w0 a Hok Ha ltac:(lia)
              ltac:(lia) Hlen Hbytes Hf ltac:(lia)) as (a' & E & _ & Hmem).
  exists a'. split; [exact E | ].
  intros j Hj. rewrite (Hmem (addr + j)).
  destruct (decide (addr <= addr + j < addr + size)); [lia | ].
  destruct (decide _) as [_ | Hno]; [f_equal; lia | ].
  exfalso. apply Hno. lia.
Qed.

Lemma Cv32e40_write_short_aligned_witness :
  exists a',
    Cv32e40.write (I := Bench.Bus_IDtm) 1 0x1c000004 [0xa1] 1 0x55667788
      (Cv32e40.mk (Dmi.new (Bench.bus_on Bench.ram))) = Ret (1, a')
    /\ forall j, 1 <= j < 4 ->
         Bench.bus_byte (Bench.bus_mem (Dmi.mDtm (Cv32e40.mDmi a')))
           (0x1c000004 + j)
         = Props.word_byte 0x55667788 j.
Proof.
  apply (Cv32e40_write_short_aligned 1 0x1c000004 1 [0xa1] 0x55667788
           (Cv32e40.mk (Dmi.new (Bench.bus_on Bench.ram))));
    first [split; reflexivity | reflexivity | lia | simpl; lia
          | repeat constructor; lia ].
Defined.

(** X18.  A [Cv32e40::write] followed by a [Cv32e40::read] of the same
    range, on the bus model: the read gives back the bytes written,
    whatever the alignment and the length. *)
Theorem Cv32e40_write_then_read (fuel : nat) (addr size : Z)
    (buffer out buf0 : list Z) (w0 : Z) (a : Cv32e40.t Bench.Bus) :
  Props.regs_ok (Cv32e40.mDmi a) ->
  0 <= addr -> 1 <= size -> addr + size + 3 < 2 ^ 32 ->
  size <= Z.of_nat (length buffer) ->
  Forall (fun b => 0 <= b < 2 ^ 8) buffer ->
  Z.of_nat (length buf0) = size -> size <= Z.of_nat (length out) ->
  (1 <= fuel)%nat -> size <= 4 * Z.of_nat fuel ->
  exists a' a'',
    Cv32e40.write (I := Bench.Bus_IDtm) fuel addr buffer size w0 a = Ret (size, a')
    /\ Cv32e40.read (I := Bench.Bus_IDtm) fuel addr out size buf0 a'
       = Ret (size,
              (take (Z.to_nat size) buffer ++ drop (Z.to_nat size) out)%list,
              a'').
Proof.
  intros Hok Ha Hn Hhi Hlen Hbytes Hlen0 Hout Hf Hfuel.
  destruct (write_on_bus fuel addr size buffer w0 a Hok Ha Hn Hhi Hlen Hbytes
              Hf Hfuel) as (a' & E & Hok' & Hmem).
  destruct (readMem_on_bus fuel addr size buf0 (Cv32e40.mDmi a')
              Hok' Ha Hn Hhi Hlen0 Hf Hfuel) as (s'' & E' & _ & _).
  exists a', (Cv32e40.mk s''). split; [exact E | ].
  unfold Cv32e40.read. rewrite E'. cbn [bind].
  replace (size <=? Z.of_nat (length out)) with true
    by (symmetry; apply Z.leb_le; exact Hout).
  rewrite firstn_all2 by (rewrite length_bus_bytes; lia).
  rewrite (bus_bytes_take _ addr buffer) by
    (first [lia | intros j Hj; rewrite (Hmem (addr + Z.of_nat j));
                  destruct (decide _); [f_equal; lia | lia]]).
  reflexivity.
Qed.

Lemma Cv32e40_write_then_read_witness :
  exists a' a'',
    Cv32e40.write (I := Bench.Bus_IDtm) 2 0x1c000002 [1; 2; 3; 4; 5] 5 0
      (Cv32e40.mk (Dmi.new (Bench.bus_on Bench.ram))) = Ret (5, a')
    /\ Cv32e40.read (I := Bench.Bus_IDtm) 2 0x1c000002 [0; 0; 0; 0; 0; 0] 5
         [0; 0; 0; 0; 0] a'
       = Ret (5, [1; 2; 3; 4; 5; 0], a'').
Proof.
  apply (Cv32e40_write_then_read 2 0x1c000002 5 [1; 2; 3; 4; 5]
           [0; 0; 0; 0; 0; 0] [0; 0; 0; 0; 0] 0
           (Cv32e40.mk (Dmi.new (Bench.bus_on Bench.ram))));
    first [split; reflexivity | reflexivity | lia | simpl; lia
          | repeat constructor; lia ].
Defined.

(** X19.  [Cv32e40::read] has no guard for a size of zero, unlike
    [Cv32e40::write]: at a word-aligned address [Dmi::readMem] then
    takes the path of several words and stores four bytes of the word
    read into the intermediary array of no bytes, which is undefined
    behaviour. *)
Theorem Cv32e40_read_zero_size_overrun (fuel : nat) (addr : Z)
    (buffer : list Z) (a : Cv32e40.t Bench.Bus) :
  Props.regs_ok (Cv32e40.mDmi a) ->
  0 <= addr < 2 ^ 32 -> addr mod 4 = 0 -> (1 <= fuel)%nat ->
  Cv32e40.read (I := Bench.Bus_IDtm) fuel addr buffer 0 [] a = Undef.
Proof.
  intros Hok Ha Hal Hf.
  unfold Cv32e40.read, Dmi.readMem.
  replace (addr + 0 + 3) with (addr + 3) by lia.
  replace (addr + 0) with addr by lia.
  assert (Hhi : addr + 3 < 2 ^ 32) by (Z.div_mod_to_equations; lia).
  rewrite (u64_small (addr + 3)) by lia.
  rewrite (u64_small addr) by lia.
  rewrite !align4 by lia.
  replace (4 * (addr / 4)) with addr by (Z.div_mod_to_equations; lia).
  replace (4 * ((addr + 3) / 4)) with addr by (Z.div_mod_to_equations; lia).
  replace (addr - addr) with 0 by lia.
  change (1 <? u32 0 / 4) with false. change (u64 0) with 0.
  change (u64 (0 + 0)) with 0. change (Z.min 0 4) with 0.
  change (u64 (4 - 0)) with 4.
  destruct (bus_setup_read false (Cv32e40.mDmi a)) as (s1 & E1 & Hm1 & Ha1 & Hd1).
  rewrite E1. cbn [bind].
  assert (Hok1 : Props.regs_ok s1)
    by (unfold Props.regs_ok; rewrite Ha1, Hd1; exact Hok).
  destruct (bus_sbaddress_put addr s1 _ true false true _ _ Hok1 Hm1)
    as (s2 & E2 & Hm2 & Hok2).
  rewrite E2. cbn [bind].
  destruct (bus_sbcs_wait fuel s2 _ true false true _ _ Hf Hok2 Hm2)
    as (s3 & E3 & Herr3 & Hm3 & Hok3).
  rewrite E3. cbn [bind]. same_error.
  rewrite Hm2 in Hm3.
  destruct (bus_sbdata_get s3 _ true false true _ _ Hok3 Hm3)
    as (s4 & E4 & Hm4 & Hok4).
  rewrite E4. cbn [bind Dmi.first_bytes Z.ltb Z.compare].
  replace (u32 (addr + 4) =? addr) with false.
  2:{ symmetry. apply Z.eqb_neq. unfold u32. Z.div_mod_to_equations. lia. }
  destruct (bus_sbcs_wait fuel s4 _ true false true _ _ Hf Hok4 Hm4)
    as (s5 & E5 & Herr5 & Hm5 & Hok5).
  rewrite Hm4 in Hm5.
  destruct (bus_sbdata_get s5 _ true false true _ _ Hok5 Hm5)
    as (s6 & E6 & Hm6 & Hok6).
  destruct fuel as [|fuel]; [lia | ].
  cbn [Dmi.readMem_bulk].
  destruct (u32 (addr + 4) <? u32 (addr - 4)).
  - rewrite E5. cbn [bind]. rewrite Herr5.
    destruct (decide (Dmi.Sbcs.SBERR_NONE = Dmi.Sbcs.SBERR_NONE)); [ | congruence].
    rewrite E6. reflexivity.
  - cbn [bind]. rewrite E5. cbn [bind]. rewrite Herr5.
    destruct (decide (Dmi.Sbcs.SBERR_NONE = Dmi.Sbcs.SBERR_NONE)); [ | congruence].
    rewrite E6. reflexivity.
Qed.

Lemma Cv32e40_read_zero_size_overrun_witness :
  Cv32e40.read (I := Bench.Bus_IDtm) 1 0x1c000000 [0; 0; 0; 0] 0 []
    (Cv32e40.mk (Dmi.new (Bench.bus_on Bench.ram))) = Undef.
Proof.
  apply (Cv32e40_read_zero_size_overrun 1 0x1c000000 [0; 0; 0; 0]
           (Cv32e40.mk (Dmi.new (Bench.bus_on Bench.ram))));
    first [split; reflexivity | reflexivity | lia ].
Defined.

(** X20.  On a bus that reports an error at the first word,
    [Dmi::readMem] returns the error and leaves its buffer untouched;
    [Cv32e40::read] does not look at the error: it still returns [size]
    and copies the intermediary array, with the content it was allocated
    with, into the caller's buffer. *)
Theorem Cv32e40_read_ignores_bus_error (fuel : nat) (addr size : Z)
    (buffer buf0 : list Z) (a : Cv32e40.t unit) :
  (1 <= fuel)%nat ->
  Z.of_nat (length buf0) = size -> size <= Z.of_nat (length buffer) ->
  exists s',
    Dmi.readMem (I := Bench.Faulty_IDtm) fuel addr size buf0 (Cv32e40.mDmi a)
    = Ret (Dmi.Sbcs.SBERR_BAD_ADDR, buf0, s')
    /\ Cv32e40.read (I := Bench.Faulty_IDtm) fuel addr buffer size buf0 a
       = Ret (size, (buf0 ++ drop (Z.to_nat size) buffer)%list, Cv32e40.mk s').
Proof.
  intros Hf Hlen Hbuf.
  destruct fuel as [|fuel]; [lia | ].
  assert (E : exists s',
             Dmi.readMem (I := Bench.Faulty_IDtm) (S fuel) addr size buf0
               (Cv32e40.mDmi a)
             = Ret (Dmi.Sbcs.SBERR_BAD_ADDR, buf0, s')).
  { unfold Dmi.readMem, Dmi.sbcs_setup_read, Dmi.sbaddress_put,
      Dmi.Sbcs.write, Dmi.Sbaddress.write.
    cbn [bind Dmi.sbcs_wait IDtm.dmiWrite IDtm.dmiRead Bench.Faulty_IDtm
         Dmi.Sbaddress.NUM_REGS Z.ltb Z.compare Dmi.Sbcs.read].
    eexists. reflexivity. }
  destruct E as (s' & E). exists s'. split; [exact E | ].
  unfold Cv32e40.read. rewrite E. cbn [bind].
  replace (size <=? Z.of_nat (length buffer)) with true
    by (symmetry; apply Z.leb_le; exact Hbuf).
  rewrite firstn_all2 by lia. reflexivity.
Qed.

Lemma Cv32e40_read_ignores_bus_error_witness :
  exists s',
    Dmi.readMem (I := Bench.Faulty_IDtm) 1 0x1c000000 2 [0xcd; 0xcd]
      (Dmi.new tt)
    = Ret (Dmi.Sbcs.SBERR_BAD_ADDR, [0xcd; 0xcd], s')
    /\ Cv32e40.read (I := Bench.Faulty_IDtm) 1 0x1c000000 [0; 0; 0] 2
         [0xcd; 0xcd] (Cv32e40.mk (Dmi.new tt))
       = Ret (2, [0xcd; 0xcd; 0], Cv32e40.mk s').
Proof.
  apply (Cv32e40_read_ignores_bus_error 1 0x1c000000 2 [0; 0; 0] [0xcd; 0xcd]
           (Cv32e40.mk (Dmi.new tt)));
    first [reflexivity | lia | simpl; lia ].
Defined.

(** ** Register getters, run control, reset and halt of the adapter *)

(** X21.  The getter [Dmi::Abstractauto::autoexecprogbuf] shifts the
    masked register left instead of right, so it returns 0 whatever the
    register holds, also straight after the setter, which does store the
    field in bits 31:16; the getter of [autoexecdata], whose offset is
    0, gives back the low 12 bits of the value set. *)
Theorem Abstractauto_getters (r : Dmi.Abstractauto.t) :
  Dmi.Abstractauto.autoexecprogbuf r = 0
  /\ (forall v, 0 <= v < 2 ^ 16 ->
        Z.shiftr (Z.land (Dmi.Abstractauto.mAbstractautoReg
                            (Dmi.Abstractauto.set_autoexecprogbuf v r))
                         Dmi.Abstractauto.AUTOEXECPROGBUF_MASK) 16 = v
        /\ Dmi.Abstractauto.autoexecprogbuf
             (Dmi.Abstractauto.set_autoexecprogbuf v r) = 0)
  /\ (forall v, 0 <= v < 2 ^ 16 ->
        Dmi.Abstractauto.autoexecdata (Dmi.Abstractauto.set_autoexecdata v r)
        = v mod 2 ^ 12).
Proof.
  assert (Hzero : forall r, Dmi.Abstractauto.autoexecprogbuf r = 0).
  { intros r0. unfold Dmi.Abstractauto.autoexecprogbuf, u16.
    unfold Dmi.Abstractauto.AUTOEXECPROGBUF_OFFSET.
    apply Z.bits_inj'. intros i Hi. rewrite Z.bits_0.
    rewrite Z.testbit_mod_pow2 by lia.
    destruct (Z.ltb_spec i 16); [ | reflexivity]. simpl.
    rewrite testbit_u32 by lia. rewrite Z.shiftl_spec by lia.
    rewrite (Z.testbit_neg_r _ (i - 16)) by lia. apply andb_false_r. }
  split; [apply Hzero | ]. split.
  - intros v Hv. split; [ | apply Hzero].
    unfold Dmi.Abstractauto.set_autoexecprogbuf. simpl.
    unfold Dmi.Abstractauto.AUTOEXECPROGBUF_MASK,
      Dmi.Abstractauto.AUTOEXECPROGBUF_OFFSET.
    change 0xffff0000 with (Z.shiftl (Z.ones 16) 16).
    bitwise.
    symmetry. apply testbit_above; [ | lia].
    split; [lia | ]. apply Z.lt_le_trans with (2 ^ 16); [lia | ].
    apply Z.pow_le_mono_r; lia.
  - intros v Hv. unfold Dmi.Abstractauto.autoexecdata,
      Dmi.Abstractauto.set_autoexecdata.
    assert (Hreg : forall r1,
               Dmi.Abstractauto.mAbstractautoReg
                 (if 2 ^ Dmi.Abstractauto.AUTOEXECDATA_SIZE <=? v
                  then Dmi.Abstractauto.warn r r1 else r)
               = Dmi.Abstractauto.mAbstractautoReg r)
      by (intros r1; destruct (_ <=? _); reflexivity).
    simpl. rewrite Hreg.
    unfold Dmi.Abstractauto.AUTOEXECDATA_MASK,
      Dmi.Abstractauto.AUTOEXECDATA_OFFSET, u16.
    rewrite !Z.shiftl_0_r.
    change 0x00000fff with (Z.shiftl (Z.ones 12) 0).
    rewrite <- (Z.land_ones v 12) by lia.
    bitwise;
      rewrite Z.testbit_ones_nonneg by lia;
      destruct (Z.ltb_spec i 12); try lia;
      rewrite ?andb_true_r, ?andb_false_r; reflexivity.
Qed.

Section RunControl.
Context {D : Type} {I : IDtm.IDtm D}.

(** With a live [Dmi] the transfers of the adapter are those of
    [Cv32e40], which are stated on the [Dmi] alone. *)
Lemma Target_transfers_live (a : Target.t D) (m : Target.dmi D) :
  Target.mDmi a = Some m ->
  let back (c : Cv32e40.t D) :=
    Target.with_dmi a (Target.with_core m (Cv32e40.mDmi c)) in
  (forall reg rv,
      Target.readRegister reg rv a
      = ('(n, v, c) <- Cv32e40.readRegister reg rv (Cv32e40.mk (Target.core m)) ;;
         Ret (n, v, if (0 <=? reg) && (reg <=? 0x1040) then back c else a)))
  /\ (forall reg v,
        Target.writeRegister reg v a
        = ('(n, c) <- Cv32e40.writeRegister reg v (Cv32e40.mk (Target.core m)) ;;
           Ret (n, if (0 <=? reg) && (reg <=? 0x1040) then back c else a)))
  /\ (forall fuel addr buffer size w0,
        Target.write fuel addr buffer size w0 a
        = ('(n, c) <- Cv32e40.write fuel addr buffer size w0
                       (Cv32e40.mk (Target.core m)) ;;
           Ret (n, if size =? 0 then a else back c)))
  /\ (forall fuel addr buffer size buf0,
        Target.read fuel addr buffer size buf0 a
        = ('(n, buf, c) <- Cv32e40.read fuel addr buffer size buf0
                            (Cv32e40.mk (Target.core m)) ;;
           Ret (n, buf, back c))).
Proof.
  intros Hm back. unfold back. clear back.
  assert (Hlift : forall (A : Type) (f : Dmi.t D -> outcome (A * Dmi.t D)),
             Target.on_dmi f a
             = ('(x, s) <- f (Target.core m) ;;
                Ret (x, Target.with_dmi a (Target.with_core m s)))).
  { intros A f. unfold Target.on_dmi. rewrite Hm. reflexivity. }
  repeat split.
  - intros reg rv. unfold Target.readRegister, Cv32e40.readRegister.
    rewrite !Hlift. cbn [Cv32e40.mDmi].
    unfold Cv32e40.REG_ZERO_GDBNUM, Cv32e40.REG_PC_GDBNUM,
      Cv32e40.REG_FT0_GDBNUM, Cv32e40.REG_CSR_LAST_GDBNUM,
      Cv32e40.REG_CSR0_GDBNUM.
    destruct (Z.leb_spec 0 reg), (Z.ltb_spec reg 32), (Z.eqb_spec reg 32),
      (Z.leb_spec 33 reg), (Z.ltb_spec reg 65), (Z.leb_spec 65 reg),
      (Z.leb_spec reg (65 + 4095)), (Z.leb_spec reg 4160);
      try lia; cbn [andb];
      try reflexivity;
      match goal with
      | |- context [bind (bind ?o _) _] =>
          destruct o as [[[? ?] ?] | | | ]; reflexivity
      end.
  - intros reg v. unfold Target.writeRegister, Cv32e40.writeRegister.
    rewrite !Hlift. cbn [Cv32e40.mDmi].
    unfold Cv32e40.REG_ZERO_GDBNUM, Cv32e40.REG_PC_GDBNUM,
      Cv32e40.REG_FT0_GDBNUM, Cv32e40.REG_CSR_LAST_GDBNUM,
      Cv32e40.REG_CSR0_GDBNUM.
    destruct (Z.leb_spec 0 reg), (Z.ltb_spec reg 32), (Z.eqb_spec reg 32),
      (Z.leb_spec 33 reg), (Z.ltb_spec reg 65), (Z.leb_spec 65 reg),
      (Z.leb_spec reg (65 + 4095)), (Z.leb_spec reg 4160);
      try lia; cbn [andb];
      try reflexivity;
      match goal with
      | |- context [bind (bind ?o _) _] =>
          destruct o as [[? ?] | | | ]; reflexivity
      end.
  - intros fuel addr buffer size w0. unfold Target.write, Cv32e40.write.
    destruct (size =? 0); [reflexivity | ].
    rewrite Hlift. cbn [Cv32e40.mDmi].
    destruct (Dmi.writeMem _ _ _ _ _ _) as [[? ?] | | | ]; reflexivity.
  - intros fuel addr buffer size buf0. unfold Target.read, Cv32e40.read.
    rewrite Hlift. cbn [Cv32e40.mDmi].
    destruct (Dmi.readMem _ _ _ _ _) as [[[? ?] ?] | | | ]; cbn [bind];
      try reflexivity.
    destruct (_ <=? _); reflexivity.
Qed.

(** X22.  [Cv32e40::reset] calls the [reset] of the [std::unique_ptr]
    [mDmi], not a reset of the debug unit: it destroys the [Dmi], leaves
    the pointer null and returns SUCCESS.  After it every call through
    [mDmi] is undefined behaviour: [read] of any size, [write] of a size
    other than 0, [readRegister] and [writeRegister] of a register
    number from 0 to [0x1040], [halt], [resume] and [wait].  The calls
    that do not reach [mDmi] still return: [write] of size 0, and
    [readRegister] and [writeRegister] of a number out of range, which
    give 0 bytes. *)
Theorem Target_reset_destroys_dmi (a : Target.t D) :
  fst (Target.reset a) = Target.RES_SUCCESS
  /\ Target.mDmi (snd (Target.reset a)) = None
  /\ (forall (A : Type) (f : Dmi.t D -> outcome (A * Dmi.t D)),
        Target.on_dmi f (snd (Target.reset a)) = Undef)
  /\ (forall fuel addr buffer size buf0,
        Target.read fuel addr buffer size buf0 (snd (Target.reset a)) = Undef)
  /\ (forall fuel addr buffer size w0,
        Target.write fuel addr buffer size w0 (snd (Target.reset a))
        = if size =? 0 then Ret (0, snd (Target.reset a)) else Undef)
  /\ (forall reg readvalue,
        Target.readRegister reg readvalue (snd (Target.reset a))
        = if (0 <=? reg) && (reg <=? 0x1040) then Undef
          else Ret (0, 0, snd (Target.reset a)))
  /\ (forall reg value,
        Target.writeRegister reg value (snd (Target.reset a))
        = if (0 <=? reg) && (reg <=? 0x1040) then Undef
          else Ret (0, snd (Target.reset a)))
  /\ Target.halt (snd (Target.reset a)) = Undef
  /\ (Target.mRunAction a <> Target.RESUME_NONE ->
      forall v, Target.resume v (snd (Target.reset a)) = Undef)
  /\ (Target.mRunAction a = Target.RESUME_STEP
      \/ Target.mRunAction a = Target.RESUME_CONTINUE ->
      forall show fuel v0 v1 res0,
        Target.wait show fuel v0 v1 res0 (snd (Target.reset a)) = Undef).
Proof.
  split; [reflexivity | ]. split; [reflexivity | ].
  split; [reflexivity | ]. split; [reflexivity | ].
  split.
  { intros fuel addr buffer size w0. unfold Target.write.
    destruct (Z.eqb_spec size 0) as [-> | ]; reflexivity. }
  split.
  { intros reg readvalue. unfold Target.readRegister.
    unfold Cv32e40.REG_ZERO_GDBNUM, Cv32e40.REG_PC_GDBNUM,
      Cv32e40.REG_FT0_GDBNUM, Cv32e40.REG_CSR_LAST_GDBNUM,
      Cv32e40.REG_CSR0_GDBNUM.
    destruct (Z.leb_spec 0 reg), (Z.ltb_spec reg 32), (Z.eqb_spec reg 32),
      (Z.leb_spec 33 reg), (Z.ltb_spec reg 65), (Z.leb_spec 65 reg),
      (Z.leb_spec reg (65 + 4095)), (Z.leb_spec reg 4160);
      try lia; reflexivity. }
  split.
  { intros reg value. unfold Target.writeRegister.
    unfold Cv32e40.REG_ZERO_GDBNUM, Cv32e40.REG_PC_GDBNUM,
      Cv32e40.REG_FT0_GDBNUM, Cv32e40.REG_CSR_LAST_GDBNUM,
      Cv32e40.REG_CSR0_GDBNUM.
    destruct (Z.leb_spec 0 reg), (Z.ltb_spec reg 32), (Z.eqb_spec reg 32),
      (Z.leb_spec 33 reg), (Z.ltb_spec reg 65), (Z.leb_spec 65 reg),
      (Z.leb_spec reg (65 + 4095)), (Z.leb_spec reg 4160);
      try lia; reflexivity. }
  split; [reflexivity | ]. split.
  - intros Hne v. unfold Target.resume. cbn [Target.reset snd Target.mRunAction Target.mDmi].
    destruct (decide _) as [Heq | _]; [contradiction | reflexivity].
  - intros Hact show fuel v0 v1 res0. unfold Target.wait.
    cbn [Target.reset snd Target.mRunAction Target.mDmi].
    destruct Hact as [-> | ->]; reflexivity.
Qed.

(** X23.  The adapter's member [mDmstatus] is null after the
    constructor and no member function assigns it, so [Cv32e40::halt]
    never returns a result: once [haltHart (0)] has been issued, the
    call [mDmstatus->read ()] goes through the null pointer. *)
Theorem Target_halt_null_dmstatus :
  (forall (dtm : D) (ra : Target.ResumeType) (a : Target.t D),
      Target.new dtm ra = Ret a -> Target.mDmstatus a = None)
  /\ (forall a : Target.t D,
        Target.mDmstatus a = None ->
        Target.mDmstatus (snd (Target.reset a)) = None
        /\ (forall acts, Target.mDmstatus (snd (Target.prepare acts a)) = None)
        /\ (forall v r a', Target.resume v a = Ret (r, a') ->
                           Target.mDmstatus a' = None)
        /\ (forall show fuel v0 v1 res0 w rs a',
               Target.wait show fuel v0 v1 res0 a = Ret (w, rs, a') ->
               Target.mDmstatus a' = None)
        /\ (forall (A : Type) (f : Dmi.t D -> outcome (A * Dmi.t D)) x a',
               Target.on_dmi f a = Ret (x, a') -> Target.mDmstatus a' = None)
        /\ (forall reg rv n v a',
               Target.readRegister reg rv a = Ret (n, v, a') ->
               Target.mDmstatus a' = None)
        /\ (forall reg v n a',
               Target.writeRegister reg v a = Ret (n, a') ->
               Target.mDmstatus a' = None)
        /\ (forall fuel addr buffer size buf0 n buf a',
               Target.read fuel addr buffer size buf0 a = Ret (n, buf, a') ->
               Target.mDmstatus a' = None)
        /\ (forall fuel addr buffer size w0 n a',
               Target.write fuel addr buffer size w0 a = Ret (n, a') ->
               Target.mDmstatus a' = None)
        /\ is_Ret (Target.halt a) = false
        /\ (forall m s1,
               Target.mDmi a = Some m ->
               Dmi.haltHart 0 (Target.core m) = Ret s1 ->
               Target.halt a = Undef)).
Proof.
  split.
  - intros dtm ra a E. unfold Target.new in E.
    repeat (apply bind_Ret in E; destruct E as (? & _ & E);
            repeat match goal with
                   | x : (_ * _)%type |- _ => destruct x
                   end;
            cbn beta iota in E).
    injection E as <-. reflexivity.
  - intros a Hnull. split; [exact Hnull | ]. split.
    { intros acts. unfold Target.prepare.
      destruct acts as [|x [|y l]]; exact Hnull. }
    split.
    { intros v r a' E. unfold Target.resume in E.
      destruct (decide _); [discriminate | ].
      destruct (Target.mDmi a) as [m | ]; [ | discriminate].
      apply bind_Ret in E. destruct E as ([rv s2] & _ & E). cbn beta iota in E.
      apply bind_Ret in E. destruct E as (s4 & _ & E).
      injection E as _ <-. exact Hnull. }
    split.
    { intros show fuel v0 v1 res0 w rs a' E. unfold Target.wait in E.
      destruct (decide _) as [ | Hne]; [discriminate | ].
      destruct (Target.mRunAction a); [contradiction | | | ].
      - destruct (Target.mDmi a) as [m | ]; [ | discriminate].
        apply bind_Ret in E. destruct E as ([[rv r] m1] & _ & E).
        cbn beta iota in E. injection E as _ _ <-. exact Hnull.
      - destruct (Target.mDmi a) as [m | ]; [ | discriminate].
        apply bind_Ret in E. destruct E as ([[rv r] m1] & _ & E).
        cbn beta iota in E. injection E as _ _ <-. exact Hnull.
      - injection E as _ _ <-. exact Hnull. }
    assert (Hon : forall (A : Type) (f : Dmi.t D -> outcome (A * Dmi.t D)) x a',
               Target.on_dmi f a = Ret (x, a') -> Target.mDmstatus a' = None).
    { intros A f x a' E. unfold Target.on_dmi in E.
      destruct (Target.mDmi a) as [m | ]; [ | discriminate].
      apply bind_Ret in E. destruct E as ([y c] & _ & E).
      cbn beta iota in E. injection E as _ <-. exact Hnull. }
    split; [exact Hon | ].
    split.
    { intros reg rv n v a' E. unfold Target.readRegister in E.
      repeat match type of E with
             | (if ?c then _ else _) = _ => destruct c
             end;
        try (apply bind_Ret in E; destruct E as ([[e v1] a1] & E1 & E);
             cbn beta iota in E; injection E as _ _ <-; exact (Hon _ _ _ _ E1)).
      injection E as _ _ <-. exact Hnull. }
    split.
    { intros reg v n a' E. unfold Target.writeRegister in E.
      repeat match type of E with
             | (if ?c then _ else _) = _ => destruct c
             end;
        try (apply bind_Ret in E; destruct E as ([e a1] & E1 & E);
             cbn beta iota in E; injection E as _ <-; exact (Hon _ _ _ _ E1)).
      injection E as _ <-. exact Hnull. }
    split.
    { intros fuel addr buffer size buf0 n buf a' E. unfold Target.read in E.
      apply bind_Ret in E. destruct E as ([[e b1] a1] & E1 & E).
      cbn beta iota in E. destruct (_ <=? _); [ | discriminate].
      injection E as _ _ <-. exact (Hon _ _ _ _ E1). }
    split.
    { intros fuel addr buffer size w0 n a' E. unfold Target.write in E.
      destruct (size =? 0); [injection E as _ <-; exact Hnull | ].
      apply bind_Ret in E. destruct E as ([e a1] & E1 & E).
      cbn beta iota in E. injection E as _ <-. exact (Hon _ _ _ _ E1). }
    split.
    { unfold Target.halt. destruct (Target.mDmi a) as [m | ]; [ | reflexivity].
      rewrite Hnull. destruct (Dmi.haltHart 0 (Target.core m)); reflexivity. }
    intros m s1 Hm E. unfold Target.halt. rewrite Hm, E, Hnull. reflexivity.
Qed.

(** The poll of [haltsum0] never ends while bit 0 reads as zero. *)
Lemma halt_poll_spins :
  (forall d : D, exists v d', IDtm.dmiRead 0x40 d = Ret (v, d') /\ Z.land v 1 = 0) ->
  forall (fuel : nat) (m : Target.dmi D), Target.halt_poll fuel m = Spin.
Proof.
  intros Hno. induction fuel as [|fuel IH]; intros m; [reflexivity | ].
  cbn [Target.halt_poll]. unfold Dmi.Haltsum.read.
  change (0 <? Dmi.Haltsum.NUM_REGS) with true. cbn iota.
  change (nth (Z.to_nat 0) Dmi.Haltsum.DMI_ADDR 0) with 0x40.
  destruct (Hno (Dmi.mDtm (Target.core m))) as (v & d' & E & Hv).
  rewrite E. cbn [bind]. unfold Dmi.Haltsum.haltsum.
  change (0 <? Dmi.Haltsum.NUM_REGS) with true. cbn iota.
  cbn [Dmi.Haltsum.mHaltsumReg].
  assert (Hbit : Z.land (nth (Z.to_nat 0)
                           (<[Z.to_nat 0 := v]>
                              (Dmi.Haltsum.mHaltsumReg (Target.haltsum m))) 0)
                        Target.HALTSUM_FIRST_HART = 0).
  { destruct (Dmi.Haltsum.mHaltsumReg (Target.haltsum m)); [reflexivity | exact Hv]. }
  rewrite Hbit. cbn. apply IH.
Qed.

(** X24.  [Cv32e40::wait] has no timeout and no error exit once the
    action is STEP or CONTINUE: while bit 0 of [haltsum0] reads as zero
    it polls for ever, and when it returns the result is EVENT_OCCURRED,
    with INTERRUPTED (or, for CONTINUE only, FAILURE) as the one resume
    result, and the last [haltsum0] value read has bit 0 set. *)
Theorem Target_wait_has_no_timeout (a : Target.t D) (m : Target.dmi D) :
  Target.mDmi a = Some m ->
  Target.mRunAction a = Target.RESUME_STEP
  \/ Target.mRunAction a = Target.RESUME_CONTINUE ->
  ((forall d : D, exists v d',
       IDtm.dmiRead 0x40 d = Ret (v, d') /\ Z.land v 1 = 0) ->
   forall show fuel v0 v1 res0, Target.wait show fuel v0 v1 res0 a = Spin)
  /\ (forall show fuel v0 v1 res0 w rs a',
         Target.wait show fuel v0 v1 res0 a = Ret (w, rs, a') ->
         w = Target.WAIT_EVENT_OCCURRED
         /\ (rs = [Target.RES_INTERRUPTED]
             \/ (Target.mRunAction a = Target.RESUME_CONTINUE
                 /\ rs = [Target.RES_FAILURE]))
         /\ exists m' v,
              Target.mDmi a' = Some m'
              /\ Dmi.Haltsum.haltsum 0 (Target.haltsum m')
                 = (v, Target.haltsum m')
              /\ Z.land v 1 <> 0).
Proof.
  intros Hm Hact. split.
  - intros Hno show fuel v0 v1 res0. unfold Target.wait.
    destruct (decide _) as [Heq | _];
      [destruct Hact as [H | H]; rewrite H in Heq; discriminate | ].
    rewrite Hm.
    destruct Hact as [-> | ->].
    + unfold Target.stepInstr. rewrite halt_poll_spins by exact Hno. reflexivity.
    + unfold Target.runToBreak, Target.stoppedAtEbreak.
      rewrite halt_poll_spins by exact Hno. reflexivity.
  - assert (Hpoll : forall fuel m0 m1,
               Target.halt_poll fuel m0 = Ret m1 ->
               exists v, Dmi.Haltsum.haltsum 0 (Target.haltsum m1)
                         = (v, Target.haltsum m1)
                         /\ Z.land v 1 <> 0).
    { induction fuel as [|fuel IH]; intros m0 m1 E; [discriminate | ].
      cbn [Target.halt_poll] in E.
      apply bind_Ret in E. destruct E as ([h d] & Eh & E). cbn beta iota in E.
      unfold Dmi.Haltsum.read in Eh.
      change (0 <? Dmi.Haltsum.NUM_REGS) with true in Eh. cbn iota in Eh.
      apply bind_Ret in Eh. destruct Eh as ([v d1] & _ & Eh).
      cbn beta iota in Eh. injection Eh as <- <-.
      unfold Dmi.Haltsum.haltsum in E.
      change (0 <? Dmi.Haltsum.NUM_REGS) with true in E. cbn iota in E.
      cbn [Dmi.Haltsum.mHaltsumReg] in E.
      destruct (Z.eqb_spec (Z.land (nth (Z.to_nat 0)
                                      (<[Z.to_nat 0 := v]>
                                         (Dmi.Haltsum.mHaltsumReg (Target.haltsum m0))) 0)
                                   Target.HALTSUM_FIRST_HART) 0) as [Hz | Hnz];
        cbn [negb] in E.
      - apply IH in E. exact E.
      - injection E as <-. eexists. split; [ | exact Hnz].
        unfold Dmi.Haltsum.haltsum. reflexivity. }
    intros show fuel v0 v1 res0 w rs a' E. unfold Target.wait in E.
    destruct (decide _) as [Heq | _]; [discriminate | ].
    rewrite Hm in E.
    destruct Hact as [Hs | Hc].
    + rewrite Hs in E. unfold Target.stepInstr in E.
      apply bind_Ret in E. destruct E as ([[w0 r0] m1] & E1 & E).
      cbn beta iota in E. injection E as <- <- <-.
      apply bind_Ret in E1. destruct E1 as (mp & Ep & E1).
      apply bind_Ret in E1. destruct E1 as (s & _ & E1).
      injection E1 as <- <- <-.
      split; [reflexivity | ]. split; [left; reflexivity | ].
      destruct (Hpoll _ _ _ Ep) as (v & Hv & Hbit).
      exists (Target.with_core mp s), v. split; [reflexivity | ].
      split; [exact Hv | exact Hbit].
    + rewrite Hc in E. unfold Target.runToBreak, Target.stoppedAtEbreak in E.
      apply bind_Ret in E. destruct E as ([[w0 r0] m1] & E1 & E).
      cbn beta iota in E. injection E as <- <- <-.
      apply bind_Ret in E1. destruct E1 as ([stopped m2] & E2 & E1).
      cbn beta iota in E1.
      apply bind_Ret in E1. destruct E1 as (s & _ & E1).
      injection E1 as <- <- <-.
      apply bind_Ret in E2. destruct E2 as (mp & Ep & E2).
      apply bind_Ret in E2. destruct E2 as ([[e v] s2] & _ & E2).
      cbn beta iota in E2. injection E2 as <- <-.
      split; [reflexivity | ]. split.
      { destruct (_ =? _); [left; reflexivity | right; split; [exact Hc | reflexivity]]. }
      destruct (Hpoll _ _ _ Ep) as (v' & Hv & Hbit).
      exists (Target.with_core (Target.with_core mp s2) s), v'.
      split; [reflexivity | ]. split; [exact Hv | exact Hbit].
Qed.

End RunControl.

Section ResumeWord.
Context {D : Type} {I : IDtm.IDtm D}.

Lemma toggle_dmcontrol (set : bool -> Dmi.Dmcontrol.t -> Dmi.Dmcontrol.t)
    (b1 b2 : bool) (s s' : Dmi.t D) :
  Dmi.toggle set [b1; b2] s = Ret s' ->
  Dmi.mDmcontrol s'
  = set b2 (Dmi.Dmcontrol.reset (set b1 (Dmi.Dmcontrol.reset (Dmi.mDmcontrol s)))).
Proof.
  intros E. cbn [Dmi.toggle] in E. unfold Dmi.dmcontrol_write in E.
  apply bind_Ret in E. destruct E as (sa & Ea & E).
  apply bind_Ret in Ea. destruct Ea as (d1 & _ & Ea). injection Ea as <-.
  apply bind_Ret in E. destruct E as (sb & Eb & E). injection E as <-.
  apply bind_Ret in Eb. destruct Eb as (d2 & _ & Eb). injection Eb as <-.
  reflexivity.
Qed.

(** The hart-selection bits, which a reset of [dmcontrol] leaves, are
    below bit 26. *)
Lemma reset_high_bits (r : Dmi.Dmcontrol.t) (k : Z) :
  26 <= k ->
  Z.testbit (Dmi.Dmcontrol.mDmcontrolReg (Dmi.Dmcontrol.reset r)) k = false.
Proof.
  intros Hk. rewrite Dmcontrol_reset_reg.
  rewrite <- !Z.shiftr_div_pow2 by lia.
  rewrite <- !Z.land_ones by lia.
  rewrite Z.lor_spec, !Z.shiftl_spec, !Z.land_spec by lia.
  rewrite !Z.testbit_ones_nonneg by lia.
  replace (k - 16 <? 10) with false by (symmetry; apply Z.ltb_ge; lia).
  replace (k - 6 <? 10) with false by (symmetry; apply Z.ltb_ge; lia).
  rewrite !andb_false_r. reflexivity.
Qed.

Lemma busy_recovery_haltreq (s s3 s4 : Dmi.t D) :
  Dmi.toggle Dmi.Dmcontrol.set_ndmreset [true; false] s = Ret s3 ->
  Dmi.toggle Dmi.Dmcontrol.set_dmactive [false; true] s3 = Ret s4 ->
  Z.testbit (Dmi.Dmcontrol.mDmcontrolReg (Dmi.mDmcontrol s4)) 31 = false.
Proof.
  intros E1 E2. rewrite (toggle_dmcontrol _ _ _ _ _ E2).
  unfold Dmi.Dmcontrol.set_dmactive at 1.
  cbn [Dmi.Dmcontrol.mDmcontrolReg Dmi.Dmcontrol.with_reg].
  rewrite Z.lor_spec, reset_high_bits by lia. reflexivity.
Qed.

Lemma readCsr_keeps_haltreq_clear (addr res : Z) (s s' : Dmi.t D)
    (e : Dmi.Abstractcs.CmderrVal) (v : Z) :
  Dmi.readCsr addr res s = Ret (e, v, s') ->
  Z.testbit (Dmi.Dmcontrol.mDmcontrolReg (Dmi.mDmcontrol s)) 31 = false ->
  Z.testbit (Dmi.Dmcontrol.mDmcontrolReg (Dmi.mDmcontrol s')) 31 = false.
Proof.
  intros E H. unfold Dmi.readCsr in E.
  apply bind_Ret in E. destruct E as (d1 & _ & E).
  apply bind_Ret in E. destruct E as ([a d2] & _ & E). cbn beta iota zeta in E.
  destruct (Dmi.Abstractcs.cmderr a);
    [ apply bind_Ret in E; destruct E as ([dr d3] & _ & E); cbn beta iota in E;
      destruct (Dmi.Data.data 0 dr) as [v0 dr1]; injection E as _ _ <-; exact H
    | apply bind_Ret in E; destruct E as (s3 & E3 & E);
      apply bind_Ret in E; destruct E as (s4 & E4 & E); injection E as _ _ <-;
      exact (busy_recovery_haltreq _ _ _ E3 E4)
    | apply bind_Ret in E; destruct E as (s3 & E3 & E); injection E as _ _ <-;
      unfold Dmi.clearCmderr in E3; apply bind_Ret in E3;
      destruct E3 as (d & _ & E3); injection E3 as <-; exact H .. ].
Qed.

Lemma writeCsr_keeps_haltreq_clear (addr val : Z) (s s' : Dmi.t D)
    (e : Dmi.Abstractcs.CmderrVal) :
  Dmi.writeCsr addr val s = Ret (e, s') ->
  Z.testbit (Dmi.Dmcontrol.mDmcontrolReg (Dmi.mDmcontrol s)) 31 = false ->
  Z.testbit (Dmi.Dmcontrol.mDmcontrolReg (Dmi.mDmcontrol s')) 31 = false.
Proof.
  intros E H. unfold Dmi.writeCsr in E.
  apply bind_Ret in E. destruct E as ([dr1 d0] & _ & E). cbn beta iota in E.
  apply bind_Ret in E. destruct E as (d1 & _ & E).
  apply bind_Ret in E. destruct E as ([a d2] & _ & E). cbn beta iota zeta in E.
  destruct (Dmi.Abstractcs.cmderr a);
    [ injection E as _ <-; exact H
    | apply bind_Ret in E; destruct E as (s3 & E3 & E);
      apply bind_Ret in E; destruct E as (s4 & E4 & E); injection E as _ <-;
      exact (busy_recovery_haltreq _ _ _ E3 E4)
    | apply bind_Ret in E; destruct E as (s3 & E3 & E); injection E as _ <-;
      unfold Dmi.clearCmderr in E3; apply bind_Ret in E3;
      destruct E3 as (d & _ & E3); injection E3 as <-; exact H .. ].
Qed.

Lemma dcsr_set_keeps_haltreq_clear (bits v : Z) (s s' : Dmi.t D) (r : bool) :
  Target.dcsr_set bits v s = Ret (r, s') ->
  Z.testbit (Dmi.Dmcontrol.mDmcontrolReg (Dmi.mDmcontrol s)) 31 = false ->
  Z.testbit (Dmi.Dmcontrol.mDmcontrolReg (Dmi.mDmcontrol s')) 31 = false.
Proof.
  intros E H. unfold Target.dcsr_set in E.
  apply bind_Ret in E. destruct E as ([[e1 v1] s1] & E1 & E). cbn beta iota zeta in E.
  apply bind_Ret in E. destruct E as ([e2 s2] & E2 & E). cbn beta iota in E.
  injection E as _ <-.
  apply (writeCsr_keeps_haltreq_clear _ _ _ _ _ E2).
  apply (readCsr_keeps_haltreq_clear _ _ _ _ _ _ E1). exact H.
Qed.

(** X25.  Whatever the action and whatever the CSR transfers report,
    the last DMI operation of a [Cv32e40::resume] that returns is a
    write of [dmcontrol] (address [0x10]) with [haltreq] (bit 31) clear
    and [resumereq] (bit 30) set.  For an action other than STEP and
    CONTINUE, which [prepare] stores even though it refuses it, that
    write is the only DMI operation and the result is [true]. *)
Theorem Target_resume_word (dbg_ctrl_val : Z) (a a' : Target.t D)
    (m : Target.dmi D) (r : bool) :
  Target.mDmi a = Some m ->
  Target.resume dbg_ctrl_val a = Ret (r, a') ->
  exists w d d' m',
    IDtm.dmiWrite 0x10 w d = Ret d'
    /\ Target.mDmi a' = Some m'
    /\ Dmi.mDtm (Target.core m') = d'
    /\ Dmi.Dmcontrol.mDmcontrolReg (Dmi.mDmcontrol (Target.core m')) = w
    /\ Z.testbit w 31 = false
    /\ Z.testbit w 30 = true
    /\ (Target.mRunAction a <> Target.RESUME_STEP ->
        Target.mRunAction a <> Target.RESUME_CONTINUE ->
        r = true /\ d = Dmi.mDtm (Target.core m)).
Proof.
  intros Hm E. unfold Target.resume in E.
  destruct (decide _) as [ | Hne]; [discriminate | ].
  rewrite Hm in E.
  apply bind_Ret in E. destruct E as ([rv s2] & E2 & E). cbn beta iota zeta in E.
  apply bind_Ret in E. destruct E as (s4 & E4 & E). injection E as <- <-.
  unfold Dmi.dmcontrol_write, Dmi.Dmcontrol.write in E4.
  apply bind_Ret in E4. destruct E4 as (d' & W & E4). injection E4 as <-.
  cbn [Dmi.mDmcontrol Dmi.with_dmcontrol Dmi.mDtm] in W.
  set (s1 := Dmi.with_dmcontrol (Target.core m)
               (Dmi.Dmcontrol.haltreq false (Dmi.mDmcontrol (Target.core m)))) in *.
  assert (H1 : Z.testbit (Dmi.Dmcontrol.mDmcontrolReg (Dmi.mDmcontrol s1)) 31 = false).
  { unfold s1. cbn [Dmi.mDmcontrol Dmi.with_dmcontrol Dmi.Dmcontrol.haltreq
                     Dmi.Dmcontrol.mDmcontrolReg Dmi.Dmcontrol.with_reg].
    rewrite Z.land_spec, testbit_not32 by lia. apply andb_false_r. }
  assert (H2 : Z.testbit (Dmi.Dmcontrol.mDmcontrolReg (Dmi.mDmcontrol s2)) 31 = false
               /\ (Target.mRunAction a <> Target.RESUME_STEP ->
                   Target.mRunAction a <> Target.RESUME_CONTINUE ->
                   rv = true /\ s2 = s1)).
  { destruct (decide (Target.mRunAction a = Target.RESUME_STEP)) as [Hs | Hs].
    - split; [exact (dcsr_set_keeps_haltreq_clear _ _ _ _ _ E2 H1) | ].
      intros Hn. contradiction.
    - destruct (decide (Target.mRunAction a = Target.RESUME_CONTINUE)) as [Hc | Hc].
      + split; [exact (dcsr_set_keeps_haltreq_clear _ _ _ _ _ E2 H1) | ].
        intros _ Hn. contradiction.
      + injection E2 as <- <-. split; [exact H1 | ]. intros _ _. split; reflexivity. }
  destruct H2 as (H2 & Hother).
  eexists _, _, d', _. split; [exact W | ].
  split; [reflexivity | ]. split; [reflexivity | ]. split; [reflexivity | ].
  cbn [Dmi.Dmcontrol.resumereq Dmi.Dmcontrol.mDmcontrolReg Dmi.Dmcontrol.with_reg].
  rewrite !Z.lor_spec, H2. split; [reflexivity | ].
  split; [apply orb_true_r | ].
  intros Hs Hc. destruct (Hother Hs Hc) as (-> & ->). split; reflexivity.
Qed.

End ResumeWord.

Section DcsrTransfers.
Context {D : Type} {I : IDtm.IDtm D}.

(** A [readCsr] that ends with an error hands back the value it was
    given and leaves the data registers alone. *)
Lemma readCsr_error_keeps (addr res : Z) (s s' : Dmi.t D)
    (e : Dmi.Abstractcs.CmderrVal) (v : Z) :
  Dmi.readCsr addr res s = Ret (e, v, s') ->
  e <> Dmi.Abstractcs.CMDERR_NONE ->
  v = res /\ Dmi.mData s' = Dmi.mData s.
Proof.
  intros E Hne. unfold Dmi.readCsr in E.
  apply bind_Ret in E. destruct E as (d1 & _ & E).
  apply bind_Ret in E. destruct E as ([a d2] & _ & E). cbn beta iota zeta in E.
  destruct (Dmi.Abstractcs.cmderr a);
    [ apply bind_Ret in E; destruct E as ([dr d3] & _ & E); cbn beta iota in E;
      destruct (Dmi.Data.data 0 dr) as [v0 dr1]; injection E as <- _ _;
      contradiction
    | apply bind_Ret in E; destruct E as (s3 & E3 & E);
      apply bind_Ret in E; destruct E as (s4 & E4 & E); injection E as _ <- <-;
      split; [reflexivity | ];
      cbn [Dmi.toggle] in E3, E4; unfold Dmi.dmcontrol_write in E3, E4;
      apply bind_Ret in E3; destruct E3 as (sa & Ea & E3);
      apply bind_Ret in Ea; destruct Ea as (da & _ & Ea); injection Ea as <-;
      apply bind_Ret in E3; destruct E3 as (sb & Eb & E3); injection E3 as <-;
      apply bind_Ret in Eb; destruct Eb as (db & _ & Eb); injection Eb as <-;
      apply bind_Ret in E4; destruct E4 as (sc & Ec & E4);
      apply bind_Ret in Ec; destruct Ec as (dc & _ & Ec); injection Ec as <-;
      apply bind_Ret in E4; destruct E4 as (sd & Ed & E4); injection E4 as <-;
      apply bind_Ret in Ed; destruct Ed as (dd & _ & Ed); injection Ed as <-;
      reflexivity
    | apply bind_Ret in E; destruct E as (s3 & E3 & E); injection E as _ <- <-;
      unfold Dmi.clearCmderr in E3; apply bind_Ret in E3;
      destruct E3 as (d & _ & E3); injection E3 as <-;
      split; reflexivity .. ].
Qed.

Lemma writeCsr_first_write (addr val : Z) (s s' : Dmi.t D)
    (e : Dmi.Abstractcs.CmderrVal) :
  length (Dmi.Data.mDataReg (Dmi.mData s)) = 12%nat ->
  Dmi.writeCsr addr val s = Ret (e, s') ->
  exists d0, IDtm.dmiWrite 0x04 val (Dmi.mDtm s) = Ret d0.
Proof.
  intros Hlen E. unfold Dmi.writeCsr in E.
  apply bind_Ret in E. destruct E as ([dr1 d0] & E0 & _).
  assert (Hval : nth (Z.to_nat 0)
                   (Dmi.Data.mDataReg
                      (Dmi.Data.set_data 0 val (Dmi.Data.reset 0 (Dmi.mData s)))) 0
                 = val).
  { unfold Dmi.Data.set_data, Dmi.Data.reset, Dmi.Data.store. simpl.
    destruct (Dmi.Data.mDataReg (Dmi.mData s)); [discriminate | reflexivity]. }
  unfold Dmi.Data.write in E0. rewrite Hval in E0. simpl in E0.
  apply bind_Ret in E0. destruct E0 as (d0' & E0 & _).
  exists d0'. exact E0.
Qed.

(** X26.  When the read of [dcsr] in [Cv32e40::resume] ends with an
    error, the result is [false], but [dcsr] is written all the same:
    the value sent to [data0] is the uninitialised local [dbg_ctrl_val]
    with the step bit (STEP) or the three ebreak bits (CONTINUE) set. *)
Theorem Target_resume_failed_dcsr_read (dbg_ctrl_val : Z) (a a' : Target.t D)
    (m : Target.dmi D) (r : bool) (e : Dmi.Abstractcs.CmderrVal) (v : Z)
    (s2 : Dmi.t D) :
  Target.mDmi a = Some m ->
  length (Dmi.Data.mDataReg (Dmi.mData (Target.core m))) = 12%nat ->
  Target.mRunAction a = Target.RESUME_STEP
  \/ Target.mRunAction a = Target.RESUME_CONTINUE ->
  Dmi.readCsr Dmi.Csr.DCSR dbg_ctrl_val
    (Dmi.with_dmcontrol (Target.core m)
       (Dmi.Dmcontrol.haltreq false (Dmi.mDmcontrol (Target.core m))))
  = Ret (e, v, s2) ->
  e <> Dmi.Abstractcs.CMDERR_NONE ->
  Target.resume dbg_ctrl_val a = Ret (r, a') ->
  r = false
  /\ exists d0,
       IDtm.dmiWrite 0x04
         (Z.lor dbg_ctrl_val
            (if decide (Target.mRunAction a = Target.RESUME_STEP)
             then 0x00000004 else 0x0000b000))
         (Dmi.mDtm s2) = Ret d0.
Proof.
  intros Hm Hlen Hact Er Hne E.
  destruct (readCsr_error_keeps _ _ _ _ _ _ Er Hne) as (-> & Hdata).
  unfold Target.resume in E.
  destruct (decide _) as [ | _]; [discriminate | ].
  rewrite Hm in E.
  apply bind_Ret in E. destruct E as ([rv s3] & E2 & E). cbn beta iota zeta in E.
  apply bind_Ret in E. destruct E as (s4 & _ & E). injection E as <- _.
  assert (Hset : forall bits,
             Target.dcsr_set bits dbg_ctrl_val
               (Dmi.with_dmcontrol (Target.core m)
                  (Dmi.Dmcontrol.haltreq false (Dmi.mDmcontrol (Target.core m))))
             = Ret (rv, s3) ->
             rv = false
             /\ exists d0, IDtm.dmiWrite 0x04 (Z.lor dbg_ctrl_val bits)
                             (Dmi.mDtm s2) = Ret d0).
  { intros bits Es. unfold Target.dcsr_set in Es. rewrite Er in Es.
    cbn [bind] in Es.
    apply bind_Ret in Es. destruct Es as ([e2 s5] & Ew & Es). cbn beta iota in Es.
    injection Es as <- _. split.
    - rewrite bool_decide_eq_false_2 by exact Hne. reflexivity.
    - apply (writeCsr_first_write _ _ _ _ _ ltac:(rewrite Hdata; exact Hlen) Ew). }
  destruct (decide (Target.mRunAction a = Target.RESUME_STEP)) as [Hs | Hs].
  - exact (Hset _ E2).
  - destruct (decide (Target.mRunAction a = Target.RESUME_CONTINUE)) as [Hc | Hc].
    + exact (Hset _ E2).
    + destruct Hact; contradiction.
Qed.

(** X27.  [Cv32e40::runToBreak] reports INTERRUPTED exactly when the
    cause field (bits 8:6) of the [dcsr] value is 1, an [ebreak], and
    FAILURE for every other cause, a halt request included; when the
    read of [dcsr] fails the value tested is the uninitialised local of
    [stoppedAtEbreak]. *)
Theorem Target_runToBreak_cause (fuel : nat) (dcsr_val0 dcsr_val1 : Z)
    (m m1 m' : Target.dmi D) (e : Dmi.Abstractcs.CmderrVal) (v : Z)
    (s : Dmi.t D) (w : Target.WaitRes) (res : Target.ResumeRes) :
  Target.halt_poll fuel m = Ret m1 ->
  Dmi.readCsr Dmi.Csr.DCSR dcsr_val0 (Target.core m1) = Ret (e, v, s) ->
  Target.runToBreak fuel dcsr_val0 dcsr_val1 m = Ret (w, res, m') ->
  w = Target.WAIT_EVENT_OCCURRED
  /\ res = (if Z.shiftr v 6 mod 8 =? 1 then Target.RES_INTERRUPTED
            else Target.RES_FAILURE)
  /\ (e <> Dmi.Abstractcs.CMDERR_NONE -> v = dcsr_val0).
Proof.
  intros Ep Er E. unfold Target.runToBreak, Target.stoppedAtEbreak in E.
  rewrite Ep in E. cbn [bind] in E. rewrite Er in E. cbn [bind] in E.
  apply bind_Ret in E. destruct E as (s' & _ & E). injection E as <- <- _.
  split; [reflexivity | ]. split.
  - assert (Hc : (Z.land v Target.DCSR_CAUSE =? Target.DCSR_CAUSE_EBREAK_EXECUTED)
                 = (Z.shiftr v 6 mod 8 =? 1)).
    { unfold Target.DCSR_CAUSE, Target.DCSR_CAUSE_EBREAK_EXECUTED.
      change 8 with (2 ^ 3). rewrite <- Z.land_ones by lia.
      assert (Hf : Z.land v 0x000001C0
                   = Z.land (Z.shiftr v 6) (Z.ones 3) * 2 ^ 6).
      { rewrite <- Z.shiftl_mul_pow2 by lia.
        change 0x000001C0 with (Z.shiftl (Z.ones 3) 6).
        apply Z.bits_inj'. intros i Hi.
        rewrite Z.land_spec, !Z.shiftl_spec by lia.
        destruct (Z.ltb_spec i 6).
        - rewrite !(Z.testbit_neg_r _ (i - 6)) by lia. apply andb_false_r.
        - rewrite Z.land_spec, Z.shiftr_spec by lia.
          replace (i - 6 + 6) with i by lia. reflexivity. }
      rewrite Hf.
      pose proof (land_small (Z.shiftr v 6) (Z.ones 3) 3 ltac:(lia) eq_refl) as Hr.
      destruct (Z.eqb_spec (Z.land (Z.shiftr v 6) (Z.ones 3)) 1) as [-> | Hn].
      - reflexivity.
      - apply Z.eqb_neq. lia. }
    rewrite Hc. reflexivity.
  - intros Hne. exact (proj1 (readCsr_error_keeps _ _ _ _ _ _ Er Hne)).
Qed.

End DcsrTransfers.

(** X28.  The DMI traffic of the constructor [Cv32e40::Cv32e40],
    whatever the debug module answers: a DTM reset, a write of
    [dmcontrol] that selects hart 0 with [dmactive] ([0x00000001]), a
    write that adds [haltreq] ([0x80000001]), a read of [dmcontrol] and a
    read of [dmstatus].  The two values read are cached and not looked
    at, and the adapter's own [mDmstatus] stays null. *)
Theorem Target_new_traffic (answer : list Bench.Event -> Z -> Z)
    (log : list Bench.Event) (ra : Target.ResumeType) :
  let log3 := (log ++ [Bench.DmiReset; Bench.DmiWrite 0x10 0x00000001;
                       Bench.DmiWrite 0x10 0x80000001])%list in
  let v1 := u32 (answer log3 0x10) in
  let log4 := (log3 ++ [Bench.DmiRead 0x10 v1])%list in
  let v2 := u32 (answer log4 0x11) in
  exists a m,
    Target.new (I := Bench.Recorder_IDtm answer) log ra = Ret a
    /\ Target.mDmi a = Some m
    /\ Dmi.mDtm (Target.core m) = (log4 ++ [Bench.DmiRead 0x11 v2])%list
    /\ Dmi.Dmcontrol.mDmcontrolReg (Dmi.mDmcontrol (Target.core m)) = v1
    /\ Dmi.Dmstatus.mDmstatusReg (Target.dmstatus m) = v2
    /\ Target.mRunAction a = ra
    /\ Target.mDmstatus a = None.
Proof.
  cbv zeta. eexists _, _. split.
  - unfold Target.new, Dmi.selectHart, Dmi.haltHart, Dmi.dmcontrol_write,
      Dmi.Dmcontrol.write, Dmi.Dmcontrol.read, Dmi.Dmstatus.read.
    cbn [IDtm.reset IDtm.dmiWrite IDtm.dmiRead Bench.Recorder_IDtm bind
         Dmi.new Dmi.mDtm Dmi.with_dtm Dmi.mDmcontrol Dmi.with_dmcontrol].
    rewrite selectHart_reg, haltHart_reg.
    cbn [bind Dmi.mDtm Dmi.with_dtm Dmi.mDmcontrol Dmi.with_dmcontrol].
    reflexivity.
  - cbn [Target.mDmi Target.core Target.dmstatus Target.mRunAction
         Target.mDmstatus Dmi.mDtm Dmi.with_dtm Dmi.mDmcontrol
         Dmi.with_dmcontrol Dmi.Dmcontrol.prettyPrint
         Dmi.Dmcontrol.mDmcontrolReg Dmi.Dmcontrol.with_reg
         Dmi.Dmstatus.mDmstatusReg].
    rewrite <- !app_assoc. cbn [app].
    repeat split; reflexivity.
Qed.

Lemma Target_wait_has_no_timeout_witness :
  Target.wait (I := Bench.Faulty_IDtm) (fun _ => EmptyString) 5 0 0
    Target.RES_NONE (Bench.adapter tt Target.RESUME_STEP) = Spin.
Proof.
  apply (proj1 (Target_wait_has_no_timeout (I := Bench.Faulty_IDtm)
                  (Bench.adapter tt Target.RESUME_STEP) _ eq_refl
                  (or_introl eq_refl))).
  intros d. exists 0, d. split; reflexivity.
Defined.

Lemma Target_resume_word_witness :
  exists w d d' m',
    IDtm.dmiWrite (IDtm := Bench.one_hart_dtm) 0x10 w d = Ret d'
    /\ Dmi.mDtm (Target.core m') = d'
    /\ w = 0x40000000
    /\ Z.testbit w 31 = false /\ Z.testbit w 30 = true.
Proof.
  destruct (Target_resume_word (I := Bench.one_hart_dtm) 0
              (Bench.adapter [] Target.RESUME_STEP) _ _ _ eq_refl
              ltac:(vm_compute; reflexivity))
    as (w & d & d' & m' & W & Hm & Hd & Hw & H31 & H30 & _).
  exists w, d, d', m'. split; [exact W | ]. split; [exact Hd | ].
  split; [ | split; [exact H31 | exact H30]].
  injection Hm as <-. rewrite <- Hw. reflexivity.
Defined.

Lemma Target_resume_failed_dcsr_read_witness :
  exists a',
    Target.resume (I := Bench.Recorder_IDtm (Bench.abstractcs_reads 0x200))
      0x5a5a0000 (Bench.adapter [] Target.RESUME_STEP) = Ret (false, a')
    /\ exists d d0,
         IDtm.dmiWrite (IDtm := Bench.Recorder_IDtm (Bench.abstractcs_reads 0x200))
           0x04 0x5a5a0004 d = Ret d0.
Proof.
  eexists. split; [vm_compute; reflexivity | ].
  destruct (Target_resume_failed_dcsr_read
              (I := Bench.Recorder_IDtm (Bench.abstractcs_reads 0x200))
              0x5a5a0000 (Bench.adapter [] Target.RESUME_STEP) _ _ false
              Dmi.Abstractcs.CMDERR_UNSUPPORTED _ _ eq_refl eq_refl
              (or_introl eq_refl) ltac:(vm_compute; reflexivity)
              ltac:(discriminate) ltac:(vm_compute; reflexivity))
    as (_ & d0 & W).
  eexists _, d0. exact W.
Defined.

Lemma Target_runToBreak_cause_witness :
  exists m',
    Target.runToBreak (I := Bench.Recorder_IDtm Bench.halted_at_ebreak) 1 0 0
      {| Target.core := Dmi.new []; Target.dmstatus := Dmi.Dmstatus.new;
         Target.haltsum := Dmi.Haltsum.new |}
    = Ret (Target.WAIT_EVENT_OCCURRED, Target.RES_INTERRUPTED, m').
Proof.
  eexists.
  destruct (Target_runToBreak_cause
              (I := Bench.Recorder_IDtm Bench.halted_at_ebreak) 1 0 0
              {| Target.core := Dmi.new []; Target.dmstatus := Dmi.Dmstatus.new;
                 Target.haltsum := Dmi.Haltsum.new |} _ _
              Dmi.Abstractcs.CMDERR_NONE 0x40000043 _
              Target.WAIT_EVENT_OCCURRED Target.RES_INTERRUPTED
              ltac:(vm_compute; reflexivity) ltac:(vm_compute; reflexivity)
              ltac:(vm_compute; reflexivity))
    as (_ & _ & _).
  vm_compute. reflexivity.
Defined.

(** ** One-word transfers on the wire, and the target description *)

Lemma overlay_range (w i b : Z) : 0 <= i -> 0 <= Dmi.overlay w i b < 2 ^ 32.
Proof.
  intros Hi.
  assert (H : Dmi.overlay w i b = u32 (Dmi.overlay w i b)).
  { unfold Dmi.overlay. apply Z.bits_inj'. intros k Hk.
    rewrite testbit_u32 by lia.
    rewrite !Z.lor_spec, !Z.land_spec, testbit_not32, !testbit_u32 by lia.
    destruct (k <? 32); [rewrite andb_true_l; reflexivity | ].
    rewrite !andb_false_l, andb_false_r. reflexivity. }
  rewrite H. unfold u32. apply Z.mod_pos_bound. lia.
Qed.

(** A 32-bit word is the sum of its four bytes. *)
Lemma word_of_bytes (w : Z) :
  0 <= w < 2 ^ 32 ->
  w = Props.word_byte w 0 + 2 ^ 8 * Props.word_byte w 1
      + 2 ^ 16 * Props.word_byte w 2 + 2 ^ 24 * Props.word_byte w 3.
Proof.
  intros Hw. rewrite !word_byte_spec by lia.
  change (2 ^ (8 * 0)) with 1. change (2 ^ (8 * 1)) with 256.
  change (2 ^ (8 * 2)) with 65536. change (2 ^ (8 * 3)) with 16777216.
  change (2 ^ 8) with 256. change (2 ^ 16) with 65536.
  change (2 ^ 24) with 16777216. change (2 ^ 32) with 4294967296 in Hw.
  Z.div_mod_to_equations. lia.
Qed.

(** X29.  The DMI traffic of a transfer of one aligned word, with a
    system bus that is never busy: [Dmi::writeMem] writes [sbcs] with
    [0x20047000] (32-bit access, the three error bits written as one to
    clear them, no read on address), then [sbaddress0], then [sbdata0]
    with the four bytes little-endian, and reads [sbcs] once;
    [Dmi::readMem] writes [sbcs] with [0x2014f000] (read on address and
    on data), then [sbaddress0], reads [sbcs] once and then [sbdata0]. *)
Theorem aligned_word_traffic (fuel : nat) (addr b0 b1 b2 b3 w0 : Z)
    (buf : list Z) (s : Dmi.t (list Bench.Event)) :
  Props.regs_ok s ->
  0 <= addr -> addr mod 4 = 0 -> addr + 7 < 2 ^ 32 ->
  Forall (fun b => 0 <= b < 2 ^ 8) [b0; b1; b2; b3] ->
  length buf = 4%nat ->
  (1 <= fuel)%nat ->
  (exists s',
      Dmi.writeMem (I := Bench.Recorder_IDtm Bench.silent) fuel addr 4
        [b0; b1; b2; b3] w0 s = Ret (Dmi.Sbcs.SBERR_NONE, s')
      /\ Dmi.mDtm s'
         = (Dmi.mDtm s
            ++ [Bench.DmiWrite 0x38 0x20047000; Bench.DmiWrite 0x39 addr;
                Bench.DmiWrite 0x3c
                  (b0 + 2 ^ 8 * b1 + 2 ^ 16 * b2 + 2 ^ 24 * b3);
                Bench.DmiRead 0x38 0])%list)
  /\ (exists s',
        Dmi.readMem (I := Bench.Recorder_IDtm Bench.silent) fuel addr 4 buf s
        = Ret (Dmi.Sbcs.SBERR_NONE, [0; 0; 0; 0], s')
        /\ Dmi.mDtm s'
           = (Dmi.mDtm s
              ++ [Bench.DmiWrite 0x38 0x2014f000; Bench.DmiWrite 0x39 addr;
                  Bench.DmiRead 0x38 0; Bench.DmiRead 0x3c 0])%list).
Proof.
  intros [Hra Hrd] Ha Hal Hhi Hbytes Hlen Hf.
  assert (Hsa : Z.land addr 0xfffffffc = addr).
  { rewrite align4 by lia. Z.div_mod_to_equations. lia. }
  assert (Hea : Z.land (u64 (addr + 4 + 3)) 0xfffffffc = addr + 4).
  { rewrite u64_small by lia. rewrite align4 by lia.
    Z.div_mod_to_equations. lia. }
  destruct fuel as [|fuel]; [lia | ].
  destruct (Dmi.Sbaddress.mSbaddressReg (Dmi.mSbaddress s)) as [|a0 la] eqn:Ela;
    [discriminate | ].
  destruct (Dmi.Sbdata.mSbdataReg (Dmi.mSbdata s)) as [|d0 ld] eqn:Eld;
    [discriminate | ].
  split.
  - unfold Dmi.writeMem. rewrite Hsa, Hea.
    rewrite (u64_small (addr + 4)) by lia.
    rewrite Z.eqb_refl.
    replace (addr + 4 - addr) with 4 by lia.
    replace (addr - addr) with 0 by lia.
    change (1 <? u32 4 / 4) with false. change (u64 0) with 0.
    change (Z.min (u64 (0 + 4)) 4) with 4.
    rewrite (u32_small (addr + 4)) by lia. rewrite Z.eqb_refl.
    cbn [negb].
    unfold Dmi.sbcs_setup, Dmi.sbaddress_put, Dmi.Sbcs.write, Dmi.Sbaddress.write,
      Dmi.Sbaddress.set_sbaddress, Dmi.Sbaddress.reset, Dmi.Sbaddress.store.
    cbn [bind IDtm.dmiWrite IDtm.dmiRead Bench.Recorder_IDtm Dmi.mDtm Dmi.with_dtm
         Dmi.with_sbcs Dmi.mSbcs Dmi.mSbaddress Dmi.with_sbaddress
         Dmi.Sbaddress.NUM_REGS Z.ltb Z.compare Dmi.Sbaddress.mSbaddressReg
         Dmi.Sbaddress.RESET_VALUE].
    rewrite Ela.
    change (Dmi.overlay_loop 4 0 4 w0 [b0; b1; b2; b3] 0)
      with (Ret (Dmi.overlay (Dmi.overlay (Dmi.overlay (Dmi.overlay w0 0 b0)
                                             1 b1) 2 b2) 3 b3, 4)).
    cbn [Z.to_nat nth list_insert insert bind Dmi.mDtm Dmi.with_dtm
         Dmi.with_sbaddress].
    set (w1 := Dmi.overlay _ 3 _).
    assert (Hw1 : w1 = b0 + 2 ^ 8 * b1 + 2 ^ 16 * b2 + 2 ^ 24 * b3).
    { apply Forall_cons in Hbytes. destruct Hbytes as (Hb0 & Hbytes).
      apply Forall_cons in Hbytes. destruct Hbytes as (Hb1 & Hbytes).
      apply Forall_cons in Hbytes. destruct Hbytes as (Hb2 & Hbytes).
      apply Forall_cons in Hbytes. destruct Hbytes as (Hb3 & _).
      rewrite (word_of_bytes w1) by (apply overlay_range; lia).
      unfold w1. rewrite !word_byte_overlay by lia.
      reflexivity. }
    unfold Dmi.sbdata_put, Dmi.Sbdata.write, Dmi.Sbdata.set_sbdata,
      Dmi.Sbdata.store.
    cbn [bind IDtm.dmiWrite IDtm.dmiRead Bench.Recorder_IDtm Dmi.mDtm Dmi.with_dtm
         Dmi.mSbdata Dmi.with_sbdata Dmi.Sbdata.NUM_REGS Z.ltb Z.compare
         Dmi.Sbdata.mSbdataReg Dmi.with_sbaddress Dmi.with_sbcs].
    rewrite Eld.
    cbn [Z.to_nat nth list_insert insert bind Dmi.sbcs_wait Dmi.Sbcs.read
         IDtm.dmiRead Bench.Recorder_IDtm Dmi.mDtm Dmi.with_dtm Dmi.with_sbdata
         Dmi.mSbcs Dmi.with_sbcs Dmi.with_sbaddress Bench.silent].
    unfold Bench.silent. change (u32 0) with 0.
    change (Dmi.Sbcs.sbbusy (Dmi.Sbcs.with_reg _ 0)) with false. cbn iota.
    change (Dmi.Sbcs.sberror (Dmi.mSbcs (Dmi.with_dtm (Dmi.with_sbcs _ (Dmi.Sbcs.with_reg _ 0)) _)))
      with Dmi.Sbcs.SBERR_NONE.
    destruct (decide (Dmi.Sbcs.SBERR_NONE = Dmi.Sbcs.SBERR_NONE)); [ | congruence].
    eexists. split; [reflexivity | ].
    cbn [Dmi.mDtm Dmi.with_dtm]. rewrite Hw1, <- !app_assoc. reflexivity.
  - unfold Dmi.readMem. rewrite Hsa, Hea.
    replace (addr + 4 - addr) with 4 by lia.
    replace (addr - addr) with 0 by lia.
    change (1 <? u32 4 / 4) with false. change (u64 0) with 0.
    change (Z.min (u64 (0 + 4)) 4) with 4.
    rewrite (u32_small (addr + 4)) by lia. rewrite Z.eqb_refl.
    unfold Dmi.sbcs_setup_read, Dmi.sbaddress_put, Dmi.Sbcs.write,
      Dmi.Sbaddress.write, Dmi.Sbaddress.set_sbaddress, Dmi.Sbaddress.reset,
      Dmi.Sbaddress.store.
    cbn [bind IDtm.dmiWrite IDtm.dmiRead Bench.Recorder_IDtm Dmi.mDtm Dmi.with_dtm
         Dmi.with_sbcs Dmi.mSbcs Dmi.mSbaddress Dmi.with_sbaddress
         Dmi.Sbaddress.NUM_REGS Z.ltb Z.compare Dmi.Sbaddress.mSbaddressReg
         Dmi.Sbaddress.RESET_VALUE].
    rewrite Ela.
    cbn [Z.to_nat nth list_insert insert bind Dmi.mDtm Dmi.with_dtm
         Dmi.with_sbaddress Dmi.sbcs_wait Dmi.Sbcs.read IDtm.dmiRead
         Bench.Recorder_IDtm Dmi.mSbcs Dmi.with_sbcs Bench.silent].
    unfold Bench.silent. change (u32 0) with 0.
    change (Dmi.Sbcs.sbbusy (Dmi.Sbcs.with_reg _ 0)) with false. cbn iota.
    change (Dmi.Sbcs.sberror (Dmi.mSbcs (Dmi.with_dtm (Dmi.with_sbcs _ (Dmi.Sbcs.with_reg _ 0)) _)))
      with Dmi.Sbcs.SBERR_NONE.
    destruct (decide (Dmi.Sbcs.SBERR_NONE = Dmi.Sbcs.SBERR_NONE)); [ | congruence].
    unfold Dmi.sbdata_get, Dmi.Sbdata.read, Dmi.Sbdata.sbdata, Dmi.Sbdata.store.
    cbn [bind IDtm.dmiRead Bench.Recorder_IDtm Dmi.mDtm Dmi.with_dtm
         Dmi.mSbdata Dmi.with_sbdata Dmi.Sbdata.NUM_REGS Z.ltb Z.compare
         Dmi.Sbdata.mSbdataReg Dmi.with_sbaddress Dmi.with_sbcs Bench.silent].
    unfold Bench.silent. rewrite Eld. change (u32 0) with 0.
    cbn [Z.to_nat nth list_insert insert bind].
    destruct buf as [|x0 [|x1 [|x2 [|x3 [|x4 l]]]]]; try discriminate.
    eexists. split; [reflexivity | ].
    cbn [Dmi.mDtm Dmi.with_dtm]. rewrite <- !app_assoc. reflexivity.
Qed.

Lemma aligned_word_traffic_witness :
  (exists s',
      Dmi.writeMem (I := Bench.Recorder_IDtm Bench.silent) 1 0x1c000000 4
        [0x01; 0x02; 0x03; 0x04] 0 (Dmi.new [])
      = Ret (Dmi.Sbcs.SBERR_NONE, s')
      /\ Dmi.mDtm s'
         = [Bench.DmiWrite 0x38 0x20047000; Bench.DmiWrite 0x39 0x1c000000;
            Bench.DmiWrite 0x3c 0x04030201; Bench.DmiRead 0x38 0])
  /\ (exists s',
        Dmi.readMem (I := Bench.Recorder_IDtm Bench.silent) 1 0x1c000000 4
          [0xcd; 0xcd; 0xcd; 0xcd] (Dmi.new [])
        = Ret (Dmi.Sbcs.SBERR_NONE, [0; 0; 0; 0], s')
        /\ Dmi.mDtm s'
           = [Bench.DmiWrite 0x38 0x2014f000; Bench.DmiWrite 0x39 0x1c000000;
              Bench.DmiRead 0x38 0; Bench.DmiRead 0x3c 0]).
Proof.
  apply (aligned_word_traffic 1 0x1c000000 0x01 0x02 0x03 0x04 0
           [0xcd; 0xcd; 0xcd; 0xcd] (Dmi.new []));
    first [split; reflexivity | reflexivity | lia
          | repeat constructor; lia ].
Defined.

